(** * The GS interface of parallel-gs: GIF parser, register file,
      vertex pipeline and render-pass builder (gs/gs_interface.cpp)

    A shallow embedding of [GSInterface].  Registers are 64-bit words held
    as [Z] and read through their bit-fields; the interface state is a
    record threaded through every handler; calls into the page tracker and
    the renderer are recorded in two call logs, and what those two
    collaborators answer is a parameter of the development. *)

From Stdlib Require Import ZArith List Bool Lia Sorted.
Import ListNotations.
Local Open Scope Z_scope.

(** ** Fixed-width integers and bit-fields *)

Definition u32 (x : Z) : Z := x mod 2 ^ 32.
Definition u64 (x : Z) : Z := x mod 2 ^ 64.
Definition u16 (x : Z) : Z := x mod 2 ^ 16.

(** [int16_t(x)]: two's complement truncation, as in [i16vec4(bb)]. *)
Definition i16 (x : Z) : Z := (x + 2 ^ 15) mod 2 ^ 16 - 2 ^ 15.

(** [~x] on a [uint32_t]. *)
Definition not32 (x : Z) : Z := Z.lxor (u32 x) (Z.ones 32).

(** A bit-field of [width] bits starting at bit [off]. *)
Definition bits (off width x : Z) : Z := Z.land (Z.shiftr x off) (Z.ones width).

(** Assignment to a bit-field: the value is truncated to the field and
    every other bit of the word is kept. *)
Definition set_bits (off width v x : Z) : Z :=
  Z.lor (Z.ldiff x (Z.shiftl (Z.ones width) off))
        (Z.shiftl (Z.land v (Z.ones width)) off).

Definition nonzero (x : Z) : bool := negb (x =? 0).

(** ** Register layouts

    Modelled from the spec: the declarations of the register bit-fields
    (gs_registers.hpp) are not among the sources.  The spec names the
    sub-fields ("each register exposes named sub-fields by bit
    offset/width") and gives the GIF tag layout; the offsets of the other
    registers are those of the GS hardware registers of the same names. *)

Module PRIMBits.
Definition PRIM := bits 0 3.
Definition IIP := bits 3 1.
Definition TME := bits 4 1.
Definition FGE := bits 5 1.
Definition ABE := bits 6 1.
Definition AA1 := bits 7 1.
Definition FST := bits 8 1.
Definition CTXT := bits 9 1.
Definition FIX := bits 10 1.
Definition set_PRIM := set_bits 0 3.
End PRIMBits.

Module PRIMType.
Definition Point := 0.
Definition LineList := 1.
Definition LineStrip := 2.
Definition TriangleList := 3.
Definition TriangleStrip := 4.
Definition TriangleFan := 5.
Definition Sprite := 6.
Definition Invalid := 7.
End PRIMType.

Module PRMODECONTBits.
Definition AC := bits 0 1.
Definition AC_DEFAULT := 1.
End PRMODECONTBits.

Module TEX0Bits.
Definition TBP0 := bits 0 14.
Definition TBW := bits 14 6.
Definition PSM := bits 20 6.
Definition TW := bits 26 4.
Definition TH := bits 30 4.
Definition TCC := bits 34 1.
Definition TFX := bits 35 2.
Definition CBP := bits 37 14.
Definition CPSM := bits 51 4.
Definition CSM := bits 55 1.
Definition CSA := bits 56 5.
Definition CLD := bits 61 3.
Definition set_TBP0 := set_bits 0 14.
Definition set_TBW := set_bits 14 6.
Definition set_TW := set_bits 26 4.
Definition set_TH := set_bits 30 4.
Definition set_TCC := set_bits 34 1.
Definition set_TFX := set_bits 35 2.
Definition set_CBP := set_bits 37 14.
Definition set_CPSM := set_bits 51 4.
Definition set_CSM := set_bits 55 1.
Definition set_CSA := set_bits 56 5.
Definition set_CLD := set_bits 61 3.
Definition CLD_LOAD := 1.
Definition CLD_LOAD_WRITE_CBP0 := 2.
Definition CLD_LOAD_WRITE_CBP1 := 3.
Definition CLD_COMPARE_LOAD_CBP0 := 4.
Definition CLD_COMPARE_LOAD_CBP1 := 5.
Definition CSM_LAYOUT_RECT := 0.
Definition CSM_LAYOUT_LINE := 1.
Definition COU_SCALE := 16.
End TEX0Bits.

Module TEX1Bits.
Definition LCM := bits 0 1.
Definition MXL := bits 2 3.
Definition MMAG := bits 5 1.
Definition MMIN := bits 6 3.
Definition MTBA := bits 9 1.
Definition L := bits 19 2.
Definition K := bits 32 12.
Definition set_LCM := set_bits 0 1.
Definition set_MXL := set_bits 2 3.
Definition set_MMAG := set_bits 5 1.
Definition set_MMIN := set_bits 6 3.
Definition set_MTBA := set_bits 9 1.
Definition set_L := set_bits 19 2.
Definition set_K := set_bits 32 12.
Definition LINEAR := 1.
Definition NEAREST_MIPMAP_LINEAR := 3.
Definition LINEAR_MIPMAP_NEAREST := 4.
Definition LINEAR_MIPMAP_LINEAR := 5.
End TEX1Bits.

Module CLAMPBits.
Definition WMS := bits 0 2.
Definition WMT := bits 2 2.
Definition MINU := bits 4 10.
Definition MAXU := bits 14 10.
Definition MINV := bits 24 10.
Definition MAXV := bits 34 10.
Definition set_WMS := set_bits 0 2.
Definition set_WMT := set_bits 2 2.
Definition set_MINU := set_bits 4 10.
Definition set_MAXU := set_bits 14 10.
Definition set_MINV := set_bits 24 10.
Definition set_MAXV := set_bits 34 10.
Definition CLAMP := 1.
Definition REGION_CLAMP := 2.
Definition REGION_REPEAT := 3.
End CLAMPBits.

Module MIPTBPBits.
Definition TBP1 := bits 0 14.
Definition TBW1 := bits 14 6.
Definition TBP2 := bits 20 14.
Definition TBW2 := bits 34 6.
Definition TBP3 := bits 40 14.
Definition TBW3 := bits 54 6.
Definition set_TBP1 := set_bits 0 14.
Definition set_TBW1 := set_bits 14 6.
Definition set_TBP2 := set_bits 20 14.
Definition set_TBW2 := set_bits 34 6.
Definition set_TBP3 := set_bits 40 14.
Definition set_TBW3 := set_bits 54 6.
End MIPTBPBits.

Module FRAMEBits.
Definition FBP := bits 0 9.
Definition FBW := bits 16 6.
Definition PSM := bits 24 6.
Definition FBMSK := bits 32 32.
End FRAMEBits.

Module ZBUFBits.
Definition ZBP := bits 0 9.
Definition PSM := bits 24 4.
Definition ZMSK := bits 32 1.
End ZBUFBits.

Module TESTBits.
Definition ATE := bits 0 1.
Definition ATST := bits 1 3.
Definition AREF := bits 4 8.
Definition AFAIL := bits 12 2.
Definition DATE := bits 14 1.
Definition DATM := bits 15 1.
Definition ZTE := bits 16 1.
Definition ZTST := bits 17 2.
Definition ZTE_UNDEFINED := 0.
Definition ZTE_ENABLED := 1.
Definition ZTST_NEVER := 0.
Definition ZTST_ALWAYS := 1.
Definition ZTST_GREATER := 3.
End TESTBits.

Definition ATST_NEVER := 0.
Definition ATST_ALWAYS := 1.
Definition AFAIL_KEEP := 0.
Definition BLEND_RGB_DEST := 1.
Definition BLEND_ALPHA_DEST := 1.

Module ALPHABits.
Definition A := bits 0 2.
Definition B := bits 2 2.
Definition C := bits 4 2.
Definition D := bits 6 2.
Definition FIX := bits 32 8.
End ALPHABits.

Module SCISSORBits.
Definition SCAX0 := bits 0 11.
Definition SCAX1 := bits 16 11.
Definition SCAY0 := bits 32 11.
Definition SCAY1 := bits 48 11.
End SCISSORBits.

Module XYOFFSETBits.
Definition OFX := bits 0 16.
Definition OFY := bits 32 16.
End XYOFFSETBits.

Module XYZBits.
Definition X := bits 0 16.
Definition Y := bits 16 16.
Definition Zdepth := bits 32 32.
Definition make (x y z : Z) : Z :=
  set_bits 32 32 z (set_bits 16 16 y (set_bits 0 16 x 0)).
End XYZBits.

Module XYZFBits.
Definition X := bits 0 16.
Definition Y := bits 16 16.
Definition Zdepth := bits 32 24.
Definition F := bits 56 8.
Definition make (x y z f : Z) : Z :=
  set_bits 56 8 f (set_bits 32 24 z (set_bits 16 16 y (set_bits 0 16 x 0))).
End XYZFBits.

Module RGBAQBits.
Definition Q := bits 32 32.
Definition set_R := set_bits 0 8.
Definition set_G := set_bits 8 8.
Definition set_B := set_bits 16 8.
Definition set_A := set_bits 24 8.
Definition set_Q := set_bits 32 32.
End RGBAQBits.

Module STBits.
Definition S := bits 0 32.
Definition T := bits 32 32.
Definition set_S := set_bits 0 32.
Definition set_T := set_bits 32 32.
End STBits.

Module UVBits.
Definition U := bits 0 14.
Definition V := bits 16 14.
Definition set_U := set_bits 0 14.
Definition set_V := set_bits 16 14.
End UVBits.

Module FOGBits.
Definition FOG := bits 56 8.
Definition set_FOG := set_bits 56 8.
End FOGBits.

Module TEXCLUTBits.
Definition CBW := bits 0 6.
Definition COU := bits 6 6.
Definition COV := bits 12 10.
End TEXCLUTBits.

Module SCANMSKBits.
Definition MSK := bits 0 2.
Definition MSK_SKIP_EVEN := 2.
End SCANMSKBits.

Module TRXREGBits.
Definition RRW := bits 0 12.
Definition RRH := bits 32 12.
End TRXREGBits.

Module TRXPOSBits.
Definition SSAX := bits 0 11.
Definition SSAY := bits 16 11.
Definition DSAX := bits 32 11.
Definition DSAY := bits 48 11.
End TRXPOSBits.

Module BITBLTBUFBits.
Definition SBP := bits 0 14.
Definition SBW := bits 16 6.
Definition SPSM := bits 24 6.
Definition DBP := bits 32 14.
Definition DBW := bits 48 6.
Definition DPSM := bits 56 6.
End BITBLTBUFBits.

Module TRXDIRBits.
Definition XDIR := bits 0 2.
End TRXDIRBits.

Definition HOST_TO_LOCAL := 0.
Definition LOCAL_TO_HOST := 1.
Definition LOCAL_TO_LOCAL := 2.

Definition PSMCT32 := 0.
Definition PSMT8 := 19.
Definition PSMT8H := 27.
Definition PSMZ32 := 48.

(** ** GIF quad-words

    A quad-word is 128 bits, kept as its two 64-bit halves.  The tag layout
    is the one of the spec: NLOOP 0..14, PRE 46, PRIM 47..57, FLG 58..59,
    NREG 60..63, REGS 64..127. *)

Record QWord := { lo : Z; hi : Z }.

Module GIFTagBits.
Definition NLOOP (t : QWord) := bits 0 15 (lo t).
Definition PRE (t : QWord) := bits 46 1 (lo t).
Definition PRIM (t : QWord) := bits 47 11 (lo t).
Definition FLG (t : QWord) := bits 58 2 (lo t).
Definition NREG (t : QWord) := bits 60 4 (lo t).
Definition REGS (t : QWord) := bits 0 64 (hi t).
Definition PACKED := 0.
Definition REGLIST := 1.
Definition IMAGE := 2.
Definition make (nloop pre prim flg nreg regs : Z) : QWord :=
  {| lo := set_bits 60 4 nreg (set_bits 58 2 flg (set_bits 47 11 prim
             (set_bits 46 1 pre (set_bits 0 15 nloop 0))));
     hi := bits 0 64 regs |}.
End GIFTagBits.

(** The 4-bit register descriptors of a tag. *)
Module GIFAddr.
Definition PRIM := 0.
Definition RGBAQ := 1.
Definition ST := 2.
Definition UV := 3.
Definition XYZF2 := 4.
Definition XYZ2 := 5.
Definition TEX0_1 := 6.
Definition TEX0_2 := 7.
Definition CLAMP_1 := 8.
Definition CLAMP_2 := 9.
Definition FOG := 10.
Definition XYZF3 := 12.
Definition XYZ3 := 13.
Definition A_D := 14.
Definition NOP := 15.
End GIFAddr.

(** The packed 128-bit forms of the PACKED mode. *)
Module PackedRGBAQBits.
Definition R (w : QWord) := bits 0 8 (lo w).
Definition G (w : QWord) := bits 32 8 (lo w).
Definition B (w : QWord) := bits 0 8 (hi w).
Definition A (w : QWord) := bits 32 8 (hi w).
End PackedRGBAQBits.

Module PackedSTBits.
Definition S (w : QWord) := bits 0 32 (lo w).
Definition T (w : QWord) := bits 32 32 (lo w).
Definition Q (w : QWord) := bits 0 32 (hi w).
End PackedSTBits.

Module PackedUVBits.
Definition U (w : QWord) := bits 0 14 (lo w).
Definition V (w : QWord) := bits 32 14 (lo w).
End PackedUVBits.

Module PackedXYZFBits.
Definition X (w : QWord) := bits 0 16 (lo w).
Definition Y (w : QWord) := bits 32 16 (lo w).
Definition Zdepth (w : QWord) := bits 4 24 (hi w).
Definition F (w : QWord) := bits 36 8 (hi w).
Definition ADC (w : QWord) := bits 47 1 (hi w).
End PackedXYZFBits.

Module PackedXYZBits.
Definition X (w : QWord) := bits 0 16 (lo w).
Definition Y (w : QWord) := bits 32 16 (lo w).
Definition Zdepth (w : QWord) := bits 0 32 (hi w).
Definition ADC (w : QWord) := bits 47 1 (hi w).
End PackedXYZBits.

Module PackedFOGBits.
Definition F (w : QWord) := bits 36 8 (hi w).
End PackedFOGBits.

Module PackedADBits.
Definition data (w : QWord) := bits 0 64 (lo w).
Definition ADDR (w : QWord) := bits 0 8 (hi w).
Definition make (addr payload : Z) : QWord :=
  {| lo := bits 0 64 payload; hi := bits 0 8 addr |}.
End PackedADBits.

(** The register addresses of the A+D form and of [write_register].
    Modelled from the spec: gs_register_addr.hpp, which fills the
    256-entry handler table, is not among the sources; the addresses are
    those of the GS registers the handlers are named after. *)
Module RegisterAddr.
Definition PRIM := 0.
Definition RGBAQ := 1.
Definition ST := 2.
Definition UV := 3.
Definition XYZF2 := 4.
Definition XYZ2 := 5.
Definition TEX0_1 := 6.
Definition TEX0_2 := 7.
Definition CLAMP_1 := 8.
Definition CLAMP_2 := 9.
Definition FOG := 10.
Definition XYZF3 := 12.
Definition XYZ3 := 13.
Definition RGBAQUndocumented := 17.
Definition TEX1_1 := 20.
Definition TEX1_2 := 21.
Definition TEX2_1 := 22.
Definition TEX2_2 := 23.
Definition XYOFFSET_1 := 24.
Definition XYOFFSET_2 := 25.
Definition PRMODECONT := 26.
Definition PRMODE := 27.
Definition TEXCLUT := 28.
Definition SCANMSK := 34.
Definition MIPTBP1_1 := 52.
Definition MIPTBP1_2 := 53.
Definition MIPTBP2_1 := 54.
Definition MIPTBP2_2 := 55.
Definition TEXA := 59.
Definition FOGCOL := 61.
Definition TEXFLUSH := 63.
Definition SCISSOR_1 := 64.
Definition SCISSOR_2 := 65.
Definition ALPHA_1 := 66.
Definition ALPHA_2 := 67.
Definition DIMX := 68.
Definition DTHE := 69.
Definition COLCLAMP := 70.
Definition TEST_1 := 71.
Definition TEST_2 := 72.
Definition PABE := 73.
Definition FBA_1 := 74.
Definition FBA_2 := 75.
Definition FRAME_1 := 76.
Definition FRAME_2 := 77.
Definition ZBUF_1 := 78.
Definition ZBUF_2 := 79.
Definition BITBLTBUF := 80.
Definition TRXPOS := 81.
Definition TRXREG := 82.
Definition TRXDIR := 83.
Definition HWREG := 84.
Definition SIGNAL := 96.
Definition FINISH := 97.
Definition LABEL := 98.
End RegisterAddr.

(** ** Constants of the build

    Modelled from the spec: the headers that define them are not among
    the sources.  A page is 8 KiB and holds 32 blocks; sub-pixel
    coordinates are pixels times 16; a frame-buffer width unit is 64
    pixels; the binning cost counts 8 by 8 tiles. *)

Definition PageSize := 8192.
Definition PAGE_ALIGNMENT_BYTES := 8192.
Definition BLOCKS_PER_PAGE := 32.
Definition SUBPIXEL_BITS := 4.
Definition BUFFER_WIDTH_SCALE := 64.
Definition FB_SWIZZLE_WIDTH_LOG2 := 3.
Definition FB_SWIZZLE_HEIGHT_LOG2 := 3.
Definition INT32_MAX := 2 ^ 31 - 1.
Definition INT32_MIN := - 2 ^ 31.
Definition UINT32_MAX := 2 ^ 32 - 1.
Definition UINT64_MAX := 2 ^ 64 - 1.

(** The dirty flags.  Modelled from the spec, which lists the six flags
    and [STATE_DIRTY_ALL_BITS]; each flag is one bit of the mask. *)
Definition STATE_DIRTY_FB_BIT := 1.
Definition STATE_DIRTY_TEX_BIT := 2.
Definition STATE_DIRTY_STATE_BIT := 4.
Definition STATE_DIRTY_PRIM_TEMPLATE_BIT := 8.
Definition STATE_DIRTY_FEEDBACK_BIT := 16.
Definition STATE_DIRTY_DEGENERATE_BIT := 32.
Definition STATE_DIRTY_ALL_BITS := 63.

(** page_tracker.hpp *)
Definition PAGE_TRACKER_FLUSH_HOST_VRAM_SYNC_BIT := 1.
Definition PAGE_TRACKER_FLUSH_COPY_BIT := 2.
Definition PAGE_TRACKER_FLUSH_CACHE_BIT := 4.
Definition PAGE_TRACKER_FLUSH_FB_BIT := 8.
Definition PAGE_TRACKER_FLUSH_WRITE_BACK_BIT := 16.
Definition PAGE_TRACKER_FLUSH_FB_ALL :=
  Z.lor (Z.lor (Z.lor PAGE_TRACKER_FLUSH_HOST_VRAM_SYNC_BIT PAGE_TRACKER_FLUSH_CACHE_BIT)
               PAGE_TRACKER_FLUSH_COPY_BIT) PAGE_TRACKER_FLUSH_FB_BIT.
Definition PAGE_TRACKER_FLUSH_COPY_ALL :=
  Z.lor PAGE_TRACKER_FLUSH_HOST_VRAM_SYNC_BIT PAGE_TRACKER_FLUSH_COPY_BIT.
Definition PAGE_TRACKER_FLUSH_CACHE_ALL :=
  Z.lor (Z.lor PAGE_TRACKER_FLUSH_HOST_VRAM_SYNC_BIT PAGE_TRACKER_FLUSH_COPY_BIT)
        PAGE_TRACKER_FLUSH_CACHE_BIT.

Inductive FlushReason :=
| FBPointer | Overflow | TextureHazard | CopyHazard | SubmissionFlush.

Record PageRect := {
  base_page : Z; page_width : Z; page_height : Z; page_stride : Z;
  block_mask : Z; write_mask : Z }.

Record PageRectCLUT := { clut_rect : PageRect; csa_mask : Z }.

(** ** Data handed between the stages *)

(** An [ivec4] bounding box: x and y are the low corner, z and w the high one. *)
Record ivec4 := {
  bbx : Z;
  bby : Z;
  bbz : Z;
  bbw : Z }.

Definition set_bbx (v : Z) (r : ivec4) : ivec4 :=
  {| bbx := v; bby := bby r; bbz := bbz r; bbw := bbw r |}.
Definition set_bby (v : Z) (r : ivec4) : ivec4 :=
  {| bbx := bbx r; bby := v; bbz := bbz r; bbw := bbw r |}.
Definition set_bbz (v : Z) (r : ivec4) : ivec4 :=
  {| bbx := bbx r; bby := bby r; bbz := v; bbw := bbw r |}.
Definition set_bbw (v : Z) (r : ivec4) : ivec4 :=
  {| bbx := bbx r; bby := bby r; bbz := bbz r; bbw := v |}.

(** [pos_z] is a [float]; floats are kept as opaque 32-bit patterns. *)
Record VertexPosition := {
  pos_x : Z;
  pos_y : Z;
  pos_z : Z }.

Record VertexAttribute := {
  attr_s : Z;
  attr_t : Z;
  attr_q : Z;
  attr_rgba : Z;
  attr_fog : Z;
  attr_u : Z;
  attr_v : Z }.

Record StateVector := {
  blend_mode : Z;
  combiner : Z;
  dimx_x : Z;
  dimx_y : Z }.

Record PrimitiveAttribute := {
  prim_tex : Z;
  prim_tex2 : Z;
  prim_state : Z;
  prim_fbmsk : Z;
  prim_fogcol : Z;
  prim_alpha : Z;
  prim_bb : ivec4 }.

Record PrimitiveTemplate := {
  tmpl_tex : Z;
  tmpl_tex2 : Z;
  tmpl_state : Z }.

Record PaletteUploadDescriptor := {
  pal_texclut : Z;
  pal_tex0 : Z }.

Record MemoizedPalette := {
  memo_upload : PaletteUploadDescriptor;
  memo_csa_mask : Z;
  memo_clut_instance : Z }.

Record TexRect := {
  rect_x : Z;
  rect_y : Z;
  rect_width : Z;
  rect_height : Z;
  rect_levels : Z }.

Record TextureDescriptor := {
  td_tex0 : Z;
  td_tex1 : Z;
  td_clamp : Z;
  td_texa : Z;
  td_miptbp1_3 : Z;
  td_miptbp4_6 : Z;
  td_palette_bank : Z;
  td_latest_palette_bank : Z;
  td_rect : TexRect;
  td_hash : Z }.

Definition set_td_tex0 (v : Z) (r : TextureDescriptor) : TextureDescriptor :=
  {| td_tex0 := v; td_tex1 := td_tex1 r; td_clamp := td_clamp r; td_texa := td_texa r;
     td_miptbp1_3 := td_miptbp1_3 r; td_miptbp4_6 := td_miptbp4_6 r;
     td_palette_bank := td_palette_bank r; td_latest_palette_bank := td_latest_palette_bank r;
     td_rect := td_rect r; td_hash := td_hash r |}.
Definition set_td_tex1 (v : Z) (r : TextureDescriptor) : TextureDescriptor :=
  {| td_tex0 := td_tex0 r; td_tex1 := v; td_clamp := td_clamp r; td_texa := td_texa r;
     td_miptbp1_3 := td_miptbp1_3 r; td_miptbp4_6 := td_miptbp4_6 r;
     td_palette_bank := td_palette_bank r; td_latest_palette_bank := td_latest_palette_bank r;
     td_rect := td_rect r; td_hash := td_hash r |}.
Definition set_td_clamp (v : Z) (r : TextureDescriptor) : TextureDescriptor :=
  {| td_tex0 := td_tex0 r; td_tex1 := td_tex1 r; td_clamp := v; td_texa := td_texa r;
     td_miptbp1_3 := td_miptbp1_3 r; td_miptbp4_6 := td_miptbp4_6 r;
     td_palette_bank := td_palette_bank r; td_latest_palette_bank := td_latest_palette_bank r;
     td_rect := td_rect r; td_hash := td_hash r |}.
Definition set_td_texa (v : Z) (r : TextureDescriptor) : TextureDescriptor :=
  {| td_tex0 := td_tex0 r; td_tex1 := td_tex1 r; td_clamp := td_clamp r; td_texa := v;
     td_miptbp1_3 := td_miptbp1_3 r; td_miptbp4_6 := td_miptbp4_6 r;
     td_palette_bank := td_palette_bank r; td_latest_palette_bank := td_latest_palette_bank r;
     td_rect := td_rect r; td_hash := td_hash r |}.
Definition set_td_miptbp1_3 (v : Z) (r : TextureDescriptor) : TextureDescriptor :=
  {| td_tex0 := td_tex0 r; td_tex1 := td_tex1 r; td_clamp := td_clamp r; td_texa := td_texa r;
     td_miptbp1_3 := v; td_miptbp4_6 := td_miptbp4_6 r; td_palette_bank := td_palette_bank r;
     td_latest_palette_bank := td_latest_palette_bank r; td_rect := td_rect r;
     td_hash := td_hash r |}.
Definition set_td_miptbp4_6 (v : Z) (r : TextureDescriptor) : TextureDescriptor :=
  {| td_tex0 := td_tex0 r; td_tex1 := td_tex1 r; td_clamp := td_clamp r; td_texa := td_texa r;
     td_miptbp1_3 := td_miptbp1_3 r; td_miptbp4_6 := v; td_palette_bank := td_palette_bank r;
     td_latest_palette_bank := td_latest_palette_bank r; td_rect := td_rect r;
     td_hash := td_hash r |}.
Definition set_td_palette_bank (v : Z) (r : TextureDescriptor) : TextureDescriptor :=
  {| td_tex0 := td_tex0 r; td_tex1 := td_tex1 r; td_clamp := td_clamp r; td_texa := td_texa r;
     td_miptbp1_3 := td_miptbp1_3 r; td_miptbp4_6 := td_miptbp4_6 r; td_palette_bank := v;
     td_latest_palette_bank := td_latest_palette_bank r; td_rect := td_rect r;
     td_hash := td_hash r |}.
Definition set_td_latest_palette_bank (v : Z) (r : TextureDescriptor) : TextureDescriptor :=
  {| td_tex0 := td_tex0 r; td_tex1 := td_tex1 r; td_clamp := td_clamp r; td_texa := td_texa r;
     td_miptbp1_3 := td_miptbp1_3 r; td_miptbp4_6 := td_miptbp4_6 r;
     td_palette_bank := td_palette_bank r; td_latest_palette_bank := v; td_rect := td_rect r;
     td_hash := td_hash r |}.
Definition set_td_rect (v : TexRect) (r : TextureDescriptor) : TextureDescriptor :=
  {| td_tex0 := td_tex0 r; td_tex1 := td_tex1 r; td_clamp := td_clamp r; td_texa := td_texa r;
     td_miptbp1_3 := td_miptbp1_3 r; td_miptbp4_6 := td_miptbp4_6 r;
     td_palette_bank := td_palette_bank r; td_latest_palette_bank := td_latest_palette_bank r;
     td_rect := v; td_hash := td_hash r |}.
Definition set_td_hash (v : Z) (r : TextureDescriptor) : TextureDescriptor :=
  {| td_tex0 := td_tex0 r; td_tex1 := td_tex1 r; td_clamp := td_clamp r; td_texa := td_texa r;
     td_miptbp1_3 := td_miptbp1_3 r; td_miptbp4_6 := td_miptbp4_6 r;
     td_palette_bank := td_palette_bank r; td_latest_palette_bank := td_latest_palette_bank r;
     td_rect := td_rect r; td_hash := v |}.

(** [TextureInfo] holds floats computed from the image view, the texture size,
    the clamp register and the rectangle; the model keeps those inputs. *)
Record TextureInfo := {
  info_image : Z;
  info_width : Z;
  info_height : Z;
  info_clamp : Z;
  info_rect : TexRect }.

(** The copy descriptor of the transfer engine; [host_data] is the payload the
    pointer designates when the copy is handed over. *)
Record VRAMCopy := {
  copy_trxdir : Z;
  copy_trxreg : Z;
  copy_trxpos : Z;
  copy_bitbltbuf : Z;
  host_data : list Z;
  host_data_size : Z;
  host_data_size_offset : Z;
  host_data_size_required : Z }.

Definition set_copy_trxdir (v : Z) (r : VRAMCopy) : VRAMCopy :=
  {| copy_trxdir := v; copy_trxreg := copy_trxreg r; copy_trxpos := copy_trxpos r;
     copy_bitbltbuf := copy_bitbltbuf r; host_data := host_data r;
     host_data_size := host_data_size r; host_data_size_offset := host_data_size_offset r;
     host_data_size_required := host_data_size_required r |}.
Definition set_copy_trxreg (v : Z) (r : VRAMCopy) : VRAMCopy :=
  {| copy_trxdir := copy_trxdir r; copy_trxreg := v; copy_trxpos := copy_trxpos r;
     copy_bitbltbuf := copy_bitbltbuf r; host_data := host_data r;
     host_data_size := host_data_size r; host_data_size_offset := host_data_size_offset r;
     host_data_size_required := host_data_size_required r |}.
Definition set_copy_trxpos (v : Z) (r : VRAMCopy) : VRAMCopy :=
  {| copy_trxdir := copy_trxdir r; copy_trxreg := copy_trxreg r; copy_trxpos := v;
     copy_bitbltbuf := copy_bitbltbuf r; host_data := host_data r;
     host_data_size := host_data_size r; host_data_size_offset := host_data_size_offset r;
     host_data_size_required := host_data_size_required r |}.
Definition set_copy_bitbltbuf (v : Z) (r : VRAMCopy) : VRAMCopy :=
  {| copy_trxdir := copy_trxdir r; copy_trxreg := copy_trxreg r; copy_trxpos := copy_trxpos r;
     copy_bitbltbuf := v; host_data := host_data r; host_data_size := host_data_size r;
     host_data_size_offset := host_data_size_offset r;
     host_data_size_required := host_data_size_required r |}.
Definition set_host_data (v : list Z) (r : VRAMCopy) : VRAMCopy :=
  {| copy_trxdir := copy_trxdir r; copy_trxreg := copy_trxreg r; copy_trxpos := copy_trxpos r;
     copy_bitbltbuf := copy_bitbltbuf r; host_data := v; host_data_size := host_data_size r;
     host_data_size_offset := host_data_size_offset r;
     host_data_size_required := host_data_size_required r |}.
Definition set_host_data_size (v : Z) (r : VRAMCopy) : VRAMCopy :=
  {| copy_trxdir := copy_trxdir r; copy_trxreg := copy_trxreg r; copy_trxpos := copy_trxpos r;
     copy_bitbltbuf := copy_bitbltbuf r; host_data := host_data r; host_data_size := v;
     host_data_size_offset := host_data_size_offset r;
     host_data_size_required := host_data_size_required r |}.
Definition set_host_data_size_offset (v : Z) (r : VRAMCopy) : VRAMCopy :=
  {| copy_trxdir := copy_trxdir r; copy_trxreg := copy_trxreg r; copy_trxpos := copy_trxpos r;
     copy_bitbltbuf := copy_bitbltbuf r; host_data := host_data r;
     host_data_size := host_data_size r; host_data_size_offset := v;
     host_data_size_required := host_data_size_required r |}.
Definition set_host_data_size_required (v : Z) (r : VRAMCopy) : VRAMCopy :=
  {| copy_trxdir := copy_trxdir r; copy_trxreg := copy_trxreg r; copy_trxpos := copy_trxpos r;
     copy_bitbltbuf := copy_bitbltbuf r; host_data := host_data r;
     host_data_size := host_data_size r; host_data_size_offset := host_data_size_offset r;
     host_data_size_required := v |}.

Inductive DrawDebugMode := DrawDebugNone | DrawDebugStrided | DrawDebugFull.

Record DebugMode := { feedback_render_target : bool; draw_mode : DrawDebugMode }.

(** The render pass handed to the renderer by [flush_rendering]. *)
Record RenderPass := {
  rp_positions : list VertexPosition;
  rp_attributes : list VertexAttribute;
  rp_prims : list PrimitiveAttribute;
  rp_num_primitives : Z;
  rp_fb_frame : Z;
  rp_fb_z : Z;
  rp_states : list StateVector;
  rp_num_states : Z;
  rp_textures : list TextureInfo;
  rp_num_textures : Z;
  rp_coarse_tile_size_log2 : Z;
  rp_base_x : Z;
  rp_base_y : Z;
  rp_coarse_tiles_width : Z;
  rp_coarse_tiles_height : Z;
  rp_feedback_texture : bool;
  rp_feedback_texture_psm : Z;
  rp_feedback_texture_cpsm : Z;
  rp_z_sensitive : bool;
  rp_has_aa1 : bool;
  rp_has_scanmsk : bool;
  rp_feedback_color : bool;
  rp_feedback_depth : bool;
  rp_sampling_rate_x_log2 : Z;
  rp_sampling_rate_y_log2 : Z;
  rp_debug_capture_stride : Z;
  rp_label_key : Z;
  rp_flush_reason : FlushReason }.

(** ** The two collaborators

    Every call into the page tracker and into the renderer is appended to
    a log.  The page tracker answers a call by invoking callbacks of the
    interface ([PageTrackerCallback]); none of the callbacks calls back
    into the tracker, so its answer is a function of the calls it has
    received so far. *)

Inductive TrackerCall :=
| T_mark_fb_write (rect : PageRect)
| T_mark_fb_read (rect : PageRect)
| T_mark_transfer_write (rect : PageRect)
| T_mark_transfer_copy (dst_rect src_rect : PageRect)
| T_invalidate_texture_cache (clut_instance_match : Z)
| T_mark_texture_read (rect : PageRect)
| T_register_cached_clut_clobber (rect : PageRectCLUT)
| T_register_cached_texture (level_rects : list PageRect)
    (num_levels csa clut_instance hash image : Z)
| T_flush_render_pass (reason : FlushReason)
| T_mark_submission_timeline.

Inductive Callback :=
| Cb_flush (flags : Z) (reason : FlushReason)
| Cb_sync_host_vram_page (page_index : Z)
| Cb_sync_vram_host_page (page_index : Z)
| Cb_invalidate_texture_hash (hash : Z) (clut : bool)
| Cb_forget_in_render_pass_memoization.

Inductive BackendCall :=
| R_flush_rendering (rp : RenderPass)
| R_flush_host_vram_copy (pages : list Z)
| R_flush_readback (pages : list Z)
| R_flush_transfer
| R_transfer_overlap_barrier
| R_flush_cache_upload
| R_update_palette_cache (desc : PaletteUploadDescriptor)
| R_create_cached_texture (desc : TextureDescriptor)
| R_copy_vram (copy : VRAMCopy)
| R_flush_submit (timeline : Z)
| R_invalidate_super_sampling_state.
Record DataStructureLayout := {
  page_width_log2 : Z; page_height_log2 : Z;
  block_width_log2 : Z; block_height_log2 : Z }.

(** What the translation unit takes from elsewhere: the limits and the
    shader-interface constants of headers that are not among the sources,
    the helpers of gs_util.hpp and of the register classes, arithmetic on
    [float], and the answers of the page tracker and of the renderer. *)
Class Externals := {
  (* limits *)
  MaxPrimitivesPerFlush : Z;
  MaxTextures : Z;
  MaxStateVectors : Z;
  CLUTInstances : Z;
  NumMemoizedPalettes : Z;
  (* state vector and primitive encodings *)
  BLEND_MODE_DTHE_BIT : Z;
  BLEND_MODE_ATE_BIT : Z;
  BLEND_MODE_ATE_MODE_OFFSET : Z;
  BLEND_MODE_AFAIL_MODE_OFFSET : Z;
  BLEND_MODE_DATE_BIT : Z;
  BLEND_MODE_DATM_BIT : Z;
  BLEND_MODE_A_MODE_OFFSET : Z;
  BLEND_MODE_B_MODE_OFFSET : Z;
  BLEND_MODE_C_MODE_OFFSET : Z;
  BLEND_MODE_D_MODE_OFFSET : Z;
  BLEND_MODE_ABE_BIT : Z;
  BLEND_MODE_PABE_BIT : Z;
  BLEND_MODE_COLCLAMP_BIT : Z;
  BLEND_MODE_FB_ALPHA_BIT : Z;
  COMBINER_TME_BIT : Z;
  COMBINER_TCC_BIT : Z;
  COMBINER_MODE_OFFSET : Z;
  COMBINER_FOG_BIT : Z;
  TEX_TEXTURE_INDEX_OFFSET : Z;
  TEX_TEXTURE_INDEX_BITS : Z;
  TEX_SAMPLER_MAG_LINEAR_BIT : Z;
  TEX_SAMPLER_MIN_LINEAR_BIT : Z;
  TEX_SAMPLER_MIPMAP_LINEAR_BIT : Z;
  TEX_SAMPLER_CLAMP_S_BIT : Z;
  TEX_SAMPLER_CLAMP_T_BIT : Z;
  TEX_MAX_MIP_LEVEL_OFFSET : Z;
  TEX2_FIXED_LOD_OFFSET : Z;
  TEX2_L_OFFSET : Z;
  TEX2_K_OFFSET : Z;
  STATE_INDEX_BIT_OFFSET : Z;
  STATE_BIT_Z_TEST : Z;
  STATE_BIT_Z_TEST_GREATER : Z;
  STATE_BIT_Z_WRITE : Z;
  STATE_BIT_OPAQUE : Z;
  STATE_BIT_MULTISAMPLE : Z;
  STATE_BIT_SCANMSK_EVEN : Z;
  STATE_BIT_PERSPECTIVE : Z;
  STATE_BIT_IIP : Z;
  STATE_BIT_FIX : Z;
  STATE_BIT_PARALLELOGRAM : Z;
  STATE_BIT_SPRITE : Z;
  STATE_BIT_SNAP_RASTER : Z;
  STATE_BIT_LINE : Z;
  ALPHA_AFIX_OFFSET : Z;
  ALPHA_AREF_OFFSET : Z;
  (* gs_util.hpp and the shader helpers *)
  compute_page_rect : Z -> Z -> Z -> Z -> Z -> Z -> Z -> PageRect;
  get_data_structure : Z -> DataStructureLayout;
  psm_word_write_mask : Z -> Z;
  swizzle_compat_key : Z -> Z;
  is_palette_format : Z -> bool;
  get_bits_per_pixel : Z -> Z;
  compute_has_potential_feedback : Z -> Z -> Z -> Z -> bool * bool;
  compute_effective_texture_rect : TextureDescriptor -> TexRect;
  hasher_u32 : list Z -> Z;
  hasher_u64 : list Z -> Z;
  (* methods of the register classes *)
  tex1_has_mipmap : Z -> bool;
  tex1_mmin_has_mipmap : Z -> bool;
  clamp_has_horizontal_clamp : Z -> bool;
  clamp_has_vertical_clamp : Z -> bool;
  clamp_has_horizontal_repeat : Z -> bool;
  clamp_has_vertical_repeat : Z -> bool;
  clamp_has_horizontal_region : Z -> bool;
  clamp_has_vertical_region : Z -> bool;
  test_has_z_test : Z -> bool;
  scanmsk_has_mask : Z -> bool;
  (* float arithmetic *)
  float_of_uint : Z -> Z;
  float_differ : Z -> Z -> bool;
  perspective_uv : Z -> Z -> VertexAttribute -> Z * Z;
  (* the page tracker: callbacks raised by a call, given the earlier calls *)
  tracker_callbacks : list TrackerCall -> TrackerCall -> list Callback;
  tracker_invalidated : list TrackerCall -> Z -> bool;
  tracker_find_cached_texture : list TrackerCall -> Z -> option Z;
  tracker_submission_timeline : list TrackerCall -> Z;
  (* the renderer: results of a call, given the earlier calls *)
  renderer_palette_instance : list BackendCall -> PaletteUploadDescriptor -> Z;
  renderer_cached_texture : list BackendCall -> TextureDescriptor -> Z;
  image_view_width : Z -> Z;
  image_view_height : Z -> Z }.

(** ** The interface state *)

(** The handlers kept in member-function pointers.  The template
    arguments of an instantiation are its constructor arguments. *)
Inductive DrawHandler :=
| drawing_kick_primitive_h (list_primitive fan_primitive quad : bool) (num_vertices : Z)
| drawing_kick_invalid_h.

Inductive OptimizedPacketHandler :=
| packed_STQRGBAXYZ_h (FOG : bool) (PRIM : Z) (factor : Z)
| packed_UVRGBAXYZ_h (FOG : bool) (PRIM : Z) (factor : Z)
| packed_STXYZSTRGBAXYZ_sprite_h (FOG : bool)
| packed_ADONLY_h (count : Z).

(** The registers that exist once per drawing context. *)
Record ContextState := {
  tex0 : Z;
  tex1 : Z;
  clamp : Z;
  xyoffset : Z;
  miptbl_1_3 : Z;
  miptbl_4_6 : Z;
  scissor : Z;
  alpha : Z;
  test : Z;
  fba : Z;
  frame : Z;
  zbuf : Z }.

Definition set_tex0 (v : Z) (r : ContextState) : ContextState :=
  {| tex0 := v; tex1 := tex1 r; clamp := clamp r; xyoffset := xyoffset r;
     miptbl_1_3 := miptbl_1_3 r; miptbl_4_6 := miptbl_4_6 r; scissor := scissor r;
     alpha := alpha r; test := test r; fba := fba r; frame := frame r; zbuf := zbuf r |}.
Definition set_tex1 (v : Z) (r : ContextState) : ContextState :=
  {| tex0 := tex0 r; tex1 := v; clamp := clamp r; xyoffset := xyoffset r;
     miptbl_1_3 := miptbl_1_3 r; miptbl_4_6 := miptbl_4_6 r; scissor := scissor r;
     alpha := alpha r; test := test r; fba := fba r; frame := frame r; zbuf := zbuf r |}.
Definition set_clamp (v : Z) (r : ContextState) : ContextState :=
  {| tex0 := tex0 r; tex1 := tex1 r; clamp := v; xyoffset := xyoffset r;
     miptbl_1_3 := miptbl_1_3 r; miptbl_4_6 := miptbl_4_6 r; scissor := scissor r;
     alpha := alpha r; test := test r; fba := fba r; frame := frame r; zbuf := zbuf r |}.
Definition set_xyoffset (v : Z) (r : ContextState) : ContextState :=
  {| tex0 := tex0 r; tex1 := tex1 r; clamp := clamp r; xyoffset := v;
     miptbl_1_3 := miptbl_1_3 r; miptbl_4_6 := miptbl_4_6 r; scissor := scissor r;
     alpha := alpha r; test := test r; fba := fba r; frame := frame r; zbuf := zbuf r |}.
Definition set_miptbl_1_3 (v : Z) (r : ContextState) : ContextState :=
  {| tex0 := tex0 r; tex1 := tex1 r; clamp := clamp r; xyoffset := xyoffset r; miptbl_1_3 := v;
     miptbl_4_6 := miptbl_4_6 r; scissor := scissor r; alpha := alpha r; test := test r;
     fba := fba r; frame := frame r; zbuf := zbuf r |}.
Definition set_miptbl_4_6 (v : Z) (r : ContextState) : ContextState :=
  {| tex0 := tex0 r; tex1 := tex1 r; clamp := clamp r; xyoffset := xyoffset r;
     miptbl_1_3 := miptbl_1_3 r; miptbl_4_6 := v; scissor := scissor r; alpha := alpha r;
     test := test r; fba := fba r; frame := frame r; zbuf := zbuf r |}.
Definition set_scissor (v : Z) (r : ContextState) : ContextState :=
  {| tex0 := tex0 r; tex1 := tex1 r; clamp := clamp r; xyoffset := xyoffset r;
     miptbl_1_3 := miptbl_1_3 r; miptbl_4_6 := miptbl_4_6 r; scissor := v; alpha := alpha r;
     test := test r; fba := fba r; frame := frame r; zbuf := zbuf r |}.
Definition set_alpha (v : Z) (r : ContextState) : ContextState :=
  {| tex0 := tex0 r; tex1 := tex1 r; clamp := clamp r; xyoffset := xyoffset r;
     miptbl_1_3 := miptbl_1_3 r; miptbl_4_6 := miptbl_4_6 r; scissor := scissor r; alpha := v;
     test := test r; fba := fba r; frame := frame r; zbuf := zbuf r |}.
Definition set_test (v : Z) (r : ContextState) : ContextState :=
  {| tex0 := tex0 r; tex1 := tex1 r; clamp := clamp r; xyoffset := xyoffset r;
     miptbl_1_3 := miptbl_1_3 r; miptbl_4_6 := miptbl_4_6 r; scissor := scissor r;
     alpha := alpha r; test := v; fba := fba r; frame := frame r; zbuf := zbuf r |}.
Definition set_fba (v : Z) (r : ContextState) : ContextState :=
  {| tex0 := tex0 r; tex1 := tex1 r; clamp := clamp r; xyoffset := xyoffset r;
     miptbl_1_3 := miptbl_1_3 r; miptbl_4_6 := miptbl_4_6 r; scissor := scissor r;
     alpha := alpha r; test := test r; fba := v; frame := frame r; zbuf := zbuf r |}.
Definition set_frame (v : Z) (r : ContextState) : ContextState :=
  {| tex0 := tex0 r; tex1 := tex1 r; clamp := clamp r; xyoffset := xyoffset r;
     miptbl_1_3 := miptbl_1_3 r; miptbl_4_6 := miptbl_4_6 r; scissor := scissor r;
     alpha := alpha r; test := test r; fba := fba r; frame := v; zbuf := zbuf r |}.
Definition set_zbuf (v : Z) (r : ContextState) : ContextState :=
  {| tex0 := tex0 r; tex1 := tex1 r; clamp := clamp r; xyoffset := xyoffset r;
     miptbl_1_3 := miptbl_1_3 r; miptbl_4_6 := miptbl_4_6 r; scissor := scissor r;
     alpha := alpha r; test := test r; fba := fba r; frame := frame r; zbuf := v |}.

(** [registers.ctx] has two entries, [cached_cbp] likewise; [internal_q] is a float. *)
Record RegisterState := {
  prim : Z;
  rgbaq : Z;
  st : Z;
  uv : Z;
  fog : Z;
  fogcol : Z;
  texclut : Z;
  scanmsk : Z;
  texa : Z;
  dimx : Z;
  dthe : Z;
  colclamp : Z;
  pabe : Z;
  prmodecont : Z;
  bitbltbuf : Z;
  trxpos : Z;
  trxreg : Z;
  trxdir : Z;
  internal_q : Z;
  cached_cbp0 : Z;
  cached_cbp1 : Z;
  ctx0 : ContextState;
  ctx1 : ContextState }.

Definition set_prim (v : Z) (r : RegisterState) : RegisterState :=
  {| prim := v; rgbaq := rgbaq r; st := st r; uv := uv r; fog := fog r; fogcol := fogcol r;
     texclut := texclut r; scanmsk := scanmsk r; texa := texa r; dimx := dimx r;
     dthe := dthe r; colclamp := colclamp r; pabe := pabe r; prmodecont := prmodecont r;
     bitbltbuf := bitbltbuf r; trxpos := trxpos r; trxreg := trxreg r; trxdir := trxdir r;
     internal_q := internal_q r; cached_cbp0 := cached_cbp0 r; cached_cbp1 := cached_cbp1 r;
     ctx0 := ctx0 r; ctx1 := ctx1 r |}.
Definition set_rgbaq (v : Z) (r : RegisterState) : RegisterState :=
  {| prim := prim r; rgbaq := v; st := st r; uv := uv r; fog := fog r; fogcol := fogcol r;
     texclut := texclut r; scanmsk := scanmsk r; texa := texa r; dimx := dimx r;
     dthe := dthe r; colclamp := colclamp r; pabe := pabe r; prmodecont := prmodecont r;
     bitbltbuf := bitbltbuf r; trxpos := trxpos r; trxreg := trxreg r; trxdir := trxdir r;
     internal_q := internal_q r; cached_cbp0 := cached_cbp0 r; cached_cbp1 := cached_cbp1 r;
     ctx0 := ctx0 r; ctx1 := ctx1 r |}.
Definition set_st (v : Z) (r : RegisterState) : RegisterState :=
  {| prim := prim r; rgbaq := rgbaq r; st := v; uv := uv r; fog := fog r; fogcol := fogcol r;
     texclut := texclut r; scanmsk := scanmsk r; texa := texa r; dimx := dimx r;
     dthe := dthe r; colclamp := colclamp r; pabe := pabe r; prmodecont := prmodecont r;
     bitbltbuf := bitbltbuf r; trxpos := trxpos r; trxreg := trxreg r; trxdir := trxdir r;
     internal_q := internal_q r; cached_cbp0 := cached_cbp0 r; cached_cbp1 := cached_cbp1 r;
     ctx0 := ctx0 r; ctx1 := ctx1 r |}.
Definition set_uv (v : Z) (r : RegisterState) : RegisterState :=
  {| prim := prim r; rgbaq := rgbaq r; st := st r; uv := v; fog := fog r; fogcol := fogcol r;
     texclut := texclut r; scanmsk := scanmsk r; texa := texa r; dimx := dimx r;
     dthe := dthe r; colclamp := colclamp r; pabe := pabe r; prmodecont := prmodecont r;
     bitbltbuf := bitbltbuf r; trxpos := trxpos r; trxreg := trxreg r; trxdir := trxdir r;
     internal_q := internal_q r; cached_cbp0 := cached_cbp0 r; cached_cbp1 := cached_cbp1 r;
     ctx0 := ctx0 r; ctx1 := ctx1 r |}.
Definition set_fog (v : Z) (r : RegisterState) : RegisterState :=
  {| prim := prim r; rgbaq := rgbaq r; st := st r; uv := uv r; fog := v; fogcol := fogcol r;
     texclut := texclut r; scanmsk := scanmsk r; texa := texa r; dimx := dimx r;
     dthe := dthe r; colclamp := colclamp r; pabe := pabe r; prmodecont := prmodecont r;
     bitbltbuf := bitbltbuf r; trxpos := trxpos r; trxreg := trxreg r; trxdir := trxdir r;
     internal_q := internal_q r; cached_cbp0 := cached_cbp0 r; cached_cbp1 := cached_cbp1 r;
     ctx0 := ctx0 r; ctx1 := ctx1 r |}.
Definition set_fogcol (v : Z) (r : RegisterState) : RegisterState :=
  {| prim := prim r; rgbaq := rgbaq r; st := st r; uv := uv r; fog := fog r; fogcol := v;
     texclut := texclut r; scanmsk := scanmsk r; texa := texa r; dimx := dimx r;
     dthe := dthe r; colclamp := colclamp r; pabe := pabe r; prmodecont := prmodecont r;
     bitbltbuf := bitbltbuf r; trxpos := trxpos r; trxreg := trxreg r; trxdir := trxdir r;
     internal_q := internal_q r; cached_cbp0 := cached_cbp0 r; cached_cbp1 := cached_cbp1 r;
     ctx0 := ctx0 r; ctx1 := ctx1 r |}.
Definition set_texclut (v : Z) (r : RegisterState) : RegisterState :=
  {| prim := prim r; rgbaq := rgbaq r; st := st r; uv := uv r; fog := fog r;
     fogcol := fogcol r; texclut := v; scanmsk := scanmsk r; texa := texa r; dimx := dimx r;
     dthe := dthe r; colclamp := colclamp r; pabe := pabe r; prmodecont := prmodecont r;
     bitbltbuf := bitbltbuf r; trxpos := trxpos r; trxreg := trxreg r; trxdir := trxdir r;
     internal_q := internal_q r; cached_cbp0 := cached_cbp0 r; cached_cbp1 := cached_cbp1 r;
     ctx0 := ctx0 r; ctx1 := ctx1 r |}.
Definition set_scanmsk (v : Z) (r : RegisterState) : RegisterState :=
  {| prim := prim r; rgbaq := rgbaq r; st := st r; uv := uv r; fog := fog r;
     fogcol := fogcol r; texclut := texclut r; scanmsk := v; texa := texa r; dimx := dimx r;
     dthe := dthe r; colclamp := colclamp r; pabe := pabe r; prmodecont := prmodecont r;
     bitbltbuf := bitbltbuf r; trxpos := trxpos r; trxreg := trxreg r; trxdir := trxdir r;
     internal_q := internal_q r; cached_cbp0 := cached_cbp0 r; cached_cbp1 := cached_cbp1 r;
     ctx0 := ctx0 r; ctx1 := ctx1 r |}.
Definition set_texa (v : Z) (r : RegisterState) : RegisterState :=
  {| prim := prim r; rgbaq := rgbaq r; st := st r; uv := uv r; fog := fog r;
     fogcol := fogcol r; texclut := texclut r; scanmsk := scanmsk r; texa := v; dimx := dimx r;
     dthe := dthe r; colclamp := colclamp r; pabe := pabe r; prmodecont := prmodecont r;
     bitbltbuf := bitbltbuf r; trxpos := trxpos r; trxreg := trxreg r; trxdir := trxdir r;
     internal_q := internal_q r; cached_cbp0 := cached_cbp0 r; cached_cbp1 := cached_cbp1 r;
     ctx0 := ctx0 r; ctx1 := ctx1 r |}.
Definition set_dimx (v : Z) (r : RegisterState) : RegisterState :=
  {| prim := prim r; rgbaq := rgbaq r; st := st r; uv := uv r; fog := fog r;
     fogcol := fogcol r; texclut := texclut r; scanmsk := scanmsk r; texa := texa r; dimx := v;
     dthe := dthe r; colclamp := colclamp r; pabe := pabe r; prmodecont := prmodecont r;
     bitbltbuf := bitbltbuf r; trxpos := trxpos r; trxreg := trxreg r; trxdir := trxdir r;
     internal_q := internal_q r; cached_cbp0 := cached_cbp0 r; cached_cbp1 := cached_cbp1 r;
     ctx0 := ctx0 r; ctx1 := ctx1 r |}.
Definition set_dthe (v : Z) (r : RegisterState) : RegisterState :=
  {| prim := prim r; rgbaq := rgbaq r; st := st r; uv := uv r; fog := fog r;
     fogcol := fogcol r; texclut := texclut r; scanmsk := scanmsk r; texa := texa r;
     dimx := dimx r; dthe := v; colclamp := colclamp r; pabe := pabe r;
     prmodecont := prmodecont r; bitbltbuf := bitbltbuf r; trxpos := trxpos r;
     trxreg := trxreg r; trxdir := trxdir r; internal_q := internal_q r;
     cached_cbp0 := cached_cbp0 r; cached_cbp1 := cached_cbp1 r; ctx0 := ctx0 r;
     ctx1 := ctx1 r |}.
Definition set_colclamp (v : Z) (r : RegisterState) : RegisterState :=
  {| prim := prim r; rgbaq := rgbaq r; st := st r; uv := uv r; fog := fog r;
     fogcol := fogcol r; texclut := texclut r; scanmsk := scanmsk r; texa := texa r;
     dimx := dimx r; dthe := dthe r; colclamp := v; pabe := pabe r; prmodecont := prmodecont r;
     bitbltbuf := bitbltbuf r; trxpos := trxpos r; trxreg := trxreg r; trxdir := trxdir r;
     internal_q := internal_q r; cached_cbp0 := cached_cbp0 r; cached_cbp1 := cached_cbp1 r;
     ctx0 := ctx0 r; ctx1 := ctx1 r |}.
Definition set_pabe (v : Z) (r : RegisterState) : RegisterState :=
  {| prim := prim r; rgbaq := rgbaq r; st := st r; uv := uv r; fog := fog r;
     fogcol := fogcol r; texclut := texclut r; scanmsk := scanmsk r; texa := texa r;
     dimx := dimx r; dthe := dthe r; colclamp := colclamp r; pabe := v;
     prmodecont := prmodecont r; bitbltbuf := bitbltbuf r; trxpos := trxpos r;
     trxreg := trxreg r; trxdir := trxdir r; internal_q := internal_q r;
     cached_cbp0 := cached_cbp0 r; cached_cbp1 := cached_cbp1 r; ctx0 := ctx0 r;
     ctx1 := ctx1 r |}.
Definition set_prmodecont (v : Z) (r : RegisterState) : RegisterState :=
  {| prim := prim r; rgbaq := rgbaq r; st := st r; uv := uv r; fog := fog r;
     fogcol := fogcol r; texclut := texclut r; scanmsk := scanmsk r; texa := texa r;
     dimx := dimx r; dthe := dthe r; colclamp := colclamp r; pabe := pabe r; prmodecont := v;
     bitbltbuf := bitbltbuf r; trxpos := trxpos r; trxreg := trxreg r; trxdir := trxdir r;
     internal_q := internal_q r; cached_cbp0 := cached_cbp0 r; cached_cbp1 := cached_cbp1 r;
     ctx0 := ctx0 r; ctx1 := ctx1 r |}.
Definition set_bitbltbuf (v : Z) (r : RegisterState) : RegisterState :=
  {| prim := prim r; rgbaq := rgbaq r; st := st r; uv := uv r; fog := fog r;
     fogcol := fogcol r; texclut := texclut r; scanmsk := scanmsk r; texa := texa r;
     dimx := dimx r; dthe := dthe r; colclamp := colclamp r; pabe := pabe r;
     prmodecont := prmodecont r; bitbltbuf := v; trxpos := trxpos r; trxreg := trxreg r;
     trxdir := trxdir r; internal_q := internal_q r; cached_cbp0 := cached_cbp0 r;
     cached_cbp1 := cached_cbp1 r; ctx0 := ctx0 r; ctx1 := ctx1 r |}.
Definition set_trxpos (v : Z) (r : RegisterState) : RegisterState :=
  {| prim := prim r; rgbaq := rgbaq r; st := st r; uv := uv r; fog := fog r;
     fogcol := fogcol r; texclut := texclut r; scanmsk := scanmsk r; texa := texa r;
     dimx := dimx r; dthe := dthe r; colclamp := colclamp r; pabe := pabe r;
     prmodecont := prmodecont r; bitbltbuf := bitbltbuf r; trxpos := v; trxreg := trxreg r;
     trxdir := trxdir r; internal_q := internal_q r; cached_cbp0 := cached_cbp0 r;
     cached_cbp1 := cached_cbp1 r; ctx0 := ctx0 r; ctx1 := ctx1 r |}.
Definition set_trxreg (v : Z) (r : RegisterState) : RegisterState :=
  {| prim := prim r; rgbaq := rgbaq r; st := st r; uv := uv r; fog := fog r;
     fogcol := fogcol r; texclut := texclut r; scanmsk := scanmsk r; texa := texa r;
     dimx := dimx r; dthe := dthe r; colclamp := colclamp r; pabe := pabe r;
     prmodecont := prmodecont r; bitbltbuf := bitbltbuf r; trxpos := trxpos r; trxreg := v;
     trxdir := trxdir r; internal_q := internal_q r; cached_cbp0 := cached_cbp0 r;
     cached_cbp1 := cached_cbp1 r; ctx0 := ctx0 r; ctx1 := ctx1 r |}.
Definition set_trxdir (v : Z) (r : RegisterState) : RegisterState :=
  {| prim := prim r; rgbaq := rgbaq r; st := st r; uv := uv r; fog := fog r;
     fogcol := fogcol r; texclut := texclut r; scanmsk := scanmsk r; texa := texa r;
     dimx := dimx r; dthe := dthe r; colclamp := colclamp r; pabe := pabe r;
     prmodecont := prmodecont r; bitbltbuf := bitbltbuf r; trxpos := trxpos r;
     trxreg := trxreg r; trxdir := v; internal_q := internal_q r; cached_cbp0 := cached_cbp0 r;
     cached_cbp1 := cached_cbp1 r; ctx0 := ctx0 r; ctx1 := ctx1 r |}.
Definition set_internal_q (v : Z) (r : RegisterState) : RegisterState :=
  {| prim := prim r; rgbaq := rgbaq r; st := st r; uv := uv r; fog := fog r;
     fogcol := fogcol r; texclut := texclut r; scanmsk := scanmsk r; texa := texa r;
     dimx := dimx r; dthe := dthe r; colclamp := colclamp r; pabe := pabe r;
     prmodecont := prmodecont r; bitbltbuf := bitbltbuf r; trxpos := trxpos r;
     trxreg := trxreg r; trxdir := trxdir r; internal_q := v; cached_cbp0 := cached_cbp0 r;
     cached_cbp1 := cached_cbp1 r; ctx0 := ctx0 r; ctx1 := ctx1 r |}.
Definition set_cached_cbp0 (v : Z) (r : RegisterState) : RegisterState :=
  {| prim := prim r; rgbaq := rgbaq r; st := st r; uv := uv r; fog := fog r;
     fogcol := fogcol r; texclut := texclut r; scanmsk := scanmsk r; texa := texa r;
     dimx := dimx r; dthe := dthe r; colclamp := colclamp r; pabe := pabe r;
     prmodecont := prmodecont r; bitbltbuf := bitbltbuf r; trxpos := trxpos r;
     trxreg := trxreg r; trxdir := trxdir r; internal_q := internal_q r; cached_cbp0 := v;
     cached_cbp1 := cached_cbp1 r; ctx0 := ctx0 r; ctx1 := ctx1 r |}.
Definition set_cached_cbp1 (v : Z) (r : RegisterState) : RegisterState :=
  {| prim := prim r; rgbaq := rgbaq r; st := st r; uv := uv r; fog := fog r;
     fogcol := fogcol r; texclut := texclut r; scanmsk := scanmsk r; texa := texa r;
     dimx := dimx r; dthe := dthe r; colclamp := colclamp r; pabe := pabe r;
     prmodecont := prmodecont r; bitbltbuf := bitbltbuf r; trxpos := trxpos r;
     trxreg := trxreg r; trxdir := trxdir r; internal_q := internal_q r;
     cached_cbp0 := cached_cbp0 r; cached_cbp1 := v; ctx0 := ctx0 r; ctx1 := ctx1 r |}.
Definition set_ctx0 (v : ContextState) (r : RegisterState) : RegisterState :=
  {| prim := prim r; rgbaq := rgbaq r; st := st r; uv := uv r; fog := fog r;
     fogcol := fogcol r; texclut := texclut r; scanmsk := scanmsk r; texa := texa r;
     dimx := dimx r; dthe := dthe r; colclamp := colclamp r; pabe := pabe r;
     prmodecont := prmodecont r; bitbltbuf := bitbltbuf r; trxpos := trxpos r;
     trxreg := trxreg r; trxdir := trxdir r; internal_q := internal_q r;
     cached_cbp0 := cached_cbp0 r; cached_cbp1 := cached_cbp1 r; ctx0 := v; ctx1 := ctx1 r |}.
Definition set_ctx1 (v : ContextState) (r : RegisterState) : RegisterState :=
  {| prim := prim r; rgbaq := rgbaq r; st := st r; uv := uv r; fog := fog r;
     fogcol := fogcol r; texclut := texclut r; scanmsk := scanmsk r; texa := texa r;
     dimx := dimx r; dthe := dthe r; colclamp := colclamp r; pabe := pabe r;
     prmodecont := prmodecont r; bitbltbuf := bitbltbuf r; trxpos := trxpos r;
     trxreg := trxreg r; trxdir := trxdir r; internal_q := internal_q r;
     cached_cbp0 := cached_cbp0 r; cached_cbp1 := cached_cbp1 r; ctx0 := ctx0 r; ctx1 := v |}.

Record TexLevel := {
  level_base : Z;
  level_stride : Z }.

Record TexState := {
  tex_rect : TexRect;
  tex_levels : list TexLevel;
  tex_page_rects : list PageRect }.

Definition set_tex_rect (v : TexRect) (r : TexState) : TexState :=
  {| tex_rect := v; tex_levels := tex_levels r; tex_page_rects := tex_page_rects r |}.
Definition set_tex_levels (v : list TexLevel) (r : TexState) : TexState :=
  {| tex_rect := tex_rect r; tex_levels := v; tex_page_rects := tex_page_rects r |}.
Definition set_tex_page_rects (v : list PageRect) (r : TexState) : TexState :=
  {| tex_rect := tex_rect r; tex_levels := tex_levels r; tex_page_rects := v |}.

Record StateTracker := {
  dirty_flags : Z;
  degenerate_draw : bool;
  last_state_vector : StateVector;
  last_state_index : Z;
  last_texture_index : Z;
  last_texture_descriptor : TextureDescriptor;
  prim_template : PrimitiveTemplate;
  tex : TexState }.

Definition set_dirty_flags (v : Z) (r : StateTracker) : StateTracker :=
  {| dirty_flags := v; degenerate_draw := degenerate_draw r;
     last_state_vector := last_state_vector r; last_state_index := last_state_index r;
     last_texture_index := last_texture_index r;
     last_texture_descriptor := last_texture_descriptor r; prim_template := prim_template r;
     tex := tex r |}.
Definition set_degenerate_draw (v : bool) (r : StateTracker) : StateTracker :=
  {| dirty_flags := dirty_flags r; degenerate_draw := v;
     last_state_vector := last_state_vector r; last_state_index := last_state_index r;
     last_texture_index := last_texture_index r;
     last_texture_descriptor := last_texture_descriptor r; prim_template := prim_template r;
     tex := tex r |}.
Definition set_last_state_vector (v : StateVector) (r : StateTracker) : StateTracker :=
  {| dirty_flags := dirty_flags r; degenerate_draw := degenerate_draw r;
     last_state_vector := v; last_state_index := last_state_index r;
     last_texture_index := last_texture_index r;
     last_texture_descriptor := last_texture_descriptor r; prim_template := prim_template r;
     tex := tex r |}.
Definition set_last_state_index (v : Z) (r : StateTracker) : StateTracker :=
  {| dirty_flags := dirty_flags r; degenerate_draw := degenerate_draw r;
     last_state_vector := last_state_vector r; last_state_index := v;
     last_texture_index := last_texture_index r;
     last_texture_descriptor := last_texture_descriptor r; prim_template := prim_template r;
     tex := tex r |}.
Definition set_last_texture_index (v : Z) (r : StateTracker) : StateTracker :=
  {| dirty_flags := dirty_flags r; degenerate_draw := degenerate_draw r;
     last_state_vector := last_state_vector r; last_state_index := last_state_index r;
     last_texture_index := v; last_texture_descriptor := last_texture_descriptor r;
     prim_template := prim_template r; tex := tex r |}.
Definition set_last_texture_descriptor (v : TextureDescriptor) (r : StateTracker) : StateTracker :=
  {| dirty_flags := dirty_flags r; degenerate_draw := degenerate_draw r;
     last_state_vector := last_state_vector r; last_state_index := last_state_index r;
     last_texture_index := last_texture_index r; last_texture_descriptor := v;
     prim_template := prim_template r; tex := tex r |}.
Definition set_prim_template (v : PrimitiveTemplate) (r : StateTracker) : StateTracker :=
  {| dirty_flags := dirty_flags r; degenerate_draw := degenerate_draw r;
     last_state_vector := last_state_vector r; last_state_index := last_state_index r;
     last_texture_index := last_texture_index r;
     last_texture_descriptor := last_texture_descriptor r; prim_template := v; tex := tex r |}.
Definition set_tex (v : TexState) (r : StateTracker) : StateTracker :=
  {| dirty_flags := dirty_flags r; degenerate_draw := degenerate_draw r;
     last_state_vector := last_state_vector r; last_state_index := last_state_index r;
     last_texture_index := last_texture_index r;
     last_texture_descriptor := last_texture_descriptor r; prim_template := prim_template r;
     tex := v |}.

(** The render-pass accumulator.  [prims], [positions] and [attributes] hold the
    entries below [primitive_count] (the renderer is given no more), and
    [memoized_palettes] the [num_memoized_palettes] live entries of the ring. *)
Record RenderPassState := {
  positions : list VertexPosition;
  attributes : list VertexAttribute;
  prims : list PrimitiveAttribute;
  primitive_count : Z;
  state_vectors : list StateVector;
  state_vector_map : list (Z * Z);
  tex_infos : list TextureInfo;
  texture_map : list (Z * (Z * bool));
  held_images : list Z;
  pass_frame : Z;
  pass_zbuf : Z;
  fb_page_width_log2 : Z;
  fb_page_height_log2 : Z;
  z_page_width_log2 : Z;
  z_page_height_log2 : Z;
  bb : ivec4;
  color_write_mask : Z;
  z_sensitive : bool;
  z_write : bool;
  has_color_feedback : bool;
  feedback_psm : Z;
  feedback_cpsm : Z;
  has_aa1 : bool;
  has_scanmsk : bool;
  is_color_feedback : bool;
  is_potential_color_feedback : bool;
  is_potential_depth_feedback : bool;
  memoized_palettes : list MemoizedPalette;
  clut_instance : Z;
  latest_clut_instance : Z;
  pending_palette_updates : Z;
  label_key : Z }.

Definition set_positions (v : list VertexPosition) (r : RenderPassState) : RenderPassState :=
  {| positions := v; attributes := attributes r; prims := prims r;
     primitive_count := primitive_count r; state_vectors := state_vectors r;
     state_vector_map := state_vector_map r; tex_infos := tex_infos r;
     texture_map := texture_map r; held_images := held_images r; pass_frame := pass_frame r;
     pass_zbuf := pass_zbuf r; fb_page_width_log2 := fb_page_width_log2 r;
     fb_page_height_log2 := fb_page_height_log2 r; z_page_width_log2 := z_page_width_log2 r;
     z_page_height_log2 := z_page_height_log2 r; bb := bb r;
     color_write_mask := color_write_mask r; z_sensitive := z_sensitive r;
     z_write := z_write r; has_color_feedback := has_color_feedback r;
     feedback_psm := feedback_psm r; feedback_cpsm := feedback_cpsm r; has_aa1 := has_aa1 r;
     has_scanmsk := has_scanmsk r; is_color_feedback := is_color_feedback r;
     is_potential_color_feedback := is_potential_color_feedback r;
     is_potential_depth_feedback := is_potential_depth_feedback r;
     memoized_palettes := memoized_palettes r; clut_instance := clut_instance r;
     latest_clut_instance := latest_clut_instance r;
     pending_palette_updates := pending_palette_updates r; label_key := label_key r |}.
Definition set_attributes (v : list VertexAttribute) (r : RenderPassState) : RenderPassState :=
  {| positions := positions r; attributes := v; prims := prims r;
     primitive_count := primitive_count r; state_vectors := state_vectors r;
     state_vector_map := state_vector_map r; tex_infos := tex_infos r;
     texture_map := texture_map r; held_images := held_images r; pass_frame := pass_frame r;
     pass_zbuf := pass_zbuf r; fb_page_width_log2 := fb_page_width_log2 r;
     fb_page_height_log2 := fb_page_height_log2 r; z_page_width_log2 := z_page_width_log2 r;
     z_page_height_log2 := z_page_height_log2 r; bb := bb r;
     color_write_mask := color_write_mask r; z_sensitive := z_sensitive r;
     z_write := z_write r; has_color_feedback := has_color_feedback r;
     feedback_psm := feedback_psm r; feedback_cpsm := feedback_cpsm r; has_aa1 := has_aa1 r;
     has_scanmsk := has_scanmsk r; is_color_feedback := is_color_feedback r;
     is_potential_color_feedback := is_potential_color_feedback r;
     is_potential_depth_feedback := is_potential_depth_feedback r;
     memoized_palettes := memoized_palettes r; clut_instance := clut_instance r;
     latest_clut_instance := latest_clut_instance r;
     pending_palette_updates := pending_palette_updates r; label_key := label_key r |}.
Definition set_prims (v : list PrimitiveAttribute) (r : RenderPassState) : RenderPassState :=
  {| positions := positions r; attributes := attributes r; prims := v;
     primitive_count := primitive_count r; state_vectors := state_vectors r;
     state_vector_map := state_vector_map r; tex_infos := tex_infos r;
     texture_map := texture_map r; held_images := held_images r; pass_frame := pass_frame r;
     pass_zbuf := pass_zbuf r; fb_page_width_log2 := fb_page_width_log2 r;
     fb_page_height_log2 := fb_page_height_log2 r; z_page_width_log2 := z_page_width_log2 r;
     z_page_height_log2 := z_page_height_log2 r; bb := bb r;
     color_write_mask := color_write_mask r; z_sensitive := z_sensitive r;
     z_write := z_write r; has_color_feedback := has_color_feedback r;
     feedback_psm := feedback_psm r; feedback_cpsm := feedback_cpsm r; has_aa1 := has_aa1 r;
     has_scanmsk := has_scanmsk r; is_color_feedback := is_color_feedback r;
     is_potential_color_feedback := is_potential_color_feedback r;
     is_potential_depth_feedback := is_potential_depth_feedback r;
     memoized_palettes := memoized_palettes r; clut_instance := clut_instance r;
     latest_clut_instance := latest_clut_instance r;
     pending_palette_updates := pending_palette_updates r; label_key := label_key r |}.
Definition set_primitive_count (v : Z) (r : RenderPassState) : RenderPassState :=
  {| positions := positions r; attributes := attributes r; prims := prims r;
     primitive_count := v; state_vectors := state_vectors r;
     state_vector_map := state_vector_map r; tex_infos := tex_infos r;
     texture_map := texture_map r; held_images := held_images r; pass_frame := pass_frame r;
     pass_zbuf := pass_zbuf r; fb_page_width_log2 := fb_page_width_log2 r;
     fb_page_height_log2 := fb_page_height_log2 r; z_page_width_log2 := z_page_width_log2 r;
     z_page_height_log2 := z_page_height_log2 r; bb := bb r;
     color_write_mask := color_write_mask r; z_sensitive := z_sensitive r;
     z_write := z_write r; has_color_feedback := has_color_feedback r;
     feedback_psm := feedback_psm r; feedback_cpsm := feedback_cpsm r; has_aa1 := has_aa1 r;
     has_scanmsk := has_scanmsk r; is_color_feedback := is_color_feedback r;
     is_potential_color_feedback := is_potential_color_feedback r;
     is_potential_depth_feedback := is_potential_depth_feedback r;
     memoized_palettes := memoized_palettes r; clut_instance := clut_instance r;
     latest_clut_instance := latest_clut_instance r;
     pending_palette_updates := pending_palette_updates r; label_key := label_key r |}.
Definition set_state_vectors (v : list StateVector) (r : RenderPassState) : RenderPassState :=
  {| positions := positions r; attributes := attributes r; prims := prims r;
     primitive_count := primitive_count r; state_vectors := v;
     state_vector_map := state_vector_map r; tex_infos := tex_infos r;
     texture_map := texture_map r; held_images := held_images r; pass_frame := pass_frame r;
     pass_zbuf := pass_zbuf r; fb_page_width_log2 := fb_page_width_log2 r;
     fb_page_height_log2 := fb_page_height_log2 r; z_page_width_log2 := z_page_width_log2 r;
     z_page_height_log2 := z_page_height_log2 r; bb := bb r;
     color_write_mask := color_write_mask r; z_sensitive := z_sensitive r;
     z_write := z_write r; has_color_feedback := has_color_feedback r;
     feedback_psm := feedback_psm r; feedback_cpsm := feedback_cpsm r; has_aa1 := has_aa1 r;
     has_scanmsk := has_scanmsk r; is_color_feedback := is_color_feedback r;
     is_potential_color_feedback := is_potential_color_feedback r;
     is_potential_depth_feedback := is_potential_depth_feedback r;
     memoized_palettes := memoized_palettes r; clut_instance := clut_instance r;
     latest_clut_instance := latest_clut_instance r;
     pending_palette_updates := pending_palette_updates r; label_key := label_key r |}.
Definition set_state_vector_map (v : list (Z * Z)) (r : RenderPassState) : RenderPassState :=
  {| positions := positions r; attributes := attributes r; prims := prims r;
     primitive_count := primitive_count r; state_vectors := state_vectors r;
     state_vector_map := v; tex_infos := tex_infos r; texture_map := texture_map r;
     held_images := held_images r; pass_frame := pass_frame r; pass_zbuf := pass_zbuf r;
     fb_page_width_log2 := fb_page_width_log2 r; fb_page_height_log2 := fb_page_height_log2 r;
     z_page_width_log2 := z_page_width_log2 r; z_page_height_log2 := z_page_height_log2 r;
     bb := bb r; color_write_mask := color_write_mask r; z_sensitive := z_sensitive r;
     z_write := z_write r; has_color_feedback := has_color_feedback r;
     feedback_psm := feedback_psm r; feedback_cpsm := feedback_cpsm r; has_aa1 := has_aa1 r;
     has_scanmsk := has_scanmsk r; is_color_feedback := is_color_feedback r;
     is_potential_color_feedback := is_potential_color_feedback r;
     is_potential_depth_feedback := is_potential_depth_feedback r;
     memoized_palettes := memoized_palettes r; clut_instance := clut_instance r;
     latest_clut_instance := latest_clut_instance r;
     pending_palette_updates := pending_palette_updates r; label_key := label_key r |}.
Definition set_tex_infos (v : list TextureInfo) (r : RenderPassState) : RenderPassState :=
  {| positions := positions r; attributes := attributes r; prims := prims r;
     primitive_count := primitive_count r; state_vectors := state_vectors r;
     state_vector_map := state_vector_map r; tex_infos := v; texture_map := texture_map r;
     held_images := held_images r; pass_frame := pass_frame r; pass_zbuf := pass_zbuf r;
     fb_page_width_log2 := fb_page_width_log2 r; fb_page_height_log2 := fb_page_height_log2 r;
     z_page_width_log2 := z_page_width_log2 r; z_page_height_log2 := z_page_height_log2 r;
     bb := bb r; color_write_mask := color_write_mask r; z_sensitive := z_sensitive r;
     z_write := z_write r; has_color_feedback := has_color_feedback r;
     feedback_psm := feedback_psm r; feedback_cpsm := feedback_cpsm r; has_aa1 := has_aa1 r;
     has_scanmsk := has_scanmsk r; is_color_feedback := is_color_feedback r;
     is_potential_color_feedback := is_potential_color_feedback r;
     is_potential_depth_feedback := is_potential_depth_feedback r;
     memoized_palettes := memoized_palettes r; clut_instance := clut_instance r;
     latest_clut_instance := latest_clut_instance r;
     pending_palette_updates := pending_palette_updates r; label_key := label_key r |}.
Definition set_texture_map (v : list (Z * (Z * bool))) (r : RenderPassState) : RenderPassState :=
  {| positions := positions r; attributes := attributes r; prims := prims r;
     primitive_count := primitive_count r; state_vectors := state_vectors r;
     state_vector_map := state_vector_map r; tex_infos := tex_infos r; texture_map := v;
     held_images := held_images r; pass_frame := pass_frame r; pass_zbuf := pass_zbuf r;
     fb_page_width_log2 := fb_page_width_log2 r; fb_page_height_log2 := fb_page_height_log2 r;
     z_page_width_log2 := z_page_width_log2 r; z_page_height_log2 := z_page_height_log2 r;
     bb := bb r; color_write_mask := color_write_mask r; z_sensitive := z_sensitive r;
     z_write := z_write r; has_color_feedback := has_color_feedback r;
     feedback_psm := feedback_psm r; feedback_cpsm := feedback_cpsm r; has_aa1 := has_aa1 r;
     has_scanmsk := has_scanmsk r; is_color_feedback := is_color_feedback r;
     is_potential_color_feedback := is_potential_color_feedback r;
     is_potential_depth_feedback := is_potential_depth_feedback r;
     memoized_palettes := memoized_palettes r; clut_instance := clut_instance r;
     latest_clut_instance := latest_clut_instance r;
     pending_palette_updates := pending_palette_updates r; label_key := label_key r |}.
Definition set_held_images (v : list Z) (r : RenderPassState) : RenderPassState :=
  {| positions := positions r; attributes := attributes r; prims := prims r;
     primitive_count := primitive_count r; state_vectors := state_vectors r;
     state_vector_map := state_vector_map r; tex_infos := tex_infos r;
     texture_map := texture_map r; held_images := v; pass_frame := pass_frame r;
     pass_zbuf := pass_zbuf r; fb_page_width_log2 := fb_page_width_log2 r;
     fb_page_height_log2 := fb_page_height_log2 r; z_page_width_log2 := z_page_width_log2 r;
     z_page_height_log2 := z_page_height_log2 r; bb := bb r;
     color_write_mask := color_write_mask r; z_sensitive := z_sensitive r;
     z_write := z_write r; has_color_feedback := has_color_feedback r;
     feedback_psm := feedback_psm r; feedback_cpsm := feedback_cpsm r; has_aa1 := has_aa1 r;
     has_scanmsk := has_scanmsk r; is_color_feedback := is_color_feedback r;
     is_potential_color_feedback := is_potential_color_feedback r;
     is_potential_depth_feedback := is_potential_depth_feedback r;
     memoized_palettes := memoized_palettes r; clut_instance := clut_instance r;
     latest_clut_instance := latest_clut_instance r;
     pending_palette_updates := pending_palette_updates r; label_key := label_key r |}.
Definition set_pass_frame (v : Z) (r : RenderPassState) : RenderPassState :=
  {| positions := positions r; attributes := attributes r; prims := prims r;
     primitive_count := primitive_count r; state_vectors := state_vectors r;
     state_vector_map := state_vector_map r; tex_infos := tex_infos r;
     texture_map := texture_map r; held_images := held_images r; pass_frame := v;
     pass_zbuf := pass_zbuf r; fb_page_width_log2 := fb_page_width_log2 r;
     fb_page_height_log2 := fb_page_height_log2 r; z_page_width_log2 := z_page_width_log2 r;
     z_page_height_log2 := z_page_height_log2 r; bb := bb r;
     color_write_mask := color_write_mask r; z_sensitive := z_sensitive r;
     z_write := z_write r; has_color_feedback := has_color_feedback r;
     feedback_psm := feedback_psm r; feedback_cpsm := feedback_cpsm r; has_aa1 := has_aa1 r;
     has_scanmsk := has_scanmsk r; is_color_feedback := is_color_feedback r;
     is_potential_color_feedback := is_potential_color_feedback r;
     is_potential_depth_feedback := is_potential_depth_feedback r;
     memoized_palettes := memoized_palettes r; clut_instance := clut_instance r;
     latest_clut_instance := latest_clut_instance r;
     pending_palette_updates := pending_palette_updates r; label_key := label_key r |}.
Definition set_pass_zbuf (v : Z) (r : RenderPassState) : RenderPassState :=
  {| positions := positions r; attributes := attributes r; prims := prims r;
     primitive_count := primitive_count r; state_vectors := state_vectors r;
     state_vector_map := state_vector_map r; tex_infos := tex_infos r;
     texture_map := texture_map r; held_images := held_images r; pass_frame := pass_frame r;
     pass_zbuf := v; fb_page_width_log2 := fb_page_width_log2 r;
     fb_page_height_log2 := fb_page_height_log2 r; z_page_width_log2 := z_page_width_log2 r;
     z_page_height_log2 := z_page_height_log2 r; bb := bb r;
     color_write_mask := color_write_mask r; z_sensitive := z_sensitive r;
     z_write := z_write r; has_color_feedback := has_color_feedback r;
     feedback_psm := feedback_psm r; feedback_cpsm := feedback_cpsm r; has_aa1 := has_aa1 r;
     has_scanmsk := has_scanmsk r; is_color_feedback := is_color_feedback r;
     is_potential_color_feedback := is_potential_color_feedback r;
     is_potential_depth_feedback := is_potential_depth_feedback r;
     memoized_palettes := memoized_palettes r; clut_instance := clut_instance r;
     latest_clut_instance := latest_clut_instance r;
     pending_palette_updates := pending_palette_updates r; label_key := label_key r |}.
Definition set_fb_page_width_log2 (v : Z) (r : RenderPassState) : RenderPassState :=
  {| positions := positions r; attributes := attributes r; prims := prims r;
     primitive_count := primitive_count r; state_vectors := state_vectors r;
     state_vector_map := state_vector_map r; tex_infos := tex_infos r;
     texture_map := texture_map r; held_images := held_images r; pass_frame := pass_frame r;
     pass_zbuf := pass_zbuf r; fb_page_width_log2 := v;
     fb_page_height_log2 := fb_page_height_log2 r; z_page_width_log2 := z_page_width_log2 r;
     z_page_height_log2 := z_page_height_log2 r; bb := bb r;
     color_write_mask := color_write_mask r; z_sensitive := z_sensitive r;
     z_write := z_write r; has_color_feedback := has_color_feedback r;
     feedback_psm := feedback_psm r; feedback_cpsm := feedback_cpsm r; has_aa1 := has_aa1 r;
     has_scanmsk := has_scanmsk r; is_color_feedback := is_color_feedback r;
     is_potential_color_feedback := is_potential_color_feedback r;
     is_potential_depth_feedback := is_potential_depth_feedback r;
     memoized_palettes := memoized_palettes r; clut_instance := clut_instance r;
     latest_clut_instance := latest_clut_instance r;
     pending_palette_updates := pending_palette_updates r; label_key := label_key r |}.
Definition set_fb_page_height_log2 (v : Z) (r : RenderPassState) : RenderPassState :=
  {| positions := positions r; attributes := attributes r; prims := prims r;
     primitive_count := primitive_count r; state_vectors := state_vectors r;
     state_vector_map := state_vector_map r; tex_infos := tex_infos r;
     texture_map := texture_map r; held_images := held_images r; pass_frame := pass_frame r;
     pass_zbuf := pass_zbuf r; fb_page_width_log2 := fb_page_width_log2 r;
     fb_page_height_log2 := v; z_page_width_log2 := z_page_width_log2 r;
     z_page_height_log2 := z_page_height_log2 r; bb := bb r;
     color_write_mask := color_write_mask r; z_sensitive := z_sensitive r;
     z_write := z_write r; has_color_feedback := has_color_feedback r;
     feedback_psm := feedback_psm r; feedback_cpsm := feedback_cpsm r; has_aa1 := has_aa1 r;
     has_scanmsk := has_scanmsk r; is_color_feedback := is_color_feedback r;
     is_potential_color_feedback := is_potential_color_feedback r;
     is_potential_depth_feedback := is_potential_depth_feedback r;
     memoized_palettes := memoized_palettes r; clut_instance := clut_instance r;
     latest_clut_instance := latest_clut_instance r;
     pending_palette_updates := pending_palette_updates r; label_key := label_key r |}.
Definition set_z_page_width_log2 (v : Z) (r : RenderPassState) : RenderPassState :=
  {| positions := positions r; attributes := attributes r; prims := prims r;
     primitive_count := primitive_count r; state_vectors := state_vectors r;
     state_vector_map := state_vector_map r; tex_infos := tex_infos r;
     texture_map := texture_map r; held_images := held_images r; pass_frame := pass_frame r;
     pass_zbuf := pass_zbuf r; fb_page_width_log2 := fb_page_width_log2 r;
     fb_page_height_log2 := fb_page_height_log2 r; z_page_width_log2 := v;
     z_page_height_log2 := z_page_height_log2 r; bb := bb r;
     color_write_mask := color_write_mask r; z_sensitive := z_sensitive r;
     z_write := z_write r; has_color_feedback := has_color_feedback r;
     feedback_psm := feedback_psm r; feedback_cpsm := feedback_cpsm r; has_aa1 := has_aa1 r;
     has_scanmsk := has_scanmsk r; is_color_feedback := is_color_feedback r;
     is_potential_color_feedback := is_potential_color_feedback r;
     is_potential_depth_feedback := is_potential_depth_feedback r;
     memoized_palettes := memoized_palettes r; clut_instance := clut_instance r;
     latest_clut_instance := latest_clut_instance r;
     pending_palette_updates := pending_palette_updates r; label_key := label_key r |}.
Definition set_z_page_height_log2 (v : Z) (r : RenderPassState) : RenderPassState :=
  {| positions := positions r; attributes := attributes r; prims := prims r;
     primitive_count := primitive_count r; state_vectors := state_vectors r;
     state_vector_map := state_vector_map r; tex_infos := tex_infos r;
     texture_map := texture_map r; held_images := held_images r; pass_frame := pass_frame r;
     pass_zbuf := pass_zbuf r; fb_page_width_log2 := fb_page_width_log2 r;
     fb_page_height_log2 := fb_page_height_log2 r; z_page_width_log2 := z_page_width_log2 r;
     z_page_height_log2 := v; bb := bb r; color_write_mask := color_write_mask r;
     z_sensitive := z_sensitive r; z_write := z_write r;
     has_color_feedback := has_color_feedback r; feedback_psm := feedback_psm r;
     feedback_cpsm := feedback_cpsm r; has_aa1 := has_aa1 r; has_scanmsk := has_scanmsk r;
     is_color_feedback := is_color_feedback r;
     is_potential_color_feedback := is_potential_color_feedback r;
     is_potential_depth_feedback := is_potential_depth_feedback r;
     memoized_palettes := memoized_palettes r; clut_instance := clut_instance r;
     latest_clut_instance := latest_clut_instance r;
     pending_palette_updates := pending_palette_updates r; label_key := label_key r |}.
Definition set_bb (v : ivec4) (r : RenderPassState) : RenderPassState :=
  {| positions := positions r; attributes := attributes r; prims := prims r;
     primitive_count := primitive_count r; state_vectors := state_vectors r;
     state_vector_map := state_vector_map r; tex_infos := tex_infos r;
     texture_map := texture_map r; held_images := held_images r; pass_frame := pass_frame r;
     pass_zbuf := pass_zbuf r; fb_page_width_log2 := fb_page_width_log2 r;
     fb_page_height_log2 := fb_page_height_log2 r; z_page_width_log2 := z_page_width_log2 r;
     z_page_height_log2 := z_page_height_log2 r; bb := v;
     color_write_mask := color_write_mask r; z_sensitive := z_sensitive r;
     z_write := z_write r; has_color_feedback := has_color_feedback r;
     feedback_psm := feedback_psm r; feedback_cpsm := feedback_cpsm r; has_aa1 := has_aa1 r;
     has_scanmsk := has_scanmsk r; is_color_feedback := is_color_feedback r;
     is_potential_color_feedback := is_potential_color_feedback r;
     is_potential_depth_feedback := is_potential_depth_feedback r;
     memoized_palettes := memoized_palettes r; clut_instance := clut_instance r;
     latest_clut_instance := latest_clut_instance r;
     pending_palette_updates := pending_palette_updates r; label_key := label_key r |}.
Definition set_color_write_mask (v : Z) (r : RenderPassState) : RenderPassState :=
  {| positions := positions r; attributes := attributes r; prims := prims r;
     primitive_count := primitive_count r; state_vectors := state_vectors r;
     state_vector_map := state_vector_map r; tex_infos := tex_infos r;
     texture_map := texture_map r; held_images := held_images r; pass_frame := pass_frame r;
     pass_zbuf := pass_zbuf r; fb_page_width_log2 := fb_page_width_log2 r;
     fb_page_height_log2 := fb_page_height_log2 r; z_page_width_log2 := z_page_width_log2 r;
     z_page_height_log2 := z_page_height_log2 r; bb := bb r; color_write_mask := v;
     z_sensitive := z_sensitive r; z_write := z_write r;
     has_color_feedback := has_color_feedback r; feedback_psm := feedback_psm r;
     feedback_cpsm := feedback_cpsm r; has_aa1 := has_aa1 r; has_scanmsk := has_scanmsk r;
     is_color_feedback := is_color_feedback r;
     is_potential_color_feedback := is_potential_color_feedback r;
     is_potential_depth_feedback := is_potential_depth_feedback r;
     memoized_palettes := memoized_palettes r; clut_instance := clut_instance r;
     latest_clut_instance := latest_clut_instance r;
     pending_palette_updates := pending_palette_updates r; label_key := label_key r |}.
Definition set_z_sensitive (v : bool) (r : RenderPassState) : RenderPassState :=
  {| positions := positions r; attributes := attributes r; prims := prims r;
     primitive_count := primitive_count r; state_vectors := state_vectors r;
     state_vector_map := state_vector_map r; tex_infos := tex_infos r;
     texture_map := texture_map r; held_images := held_images r; pass_frame := pass_frame r;
     pass_zbuf := pass_zbuf r; fb_page_width_log2 := fb_page_width_log2 r;
     fb_page_height_log2 := fb_page_height_log2 r; z_page_width_log2 := z_page_width_log2 r;
     z_page_height_log2 := z_page_height_log2 r; bb := bb r;
     color_write_mask := color_write_mask r; z_sensitive := v; z_write := z_write r;
     has_color_feedback := has_color_feedback r; feedback_psm := feedback_psm r;
     feedback_cpsm := feedback_cpsm r; has_aa1 := has_aa1 r; has_scanmsk := has_scanmsk r;
     is_color_feedback := is_color_feedback r;
     is_potential_color_feedback := is_potential_color_feedback r;
     is_potential_depth_feedback := is_potential_depth_feedback r;
     memoized_palettes := memoized_palettes r; clut_instance := clut_instance r;
     latest_clut_instance := latest_clut_instance r;
     pending_palette_updates := pending_palette_updates r; label_key := label_key r |}.
Definition set_z_write (v : bool) (r : RenderPassState) : RenderPassState :=
  {| positions := positions r; attributes := attributes r; prims := prims r;
     primitive_count := primitive_count r; state_vectors := state_vectors r;
     state_vector_map := state_vector_map r; tex_infos := tex_infos r;
     texture_map := texture_map r; held_images := held_images r; pass_frame := pass_frame r;
     pass_zbuf := pass_zbuf r; fb_page_width_log2 := fb_page_width_log2 r;
     fb_page_height_log2 := fb_page_height_log2 r; z_page_width_log2 := z_page_width_log2 r;
     z_page_height_log2 := z_page_height_log2 r; bb := bb r;
     color_write_mask := color_write_mask r; z_sensitive := z_sensitive r; z_write := v;
     has_color_feedback := has_color_feedback r; feedback_psm := feedback_psm r;
     feedback_cpsm := feedback_cpsm r; has_aa1 := has_aa1 r; has_scanmsk := has_scanmsk r;
     is_color_feedback := is_color_feedback r;
     is_potential_color_feedback := is_potential_color_feedback r;
     is_potential_depth_feedback := is_potential_depth_feedback r;
     memoized_palettes := memoized_palettes r; clut_instance := clut_instance r;
     latest_clut_instance := latest_clut_instance r;
     pending_palette_updates := pending_palette_updates r; label_key := label_key r |}.
Definition set_has_color_feedback (v : bool) (r : RenderPassState) : RenderPassState :=
  {| positions := positions r; attributes := attributes r; prims := prims r;
     primitive_count := primitive_count r; state_vectors := state_vectors r;
     state_vector_map := state_vector_map r; tex_infos := tex_infos r;
     texture_map := texture_map r; held_images := held_images r; pass_frame := pass_frame r;
     pass_zbuf := pass_zbuf r; fb_page_width_log2 := fb_page_width_log2 r;
     fb_page_height_log2 := fb_page_height_log2 r; z_page_width_log2 := z_page_width_log2 r;
     z_page_height_log2 := z_page_height_log2 r; bb := bb r;
     color_write_mask := color_write_mask r; z_sensitive := z_sensitive r;
     z_write := z_write r; has_color_feedback := v; feedback_psm := feedback_psm r;
     feedback_cpsm := feedback_cpsm r; has_aa1 := has_aa1 r; has_scanmsk := has_scanmsk r;
     is_color_feedback := is_color_feedback r;
     is_potential_color_feedback := is_potential_color_feedback r;
     is_potential_depth_feedback := is_potential_depth_feedback r;
     memoized_palettes := memoized_palettes r; clut_instance := clut_instance r;
     latest_clut_instance := latest_clut_instance r;
     pending_palette_updates := pending_palette_updates r; label_key := label_key r |}.
Definition set_feedback_psm (v : Z) (r : RenderPassState) : RenderPassState :=
  {| positions := positions r; attributes := attributes r; prims := prims r;
     primitive_count := primitive_count r; state_vectors := state_vectors r;
     state_vector_map := state_vector_map r; tex_infos := tex_infos r;
     texture_map := texture_map r; held_images := held_images r; pass_frame := pass_frame r;
     pass_zbuf := pass_zbuf r; fb_page_width_log2 := fb_page_width_log2 r;
     fb_page_height_log2 := fb_page_height_log2 r; z_page_width_log2 := z_page_width_log2 r;
     z_page_height_log2 := z_page_height_log2 r; bb := bb r;
     color_write_mask := color_write_mask r; z_sensitive := z_sensitive r;
     z_write := z_write r; has_color_feedback := has_color_feedback r; feedback_psm := v;
     feedback_cpsm := feedback_cpsm r; has_aa1 := has_aa1 r; has_scanmsk := has_scanmsk r;
     is_color_feedback := is_color_feedback r;
     is_potential_color_feedback := is_potential_color_feedback r;
     is_potential_depth_feedback := is_potential_depth_feedback r;
     memoized_palettes := memoized_palettes r; clut_instance := clut_instance r;
     latest_clut_instance := latest_clut_instance r;
     pending_palette_updates := pending_palette_updates r; label_key := label_key r |}.
Definition set_feedback_cpsm (v : Z) (r : RenderPassState) : RenderPassState :=
  {| positions := positions r; attributes := attributes r; prims := prims r;
     primitive_count := primitive_count r; state_vectors := state_vectors r;
     state_vector_map := state_vector_map r; tex_infos := tex_infos r;
     texture_map := texture_map r; held_images := held_images r; pass_frame := pass_frame r;
     pass_zbuf := pass_zbuf r; fb_page_width_log2 := fb_page_width_log2 r;
     fb_page_height_log2 := fb_page_height_log2 r; z_page_width_log2 := z_page_width_log2 r;
     z_page_height_log2 := z_page_height_log2 r; bb := bb r;
     color_write_mask := color_write_mask r; z_sensitive := z_sensitive r;
     z_write := z_write r; has_color_feedback := has_color_feedback r;
     feedback_psm := feedback_psm r; feedback_cpsm := v; has_aa1 := has_aa1 r;
     has_scanmsk := has_scanmsk r; is_color_feedback := is_color_feedback r;
     is_potential_color_feedback := is_potential_color_feedback r;
     is_potential_depth_feedback := is_potential_depth_feedback r;
     memoized_palettes := memoized_palettes r; clut_instance := clut_instance r;
     latest_clut_instance := latest_clut_instance r;
     pending_palette_updates := pending_palette_updates r; label_key := label_key r |}.
Definition set_has_aa1 (v : bool) (r : RenderPassState) : RenderPassState :=
  {| positions := positions r; attributes := attributes r; prims := prims r;
     primitive_count := primitive_count r; state_vectors := state_vectors r;
     state_vector_map := state_vector_map r; tex_infos := tex_infos r;
     texture_map := texture_map r; held_images := held_images r; pass_frame := pass_frame r;
     pass_zbuf := pass_zbuf r; fb_page_width_log2 := fb_page_width_log2 r;
     fb_page_height_log2 := fb_page_height_log2 r; z_page_width_log2 := z_page_width_log2 r;
     z_page_height_log2 := z_page_height_log2 r; bb := bb r;
     color_write_mask := color_write_mask r; z_sensitive := z_sensitive r;
     z_write := z_write r; has_color_feedback := has_color_feedback r;
     feedback_psm := feedback_psm r; feedback_cpsm := feedback_cpsm r; has_aa1 := v;
     has_scanmsk := has_scanmsk r; is_color_feedback := is_color_feedback r;
     is_potential_color_feedback := is_potential_color_feedback r;
     is_potential_depth_feedback := is_potential_depth_feedback r;
     memoized_palettes := memoized_palettes r; clut_instance := clut_instance r;
     latest_clut_instance := latest_clut_instance r;
     pending_palette_updates := pending_palette_updates r; label_key := label_key r |}.
Definition set_has_scanmsk (v : bool) (r : RenderPassState) : RenderPassState :=
  {| positions := positions r; attributes := attributes r; prims := prims r;
     primitive_count := primitive_count r; state_vectors := state_vectors r;
     state_vector_map := state_vector_map r; tex_infos := tex_infos r;
     texture_map := texture_map r; held_images := held_images r; pass_frame := pass_frame r;
     pass_zbuf := pass_zbuf r; fb_page_width_log2 := fb_page_width_log2 r;
     fb_page_height_log2 := fb_page_height_log2 r; z_page_width_log2 := z_page_width_log2 r;
     z_page_height_log2 := z_page_height_log2 r; bb := bb r;
     color_write_mask := color_write_mask r; z_sensitive := z_sensitive r;
     z_write := z_write r; has_color_feedback := has_color_feedback r;
     feedback_psm := feedback_psm r; feedback_cpsm := feedback_cpsm r; has_aa1 := has_aa1 r;
     has_scanmsk := v; is_color_feedback := is_color_feedback r;
     is_potential_color_feedback := is_potential_color_feedback r;
     is_potential_depth_feedback := is_potential_depth_feedback r;
     memoized_palettes := memoized_palettes r; clut_instance := clut_instance r;
     latest_clut_instance := latest_clut_instance r;
     pending_palette_updates := pending_palette_updates r; label_key := label_key r |}.
Definition set_is_color_feedback (v : bool) (r : RenderPassState) : RenderPassState :=
  {| positions := positions r; attributes := attributes r; prims := prims r;
     primitive_count := primitive_count r; state_vectors := state_vectors r;
     state_vector_map := state_vector_map r; tex_infos := tex_infos r;
     texture_map := texture_map r; held_images := held_images r; pass_frame := pass_frame r;
     pass_zbuf := pass_zbuf r; fb_page_width_log2 := fb_page_width_log2 r;
     fb_page_height_log2 := fb_page_height_log2 r; z_page_width_log2 := z_page_width_log2 r;
     z_page_height_log2 := z_page_height_log2 r; bb := bb r;
     color_write_mask := color_write_mask r; z_sensitive := z_sensitive r;
     z_write := z_write r; has_color_feedback := has_color_feedback r;
     feedback_psm := feedback_psm r; feedback_cpsm := feedback_cpsm r; has_aa1 := has_aa1 r;
     has_scanmsk := has_scanmsk r; is_color_feedback := v;
     is_potential_color_feedback := is_potential_color_feedback r;
     is_potential_depth_feedback := is_potential_depth_feedback r;
     memoized_palettes := memoized_palettes r; clut_instance := clut_instance r;
     latest_clut_instance := latest_clut_instance r;
     pending_palette_updates := pending_palette_updates r; label_key := label_key r |}.
Definition set_is_potential_color_feedback (v : bool) (r : RenderPassState) : RenderPassState :=
  {| positions := positions r; attributes := attributes r; prims := prims r;
     primitive_count := primitive_count r; state_vectors := state_vectors r;
     state_vector_map := state_vector_map r; tex_infos := tex_infos r;
     texture_map := texture_map r; held_images := held_images r; pass_frame := pass_frame r;
     pass_zbuf := pass_zbuf r; fb_page_width_log2 := fb_page_width_log2 r;
     fb_page_height_log2 := fb_page_height_log2 r; z_page_width_log2 := z_page_width_log2 r;
     z_page_height_log2 := z_page_height_log2 r; bb := bb r;
     color_write_mask := color_write_mask r; z_sensitive := z_sensitive r;
     z_write := z_write r; has_color_feedback := has_color_feedback r;
     feedback_psm := feedback_psm r; feedback_cpsm := feedback_cpsm r; has_aa1 := has_aa1 r;
     has_scanmsk := has_scanmsk r; is_color_feedback := is_color_feedback r;
     is_potential_color_feedback := v;
     is_potential_depth_feedback := is_potential_depth_feedback r;
     memoized_palettes := memoized_palettes r; clut_instance := clut_instance r;
     latest_clut_instance := latest_clut_instance r;
     pending_palette_updates := pending_palette_updates r; label_key := label_key r |}.
Definition set_is_potential_depth_feedback (v : bool) (r : RenderPassState) : RenderPassState :=
  {| positions := positions r; attributes := attributes r; prims := prims r;
     primitive_count := primitive_count r; state_vectors := state_vectors r;
     state_vector_map := state_vector_map r; tex_infos := tex_infos r;
     texture_map := texture_map r; held_images := held_images r; pass_frame := pass_frame r;
     pass_zbuf := pass_zbuf r; fb_page_width_log2 := fb_page_width_log2 r;
     fb_page_height_log2 := fb_page_height_log2 r; z_page_width_log2 := z_page_width_log2 r;
     z_page_height_log2 := z_page_height_log2 r; bb := bb r;
     color_write_mask := color_write_mask r; z_sensitive := z_sensitive r;
     z_write := z_write r; has_color_feedback := has_color_feedback r;
     feedback_psm := feedback_psm r; feedback_cpsm := feedback_cpsm r; has_aa1 := has_aa1 r;
     has_scanmsk := has_scanmsk r; is_color_feedback := is_color_feedback r;
     is_potential_color_feedback := is_potential_color_feedback r;
     is_potential_depth_feedback := v; memoized_palettes := memoized_palettes r;
     clut_instance := clut_instance r; latest_clut_instance := latest_clut_instance r;
     pending_palette_updates := pending_palette_updates r; label_key := label_key r |}.
Definition set_memoized_palettes (v : list MemoizedPalette) (r : RenderPassState) : RenderPassState :=
  {| positions := positions r; attributes := attributes r; prims := prims r;
     primitive_count := primitive_count r; state_vectors := state_vectors r;
     state_vector_map := state_vector_map r; tex_infos := tex_infos r;
     texture_map := texture_map r; held_images := held_images r; pass_frame := pass_frame r;
     pass_zbuf := pass_zbuf r; fb_page_width_log2 := fb_page_width_log2 r;
     fb_page_height_log2 := fb_page_height_log2 r; z_page_width_log2 := z_page_width_log2 r;
     z_page_height_log2 := z_page_height_log2 r; bb := bb r;
     color_write_mask := color_write_mask r; z_sensitive := z_sensitive r;
     z_write := z_write r; has_color_feedback := has_color_feedback r;
     feedback_psm := feedback_psm r; feedback_cpsm := feedback_cpsm r; has_aa1 := has_aa1 r;
     has_scanmsk := has_scanmsk r; is_color_feedback := is_color_feedback r;
     is_potential_color_feedback := is_potential_color_feedback r;
     is_potential_depth_feedback := is_potential_depth_feedback r; memoized_palettes := v;
     clut_instance := clut_instance r; latest_clut_instance := latest_clut_instance r;
     pending_palette_updates := pending_palette_updates r; label_key := label_key r |}.
Definition set_clut_instance (v : Z) (r : RenderPassState) : RenderPassState :=
  {| positions := positions r; attributes := attributes r; prims := prims r;
     primitive_count := primitive_count r; state_vectors := state_vectors r;
     state_vector_map := state_vector_map r; tex_infos := tex_infos r;
     texture_map := texture_map r; held_images := held_images r; pass_frame := pass_frame r;
     pass_zbuf := pass_zbuf r; fb_page_width_log2 := fb_page_width_log2 r;
     fb_page_height_log2 := fb_page_height_log2 r; z_page_width_log2 := z_page_width_log2 r;
     z_page_height_log2 := z_page_height_log2 r; bb := bb r;
     color_write_mask := color_write_mask r; z_sensitive := z_sensitive r;
     z_write := z_write r; has_color_feedback := has_color_feedback r;
     feedback_psm := feedback_psm r; feedback_cpsm := feedback_cpsm r; has_aa1 := has_aa1 r;
     has_scanmsk := has_scanmsk r; is_color_feedback := is_color_feedback r;
     is_potential_color_feedback := is_potential_color_feedback r;
     is_potential_depth_feedback := is_potential_depth_feedback r;
     memoized_palettes := memoized_palettes r; clut_instance := v;
     latest_clut_instance := latest_clut_instance r;
     pending_palette_updates := pending_palette_updates r; label_key := label_key r |}.
Definition set_latest_clut_instance (v : Z) (r : RenderPassState) : RenderPassState :=
  {| positions := positions r; attributes := attributes r; prims := prims r;
     primitive_count := primitive_count r; state_vectors := state_vectors r;
     state_vector_map := state_vector_map r; tex_infos := tex_infos r;
     texture_map := texture_map r; held_images := held_images r; pass_frame := pass_frame r;
     pass_zbuf := pass_zbuf r; fb_page_width_log2 := fb_page_width_log2 r;
     fb_page_height_log2 := fb_page_height_log2 r; z_page_width_log2 := z_page_width_log2 r;
     z_page_height_log2 := z_page_height_log2 r; bb := bb r;
     color_write_mask := color_write_mask r; z_sensitive := z_sensitive r;
     z_write := z_write r; has_color_feedback := has_color_feedback r;
     feedback_psm := feedback_psm r; feedback_cpsm := feedback_cpsm r; has_aa1 := has_aa1 r;
     has_scanmsk := has_scanmsk r; is_color_feedback := is_color_feedback r;
     is_potential_color_feedback := is_potential_color_feedback r;
     is_potential_depth_feedback := is_potential_depth_feedback r;
     memoized_palettes := memoized_palettes r; clut_instance := clut_instance r;
     latest_clut_instance := v; pending_palette_updates := pending_palette_updates r;
     label_key := label_key r |}.
Definition set_pending_palette_updates (v : Z) (r : RenderPassState) : RenderPassState :=
  {| positions := positions r; attributes := attributes r; prims := prims r;
     primitive_count := primitive_count r; state_vectors := state_vectors r;
     state_vector_map := state_vector_map r; tex_infos := tex_infos r;
     texture_map := texture_map r; held_images := held_images r; pass_frame := pass_frame r;
     pass_zbuf := pass_zbuf r; fb_page_width_log2 := fb_page_width_log2 r;
     fb_page_height_log2 := fb_page_height_log2 r; z_page_width_log2 := z_page_width_log2 r;
     z_page_height_log2 := z_page_height_log2 r; bb := bb r;
     color_write_mask := color_write_mask r; z_sensitive := z_sensitive r;
     z_write := z_write r; has_color_feedback := has_color_feedback r;
     feedback_psm := feedback_psm r; feedback_cpsm := feedback_cpsm r; has_aa1 := has_aa1 r;
     has_scanmsk := has_scanmsk r; is_color_feedback := is_color_feedback r;
     is_potential_color_feedback := is_potential_color_feedback r;
     is_potential_depth_feedback := is_potential_depth_feedback r;
     memoized_palettes := memoized_palettes r; clut_instance := clut_instance r;
     latest_clut_instance := latest_clut_instance r; pending_palette_updates := v;
     label_key := label_key r |}.
Definition set_label_key (v : Z) (r : RenderPassState) : RenderPassState :=
  {| positions := positions r; attributes := attributes r; prims := prims r;
     primitive_count := primitive_count r; state_vectors := state_vectors r;
     state_vector_map := state_vector_map r; tex_infos := tex_infos r;
     texture_map := texture_map r; held_images := held_images r; pass_frame := pass_frame r;
     pass_zbuf := pass_zbuf r; fb_page_width_log2 := fb_page_width_log2 r;
     fb_page_height_log2 := fb_page_height_log2 r; z_page_width_log2 := z_page_width_log2 r;
     z_page_height_log2 := z_page_height_log2 r; bb := bb r;
     color_write_mask := color_write_mask r; z_sensitive := z_sensitive r;
     z_write := z_write r; has_color_feedback := has_color_feedback r;
     feedback_psm := feedback_psm r; feedback_cpsm := feedback_cpsm r; has_aa1 := has_aa1 r;
     has_scanmsk := has_scanmsk r; is_color_feedback := is_color_feedback r;
     is_potential_color_feedback := is_potential_color_feedback r;
     is_potential_depth_feedback := is_potential_depth_feedback r;
     memoized_palettes := memoized_palettes r; clut_instance := clut_instance r;
     latest_clut_instance := latest_clut_instance r;
     pending_palette_updates := pending_palette_updates r; label_key := v |}.

(** The vertex queue: three slots and the number of queued vertices. *)
Record VertexQueue := {
  vq_pos : list VertexPosition;
  vq_attr : list VertexAttribute;
  vq_count : Z }.

Definition set_vq_pos (v : list VertexPosition) (r : VertexQueue) : VertexQueue :=
  {| vq_pos := v; vq_attr := vq_attr r; vq_count := vq_count r |}.
Definition set_vq_attr (v : list VertexAttribute) (r : VertexQueue) : VertexQueue :=
  {| vq_pos := vq_pos r; vq_attr := v; vq_count := vq_count r |}.
Definition set_vq_count (v : Z) (r : VertexQueue) : VertexQueue :=
  {| vq_pos := vq_pos r; vq_attr := vq_attr r; vq_count := v |}.

Record GIFPath := {
  tag : QWord;
  loop : Z;
  reg : Z }.

Definition set_tag (v : QWord) (r : GIFPath) : GIFPath :=
  {| tag := v; loop := loop r; reg := reg r |}.
Definition set_loop (v : Z) (r : GIFPath) : GIFPath :=
  {| tag := tag r; loop := v; reg := reg r |}.
Definition set_reg (v : Z) (r : GIFPath) : GIFPath :=
  {| tag := tag r; loop := loop r; reg := v |}.

Record TransferState := {
  host_to_local_active : bool;
  host_to_local_payload : list Z;
  last_flushed_qwords : Z;
  required_qwords : Z;
  copy : VRAMCopy }.

Definition set_host_to_local_active (v : bool) (r : TransferState) : TransferState :=
  {| host_to_local_active := v; host_to_local_payload := host_to_local_payload r;
     last_flushed_qwords := last_flushed_qwords r; required_qwords := required_qwords r;
     copy := copy r |}.
Definition set_host_to_local_payload (v : list Z) (r : TransferState) : TransferState :=
  {| host_to_local_active := host_to_local_active r; host_to_local_payload := v;
     last_flushed_qwords := last_flushed_qwords r; required_qwords := required_qwords r;
     copy := copy r |}.
Definition set_last_flushed_qwords (v : Z) (r : TransferState) : TransferState :=
  {| host_to_local_active := host_to_local_active r;
     host_to_local_payload := host_to_local_payload r; last_flushed_qwords := v;
     required_qwords := required_qwords r; copy := copy r |}.
Definition set_required_qwords (v : Z) (r : TransferState) : TransferState :=
  {| host_to_local_active := host_to_local_active r;
     host_to_local_payload := host_to_local_payload r;
     last_flushed_qwords := last_flushed_qwords r; required_qwords := v; copy := copy r |}.
Definition set_copy (v : VRAMCopy) (r : TransferState) : TransferState :=
  {| host_to_local_active := host_to_local_active r;
     host_to_local_payload := host_to_local_payload r;
     last_flushed_qwords := last_flushed_qwords r; required_qwords := required_qwords r;
     copy := v |}.

(** The members of [GSInterface] that the register handlers and the drawing
    pipeline work on.  [tracker] and [renderer] are the calls made so far into
    the page tracker and the renderer, oldest first. *)
Record GSState := {
  registers : RegisterState;
  state_tracker : StateTracker;
  render_pass : RenderPassState;
  vertex_queue : VertexQueue;
  draw_handler : DrawHandler;
  transfer_state : TransferState;
  sync_host_vram_pages : list Z;
  sync_vram_host_pages : list Z;
  page_buffer : list Z;
  sampling_rate_x_log2 : Z;
  sampling_rate_y_log2 : Z;
  vram_size : Z;
  debug_mode : DebugMode;
  tracker : list TrackerCall;
  renderer : list BackendCall }.

Definition set_registers (v : RegisterState) (r : GSState) : GSState :=
  {| registers := v; state_tracker := state_tracker r; render_pass := render_pass r;
     vertex_queue := vertex_queue r; draw_handler := draw_handler r;
     transfer_state := transfer_state r; sync_host_vram_pages := sync_host_vram_pages r;
     sync_vram_host_pages := sync_vram_host_pages r; page_buffer := page_buffer r;
     sampling_rate_x_log2 := sampling_rate_x_log2 r;
     sampling_rate_y_log2 := sampling_rate_y_log2 r; vram_size := vram_size r;
     debug_mode := debug_mode r; tracker := tracker r; renderer := renderer r |}.
Definition set_state_tracker (v : StateTracker) (r : GSState) : GSState :=
  {| registers := registers r; state_tracker := v; render_pass := render_pass r;
     vertex_queue := vertex_queue r; draw_handler := draw_handler r;
     transfer_state := transfer_state r; sync_host_vram_pages := sync_host_vram_pages r;
     sync_vram_host_pages := sync_vram_host_pages r; page_buffer := page_buffer r;
     sampling_rate_x_log2 := sampling_rate_x_log2 r;
     sampling_rate_y_log2 := sampling_rate_y_log2 r; vram_size := vram_size r;
     debug_mode := debug_mode r; tracker := tracker r; renderer := renderer r |}.
Definition set_render_pass (v : RenderPassState) (r : GSState) : GSState :=
  {| registers := registers r; state_tracker := state_tracker r; render_pass := v;
     vertex_queue := vertex_queue r; draw_handler := draw_handler r;
     transfer_state := transfer_state r; sync_host_vram_pages := sync_host_vram_pages r;
     sync_vram_host_pages := sync_vram_host_pages r; page_buffer := page_buffer r;
     sampling_rate_x_log2 := sampling_rate_x_log2 r;
     sampling_rate_y_log2 := sampling_rate_y_log2 r; vram_size := vram_size r;
     debug_mode := debug_mode r; tracker := tracker r; renderer := renderer r |}.
Definition set_vertex_queue (v : VertexQueue) (r : GSState) : GSState :=
  {| registers := registers r; state_tracker := state_tracker r; render_pass := render_pass r;
     vertex_queue := v; draw_handler := draw_handler r; transfer_state := transfer_state r;
     sync_host_vram_pages := sync_host_vram_pages r;
     sync_vram_host_pages := sync_vram_host_pages r; page_buffer := page_buffer r;
     sampling_rate_x_log2 := sampling_rate_x_log2 r;
     sampling_rate_y_log2 := sampling_rate_y_log2 r; vram_size := vram_size r;
     debug_mode := debug_mode r; tracker := tracker r; renderer := renderer r |}.
Definition set_draw_handler (v : DrawHandler) (r : GSState) : GSState :=
  {| registers := registers r; state_tracker := state_tracker r; render_pass := render_pass r;
     vertex_queue := vertex_queue r; draw_handler := v; transfer_state := transfer_state r;
     sync_host_vram_pages := sync_host_vram_pages r;
     sync_vram_host_pages := sync_vram_host_pages r; page_buffer := page_buffer r;
     sampling_rate_x_log2 := sampling_rate_x_log2 r;
     sampling_rate_y_log2 := sampling_rate_y_log2 r; vram_size := vram_size r;
     debug_mode := debug_mode r; tracker := tracker r; renderer := renderer r |}.
Definition set_transfer_state (v : TransferState) (r : GSState) : GSState :=
  {| registers := registers r; state_tracker := state_tracker r; render_pass := render_pass r;
     vertex_queue := vertex_queue r; draw_handler := draw_handler r; transfer_state := v;
     sync_host_vram_pages := sync_host_vram_pages r;
     sync_vram_host_pages := sync_vram_host_pages r; page_buffer := page_buffer r;
     sampling_rate_x_log2 := sampling_rate_x_log2 r;
     sampling_rate_y_log2 := sampling_rate_y_log2 r; vram_size := vram_size r;
     debug_mode := debug_mode r; tracker := tracker r; renderer := renderer r |}.
Definition set_sync_host_vram_pages (v : list Z) (r : GSState) : GSState :=
  {| registers := registers r; state_tracker := state_tracker r; render_pass := render_pass r;
     vertex_queue := vertex_queue r; draw_handler := draw_handler r;
     transfer_state := transfer_state r; sync_host_vram_pages := v;
     sync_vram_host_pages := sync_vram_host_pages r; page_buffer := page_buffer r;
     sampling_rate_x_log2 := sampling_rate_x_log2 r;
     sampling_rate_y_log2 := sampling_rate_y_log2 r; vram_size := vram_size r;
     debug_mode := debug_mode r; tracker := tracker r; renderer := renderer r |}.
Definition set_sync_vram_host_pages (v : list Z) (r : GSState) : GSState :=
  {| registers := registers r; state_tracker := state_tracker r; render_pass := render_pass r;
     vertex_queue := vertex_queue r; draw_handler := draw_handler r;
     transfer_state := transfer_state r; sync_host_vram_pages := sync_host_vram_pages r;
     sync_vram_host_pages := v; page_buffer := page_buffer r;
     sampling_rate_x_log2 := sampling_rate_x_log2 r;
     sampling_rate_y_log2 := sampling_rate_y_log2 r; vram_size := vram_size r;
     debug_mode := debug_mode r; tracker := tracker r; renderer := renderer r |}.
Definition set_page_buffer (v : list Z) (r : GSState) : GSState :=
  {| registers := registers r; state_tracker := state_tracker r; render_pass := render_pass r;
     vertex_queue := vertex_queue r; draw_handler := draw_handler r;
     transfer_state := transfer_state r; sync_host_vram_pages := sync_host_vram_pages r;
     sync_vram_host_pages := sync_vram_host_pages r; page_buffer := v;
     sampling_rate_x_log2 := sampling_rate_x_log2 r;
     sampling_rate_y_log2 := sampling_rate_y_log2 r; vram_size := vram_size r;
     debug_mode := debug_mode r; tracker := tracker r; renderer := renderer r |}.
Definition set_sampling_rate_x_log2 (v : Z) (r : GSState) : GSState :=
  {| registers := registers r; state_tracker := state_tracker r; render_pass := render_pass r;
     vertex_queue := vertex_queue r; draw_handler := draw_handler r;
     transfer_state := transfer_state r; sync_host_vram_pages := sync_host_vram_pages r;
     sync_vram_host_pages := sync_vram_host_pages r; page_buffer := page_buffer r;
     sampling_rate_x_log2 := v; sampling_rate_y_log2 := sampling_rate_y_log2 r;
     vram_size := vram_size r; debug_mode := debug_mode r; tracker := tracker r;
     renderer := renderer r |}.
Definition set_sampling_rate_y_log2 (v : Z) (r : GSState) : GSState :=
  {| registers := registers r; state_tracker := state_tracker r; render_pass := render_pass r;
     vertex_queue := vertex_queue r; draw_handler := draw_handler r;
     transfer_state := transfer_state r; sync_host_vram_pages := sync_host_vram_pages r;
     sync_vram_host_pages := sync_vram_host_pages r; page_buffer := page_buffer r;
     sampling_rate_x_log2 := sampling_rate_x_log2 r; sampling_rate_y_log2 := v;
     vram_size := vram_size r; debug_mode := debug_mode r; tracker := tracker r;
     renderer := renderer r |}.
Definition set_vram_size (v : Z) (r : GSState) : GSState :=
  {| registers := registers r; state_tracker := state_tracker r; render_pass := render_pass r;
     vertex_queue := vertex_queue r; draw_handler := draw_handler r;
     transfer_state := transfer_state r; sync_host_vram_pages := sync_host_vram_pages r;
     sync_vram_host_pages := sync_vram_host_pages r; page_buffer := page_buffer r;
     sampling_rate_x_log2 := sampling_rate_x_log2 r;
     sampling_rate_y_log2 := sampling_rate_y_log2 r; vram_size := v;
     debug_mode := debug_mode r; tracker := tracker r; renderer := renderer r |}.
Definition set_debug_mode (v : DebugMode) (r : GSState) : GSState :=
  {| registers := registers r; state_tracker := state_tracker r; render_pass := render_pass r;
     vertex_queue := vertex_queue r; draw_handler := draw_handler r;
     transfer_state := transfer_state r; sync_host_vram_pages := sync_host_vram_pages r;
     sync_vram_host_pages := sync_vram_host_pages r; page_buffer := page_buffer r;
     sampling_rate_x_log2 := sampling_rate_x_log2 r;
     sampling_rate_y_log2 := sampling_rate_y_log2 r; vram_size := vram_size r; debug_mode := v;
     tracker := tracker r; renderer := renderer r |}.
Definition set_tracker (v : list TrackerCall) (r : GSState) : GSState :=
  {| registers := registers r; state_tracker := state_tracker r; render_pass := render_pass r;
     vertex_queue := vertex_queue r; draw_handler := draw_handler r;
     transfer_state := transfer_state r; sync_host_vram_pages := sync_host_vram_pages r;
     sync_vram_host_pages := sync_vram_host_pages r; page_buffer := page_buffer r;
     sampling_rate_x_log2 := sampling_rate_x_log2 r;
     sampling_rate_y_log2 := sampling_rate_y_log2 r; vram_size := vram_size r;
     debug_mode := debug_mode r; tracker := v; renderer := renderer r |}.
Definition set_renderer (v : list BackendCall) (r : GSState) : GSState :=
  {| registers := registers r; state_tracker := state_tracker r; render_pass := render_pass r;
     vertex_queue := vertex_queue r; draw_handler := draw_handler r;
     transfer_state := transfer_state r; sync_host_vram_pages := sync_host_vram_pages r;
     sync_vram_host_pages := sync_vram_host_pages r; page_buffer := page_buffer r;
     sampling_rate_x_log2 := sampling_rate_x_log2 r;
     sampling_rate_y_log2 := sampling_rate_y_log2 r; vram_size := vram_size r;
     debug_mode := debug_mode r; tracker := tracker r; renderer := v |}.

(** [GSInterface]: the state above together with the four GIF paths and the
    whole-loop handler selected for each of them.  No register handler reads or
    writes the path cursors, so the handlers are functions on [GSState] and
    [gif_transfer] applies them to the [gs] member. *)
Record GSInterface := {
  gs : GSState;
  paths : list GIFPath;
  optimized_draw_handler : list (option OptimizedPacketHandler) }.

Definition set_gs (v : GSState) (r : GSInterface) : GSInterface :=
  {| gs := v; paths := paths r; optimized_draw_handler := optimized_draw_handler r |}.
Definition set_paths (v : list GIFPath) (r : GSInterface) : GSInterface :=
  {| gs := gs r; paths := v; optimized_draw_handler := optimized_draw_handler r |}.
Definition set_optimized_draw_handler (v : list (option OptimizedPacketHandler)) (r : GSInterface) : GSInterface :=
  {| gs := gs r; paths := paths r; optimized_draw_handler := v |}.

(** Access to the members of the interface. *)
Definition upd_registers (f : RegisterState -> RegisterState) (s : GSState) :=
  set_registers (f (registers s)) s.
Definition upd_state_tracker (f : StateTracker -> StateTracker) (s : GSState) :=
  set_state_tracker (f (state_tracker s)) s.
Definition upd_render_pass (f : RenderPassState -> RenderPassState) (s : GSState) :=
  set_render_pass (f (render_pass s)) s.
Definition upd_vertex_queue (f : VertexQueue -> VertexQueue) (s : GSState) :=
  set_vertex_queue (f (vertex_queue s)) s.
Definition upd_transfer_state (f : TransferState -> TransferState) (s : GSState) :=
  set_transfer_state (f (transfer_state s)) s.

(** [registers.ctx[i]]; the index is a one-bit field. *)
Definition get_ctx (i : Z) (r : RegisterState) : ContextState :=
  if i =? 0 then ctx0 r else ctx1 r.
Definition upd_ctx (i : Z) (f : ContextState -> ContextState) (r : RegisterState) :=
  if i =? 0 then set_ctx0 (f (ctx0 r)) r else set_ctx1 (f (ctx1 r)) r.
Definition cached_cbp (i : Z) (r : RegisterState) : Z :=
  if i =? 0 then cached_cbp0 r else cached_cbp1 r.
Definition set_cached_cbp (i : Z) (v : Z) (r : RegisterState) :=
  if i =? 0 then set_cached_cbp0 v r else set_cached_cbp1 v r.

(** The context the PRIM register selects. *)
Definition current_ctx (s : GSState) : ContextState :=
  get_ctx (PRIMBits.CTXT (prim (registers s))) (registers s).

(** Array access by index; a slot outside the array is not written. *)
Fixpoint replace_nth {A} (n : nat) (x : A) (l : list A) : list A :=
  match l, n with
  | [], _ => []
  | _ :: t, O => x :: t
  | h :: t, S m => h :: replace_nth m x t
  end.
Definition get_at {A} (d : A) (i : Z) (l : list A) : A := nth (Z.to_nat i) l d.
Definition set_at {A} (i : Z) (x : A) (l : list A) : list A :=
  if i <? 0 then l else replace_nth (Z.to_nat i) x l.

Definition log_renderer (c : BackendCall) (s : GSState) : GSState :=
  set_renderer (renderer s ++ [c]) s.

Definition or_dirty (flags : Z) (s : GSState) : GSState :=
  upd_state_tracker (fun t => set_dirty_flags (Z.lor (dirty_flags t) flags) t) s.

Definition empty_bb : ivec4 :=
  {| bbx := INT32_MAX; bby := INT32_MAX; bbz := INT32_MIN; bbw := INT32_MIN |}.

(** [GSInterface::set_super_sampling_rate]: the two sampling rates of
    the mode, and the renderer is told to drop what depends on them. *)
Inductive SuperSampling := X1 | X2 | X4 | X8 | X16.

Definition set_super_sampling_rate (super_sampling : SuperSampling) (s : GSState) : GSState :=
  let '(x_log2, y_log2) :=
    match super_sampling with
    | X1 => (0, 0)
    | X2 => (0, 1)
    | X4 => (1, 1)
    | X8 => (1, 2)
    | X16 => (2, 2)
    end in
  log_renderer R_invalidate_super_sampling_state
    (set_sampling_rate_y_log2 y_log2 (set_sampling_rate_x_log2 x_log2 s)).

Section Interface.
Context {E : Externals}.

(** [GSState::flush_render_pass]: hand the accumulated pass to the
    renderer when it holds a primitive, then empty the accumulator. *)
Definition binning_cost (s : GSState) : Z :=
  let rp := render_pass s in
  let tile_width := u32 (Z.shiftr (bbz (bb rp) - bbx (bb rp)) FB_SWIZZLE_WIDTH_LOG2 + 1) in
  let tile_height := u32 (Z.shiftr (bbw (bb rp) - bby (bb rp)) FB_SWIZZLE_HEIGHT_LOG2 + 1) in
  u32 (tile_width * tile_height * primitive_count rp).

Definition coarse_tile_size_log2 (s : GSState) : Z :=
  let cost := binning_cost s in
  let log2 :=
    if cost <? 10 * 1000 then 3
    else if cost <? 10 * 1000 * 1000 then 4
    else if cost <? 100 * 1000 * 1000 then 5
    else 6 in
  if nonzero (sampling_rate_y_log2 s) && (3 <? log2) then log2 - 1 else log2.

Definition build_render_pass (reason : FlushReason) (s : GSState) : RenderPass :=
  let rp := render_pass s in
  let log2 := coarse_tile_size_log2 s in
  {| rp_positions := positions rp;
     rp_attributes := attributes rp;
     rp_prims := prims rp;
     rp_num_primitives := primitive_count rp;
     rp_fb_frame := pass_frame rp;
     rp_fb_z := pass_zbuf rp;
     rp_states := state_vectors rp;
     rp_num_states := Z.of_nat (length (state_vectors rp));
     rp_textures := tex_infos rp;
     rp_num_textures := Z.of_nat (length (tex_infos rp));
     rp_coarse_tile_size_log2 := log2;
     rp_base_x := bbx (bb rp);
     rp_base_y := bby (bb rp);
     rp_coarse_tiles_width := u32 (Z.shiftr (bbz (bb rp) - bbx (bb rp)) log2 + 1);
     rp_coarse_tiles_height := u32 (Z.shiftr (bbw (bb rp) - bby (bb rp)) log2 + 1);
     rp_feedback_texture := has_color_feedback rp;
     rp_feedback_texture_psm := feedback_psm rp;
     rp_feedback_texture_cpsm := feedback_cpsm rp;
     rp_z_sensitive := z_sensitive rp;
     rp_has_aa1 := has_aa1 rp;
     rp_has_scanmsk := has_scanmsk rp;
     rp_feedback_color := feedback_render_target (debug_mode s);
     rp_feedback_depth := feedback_render_target (debug_mode s) && z_sensitive rp;
     rp_sampling_rate_x_log2 := sampling_rate_x_log2 s;
     rp_sampling_rate_y_log2 := sampling_rate_y_log2 s;
     rp_debug_capture_stride :=
       match draw_mode (debug_mode s) with
       | DrawDebugStrided => 16
       | DrawDebugFull => 1
       | DrawDebugNone => 0
       end;
     rp_label_key := label_key rp;
     rp_flush_reason := reason |}.

Definition reset_render_pass (rp : RenderPassState) : RenderPassState :=
  set_has_scanmsk false (set_has_aa1 false (set_has_color_feedback false
  (set_z_write false (set_z_sensitive false (set_color_write_mask 0
  (set_bb empty_bb (set_pending_palette_updates 0 (set_primitive_count 0
  (set_prims [] (set_positions [] (set_attributes []
  (set_state_vectors [] (set_state_vector_map [] (set_tex_infos []
  (set_texture_map [] (set_held_images [] rp)))))))))))))))).

Definition flush_render_pass (reason : FlushReason) (s : GSState) : GSState :=
  let s1 :=
    if nonzero (primitive_count (render_pass s)) then
      upd_render_pass (fun rp => set_label_key (u32 (label_key rp + 1)) rp)
        (log_renderer (R_flush_rendering (build_render_pass reason s)) s)
    else s in
  upd_state_tracker (set_dirty_flags STATE_DIRTY_ALL_BITS)
    (upd_render_pass reset_render_pass s1).

(** [Util::for_each_bit] over the words of a page bitmap. *)
Definition bits_of_word (i : Z) (word : Z) : list Z :=
  map (fun b => i * 32 + b)
      (filter (fun b => Z.testbit word b) (map Z.of_nat (seq 0 32))).

Fixpoint collect_pages (i : Z) (words : list Z) : list Z :=
  match words with
  | [] => []
  | w :: rest => bits_of_word i w ++ collect_pages (i + 1) rest
  end.

(** [GSState::flush], the flush callback of the page tracker. *)
Definition flush_host_vram_sync (s : GSState) : GSState :=
  let pages := collect_pages 0 (sync_host_vram_pages s) in
  let s1 := set_sync_host_vram_pages (map (fun _ => 0) (sync_host_vram_pages s))
              (set_page_buffer pages s) in
  match pages with
  | [] => s1
  | _ => log_renderer (R_flush_host_vram_copy pages) s1
  end.

Definition flush_copy (flags : Z) (s : GSState) : GSState :=
  if nonzero (Z.land flags (Z.lor (Z.lor PAGE_TRACKER_FLUSH_CACHE_BIT PAGE_TRACKER_FLUSH_FB_BIT)
                                  PAGE_TRACKER_FLUSH_WRITE_BACK_BIT))
  then log_renderer R_flush_transfer s
  else log_renderer R_transfer_overlap_barrier s.

Definition flush_cache (s : GSState) : GSState :=
  upd_render_pass (set_memoized_palettes []) (log_renderer R_flush_cache_upload s).

Definition flush_write_back (s : GSState) : GSState :=
  let pages := collect_pages 0 (sync_vram_host_pages s) in
  let s1 := set_sync_vram_host_pages (map (fun _ => 0) (sync_vram_host_pages s))
              (set_page_buffer pages s) in
  match pages with
  | [] => s1
  | _ => log_renderer (R_flush_readback pages) s1
  end.

Definition when (b : bool) (f : GSState -> GSState) (s : GSState) :=
  if b then f s else s.

Definition flush (flags : Z) (reason : FlushReason) (s : GSState) : GSState :=
  let s1 := when (nonzero (Z.land flags PAGE_TRACKER_FLUSH_HOST_VRAM_SYNC_BIT)) flush_host_vram_sync s in
  let s2 := when (nonzero (Z.land flags PAGE_TRACKER_FLUSH_COPY_BIT)) (flush_copy flags) s1 in
  let s3 := when (nonzero (Z.land flags PAGE_TRACKER_FLUSH_CACHE_BIT)) flush_cache s2 in
  let s4 := when (nonzero (Z.land flags PAGE_TRACKER_FLUSH_FB_BIT)) (flush_render_pass reason) s3 in
  when (nonzero (Z.land flags PAGE_TRACKER_FLUSH_WRITE_BACK_BIT)) flush_write_back s4.

Definition set_page_bit (page_index : Z) (words : list Z) : list Z :=
  let i := page_index / 32 in
  set_at i (Z.lor (get_at 0 i words) (Z.shiftl 1 (Z.land page_index 31))) words.

Definition sync_host_vram_page (page_index : Z) (s : GSState) :=
  set_sync_host_vram_pages (set_page_bit page_index (sync_host_vram_pages s)) s.

Definition sync_vram_host_page (page_index : Z) (s : GSState) :=
  set_sync_vram_host_pages (set_page_bit page_index (sync_vram_host_pages s)) s.

Definition mark_texture_state_dirty (s : GSState) : GSState :=
  or_dirty (Z.lor STATE_DIRTY_PRIM_TEMPLATE_BIT STATE_DIRTY_TEX_BIT)
    (upd_state_tracker (set_last_texture_index UINT32_MAX) s).

(** [texture_map.find]/[emplace_replace]: the map is keyed by hash. *)
Fixpoint map_find {V} (k : Z) (m : list (Z * V)) : option V :=
  match m with
  | [] => None
  | (k', v) :: rest => if k =? k' then Some v else map_find k rest
  end.

Fixpoint map_replace {V} (k : Z) (v : V) (m : list (Z * V)) : list (Z * V) :=
  match m with
  | [] => [(k, v)]
  | (k', v') :: rest => if k =? k' then (k, v) :: rest else (k', v') :: map_replace k v rest
  end.

Definition invalidate_texture_hash (hash : Z) (clut : bool) (s : GSState) : GSState :=
  let s1 :=
    if clut then s
    else match map_find hash (texture_map (render_pass s)) with
         | Some (index, _) =>
             upd_render_pass (fun rp => set_texture_map (map_replace hash (index, false) (texture_map rp)) rp) s
         | None => s
         end in
  mark_texture_state_dirty s1.

Definition forget_in_render_pass_memoization (s : GSState) : GSState :=
  mark_texture_state_dirty (upd_render_pass (set_memoized_palettes []) s).

Definition run_callback (cb : Callback) (s : GSState) : GSState :=
  match cb with
  | Cb_flush flags reason => flush flags reason s
  | Cb_sync_host_vram_page p => sync_host_vram_page p s
  | Cb_sync_vram_host_page p => sync_vram_host_page p s
  | Cb_invalidate_texture_hash h c => invalidate_texture_hash h c s
  | Cb_forget_in_render_pass_memoization => forget_in_render_pass_memoization s
  end.

Definition run_callbacks (cbs : list Callback) (s : GSState) : GSState :=
  fold_left (fun acc cb => run_callback cb acc) cbs s.

(** A call into the page tracker: it is logged, and the callbacks the
    tracker raises while serving it run before it returns. *)
Definition call_tracker (c : TrackerCall) (s : GSState) : GSState :=
  run_callbacks (tracker_callbacks (tracker s) c) (set_tracker (tracker s ++ [c]) s).

(** ** Transfer engine *)

Definition payload_size (s : GSState) : Z :=
  Z.of_nat (length (host_to_local_payload (transfer_state s))).

Definition transfer_has_unflushed (s : GSState) : bool :=
  host_to_local_active (transfer_state s) &&
  (last_flushed_qwords (transfer_state s) <? payload_size s).

Definition transfer_dst_rect (c : VRAMCopy) : PageRect :=
  compute_page_rect (BITBLTBUFBits.DBP (copy_bitbltbuf c))
                    (TRXPOSBits.DSAX (copy_trxpos c))
                    (TRXPOSBits.DSAY (copy_trxpos c))
                    (TRXREGBits.RRW (copy_trxreg c))
                    (TRXREGBits.RRH (copy_trxreg c))
                    (BITBLTBUFBits.DBW (copy_bitbltbuf c))
                    (BITBLTBUFBits.DPSM (copy_bitbltbuf c)).

Definition transfer_src_rect (c : VRAMCopy) : PageRect :=
  compute_page_rect (BITBLTBUFBits.SBP (copy_bitbltbuf c))
                    (TRXPOSBits.SSAX (copy_trxpos c))
                    (TRXPOSBits.SSAY (copy_trxpos c))
                    (TRXREGBits.RRW (copy_trxreg c))
                    (TRXREGBits.RRH (copy_trxreg c))
                    (BITBLTBUFBits.SBW (copy_bitbltbuf c))
                    (BITBLTBUFBits.SPSM (copy_bitbltbuf c)).

Definition flush_pending_transfer (keep_alive : bool) (s : GSState) : GSState :=
  let s' :=
    if transfer_has_unflushed s then
      let dst_rect := transfer_dst_rect (copy (transfer_state s)) in
      let s1 := call_tracker (T_mark_transfer_write dst_rect) s in
      let instance := clut_instance (render_pass s1) in
      let invalidated := tracker_invalidated (tracker s1) instance in
      let s2 := call_tracker (T_invalidate_texture_cache instance) s1 in
      let s3 := when invalidated mark_texture_state_dirty s2 in
      let ts := transfer_state s3 in
      let c :=
        set_host_data_size_required (required_qwords ts * 8)
          (set_host_data_size_offset (last_flushed_qwords ts * 8)
            (set_host_data_size (payload_size s3 * 8)
              (set_host_data (host_to_local_payload ts) (copy ts)))) in
      let s4 := log_renderer (R_copy_vram c) (upd_transfer_state (set_copy c) s3) in
      upd_transfer_state (set_last_flushed_qwords (u32 (payload_size s4))) s4
    else s in
  if keep_alive then s'
  else upd_transfer_state
         (fun ts => set_host_to_local_active false
                      (set_last_flushed_qwords 0 (set_host_to_local_payload [] ts))) s'.

Definition check_pending_transfer (s : GSState) : GSState :=
  if host_to_local_active (transfer_state s) &&
     (required_qwords (transfer_state s) <=? payload_size s)
  then flush_pending_transfer false s
  else s.

Definition init_transfer (s : GSState) : GSState :=
  let s1 := flush_pending_transfer false s in
  let r := registers s1 in
  let s2 := upd_transfer_state
              (fun ts => set_copy (set_copy_bitbltbuf (bitbltbuf r)
                                    (set_copy_trxpos (trxpos r)
                                      (set_copy_trxreg (trxreg r)
                                        (set_copy_trxdir (trxdir r) (copy ts))))) ts) s1 in
  let c := copy (transfer_state s2) in
  let XDIR := TRXDIRBits.XDIR (copy_trxdir c) in
  if XDIR =? LOCAL_TO_LOCAL then
    log_renderer (R_copy_vram c)
      (call_tracker (T_mark_transfer_copy (transfer_dst_rect c) (transfer_src_rect c)) s2)
  else if XDIR =? HOST_TO_LOCAL then
    let required :=
      u32 (TRXREGBits.RRW (copy_trxreg c) * TRXREGBits.RRH (copy_trxreg c) *
           get_bits_per_pixel (BITBLTBUFBits.DPSM (copy_bitbltbuf c))) / 64 in
    upd_transfer_state
      (fun ts => set_host_to_local_active (nonzero required)
                   (set_required_qwords required ts)) s2
  else s2.

(** ** Palette upload *)

Definition palette_matches (m : MemoizedPalette) (csa : Z) (d : PaletteUploadDescriptor) : bool :=
  (memo_csa_mask m =? csa) &&
  (pal_texclut (memo_upload m) =? pal_texclut d) &&
  (pal_tex0 (memo_upload m) =? pal_tex0 d).

(** The search of the ring, newest entry first.  The argument is the ring
    reversed; the result is the distance of the hit from the newest entry.
    An entry that wrote a bank outside [csa] ends the search. *)
Fixpoint find_memoized (newest_first : list MemoizedPalette) (csa : Z)
                       (d : PaletteUploadDescriptor) : option (nat * MemoizedPalette) :=
  match newest_first with
  | [] => None
  | m :: older =>
      if nonzero (Z.land (memo_csa_mask m) (not32 csa)) then None
      else if palette_matches m csa d then Some (O, m)
      else match find_memoized older csa d with
           | Some (j, hit) => Some (S j, hit)
           | None => None
           end
  end.

Definition palette_descriptor (s : GSState) (desc : Z) (is_8bit_palette : bool)
  : PaletteUploadDescriptor :=
  let t := TEX0Bits.set_CLD 0 (TEX0Bits.set_TBW 0 (TEX0Bits.set_TCC 0
           (TEX0Bits.set_TH 0 (TEX0Bits.set_TW 0 (TEX0Bits.set_TFX 0
           (TEX0Bits.set_TBP0 0 desc)))))) in
  {| pal_texclut := texclut (registers s);
     pal_tex0 := if is_8bit_palette then TEX0Bits.set_CSA 0 t else t |}.

Definition clut_page_rect (s : GSState) (desc : Z) : PageRectCLUT :=
  let psm := TEX0Bits.PSM desc in
  let cpsm := TEX0Bits.CPSM desc in
  let is_8bit_palette := (psm =? PSMT8) || (psm =? PSMT8H) in
  let rect_layout := TEX0Bits.CSM desc =? TEX0Bits.CSM_LAYOUT_RECT in
  let palette_width :=
    if is_8bit_palette then (if rect_layout then 16 else 256)
    else (if rect_layout then 8 else 16) in
  let palette_height :=
    if is_8bit_palette then (if rect_layout then 16 else 1)
    else (if rect_layout then 4 else 1) in
  let csa0 := if is_8bit_palette then 65535 else u32 (Z.shiftl 1 (TEX0Bits.CSA desc)) in
  let csa := if cpsm =? PSMCT32 then Z.lor csa0 (u32 (Z.shiftl csa0 16)) else csa0 in
  let line := TEX0Bits.CSM desc =? TEX0Bits.CSM_LAYOUT_LINE in
  let x_offset := if line then u32 (TEXCLUTBits.COU (texclut (registers s)) * TEX0Bits.COU_SCALE) else 0 in
  let y_offset := if line then TEXCLUTBits.COV (texclut (registers s)) else 0 in
  {| clut_rect := compute_page_rect (TEX0Bits.CBP desc) x_offset y_offset
                    palette_width palette_height
                    (TEXCLUTBits.CBW (texclut (registers s))) cpsm;
     csa_mask := csa |}.

(** The CLD field of TEX0: whether the write loads the CLUT, and the
    update of [cached_cbp] that goes with it. *)
Definition clut_load_decision (ctx_index : Z) (s : GSState) : bool * GSState :=
  let desc := tex0 (get_ctx ctx_index (registers s)) in
  let CLD := TEX0Bits.CLD desc in
  if CLD =? TEX0Bits.CLD_LOAD then (true, s)
  else if (CLD =? TEX0Bits.CLD_LOAD_WRITE_CBP0) || (CLD =? TEX0Bits.CLD_LOAD_WRITE_CBP1) then
    (true, upd_registers (set_cached_cbp (Z.land CLD 1) (TEX0Bits.CBP desc)) s)
  else if (CLD =? TEX0Bits.CLD_COMPARE_LOAD_CBP0) || (CLD =? TEX0Bits.CLD_COMPARE_LOAD_CBP1) then
    (negb (cached_cbp (Z.land CLD 1) (registers s) =? TEX0Bits.CBP desc),
     upd_registers (set_cached_cbp (Z.land CLD 1) (TEX0Bits.CBP desc)) s)
  else (false, s).

(** The tail of [handle_clut_upload], from the search of the ring on. *)
Definition memoize_palette (csa : Z) (palette_desc : PaletteUploadDescriptor)
                           (s : GSState) : GSState :=
  let ring := memoized_palettes (render_pass s) in
  match find_memoized (rev ring) csa palette_desc with
  | Some (j, memoized) =>
      let s1 := when (negb (memo_clut_instance memoized =? clut_instance (render_pass s)))
                     mark_texture_state_dirty s in
      let s2 := upd_render_pass (set_clut_instance (memo_clut_instance memoized)) s1 in
      match j with
      | O => s2
      | S _ =>
          let i := (length ring - j)%nat in
          let moved := {| memo_upload := palette_desc; memo_csa_mask := csa;
                          memo_clut_instance := memo_clut_instance memoized |} in
          upd_render_pass
            (set_memoized_palettes (firstn (i - 1) ring ++ skipn i ring ++ [moved])) s2
      end
  | None =>
      let instance := renderer_palette_instance (renderer s) palette_desc in
      let s1 := log_renderer (R_update_palette_cache palette_desc) s in
      let s2 := upd_render_pass
                  (fun rp => set_pending_palette_updates (u32 (pending_palette_updates rp + 1))
                               (set_latest_clut_instance instance
                                 (set_clut_instance instance rp))) s1 in
      let s3 := mark_texture_state_dirty s2 in
      let ring3 := memoized_palettes (render_pass s3) in
      let window :=
        if Z.of_nat (length ring3) =? NumMemoizedPalettes then tl ring3 else ring3 in
      let fresh := {| memo_upload := palette_desc; memo_csa_mask := csa;
                      memo_clut_instance := instance |} in
      let s4 := upd_render_pass (set_memoized_palettes (window ++ [fresh])) s3 in
      if CLUTInstances <=? pending_palette_updates (render_pass s4)
      then call_tracker (T_flush_render_pass Overflow) s4
      else s4
  end.

Definition handle_clut_upload (ctx_index : Z) (s : GSState) : GSState :=
  let '(load_clut, s0) := clut_load_decision ctx_index s in
  if negb load_clut then s0
  else
    let desc := tex0 (get_ctx ctx_index (registers s0)) in
    let s1 := when (transfer_has_unflushed s0) (flush_pending_transfer true) s0 in
    let page := clut_page_rect s1 desc in
    let psm := TEX0Bits.PSM desc in
    let is_8bit_palette := (psm =? PSMT8) || (psm =? PSMT8H) in
    let s2 := call_tracker (T_mark_texture_read (clut_rect page)) s1 in
    let s3 := call_tracker (T_register_cached_clut_clobber page) s2 in
    memoize_palette (csa_mask page) (palette_descriptor s3 desc is_8bit_palette) s3.

Definition handle_tex0_write (ctx_index : Z) (s : GSState) : GSState :=
  handle_clut_upload ctx_index s.

Definition handle_miptbl_gen (ctx_index : Z) (s : GSState) : GSState :=
  let c := get_ctx ctx_index (registers s) in
  if negb (nonzero (TEX1Bits.MTBA (tex1 c))) then s
  else
    let base0 := TEX0Bits.TBP0 (tex0 c) in
    let W := u32 (Z.shiftl 1 (TEX0Bits.TW (tex0 c))) in
    let H := u32 (Z.shiftl 1 (TEX0Bits.TH (tex0 c))) in
    let row0 := W / 64 in
    let layout := get_data_structure (TEX0Bits.PSM (tex0 c)) in
    let blocks0 := u32 (Z.shiftr W (block_width_log2 layout) * Z.shiftr H (block_height_log2 layout)) in
    let base1 := u32 (base0 + blocks0) in
    let blocks1 := blocks0 / 4 in
    let row1 := row0 / 2 in
    let base2 := u32 (base1 + blocks1) in
    let blocks2 := blocks1 / 4 in
    let row2 := row1 / 2 in
    let base3 := u32 (base2 + blocks2) in
    let m := MIPTBPBits.set_TBW3 row2 (MIPTBPBits.set_TBP3 base3
             (MIPTBPBits.set_TBW2 row2 (MIPTBPBits.set_TBP2 base2
             (MIPTBPBits.set_TBW1 row1 (MIPTBPBits.set_TBP1 base1 (miptbl_1_3 c)))))) in
    or_dirty (Z.lor STATE_DIRTY_TEX_BIT STATE_DIRTY_PRIM_TEMPLATE_BIT)
      (upd_registers (upd_ctx ctx_index (set_miptbl_1_3 m)) s).

(** ** Vertex queue *)

Definition zero_position : VertexPosition := {| pos_x := 0; pos_y := 0; pos_z := 0 |}.
Definition zero_attribute : VertexAttribute :=
  {| attr_s := 0; attr_t := 0; attr_q := 0; attr_rgba := 0; attr_fog := 0;
     attr_u := 0; attr_v := 0 |}.

Definition queue_pos (i : Z) (s : GSState) : VertexPosition :=
  get_at zero_position i (vq_pos (vertex_queue s)).
Definition queue_attr (i : Z) (s : GSState) : VertexAttribute :=
  get_at zero_attribute i (vq_attr (vertex_queue s)).

Definition shift_vertex_queue (s : GSState) : GSState :=
  if vq_count (vertex_queue s) =? 3 then
    upd_vertex_queue
      (fun q =>
         let p1 := get_at zero_position 1 (vq_pos q) in
         let a1 := get_at zero_attribute 1 (vq_attr q) in
         let p2 := get_at zero_position 2 (vq_pos q) in
         let a2 := get_at zero_attribute 2 (vq_attr q) in
         set_vq_count 2
           (set_vq_attr (set_at 1 a2 (set_at 0 a1 (vq_attr q)))
             (set_vq_pos (set_at 1 p2 (set_at 0 p1 (vq_pos q))) q))) s
  else s.

Definition push_vertex (pos : VertexPosition) (attr : VertexAttribute) (s : GSState) :=
  upd_vertex_queue
    (fun q => set_vq_count (u32 (vq_count q + 1))
                (set_vq_attr (set_at (vq_count q) attr (vq_attr q))
                  (set_vq_pos (set_at (vq_count q) pos (vq_pos q)) q))) s.

Definition latched_attribute (fog_value : Z) (s : GSState) : VertexAttribute :=
  let r := registers s in
  {| attr_s := STBits.S (st r);
     attr_t := STBits.T (st r);
     attr_q := RGBAQBits.Q (rgbaq r);
     attr_rgba := bits 0 32 (rgbaq r);
     attr_fog := float_of_uint fog_value;
     attr_u := UVBits.U (uv r);
     attr_v := UVBits.V (uv r) |}.

Definition vertex_kick_xyz (xyz : Z) (s : GSState) : GSState :=
  let s1 := shift_vertex_queue s in
  push_vertex {| pos_x := XYZBits.X xyz; pos_y := XYZBits.Y xyz;
                 pos_z := float_of_uint (XYZBits.Zdepth xyz) |}
              (latched_attribute (FOGBits.FOG (fog (registers s1))) s1) s1.

Definition vertex_kick_xyzf (xyzf : Z) (s : GSState) : GSState :=
  let s1 := shift_vertex_queue s in
  push_vertex {| pos_x := XYZFBits.X xyzf; pos_y := XYZFBits.Y xyzf;
                 pos_z := float_of_uint (XYZFBits.Zdepth xyzf) |}
              (latched_attribute (XYZFBits.F xyzf) s1) s1.

(** ** Dirty flags *)

Definition get_and_clear_dirty_flag (flags : Z) (s : GSState) : bool * GSState :=
  let ret := nonzero (Z.land (dirty_flags (state_tracker s)) flags) in
  (ret,
   if ret
   then upd_state_tracker (fun t => set_dirty_flags (Z.ldiff (dirty_flags t) flags) t) s
   else s).

(** ** State vectors *)

Definition state_vector_eqb (a b : StateVector) : bool :=
  (blend_mode a =? blend_mode b) && (combiner a =? combiner b) &&
  (dimx_x a =? dimx_x b) && (dimx_y a =? dimx_y b).

Definition is_empty {A} (l : list A) : bool :=
  match l with [] => true | _ => false end.

Definition find_or_place_unique_state_vector (state : StateVector) (s : GSState)
  : Z * GSState :=
  let t := state_tracker s in
  if negb (is_empty (state_vectors (render_pass s))) &&
     state_vector_eqb state (last_state_vector t)
  then (last_state_index t, s)
  else
    let h := hasher_u32 [blend_mode state; combiner state; dimx_x state; dimx_y state] in
    let '(state_index, s1) :=
      match map_find h (state_vector_map (render_pass s)) with
      | Some cached_state_index => (cached_state_index, s)
      | None =>
          let index := u32 (Z.of_nat (length (state_vectors (render_pass s)))) in
          (index,
           upd_render_pass
             (fun rp => set_state_vector_map (map_replace h index (state_vector_map rp))
                          (set_state_vectors (state_vectors rp ++ [state]) rp)) s)
      end in
    (state_index,
     upd_state_tracker
       (fun t => set_last_state_index state_index (set_last_state_vector state t)) s1).

Definition flag (b : bool) (bit : Z) : Z := if b then bit else 0.
Definition shl32 (x n : Z) : Z := u32 (Z.shiftl x n).

Definition current_state_vector (s : GSState) : StateVector :=
  let r := registers s in
  let p := prim r in
  let c := current_ctx s in
  let dither := nonzero (bits 0 1 (dthe r)) in
  let alpha_test := nonzero (TESTBits.ATE (test c)) && negb (TESTBits.ATST (test c) =? 1) in
  let blending := nonzero (PRIMBits.ABE p) || nonzero (PRIMBits.AA1 p) in
  let blend :=
    Z.lor (flag dither BLEND_MODE_DTHE_BIT)
   (Z.lor (flag alpha_test
             (Z.lor BLEND_MODE_ATE_BIT
               (Z.lor (shl32 (TESTBits.ATST (test c)) BLEND_MODE_ATE_MODE_OFFSET)
                      (shl32 (TESTBits.AFAIL (test c)) BLEND_MODE_AFAIL_MODE_OFFSET))))
   (Z.lor (flag (nonzero (TESTBits.DATE (test c))) BLEND_MODE_DATE_BIT)
   (Z.lor (flag (nonzero (TESTBits.DATM (test c))) BLEND_MODE_DATM_BIT)
   (Z.lor (flag blending
             (Z.lor (shl32 (ALPHABits.A (alpha c)) BLEND_MODE_A_MODE_OFFSET)
             (Z.lor (shl32 (ALPHABits.B (alpha c)) BLEND_MODE_B_MODE_OFFSET)
             (Z.lor (shl32 (ALPHABits.C (alpha c)) BLEND_MODE_C_MODE_OFFSET)
                    (shl32 (ALPHABits.D (alpha c)) BLEND_MODE_D_MODE_OFFSET)))))
   (Z.lor (flag (nonzero (PRIMBits.ABE p)) BLEND_MODE_ABE_BIT)
   (Z.lor (flag (nonzero (bits 0 1 (pabe r))) BLEND_MODE_PABE_BIT)
   (Z.lor (flag (nonzero (bits 0 1 (colclamp r))) BLEND_MODE_COLCLAMP_BIT)
          (flag (nonzero (bits 0 1 (fba c))) BLEND_MODE_FB_ALPHA_BIT)))))))) in
  let comb :=
    Z.lor (flag (nonzero (PRIMBits.TME p))
             (Z.lor COMBINER_TME_BIT
               (Z.lor (flag (nonzero (TEX0Bits.TCC (tex0 c))) COMBINER_TCC_BIT)
                      (shl32 (TEX0Bits.TFX (tex0 c)) COMBINER_MODE_OFFSET))))
          (flag (nonzero (PRIMBits.FGE p)) COMBINER_FOG_BIT) in
  {| blend_mode := blend; combiner := comb;
     dimx_x := if dither then bits 0 32 (dimx r) else 0;
     dimx_y := if dither then bits 32 32 (dimx r) else 0 |}.

Definition drawing_kick_update_state_vector (s : GSState) : Z * GSState :=
  let '(dirty, s1) := get_and_clear_dirty_flag STATE_DIRTY_STATE_BIT s in
  if negb dirty then (last_state_index (state_tracker s1), s1)
  else find_or_place_unique_state_vector (current_state_vector s1) s1.

(** ** Texture state *)

Inductive ColorFeedbackMode := FeedbackNone | FeedbackPixel | FeedbackSliced.

Definition mark_render_pass_has_texture_feedback (tex0v : Z) (s : GSState) : GSState :=
  let rp := render_pass s in
  let s1 :=
    if has_color_feedback rp &&
       (negb (TEX0Bits.PSM tex0v =? feedback_psm rp) ||
        (is_palette_format (feedback_psm rp) &&
         negb (feedback_cpsm rp =? TEX0Bits.CPSM tex0v)))
    then call_tracker (T_flush_render_pass TextureHazard) s
    else s in
  if has_color_feedback (render_pass s1) then s1
  else
    upd_render_pass
      (fun rp =>
         set_feedback_cpsm (if is_palette_format (TEX0Bits.PSM tex0v)
                            then TEX0Bits.CPSM tex0v else 0)
           (set_feedback_psm (TEX0Bits.PSM tex0v) (set_has_color_feedback true rp))) s1.

Definition zero_page_rect : PageRect :=
  {| base_page := 0; page_width := 0; page_height := 0; page_stride := 0;
     block_mask := 0; write_mask := 0 |}.
Definition zero_level : TexLevel := {| level_base := 0; level_stride := 0 |}.

(** The hazard region of a texture that may overlap the frame buffer or
    the depth buffer is cut short just before them. *)
Definition feedback_clamped_rect (s : GSState) : PageRect :=
  let c := current_ctx s in
  let rp := render_pass s in
  let vram_pages := u32 (vram_size s) / PAGE_ALIGNMENT_BYTES in
  let tex_base_page := TEX0Bits.TBP0 (tex0 c) / BLOCKS_PER_PAGE in
  let w0 := vram_pages in
  let w1 :=
    if is_potential_color_feedback rp then
      let fb := FRAMEBits.FBP (frame c) in
      let fb_base_page := if fb <=? tex_base_page then u32 (fb + vram_pages) else fb in
      Z.min w0 (u32 (fb_base_page - tex_base_page))
    else w0 in
  let w2 :=
    if is_potential_depth_feedback rp then
      let zb := ZBUFBits.ZBP (zbuf c) in
      let z_base_page := if zb <=? tex_base_page then u32 (zb + vram_pages) else zb in
      Z.min w1 (u32 (z_base_page - tex_base_page))
    else w1 in
  {| base_page := tex_base_page; page_width := w2; page_height := 1; page_stride := 0;
     block_mask := UINT32_MAX; write_mask := UINT32_MAX |}.

Definition update_texture_level (level : Z) (s : GSState) : GSState :=
  let rp := render_pass s in
  let t := tex (state_tracker s) in
  let rect :=
    if is_potential_color_feedback rp || is_potential_depth_feedback rp
    then feedback_clamped_rect s
    else
      let l := get_at zero_level level (tex_levels t) in
      compute_page_rect (level_base l)
        (Z.shiftr (rect_x (tex_rect t)) level) (Z.shiftr (rect_y (tex_rect t)) level)
        (Z.shiftr (rect_width (tex_rect t)) level) (Z.shiftr (rect_height (tex_rect t)) level)
        (level_stride l) (TEX0Bits.PSM (tex0 (current_ctx s))) in
  let s1 := upd_state_tracker
              (fun st => set_tex (set_tex_page_rects (set_at level rect (tex_page_rects (tex st)))
                                    (tex st)) st) s in
  call_tracker (T_mark_texture_read rect) s1.

Definition read_texture_level (level : Z) (s : GSState) : GSState :=
  call_tracker
    (T_mark_texture_read (get_at zero_page_rect level (tex_page_rects (tex (state_tracker s))))) s.

(** [for (level = 0; level < tex.rect.levels; level++)] *)
Fixpoint for_levels (n : nat) (level : Z) (body : Z -> GSState -> GSState)
                    (s : GSState) : GSState :=
  match n with
  | O => s
  | S m =>
      if level <? rect_levels (tex_rect (tex (state_tracker s)))
      then for_levels m (level + 1) body (body level s)
      else s
  end.

Definition update_texture_page_rects_and_read (s : GSState) : GSState :=
  for_levels (Z.to_nat (rect_levels (tex_rect (tex (state_tracker s))))) 0 update_texture_level s.

Definition texture_page_rects_read (s : GSState) : GSState :=
  for_levels (Z.to_nat (rect_levels (tex_rect (tex (state_tracker s))))) 0 read_texture_level s.

Definition tex_rect_eqb (a b : TexRect) : bool :=
  (rect_x a =? rect_x b) && (rect_y a =? rect_y b) && (rect_width a =? rect_width b) &&
  (rect_height a =? rect_height b) && (rect_levels a =? rect_levels b).

(** Equality of texture descriptors.  Modelled from the spec: the
    operator is declared in a header that is not among the sources; "two
    descriptors compare equal iff those fields match". *)
Definition texture_descriptor_eqb (a b : TextureDescriptor) : bool :=
  (td_tex0 a =? td_tex0 b) && (td_tex1 a =? td_tex1 b) && (td_clamp a =? td_clamp b) &&
  (td_texa a =? td_texa b) && (td_miptbp1_3 a =? td_miptbp1_3 b) &&
  (td_miptbp4_6 a =? td_miptbp4_6 b) && (td_palette_bank a =? td_palette_bank b) &&
  (td_latest_palette_bank a =? td_latest_palette_bank b) && tex_rect_eqb (td_rect a) (td_rect b).

Definition zero_rect : TexRect :=
  {| rect_x := 0; rect_y := 0; rect_width := 0; rect_height := 0; rect_levels := 0 |}.

(** The descriptor before the clamp region is settled: TEX0, TEX1 and
    CLAMP of the context, the palette banks and TEXA where the format
    reads them, and the fields that only shade or only upload cleared. *)
Definition base_texture_descriptor (s : GSState) : TextureDescriptor * Z :=
  let c := current_ctx s in
  let rp := render_pass s in
  let psm := TEX0Bits.PSM (tex0 c) in
  let cpsm := TEX0Bits.CPSM (tex0 c) in
  let palette := is_palette_format psm in
  let csa0 := if (psm =? PSMT8) || (psm =? PSMT8H) then 65535 else 1 in
  let csa1 := shl32 csa0 (TEX0Bits.CSA (tex0 c)) in
  let csa := if cpsm =? PSMCT32 then Z.lor csa1 (shl32 csa1 16) else csa1 in
  let t0 := if palette then tex0 c
            else TEX0Bits.set_CSA 0 (TEX0Bits.set_CPSM 0 (tex0 c)) in
  let t1 := TEX0Bits.set_CLD 0 (TEX0Bits.set_CSM 0 (TEX0Bits.set_CBP 0
            (TEX0Bits.set_TFX 0 (TEX0Bits.set_TCC 0 t0)))) in
  let uses_texa :=
    if palette then negb (cpsm =? PSMCT32)
    else negb (psm =? PSMCT32) && negb (psm =? PSMZ32) in
  ({| td_tex0 := t1; td_tex1 := tex1 c; td_clamp := clamp c;
      td_texa := if uses_texa then texa (registers s) else 0;
      td_miptbp1_3 := 0; td_miptbp4_6 := 0;
      td_palette_bank := if palette then clut_instance rp else 0;
      td_latest_palette_bank := if palette then latest_clut_instance rp else 0;
      td_rect := zero_rect; td_hash := 0 |},
   if palette then csa else 0).

(** Whether a sliced-feedback texture is cached in the page tracker. *)
Definition sliced_cache_texture (s : GSState) (clampv : Z) (box : ivec4) : bool :=
  if PRIMBits.PRIM (prim (registers s)) =? PRIMType.Sprite then true
  else if (CLAMPBits.WMS clampv =? CLAMPBits.REGION_CLAMP) &&
          (CLAMPBits.WMT clampv =? CLAMPBits.REGION_CLAMP) then
    let hx := Z.max (CLAMPBits.MINU clampv) (bbx box) in
    let hy := Z.max (CLAMPBits.MINV clampv) (bby box) in
    let hz := Z.min (CLAMPBits.MAXU clampv) (bbz box) in
    let hw := Z.min (CLAMPBits.MAXV clampv) (bbw box) in
    (hz <? hx) || (hw <? hy)
  else false.

(** The clamp register of the descriptor. *)
Definition narrowed_clamp (clampv : Z) (uv_bb : ivec4) : Z :=
  let c1 :=
    if CLAMPBits.WMS clampv =? CLAMPBits.REGION_CLAMP then
      let minu := Z.max (CLAMPBits.MINU clampv) (Z.min (bbx uv_bb) (CLAMPBits.MAXU clampv)) in
      let c := CLAMPBits.set_MINU minu clampv in
      CLAMPBits.set_MAXU (Z.min (CLAMPBits.MAXU c) (Z.max (bbz uv_bb) (CLAMPBits.MINU c))) c
    else
      CLAMPBits.set_MAXU (bbz uv_bb)
        (CLAMPBits.set_MINU (Z.max 0 (bbx uv_bb))
          (CLAMPBits.set_WMS CLAMPBits.REGION_CLAMP clampv)) in
  if CLAMPBits.WMT c1 =? CLAMPBits.REGION_CLAMP then
    let minv := Z.max (CLAMPBits.MINV c1) (Z.min (bby uv_bb) (CLAMPBits.MAXV c1)) in
    let c := CLAMPBits.set_MINV minv c1 in
    CLAMPBits.set_MAXV (Z.min (CLAMPBits.MAXV c) (Z.max (bbw uv_bb) (CLAMPBits.MINV c))) c
  else
    CLAMPBits.set_MAXV (bbw uv_bb)
      (CLAMPBits.set_MINV (Z.max 0 (bby uv_bb))
        (CLAMPBits.set_WMT CLAMPBits.REGION_CLAMP c1)).

Definition normalized_clamp (clampv : Z) : Z :=
  let c1 :=
    if clamp_has_horizontal_region clampv then clampv
    else CLAMPBits.set_WMS CLAMPBits.CLAMP (CLAMPBits.set_MAXU 0 (CLAMPBits.set_MINU 0 clampv)) in
  if clamp_has_vertical_region c1 then c1
  else CLAMPBits.set_WMT CLAMPBits.CLAMP (CLAMPBits.set_MAXV 0 (CLAMPBits.set_MINV 0 c1)).

(** The mip levels the rectangle reaches, copied from MIPTBP1 and
    MIPTBP2 into the descriptor and into the memoized levels. *)
Definition descriptor_mip_levels (c : ContextState) (d : TextureDescriptor) : TextureDescriptor :=
  let n := rect_levels (td_rect d) in
  let m1 := miptbl_1_3 c in
  let m2 := miptbl_4_6 c in
  let a1 := if 2 <=? n then MIPTBPBits.set_TBW1 (MIPTBPBits.TBW1 m1)
                              (MIPTBPBits.set_TBP1 (MIPTBPBits.TBP1 m1) 0) else 0 in
  let b1 := if 3 <=? n then MIPTBPBits.set_TBW2 (MIPTBPBits.TBW2 m1)
                              (MIPTBPBits.set_TBP2 (MIPTBPBits.TBP2 m1) a1) else a1 in
  let c1 := if 4 <=? n then MIPTBPBits.set_TBW3 (MIPTBPBits.TBW3 m1)
                              (MIPTBPBits.set_TBP3 (MIPTBPBits.TBP3 m1) b1) else b1 in
  let a2 := if 5 <=? n then MIPTBPBits.set_TBW1 (MIPTBPBits.TBW1 m2)
                              (MIPTBPBits.set_TBP1 (MIPTBPBits.TBP1 m2) 0) else 0 in
  let b2 := if 6 <=? n then MIPTBPBits.set_TBW2 (MIPTBPBits.TBW2 m2)
                              (MIPTBPBits.set_TBP2 (MIPTBPBits.TBP2 m2) a2) else a2 in
  let c2 := if 7 <=? n then MIPTBPBits.set_TBW3 (MIPTBPBits.TBW3 m2)
                              (MIPTBPBits.set_TBP3 (MIPTBPBits.TBP3 m2) b2) else b2 in
  set_td_miptbp4_6 c2 (set_td_miptbp1_3 c1 d).

Definition memoized_levels (c : ContextState) (d : TextureDescriptor) (old : list TexLevel)
  : list TexLevel :=
  let n := rect_levels (td_rect d) in
  let m1 := miptbl_1_3 c in
  let m2 := miptbl_4_6 c in
  let put (k base stride : Z) (l : list TexLevel) :=
    if k + 1 <=? n then set_at k {| level_base := base; level_stride := stride |} l else l in
  put 6 (MIPTBPBits.TBP3 m2) (MIPTBPBits.TBW3 m2)
   (put 5 (MIPTBPBits.TBP2 m2) (MIPTBPBits.TBW2 m2)
    (put 4 (MIPTBPBits.TBP1 m2) (MIPTBPBits.TBW1 m2)
     (put 3 (MIPTBPBits.TBP3 m1) (MIPTBPBits.TBW3 m1)
      (put 2 (MIPTBPBits.TBP2 m1) (MIPTBPBits.TBW2 m1)
       (put 1 (MIPTBPBits.TBP1 m1) (MIPTBPBits.TBW1 m1)
        (set_at 0 {| level_base := TEX0Bits.TBP0 (td_tex0 d);
                     level_stride := TEX0Bits.TBW (td_tex0 d) |} old)))))).

(** The descriptor as it is hashed and compared. *)
Definition build_texture_descriptor (feedback_mode : ColorFeedbackMode) (uv_bb box : ivec4)
                                    (s : GSState) : TextureDescriptor * Z * bool :=
  let '(d0, csa) := base_texture_descriptor s in
  let sliced := match feedback_mode with FeedbackSliced => true | _ => false end in
  let cache_texture := if sliced then sliced_cache_texture s (td_clamp d0) box else true in
  let clampv :=
    if sliced && cache_texture &&
       negb (clamp_has_horizontal_repeat (td_clamp d0)) &&
       negb (clamp_has_vertical_repeat (td_clamp d0))
    then narrowed_clamp (td_clamp d0) uv_bb
    else normalized_clamp (td_clamp d0) in
  let d1 := set_td_clamp clampv d0 in
  let d2 := if tex1_mmin_has_mipmap (td_tex1 d1) then d1
            else set_td_tex1 (TEX1Bits.set_MXL 0 (td_tex1 d1)) d1 in
  let d3 := set_td_rect (compute_effective_texture_rect d2) d2 in
  let d4 := descriptor_mip_levels (current_ctx s) d3 in
  let d5 := set_td_tex1
              (TEX1Bits.set_K 0 (TEX1Bits.set_L 0 (TEX1Bits.set_MTBA 0
               (TEX1Bits.set_MMIN 0 (TEX1Bits.set_MMAG 0 (TEX1Bits.set_LCM 0 (td_tex1 d4)))))))
              d4 in
  (d5, csa, cache_texture).

Definition texture_hash (d : TextureDescriptor) : Z :=
  hasher_u64 [td_tex0 d; td_tex1 d; td_texa d; td_miptbp1_3 d; td_miptbp4_6 d;
              td_clamp d; td_palette_bank d].

(** The image of a texture that is not in the render pass yet: the one
    the page tracker holds, or a new one built by the renderer. *)
Definition acquire_texture_image (d : TextureDescriptor) (csa : Z) (cache_texture : bool)
                                 (s : GSState) : Z * TextureDescriptor * GSState :=
  let h := texture_hash d in
  match tracker_find_cached_texture (tracker s) h with
  | Some image => (image, d, s)
  | None =>
      let d' := set_td_hash h d in
      let image := renderer_cached_texture (renderer s) d' in
      let s1 := log_renderer (R_create_cached_texture d') s in
      let s2 :=
        if cache_texture then
          call_tracker
            (T_register_cached_texture (tex_page_rects (tex (state_tracker s1)))
               (rect_levels (td_rect d')) csa (clut_instance (render_pass s1)) h image) s1
        else s1 in
      (image, d', s2)
  end.

Definition drawing_kick_update_texture (feedback_mode : ColorFeedbackMode) (uv_bb box : ivec4)
                                       (s : GSState) : Z * GSState :=
  let '(dirty, s0) := get_and_clear_dirty_flag STATE_DIRTY_TEX_BIT s in
  if negb dirty then (last_texture_index (state_tracker s0), s0)
  else
    match feedback_mode with
    | FeedbackPixel =>
        let s1 := mark_render_pass_has_texture_feedback (tex0 (current_ctx s0)) s0 in
        (Z.lor (shl32 1 (TEX_TEXTURE_INDEX_BITS - 1))
               (u32 (clut_instance (render_pass s1) * 32 + TEX0Bits.CSA (tex0 (current_ctx s1)))),
         s1)
    | _ =>
        let '(d, csa, cache_texture) := build_texture_descriptor feedback_mode uv_bb box s0 in
        let s1 := upd_state_tracker
                    (fun t => set_tex (set_tex_levels (memoized_levels (current_ctx s0) d
                                                         (tex_levels (tex t)))
                                        (set_tex_rect (td_rect d) (tex t))) t) s0 in
        let s2 := when cache_texture update_texture_page_rects_and_read s1 in
        if negb (last_texture_index (state_tracker s2) =? UINT32_MAX) &&
           negb (is_empty (tex_infos (render_pass s2))) &&
           texture_descriptor_eqb (last_texture_descriptor (state_tracker s2)) d
        then (last_texture_index (state_tracker s2), s2)
        else
          let h := texture_hash d in
          let cached_index := map_find h (texture_map (render_pass s2)) in
          let '(texture_index, d', s5) :=
            match cached_index with
            | Some (index, true) => (index, d, s2)
            | _ =>
                let s3 := when (negb cache_texture) update_texture_page_rects_and_read s2 in
                let '(image, d', s4) := acquire_texture_image d csa cache_texture s3 in
                let index := u32 (Z.of_nat (length (tex_infos (render_pass s4)))) in
                let info := {| info_image := image;
                               info_width := shl32 1 (TEX0Bits.TW (td_tex0 d'));
                               info_height := shl32 1 (TEX0Bits.TH (td_tex0 d'));
                               info_clamp := td_clamp d';
                               info_rect := td_rect d' |} in
                (index, d',
                 upd_render_pass
                   (fun rp => set_held_images (held_images rp ++ [image])
                                (set_tex_infos (tex_infos rp ++ [info])
                                  (set_texture_map (map_replace h (index, true) (texture_map rp)) rp)))
                   s4)
            end in
          (texture_index,
           upd_state_tracker
             (fun t => set_last_texture_index texture_index (set_last_texture_descriptor d' t)) s5)
    end.

(** ** Primitive template *)

Definition sampler_bits (c : ContextState) : Z :=
  let mmin := TEX1Bits.MMIN (tex1 c) in
  Z.lor (flag (TEX1Bits.MMAG (tex1 c) =? TEX1Bits.LINEAR) TEX_SAMPLER_MAG_LINEAR_BIT)
 (Z.lor (flag (clamp_has_horizontal_clamp (clamp c)) TEX_SAMPLER_CLAMP_S_BIT)
 (Z.lor (flag (clamp_has_vertical_clamp (clamp c)) TEX_SAMPLER_CLAMP_T_BIT)
 (Z.lor (if mmin =? TEX1Bits.LINEAR then TEX_SAMPLER_MIN_LINEAR_BIT
         else if mmin =? TEX1Bits.NEAREST_MIPMAP_LINEAR then TEX_SAMPLER_MIPMAP_LINEAR_BIT
         else if mmin =? TEX1Bits.LINEAR_MIPMAP_NEAREST then TEX_SAMPLER_MIN_LINEAR_BIT
         else if mmin =? TEX1Bits.LINEAR_MIPMAP_LINEAR
              then Z.lor TEX_SAMPLER_MIN_LINEAR_BIT TEX_SAMPLER_MIPMAP_LINEAR_BIT
         else 0)
        (flag (tex1_mmin_has_mipmap (tex1 c))
              (shl32 (TEX1Bits.MXL (tex1 c)) TEX_MAX_MIP_LEVEL_OFFSET))))).

Definition lod_bits (c : ContextState) : Z :=
  Z.lor (Z.lor (shl32 (TEX1Bits.LCM (tex1 c)) TEX2_FIXED_LOD_OFFSET)
               (shl32 (TEX1Bits.L (tex1 c)) TEX2_L_OFFSET))
        (shl32 (TEX1Bits.K (tex1 c)) TEX2_K_OFFSET).

Definition bit32 (n : Z) : Z := shl32 1 n.

(** The per-primitive bits of the template that do not come from the
    state vector. *)
Definition template_state_bits (s : GSState) : Z :=
  let r := registers s in
  let p := prim r in
  let c := current_ctx s in
  let z_enabled := TESTBits.ZTE (test c) =? TESTBits.ZTE_ENABLED in
  let blending := nonzero (PRIMBits.ABE p) || nonzero (PRIMBits.AA1 p) in
  let color_write_needs_previous_pixels :=
    (blending &&
     ((ALPHABits.A (alpha c) =? BLEND_RGB_DEST) || (ALPHABits.B (alpha c) =? BLEND_RGB_DEST) ||
      (ALPHABits.C (alpha c) =? BLEND_ALPHA_DEST) || (ALPHABits.D (alpha c) =? BLEND_RGB_DEST))) ||
    (nonzero (TESTBits.ATE (test c)) && negb (TESTBits.ATST (test c) =? ATST_ALWAYS)) ||
    nonzero (TESTBits.DATE (test c)) ||
    nonzero (FRAMEBits.FBMSK (frame c)) ||
    is_color_feedback (render_pass s) in
  Z.lor (flag (z_enabled && test_has_z_test (test c))
              (Z.lor (bit32 STATE_BIT_Z_TEST)
                     (flag (TESTBits.ZTST (test c) =? TESTBits.ZTST_GREATER)
                           (bit32 STATE_BIT_Z_TEST_GREATER))))
 (Z.lor (flag (z_enabled && (ZBUFBits.ZMSK (zbuf c) =? 0)) (bit32 STATE_BIT_Z_WRITE))
 (Z.lor (flag (negb color_write_needs_previous_pixels) (bit32 STATE_BIT_OPAQUE))
 (Z.lor (flag (nonzero (PRIMBits.AA1 p)) (bit32 STATE_BIT_MULTISAMPLE))
 (Z.lor (flag (scanmsk_has_mask (scanmsk r))
              (bit32 (STATE_BIT_SCANMSK_EVEN + SCANMSKBits.MSK (scanmsk r) - SCANMSKBits.MSK_SKIP_EVEN)))
 (Z.lor (flag (negb (nonzero (PRIMBits.FST p))) (bit32 STATE_BIT_PERSPECTIVE))
 (Z.lor (flag (nonzero (PRIMBits.IIP p)) (bit32 STATE_BIT_IIP))
        (flag (nonzero (PRIMBits.FIX p)) (bit32 STATE_BIT_FIX)))))))).

Definition drawing_kick_update_state (feedback_mode : ColorFeedbackMode) (uv_bb box : ivec4)
                                     (s : GSState) : GSState :=
  let '(dirty, s0) := get_and_clear_dirty_flag STATE_DIRTY_PRIM_TEMPLATE_BIT s in
  if negb dirty then s0
  else
    let textured := nonzero (PRIMBits.TME (prim (registers s0))) in
    let '(texture_index, s1) :=
      if textured then drawing_kick_update_texture feedback_mode uv_bb box s0 else (0, s0) in
    let c := current_ctx s1 in
    let p_tex := if textured
                 then Z.lor (shl32 texture_index TEX_TEXTURE_INDEX_OFFSET) (sampler_bits c)
                 else 0 in
    let p_tex2 := if textured then lod_bits c else 0 in
    let '(state_index, s2) := drawing_kick_update_state_vector s1 in
    let p_state := Z.lor (shl32 state_index STATE_INDEX_BIT_OFFSET) (template_state_bits s2) in
    let s3 := upd_render_pass
                (fun rp =>
                   let rp1 := if nonzero (PRIMBits.AA1 (prim (registers s2)))
                              then set_has_aa1 true rp else rp in
                   if scanmsk_has_mask (scanmsk (registers s2))
                   then set_has_scanmsk true rp1 else rp1) s2 in
    upd_state_tracker
      (set_prim_template {| tmpl_tex := p_tex; tmpl_tex2 := p_tex2; tmpl_state := p_state |}) s3.

Definition compute_fb_rect (box : ivec4) (s : GSState) : PageRect :=
  let rp := render_pass s in
  let px := Z.shiftr (bbx box) (fb_page_width_log2 rp) in
  let py := Z.shiftr (bby box) (fb_page_height_log2 rp) in
  let pz := Z.shiftr (bbz box) (fb_page_width_log2 rp) in
  let pw := Z.shiftr (bbw box) (fb_page_height_log2 rp) in
  let stride := FRAMEBits.FBW (pass_frame rp) in
  {| base_page := u32 (FRAMEBits.FBP (pass_frame rp) + (px + py * stride));
     page_width := u32 (pz - px + 1);
     page_height := u32 (pw - py + 1);
     page_stride := stride;
     block_mask := UINT32_MAX;
     write_mask := psm_word_write_mask (FRAMEBits.PSM (pass_frame rp)) |}.

Definition compute_z_rect (box : ivec4) (s : GSState) : PageRect :=
  let rp := render_pass s in
  let px := Z.shiftr (bbx box) (z_page_width_log2 rp) in
  let py := Z.shiftr (bby box) (z_page_height_log2 rp) in
  let pz := Z.shiftr (bbz box) (z_page_width_log2 rp) in
  let pw := Z.shiftr (bbw box) (z_page_height_log2 rp) in
  let stride := FRAMEBits.FBW (pass_frame rp) in
  {| base_page := u32 (ZBUFBits.ZBP (pass_zbuf rp) + (px + py * stride));
     page_width := u32 (pz - px + 1);
     page_height := u32 (pw - py + 1);
     page_stride := stride;
     block_mask := UINT32_MAX;
     write_mask := psm_word_write_mask (ZBUFBits.PSM (pass_zbuf rp)) |}.

(** ** Degenerate draws *)

(** The test of [draw_is_degenerate] on the registers of a context. *)
Definition degenerate_scissor (c : ContextState) : bool :=
  (SCISSORBits.SCAX1 (scissor c) <? SCISSORBits.SCAX0 (scissor c)) ||
  (SCISSORBits.SCAY1 (scissor c) <? SCISSORBits.SCAY0 (scissor c)).

Definition depth_never_passes (c : ContextState) : bool :=
  (TESTBits.ZTE (test c) =? TESTBits.ZTE_ENABLED) &&
  (TESTBits.ZTST (test c) =? TESTBits.ZTST_NEVER).

Definition alpha_never_keep (c : ContextState) : bool :=
  nonzero (TESTBits.ATE (test c)) && (TESTBits.ATST (test c) =? ATST_NEVER) &&
  (TESTBits.AFAIL (test c) =? AFAIL_KEEP).

Definition writes_masked (c : ContextState) : bool :=
  let read_only_depth :=
    nonzero (ZBUFBits.ZMSK (zbuf c)) || (TESTBits.ZTE (test c) =? TESTBits.ZTE_UNDEFINED) in
  let read_only_color := FRAMEBits.FBMSK (frame c) =? UINT32_MAX in
  read_only_color && read_only_depth.

Definition draw_is_degenerate (s : GSState) : bool * GSState :=
  let '(dirty, s0) := get_and_clear_dirty_flag STATE_DIRTY_DEGENERATE_BIT s in
  if negb dirty then (degenerate_draw (state_tracker s0), s0)
  else
    let c := current_ctx s0 in
    let set_degenerate b := upd_state_tracker (set_degenerate_draw b) s0 in
    if degenerate_scissor c then (true, set_degenerate true)
    else if depth_never_passes c then (true, set_degenerate true)
    else if alpha_never_keep c then (true, set_degenerate true)
    else (writes_masked c, set_degenerate (writes_masked c)).

Definition state_is_z_sensitive (s : GSState) : bool :=
  let c := current_ctx s in
  (TESTBits.ZTE (test c) =? TESTBits.ZTE_ENABLED) &&
  (test_has_z_test (test c) || (ZBUFBits.ZMSK (zbuf c) =? 0)).

(** ** Texture feedback *)

Definition update_color_feedback_state (s : GSState) : GSState :=
  let '(dirty, s0) := get_and_clear_dirty_flag STATE_DIRTY_FEEDBACK_BIT s in
  if negb dirty then
    if is_color_feedback (render_pass s0)
    then or_dirty (Z.lor STATE_DIRTY_PRIM_TEMPLATE_BIT STATE_DIRTY_TEX_BIT) s0
    else s0
  else
    let c := current_ctx s0 in
    let s1 := upd_render_pass
                (fun rp => set_is_potential_depth_feedback false
                             (set_is_potential_color_feedback false
                               (set_is_color_feedback false rp))) s0 in
    let tex_psm := TEX0Bits.PSM (tex0 c) in
    let width := shl32 1 (TEX0Bits.TW (tex0 c)) in
    let height := shl32 1 (TEX0Bits.TH (tex0 c)) in
    if negb (nonzero (PRIMBits.TME (prim (registers s0)))) then s1
    else if (CLAMPBits.WMS (clamp c) =? CLAMPBits.REGION_REPEAT) ||
            (CLAMPBits.WMT (clamp c) =? CLAMPBits.REGION_REPEAT) then s1
    else if tex1_has_mipmap (tex1 c) then s1
    else if negb (TEX0Bits.TBP0 (tex0 c) =? u32 (FRAMEBits.FBP (frame c) * BLOCKS_PER_PAGE)) then
      let '(potential_color, potential_depth) :=
        compute_has_potential_feedback (tex0 c) (FRAMEBits.FBP (frame c))
          (ZBUFBits.ZBP (zbuf c)) (u32 (vram_size s1) / PAGE_ALIGNMENT_BYTES) in
      let rp := render_pass s1 in
      let has_z_write :=
        z_write rp || (state_is_z_sensitive s1 && (ZBUFBits.ZMSK (zbuf c) =? 0)) in
      let tex_write_mask := psm_word_write_mask tex_psm in
      let fb_write_mask := psm_word_write_mask (FRAMEBits.PSM (pass_frame rp)) in
      let z_write_mask := psm_word_write_mask (ZBUFBits.PSM (pass_zbuf rp)) in
      let color := potential_color && nonzero (Z.land tex_write_mask fb_write_mask) in
      let depth := potential_depth && nonzero (Z.land tex_write_mask z_write_mask) && has_z_write in
      upd_render_pass
        (fun rp => set_is_potential_depth_feedback depth
                     (set_is_potential_color_feedback color rp)) s1
    else if negb (TEX0Bits.TBW (tex0 c) =? FRAMEBits.FBW (frame c)) then s1
    else if negb (swizzle_compat_key tex_psm =? swizzle_compat_key (FRAMEBits.PSM (frame c))) then s1
    else if width <? u32 (FRAMEBits.FBW (frame c) * BUFFER_WIDTH_SCALE) then s1
    else if height <=? SCISSORBits.SCAY1 (scissor c) then s1
    else
      or_dirty (Z.lor STATE_DIRTY_PRIM_TEMPLATE_BIT STATE_DIRTY_TEX_BIT)
        (upd_render_pass (set_is_color_feedback true) s1).

Definition zero_ivec4 : ivec4 := {| bbx := 0; bby := 0; bbz := 0; bbw := 0 |}.

Definition vertex_uv (fst_bit : bool) (width height : Z) (a : VertexAttribute) : Z * Z :=
  if fst_bit then (attr_u a, attr_v a) else perspective_uv width height a.

(** [deduce_color_feedback_mode<quad, num_vertices>]; the second
    component is the [uv_bb] it leaves in its out-parameter. *)
Definition deduce_color_feedback_mode (quad : bool) (num_vertices : Z)
    (p0 p1 p2 : VertexPosition) (a0 a1 a2 : VertexAttribute)
    (c : ContextState) (primv : Z) (box : ivec4) : ColorFeedbackMode * ivec4 :=
  let can_feedback := (num_vertices =? 3) || (quad && (num_vertices =? 2)) in
  if negb can_feedback then (FeedbackNone, zero_ivec4)
  else
    let width := Z.shiftl 1 (TEX0Bits.TW (tex0 c)) in
    let height := Z.shiftl 1 (TEX0Bits.TH (tex0 c)) in
    let fst_bit := nonzero (PRIMBits.FST primv) in
    let needs_perspective :=
      negb fst_bit && negb quad &&
      (float_differ (attr_q a0) (attr_q a1) || float_differ (attr_q a1) (attr_q a2)) in
    let uv0 := vertex_uv fst_bit width height a0 in
    let uv1 := vertex_uv fst_bit width height a1 in
    let uv2 := if quad then (0, 0) else vertex_uv fst_bit width height a2 in
    let min3 (f : Z * Z -> Z) := if quad then Z.min (f uv0) (f uv1)
                                 else Z.min (Z.min (f uv0) (f uv1)) (f uv2) in
    let max3 (f : Z * Z -> Z) := if quad then Z.max (f uv0) (f uv1)
                                 else Z.max (Z.max (f uv0) (f uv1)) (f uv2) in
    let linear := nonzero (TEX1Bits.MMAG (tex1 c)) in
    let lo_adj := if linear then Z.shiftl 1 (SUBPIXEL_BITS - 1) else 0 in
    let hi_adj := if linear then Z.shiftl 1 SUBPIXEL_BITS - 1 else 0 in
    let uv_bb :=
      {| bbx := Z.shiftr (min3 fst - lo_adj) SUBPIXEL_BITS;
         bby := Z.shiftr (min3 snd - lo_adj) SUBPIXEL_BITS;
         bbz := Z.shiftr (max3 fst + hi_adj) SUBPIXEL_BITS;
         bbw := Z.shiftr (max3 snd + hi_adj) SUBPIXEL_BITS |} in
    let d0x := fst uv0 - pos_x p0 in
    let d0y := snd uv0 - pos_y p0 in
    let d1x := fst uv1 - pos_x p1 in
    let d1y := snd uv1 - pos_y p1 in
    let d2x := fst uv2 - pos_x p2 in
    let d2y := snd uv2 - pos_y p2 in
    let min_delta2 :=
      if quad then Z.min (Z.min d0x d1x) (Z.min d0y d1y)
      else Z.min (Z.min (Z.min d0x d1x) d2x) (Z.min (Z.min d0y d1y) d2y) in
    let max_delta2 :=
      if quad then Z.max (Z.max d0x d1x) (Z.max d0y d1y)
      else Z.max (Z.max (Z.max d0x d1x) d2x) (Z.max (Z.max d0y d1y) d2y) in
    if needs_perspective || (TEX1Bits.MMAG (tex1 c) =? TEX1Bits.LINEAR) then (FeedbackSliced, uv_bb)
    else if (CLAMPBits.WMS (clamp c) =? CLAMPBits.REGION_CLAMP) &&
            ((bbx box <? CLAMPBits.MINU (clamp c)) || (CLAMPBits.MAXU (clamp c) <? bbz box))
    then (FeedbackSliced, uv_bb)
    else if (CLAMPBits.WMT (clamp c) =? CLAMPBits.REGION_CLAMP) &&
            ((bby box <? CLAMPBits.MINV (clamp c)) || (CLAMPBits.MAXV (clamp c) <? bbw box))
    then (FeedbackSliced, uv_bb)
    else if (min_delta2 <? 0) || (Z.shiftl 1 SUBPIXEL_BITS <=? max_delta2)
    then (FeedbackSliced, uv_bb)
    else (FeedbackPixel, uv_bb).

(** ** Frame-buffer pointer recheck *)

Definition check_frame_buffer_state (s : GSState) : GSState :=
  let '(dirty, s0) := get_and_clear_dirty_flag STATE_DIRTY_FB_BIT s in
  if negb dirty then s0
  else
    let c := current_ctx s0 in
    let rp := render_pass s0 in
    let fb_delta := negb (bits 0 32 (pass_frame rp) =? bits 0 32 (frame c)) in
    let z_delta := negb (ZBUFBits.PSM (pass_zbuf rp) =? ZBUFBits.PSM (zbuf c)) ||
                   negb (ZBUFBits.ZBP (pass_zbuf rp) =? ZBUFBits.ZBP (zbuf c)) in
    let s1 :=
      if nonzero (primitive_count rp) && (fb_delta || (z_sensitive rp && z_delta))
      then call_tracker (T_flush_render_pass FBPointer) (flush_pending_transfer true s0)
      else s0 in
    let s2 :=
      if fb_delta then
        let fb_layout := get_data_structure (FRAMEBits.PSM (frame c)) in
        upd_render_pass
          (fun rp => set_pass_frame (frame c)
                       (set_fb_page_height_log2 (page_height_log2 fb_layout)
                         (set_fb_page_width_log2 (page_width_log2 fb_layout) rp))) s1
      else s1 in
    if z_delta then
      let z_layout := get_data_structure (ZBUFBits.PSM (zbuf c)) in
      upd_render_pass
        (fun rp => set_pass_zbuf (zbuf c)
                     (set_z_page_height_log2 (page_height_log2 z_layout)
                       (set_z_page_width_log2 (page_width_log2 z_layout) rp))) s2
    else s2.

(** ** Drawing kick *)

Definition offset_position (dx dy : Z) (p : VertexPosition) : VertexPosition :=
  {| pos_x := pos_x p - dx; pos_y := pos_y p - dy; pos_z := pos_z p |}.

Record PrimitiveVertices := {
  pv_pos0 : VertexPosition; pv_pos1 : VertexPosition; pv_pos2 : VertexPosition;
  pv_attr0 : VertexAttribute; pv_attr1 : VertexAttribute; pv_attr2 : VertexAttribute }.

(** The local arrays [pos] and [attr] of [drawing_kick_append].  An entry
    the primitive type does not fill is not initialised by the source; it
    is shown as zero. *)
Definition primitive_vertices (num_vertices : Z) (s : GSState) : PrimitiveVertices :=
  let c := current_ctx s in
  let off_x := XYOFFSETBits.OFX (xyoffset c) in
  let off_y := XYOFFSETBits.OFY (xyoffset c) in
  let count := vq_count (vertex_queue s) in
  if num_vertices =? 1 then
    let half := Z.shiftl 1 (SUBPIXEL_BITS - 1) in
    let p0 := offset_position (off_x + half) (off_y + half) (queue_pos (count - 1) s) in
    {| pv_pos0 := p0;
       pv_pos1 := offset_position (- Z.shiftl 1 SUBPIXEL_BITS) (- Z.shiftl 1 SUBPIXEL_BITS) p0;
       pv_pos2 := zero_position;
       pv_attr0 := queue_attr (count - 1) s;
       pv_attr1 := zero_attribute; pv_attr2 := zero_attribute |}
  else if num_vertices =? 2 then
    {| pv_pos0 := offset_position off_x off_y (queue_pos (count - 1) s);
       pv_pos1 := offset_position off_x off_y (queue_pos (count - 2) s);
       pv_pos2 := zero_position;
       pv_attr0 := queue_attr (count - 1) s;
       pv_attr1 := queue_attr (count - 2) s;
       pv_attr2 := zero_attribute |}
  else if num_vertices =? 3 then
    {| pv_pos0 := offset_position off_x off_y (queue_pos 2 s);
       pv_pos1 := offset_position off_x off_y (queue_pos 1 s);
       pv_pos2 := offset_position off_x off_y (queue_pos 0 s);
       pv_attr0 := queue_attr 2 s; pv_attr1 := queue_attr 1 s; pv_attr2 := queue_attr 0 s |}
  else
    {| pv_pos0 := zero_position; pv_pos1 := zero_position; pv_pos2 := zero_position;
       pv_attr0 := zero_attribute; pv_attr1 := zero_attribute; pv_attr2 := zero_attribute |}.

(** The bounding box of the primitive in pixels: top-left rule, line
    padding, scissor, frame-buffer width. *)
Definition primitive_bb (quad : bool) (num_vertices : Z) (v : PrimitiveVertices)
                        (s : GSState) : ivec4 :=
  let c := current_ctx s in
  let is_line := negb quad && (num_vertices =? 2) in
  let third := negb quad && negb is_line in
  let lo (f : VertexPosition -> Z) :=
    let m := Z.min (f (pv_pos0 v)) (f (pv_pos1 v)) in
    if third then Z.min (f (pv_pos2 v)) m else m in
  let hi (f : VertexPosition -> Z) :=
    let m := Z.max (f (pv_pos0 v)) (f (pv_pos1 v)) in
    if third then Z.max (f (pv_pos2 v)) m else m in
  let tighten :=
    if quad || negb (nonzero (PRIMBits.AA1 (prim (registers s))))
    then Z.shiftl 1 (SUBPIXEL_BITS - sampling_rate_y_log2 s) - 1 else 0 in
  let pad := if is_line then 1 else 0 in
  let lo_px (f : VertexPosition -> Z) := Z.shiftr (lo f + tighten) SUBPIXEL_BITS - pad in
  let hi_px (f : VertexPosition -> Z) := Z.shiftr (hi f - 1) SUBPIXEL_BITS + pad in
  let sc := scissor c in
  {| bbx := Z.max (lo_px pos_x) (SCISSORBits.SCAX0 sc);
     bby := Z.max (lo_px pos_y) (SCISSORBits.SCAY0 sc);
     bbz := Z.min (Z.min (hi_px pos_x) (SCISSORBits.SCAX1 sc))
                  (u32 (FRAMEBits.FBW (frame c) * BUFFER_WIDTH_SCALE) - 1);
     bbw := Z.min (hi_px pos_y) (SCISSORBits.SCAY1 sc) |}.

Definition clear_bit32 (n : Z) (x : Z) : Z := Z.ldiff x (bit32 n).

(** The attribute of the primitive: the template, the registers that are
    read per primitive, and the bits of the primitive type. *)
Definition primitive_attribute (quad : bool) (num_vertices : Z) (box : ivec4)
                               (s : GSState) : PrimitiveAttribute :=
  let c := current_ctx s in
  let t := prim_template (state_tracker s) in
  let is_line := negb quad && (num_vertices =? 2) in
  let st0 := tmpl_state t in
  let st1 :=
    if quad then
      clear_bit32 STATE_BIT_MULTISAMPLE
        (Z.lor (Z.lor (Z.lor st0 (bit32 STATE_BIT_PARALLELOGRAM)) (bit32 STATE_BIT_SPRITE))
               (bit32 STATE_BIT_SNAP_RASTER))
    else if is_line then
      let l := Z.lor (Z.lor st0 (bit32 STATE_BIT_PARALLELOGRAM)) (bit32 STATE_BIT_LINE) in
      if nonzero (Z.land l (bit32 STATE_BIT_MULTISAMPLE))
      then clear_bit32 STATE_BIT_Z_WRITE l else l
    else st0 in
  let st2 :=
    if num_vertices =? 1
    then Z.lor (Z.lor st1 (bit32 STATE_BIT_FIX)) (bit32 STATE_BIT_SNAP_RASTER)
    else st1 in
  {| prim_tex := tmpl_tex t;
     prim_tex2 := tmpl_tex2 t;
     prim_state := st2;
     prim_fbmsk := FRAMEBits.FBMSK (frame c);
     prim_fogcol := bits 0 32 (fogcol (registers s));
     prim_alpha := Z.lor (shl32 (ALPHABits.FIX (alpha c)) ALPHA_AFIX_OFFSET)
                         (shl32 (TESTBits.AREF (test c)) ALPHA_AREF_OFFSET);
     prim_bb := {| bbx := i16 (bbx box); bby := i16 (bby box);
                   bbz := i16 (bbz box); bbw := i16 (bbw box) |} |}.

(** Growth of the damage region of the render pass; the result says
    whether anything grew. *)
Definition expand_render_pass (box : ivec4) (s : GSState) : bool * GSState :=
  let c := current_ctx s in
  let rp := render_pass s in
  let is_z_sensitive := state_is_z_sensitive s in
  let grow_zs := negb (z_sensitive rp) && is_z_sensitive in
  let grow_zw := is_z_sensitive && (ZBUFBits.ZMSK (zbuf c) =? 0) && negb (z_write rp) in
  let mask := not32 (FRAMEBits.FBMSK (frame c)) in
  let grow_mask := negb (Z.land mask (color_write_mask rp) =? mask) in
  let gx := bbx box <? bbx (bb rp) in
  let gy := bby box <? bby (bb rp) in
  let gz := bbz (bb rp) <? bbz box in
  let gw := bbw (bb rp) <? bbw box in
  let rp1 := if grow_zs then set_z_sensitive true rp else rp in
  let rp2 := if grow_zw then set_z_write true rp1 else rp1 in
  let rp3 := if grow_mask then set_color_write_mask (Z.lor (color_write_mask rp2) mask) rp2 else rp2 in
  let rp4 := set_bb {| bbx := if gx then bbx box else bbx (bb rp);
                       bby := if gy then bby box else bby (bb rp);
                       bbz := if gz then bbz box else bbz (bb rp);
                       bbw := if gw then bbw box else bbw (bb rp) |} rp3 in
  let s1 := set_render_pass rp4 s in
  (grow_zs || grow_zw || grow_mask || gx || gy || gz || gw,
   if grow_zw then or_dirty STATE_DIRTY_FEEDBACK_BIT s1 else s1).

Definition damage_pages (s : GSState) : GSState :=
  let fb_rect := compute_fb_rect (bb (render_pass s)) s in
  let fb_rect' := {| base_page := base_page fb_rect; page_width := page_width fb_rect;
                     page_height := page_height fb_rect; page_stride := page_stride fb_rect;
                     block_mask := block_mask fb_rect;
                     write_mask := Z.land (write_mask fb_rect)
                                          (color_write_mask (render_pass s)) |} in
  let s1 := call_tracker (T_mark_fb_write fb_rect') s in
  if z_sensitive (render_pass s1) then
    let z_rect := compute_z_rect (bb (render_pass s1)) s1 in
    if z_write (render_pass s1)
    then call_tracker (T_mark_fb_write z_rect) s1
    else call_tracker (T_mark_fb_read z_rect) s1
  else s1.

Definition emit_primitive (attr : PrimitiveAttribute) (v : PrimitiveVertices)
                          (s : GSState) : GSState :=
  upd_state_tracker (set_dirty_flags 0)
    (upd_render_pass
       (fun rp =>
          set_primitive_count (u32 (primitive_count rp + 1))
            (set_attributes (attributes rp ++ [pv_attr0 v; pv_attr1 v; pv_attr2 v])
              (set_positions (positions rp ++ [pv_pos0 v; pv_pos1 v; pv_pos2 v])
                (set_prims (prims rp ++ [attr]) rp)))) s).

Definition bb_is_degenerate (box : ivec4) : bool :=
  (bbz box <? bbx box) || (bbw box <? bby box).

Definition drawing_kick_append (list_primitive fan_primitive quad : bool) (num_vertices : Z)
                               (s : GSState) : GSState :=
  let v := primitive_vertices num_vertices s in
  let box := primitive_bb quad num_vertices v s in
  if bb_is_degenerate box then s
  else
    let s1 := update_color_feedback_state s in
    let '(feedback_mode, uv_bb) :=
      if is_color_feedback (render_pass s1)
      then deduce_color_feedback_mode quad num_vertices
             (pv_pos0 v) (pv_pos1 v) (pv_pos2 v) (pv_attr0 v) (pv_attr1 v) (pv_attr2 v)
             (current_ctx s1) (prim (registers s1)) box
      else (FeedbackNone, zero_ivec4) in
    let textured := nonzero (PRIMBits.TME (prim (registers s1))) in
    let s2 := when (textured && transfer_has_unflushed s1) (flush_pending_transfer true) s1 in
    let s3 := check_frame_buffer_state s2 in
    let s4 := when (textured &&
                    (Z.land (dirty_flags (state_tracker s3)) STATE_DIRTY_TEX_BIT =? 0))
                   texture_page_rects_read s3 in
    let s5 := drawing_kick_update_state feedback_mode uv_bb box s4 in
    let attr := primitive_attribute quad num_vertices box s5 in
    let '(rp_expands, s6) := expand_render_pass box s5 in
    let s7 := when rp_expands damage_pages s6 in
    emit_primitive attr v s7.

Definition drawing_kick_maintain_queue (list_primitive fan_primitive quad : bool)
                                       (num_vertices : Z) (s : GSState) : GSState :=
  if fan_primitive then
    upd_vertex_queue
      (fun q => set_vq_count 2
                  (set_vq_attr (set_at 1 (get_at zero_attribute 2 (vq_attr q)) (vq_attr q))
                    (set_vq_pos (set_at 1 (get_at zero_position 2 (vq_pos q)) (vq_pos q)) q))) s
  else if list_primitive then upd_vertex_queue (set_vq_count 0) s
  else s.

Definition drawing_kick_primitive (list_primitive fan_primitive quad : bool) (num_vertices : Z)
                                  (adc : bool) (s : GSState) : GSState :=
  if vq_count (vertex_queue s) <? num_vertices then s
  else
    let s1 :=
      if adc then s
      else
        let '(degenerate, s0) := draw_is_degenerate s in
        if degenerate then s0
        else drawing_kick_append list_primitive fan_primitive quad num_vertices s0 in
    drawing_kick_maintain_queue list_primitive fan_primitive quad num_vertices s1.

Definition drawing_kick_invalid (adc : bool) (s : GSState) : GSState :=
  upd_vertex_queue (set_vq_count 0) s.

Definition post_draw_kick_handler (s : GSState) : GSState :=
  let rp := render_pass s in
  if (CLUTInstances <=? pending_palette_updates rp) ||
     (MaxPrimitivesPerFlush <=? primitive_count rp) ||
     (MaxTextures <=? Z.of_nat (length (tex_infos rp))) ||
     (MaxStateVectors <=? Z.of_nat (length (state_vectors rp)))
  then call_tracker (T_flush_render_pass Overflow) (flush_pending_transfer true s)
  else s.

Definition run_draw_handler (h : DrawHandler) (adc : bool) (s : GSState) : GSState :=
  match h with
  | drawing_kick_primitive_h l f q n => drawing_kick_primitive l f q n adc s
  | drawing_kick_invalid_h => drawing_kick_invalid adc s
  end.

(** [drawing_kick(adc)]: through the handler selected by the last PRIM
    write. *)
Definition drawing_kick (adc : bool) (s : GSState) : GSState :=
  post_draw_kick_handler (run_draw_handler (draw_handler s) adc s).

(** [drawing_kick<PRIM>(adc)]: the primitive type is a template argument. *)
Definition drawing_kick_for (PRIM : Z) (adc : bool) (s : GSState) : GSState :=
  let s1 :=
    if PRIM =? PRIMType.Point then drawing_kick_primitive true false true 1 adc s
    else if PRIM =? PRIMType.LineList then drawing_kick_primitive true false false 2 adc s
    else if PRIM =? PRIMType.LineStrip then drawing_kick_primitive false false false 2 adc s
    else if PRIM =? PRIMType.TriangleList then drawing_kick_primitive true false false 3 adc s
    else if PRIM =? PRIMType.TriangleStrip then drawing_kick_primitive false false false 3 adc s
    else if PRIM =? PRIMType.TriangleFan then drawing_kick_primitive false true false 3 adc s
    else if PRIM =? PRIMType.Sprite then drawing_kick_primitive true false true 2 adc s
    else s in
  post_draw_kick_handler s1.

Definition reset_vertex_queue (s : GSState) : GSState :=
  upd_vertex_queue (set_vq_count 0) s.

(** ** Register handlers *)

Definition float_one : Z := 1065353216.

Definition update_draw_handler (s : GSState) : GSState :=
  let p := PRIMBits.PRIM (prim (registers s)) in
  set_draw_handler
    (if p =? PRIMType.Point then drawing_kick_primitive_h true false true 1
     else if p =? PRIMType.LineList then drawing_kick_primitive_h true false false 2
     else if p =? PRIMType.LineStrip then drawing_kick_primitive_h false false false 2
     else if p =? PRIMType.TriangleList then drawing_kick_primitive_h true false false 3
     else if p =? PRIMType.TriangleStrip then drawing_kick_primitive_h false false false 3
     else if p =? PRIMType.TriangleFan then drawing_kick_primitive_h false true false 3
     else if p =? PRIMType.Sprite then drawing_kick_primitive_h true false true 2
     else drawing_kick_invalid_h) s.

Definition context_switch_dirty : Z :=
  Z.lor (Z.lor (Z.lor (Z.lor STATE_DIRTY_DEGENERATE_BIT STATE_DIRTY_PRIM_TEMPLATE_BIT)
                      STATE_DIRTY_TEX_BIT) STATE_DIRTY_FB_BIT) STATE_DIRTY_FEEDBACK_BIT.

Definition prim_mode_dirty : Z :=
  Z.lor (Z.lor (Z.lor STATE_DIRTY_FEEDBACK_BIT STATE_DIRTY_PRIM_TEMPLATE_BIT)
               STATE_DIRTY_TEX_BIT) STATE_DIRTY_STATE_BIT.

(** The write of the primitive mode bits shared by PRIM (AC = 1) and
    PRMODE (AC = 0). *)
Definition write_prim_mode (value : Z) (s : GSState) : GSState :=
  let old := prim (registers s) in
  let s1 := if PRIMBits.CTXT old =? PRIMBits.CTXT value then s
            else or_dirty context_switch_dirty s in
  let s2 := if old =? value then s1
            else or_dirty prim_mode_dirty (upd_registers (set_prim value) s1) in
  if nonzero (PRIMBits.TME (prim (registers s2))) then s2
  else upd_state_tracker
         (fun t => set_dirty_flags (Z.ldiff (dirty_flags t) STATE_DIRTY_TEX_BIT) t) s2.

Definition a_d_PRIM (payload : Z) (s : GSState) : GSState :=
  let prim_delta := negb (PRIMBits.PRIM (prim (registers s)) =? PRIMBits.PRIM payload) in
  let s1 :=
    if nonzero (PRMODECONTBits.AC (prmodecont (registers s)))
    then write_prim_mode payload s
    else upd_registers (fun r => set_prim (PRIMBits.set_PRIM (PRIMBits.PRIM payload) (prim r)) r) s in
  let s2 := if prim_delta then update_draw_handler s1 else s1 in
  upd_registers (set_internal_q float_one) (reset_vertex_queue s2).

Definition a_d_PRMODE (payload : Z) (s : GSState) : GSState :=
  if nonzero (PRMODECONTBits.AC (prmodecont (registers s))) then s
  else write_prim_mode
         (PRIMBits.set_PRIM (PRIMBits.PRIM (prim (registers s))) payload) s.

Definition a_d_RGBAQ (payload : Z) := upd_registers (set_rgbaq payload).
Definition a_d_RGBAQUndocumented (payload : Z) := a_d_RGBAQ payload.
Definition a_d_ST (payload : Z) := upd_registers (set_st payload).
Definition a_d_UV (payload : Z) := upd_registers (set_uv payload).
Definition a_d_FOG (payload : Z) := upd_registers (set_fog payload).
Definition a_d_FOGCOL (payload : Z) := upd_registers (set_fogcol payload).
Definition a_d_TEXCLUT (payload : Z) := upd_registers (set_texclut payload).
Definition a_d_PRMODECONT (payload : Z) := upd_registers (set_prmodecont payload).
Definition a_d_BITBLTBUF (payload : Z) := upd_registers (set_bitbltbuf payload).
Definition a_d_TRXPOS (payload : Z) := upd_registers (set_trxpos payload).
Definition a_d_TRXREG (payload : Z) := upd_registers (set_trxreg payload).
Definition a_d_XYOFFSET (i : Z) (payload : Z) := upd_registers (upd_ctx i (set_xyoffset payload)).

Definition a_d_XYZF2 (payload : Z) (s : GSState) := drawing_kick false (vertex_kick_xyzf payload s).
Definition a_d_XYZ2 (payload : Z) (s : GSState) := drawing_kick false (vertex_kick_xyz payload s).
Definition a_d_XYZF3 (payload : Z) (s : GSState) := vertex_kick_xyzf payload s.
Definition a_d_XYZ3 (payload : Z) (s : GSState) := vertex_kick_xyz payload s.

(** [update_internal_register] on a register of the file: the dirty
    flags are raised only when the value changes. *)
Definition update_global (get : RegisterState -> Z) (set : Z -> RegisterState -> RegisterState)
                         (value flags : Z) (s : GSState) : GSState :=
  if get (registers s) =? value then s
  else or_dirty flags (upd_registers (set value) s).

Definition update_context (i : Z) (get : ContextState -> Z)
                          (set : Z -> ContextState -> ContextState)
                          (value flags : Z) (s : GSState) : GSState :=
  if get (get_ctx i (registers s)) =? value then s
  else or_dirty flags (upd_registers (upd_ctx i (set value)) s).

Definition lor3 (a b c : Z) := Z.lor (Z.lor a b) c.
Definition lor4 (a b c d : Z) := Z.lor (lor3 a b c) d.

Definition a_d_TEX0 (i : Z) (payload : Z) (s : GSState) : GSState :=
  handle_miptbl_gen i
    (handle_tex0_write i
      (update_context i tex0 set_tex0 payload
         (lor4 STATE_DIRTY_FEEDBACK_BIT STATE_DIRTY_STATE_BIT
               STATE_DIRTY_PRIM_TEMPLATE_BIT STATE_DIRTY_TEX_BIT) s)).

Definition a_d_TEX2 (i : Z) (payload : Z) (s : GSState) : GSState :=
  let preserve := tex0 (get_ctx i (registers s)) in
  a_d_TEX0 i
    (TEX0Bits.set_TFX (TEX0Bits.TFX preserve) (TEX0Bits.set_TCC (TEX0Bits.TCC preserve)
     (TEX0Bits.set_TH (TEX0Bits.TH preserve) (TEX0Bits.set_TW (TEX0Bits.TW preserve)
     (TEX0Bits.set_TBW (TEX0Bits.TBW preserve)
     (TEX0Bits.set_TBP0 (TEX0Bits.TBP0 preserve) payload)))))) s.

Definition a_d_CLAMP (i : Z) (payload : Z) :=
  update_context i clamp set_clamp payload
    (lor3 STATE_DIRTY_FEEDBACK_BIT STATE_DIRTY_PRIM_TEMPLATE_BIT STATE_DIRTY_TEX_BIT).
Definition a_d_TEX1 (i : Z) (payload : Z) :=
  update_context i tex1 set_tex1 payload
    (lor3 STATE_DIRTY_FEEDBACK_BIT STATE_DIRTY_PRIM_TEMPLATE_BIT STATE_DIRTY_TEX_BIT).
Definition a_d_SCANMSK (payload : Z) :=
  update_global scanmsk set_scanmsk payload STATE_DIRTY_PRIM_TEMPLATE_BIT.
Definition a_d_MIPTBP1 (i : Z) (payload : Z) :=
  update_context i miptbl_1_3 set_miptbl_1_3 payload
    (Z.lor STATE_DIRTY_PRIM_TEMPLATE_BIT STATE_DIRTY_TEX_BIT).
Definition a_d_MIPTBP2 (i : Z) (payload : Z) :=
  update_context i miptbl_4_6 set_miptbl_4_6 payload
    (Z.lor STATE_DIRTY_PRIM_TEMPLATE_BIT STATE_DIRTY_TEX_BIT).
Definition a_d_TEXA (payload : Z) :=
  update_global texa set_texa payload (Z.lor STATE_DIRTY_PRIM_TEMPLATE_BIT STATE_DIRTY_TEX_BIT).

(** TEXFLUSH is not relied upon: the handler only traces. *)
Definition a_d_TEXFLUSH (payload : Z) (s : GSState) : GSState := s.

Definition a_d_SCISSOR (i : Z) (payload : Z) :=
  update_context i scissor set_scissor payload STATE_DIRTY_DEGENERATE_BIT.
Definition a_d_ALPHA (i : Z) (payload : Z) :=
  update_context i alpha set_alpha payload
    (Z.lor STATE_DIRTY_STATE_BIT STATE_DIRTY_PRIM_TEMPLATE_BIT).
Definition a_d_DIMX (payload : Z) :=
  update_global dimx set_dimx payload (Z.lor STATE_DIRTY_STATE_BIT STATE_DIRTY_PRIM_TEMPLATE_BIT).
Definition a_d_DTHE (payload : Z) :=
  update_global dthe set_dthe payload (Z.lor STATE_DIRTY_STATE_BIT STATE_DIRTY_PRIM_TEMPLATE_BIT).
Definition a_d_COLCLAMP (payload : Z) :=
  update_global colclamp set_colclamp payload
    (Z.lor STATE_DIRTY_STATE_BIT STATE_DIRTY_PRIM_TEMPLATE_BIT).
Definition a_d_TEST (i : Z) (payload : Z) :=
  update_context i test set_test payload
    (lor3 STATE_DIRTY_DEGENERATE_BIT STATE_DIRTY_STATE_BIT STATE_DIRTY_PRIM_TEMPLATE_BIT).
Definition a_d_PABE (payload : Z) :=
  update_global pabe set_pabe payload (Z.lor STATE_DIRTY_STATE_BIT STATE_DIRTY_PRIM_TEMPLATE_BIT).
Definition a_d_FBA (i : Z) (payload : Z) :=
  update_context i fba set_fba payload
    (Z.lor STATE_DIRTY_STATE_BIT STATE_DIRTY_PRIM_TEMPLATE_BIT).
Definition a_d_FRAME (i : Z) (payload : Z) :=
  update_context i frame set_frame payload
    (lor4 STATE_DIRTY_DEGENERATE_BIT STATE_DIRTY_FEEDBACK_BIT
          STATE_DIRTY_FB_BIT STATE_DIRTY_PRIM_TEMPLATE_BIT).
Definition a_d_ZBUF (i : Z) (payload : Z) :=
  update_context i zbuf set_zbuf payload
    (lor4 STATE_DIRTY_FEEDBACK_BIT STATE_DIRTY_DEGENERATE_BIT
          STATE_DIRTY_FB_BIT STATE_DIRTY_PRIM_TEMPLATE_BIT).

Definition a_d_TRXDIR (payload : Z) (s : GSState) : GSState :=
  init_transfer (upd_registers (set_trxdir payload) s).

Definition a_d_HWREG_multi (payload : list Z) (s : GSState) : GSState :=
  if host_to_local_active (transfer_state s) then
    check_pending_transfer
      (upd_transfer_state
         (fun ts => set_host_to_local_payload (host_to_local_payload ts ++ payload) ts) s)
  else s.

Definition a_d_HWREG (payload : Z) (s : GSState) : GSState :=
  a_d_HWREG_multi [payload] s.

Definition a_d_SIGNAL (payload : Z) (s : GSState) : GSState := s.
Definition a_d_FINISH (payload : Z) (s : GSState) : GSState := s.
Definition a_d_LABEL (payload : Z) (s : GSState) : GSState := s.
Definition reglist_nop (payload : Z) (s : GSState) : GSState := s.
Definition packed_nop (words : QWord) (s : GSState) : GSState := s.

(** The handlers under the names they have per context. *)
Definition a_d_TEX0_1 := a_d_TEX0 0.
Definition a_d_TEX0_2 := a_d_TEX0 1.
Definition a_d_CLAMP_1 := a_d_CLAMP 0.
Definition a_d_CLAMP_2 := a_d_CLAMP 1.
Definition a_d_TEX1_1 := a_d_TEX1 0.
Definition a_d_TEX1_2 := a_d_TEX1 1.
Definition a_d_TEX2_1 := a_d_TEX2 0.
Definition a_d_TEX2_2 := a_d_TEX2 1.
Definition a_d_XYOFFSET_1 := a_d_XYOFFSET 0.
Definition a_d_XYOFFSET_2 := a_d_XYOFFSET 1.
Definition a_d_MIPTBP1_1 := a_d_MIPTBP1 0.
Definition a_d_MIPTBP1_2 := a_d_MIPTBP1 1.
Definition a_d_MIPTBP2_1 := a_d_MIPTBP2 0.
Definition a_d_MIPTBP2_2 := a_d_MIPTBP2 1.
Definition a_d_SCISSOR_1 := a_d_SCISSOR 0.
Definition a_d_SCISSOR_2 := a_d_SCISSOR 1.
Definition a_d_ALPHA_1 := a_d_ALPHA 0.
Definition a_d_ALPHA_2 := a_d_ALPHA 1.
Definition a_d_TEST_1 := a_d_TEST 0.
Definition a_d_TEST_2 := a_d_TEST 1.
Definition a_d_FBA_1 := a_d_FBA 0.
Definition a_d_FBA_2 := a_d_FBA 1.
Definition a_d_FRAME_1 := a_d_FRAME 0.
Definition a_d_FRAME_2 := a_d_FRAME 1.
Definition a_d_ZBUF_1 := a_d_ZBUF 0.
Definition a_d_ZBUF_2 := a_d_ZBUF 1.

(** [ad_handlers]: the table [setup_handlers] fills from
    gs_register_addr.hpp, one [a_d_] handler per register; every other
    entry is [reglist_nop]. *)
Definition ad_handlers (addr : Z) : Z -> GSState -> GSState :=
  if addr =? RegisterAddr.PRIM then a_d_PRIM
  else if addr =? RegisterAddr.RGBAQ then a_d_RGBAQ
  else if addr =? RegisterAddr.ST then a_d_ST
  else if addr =? RegisterAddr.UV then a_d_UV
  else if addr =? RegisterAddr.XYZF2 then a_d_XYZF2
  else if addr =? RegisterAddr.XYZ2 then a_d_XYZ2
  else if addr =? RegisterAddr.TEX0_1 then a_d_TEX0_1
  else if addr =? RegisterAddr.TEX0_2 then a_d_TEX0_2
  else if addr =? RegisterAddr.CLAMP_1 then a_d_CLAMP_1
  else if addr =? RegisterAddr.CLAMP_2 then a_d_CLAMP_2
  else if addr =? RegisterAddr.FOG then a_d_FOG
  else if addr =? RegisterAddr.XYZF3 then a_d_XYZF3
  else if addr =? RegisterAddr.XYZ3 then a_d_XYZ3
  else if addr =? RegisterAddr.RGBAQUndocumented then a_d_RGBAQUndocumented
  else if addr =? RegisterAddr.TEX1_1 then a_d_TEX1_1
  else if addr =? RegisterAddr.TEX1_2 then a_d_TEX1_2
  else if addr =? RegisterAddr.TEX2_1 then a_d_TEX2_1
  else if addr =? RegisterAddr.TEX2_2 then a_d_TEX2_2
  else if addr =? RegisterAddr.XYOFFSET_1 then a_d_XYOFFSET_1
  else if addr =? RegisterAddr.XYOFFSET_2 then a_d_XYOFFSET_2
  else if addr =? RegisterAddr.PRMODECONT then a_d_PRMODECONT
  else if addr =? RegisterAddr.PRMODE then a_d_PRMODE
  else if addr =? RegisterAddr.TEXCLUT then a_d_TEXCLUT
  else if addr =? RegisterAddr.SCANMSK then a_d_SCANMSK
  else if addr =? RegisterAddr.MIPTBP1_1 then a_d_MIPTBP1_1
  else if addr =? RegisterAddr.MIPTBP1_2 then a_d_MIPTBP1_2
  else if addr =? RegisterAddr.MIPTBP2_1 then a_d_MIPTBP2_1
  else if addr =? RegisterAddr.MIPTBP2_2 then a_d_MIPTBP2_2
  else if addr =? RegisterAddr.TEXA then a_d_TEXA
  else if addr =? RegisterAddr.FOGCOL then a_d_FOGCOL
  else if addr =? RegisterAddr.TEXFLUSH then a_d_TEXFLUSH
  else if addr =? RegisterAddr.SCISSOR_1 then a_d_SCISSOR_1
  else if addr =? RegisterAddr.SCISSOR_2 then a_d_SCISSOR_2
  else if addr =? RegisterAddr.ALPHA_1 then a_d_ALPHA_1
  else if addr =? RegisterAddr.ALPHA_2 then a_d_ALPHA_2
  else if addr =? RegisterAddr.DIMX then a_d_DIMX
  else if addr =? RegisterAddr.DTHE then a_d_DTHE
  else if addr =? RegisterAddr.COLCLAMP then a_d_COLCLAMP
  else if addr =? RegisterAddr.TEST_1 then a_d_TEST_1
  else if addr =? RegisterAddr.TEST_2 then a_d_TEST_2
  else if addr =? RegisterAddr.PABE then a_d_PABE
  else if addr =? RegisterAddr.FBA_1 then a_d_FBA_1
  else if addr =? RegisterAddr.FBA_2 then a_d_FBA_2
  else if addr =? RegisterAddr.FRAME_1 then a_d_FRAME_1
  else if addr =? RegisterAddr.FRAME_2 then a_d_FRAME_2
  else if addr =? RegisterAddr.ZBUF_1 then a_d_ZBUF_1
  else if addr =? RegisterAddr.ZBUF_2 then a_d_ZBUF_2
  else if addr =? RegisterAddr.BITBLTBUF then a_d_BITBLTBUF
  else if addr =? RegisterAddr.TRXPOS then a_d_TRXPOS
  else if addr =? RegisterAddr.TRXREG then a_d_TRXREG
  else if addr =? RegisterAddr.TRXDIR then a_d_TRXDIR
  else if addr =? RegisterAddr.HWREG then a_d_HWREG
  else if addr =? RegisterAddr.SIGNAL then a_d_SIGNAL
  else if addr =? RegisterAddr.FINISH then a_d_FINISH
  else if addr =? RegisterAddr.LABEL then a_d_LABEL
  else reglist_nop.

Definition write_register (addr : Z) (payload : Z) (s : GSState) : GSState :=
  ad_handlers addr payload s.

Definition reglist_handlers (addr : Z) : Z -> GSState -> GSState :=
  if addr =? GIFAddr.PRIM then a_d_PRIM
  else if addr =? GIFAddr.RGBAQ then a_d_RGBAQ
  else if addr =? GIFAddr.ST then a_d_ST
  else if addr =? GIFAddr.UV then a_d_UV
  else if addr =? GIFAddr.XYZF2 then a_d_XYZF2
  else if addr =? GIFAddr.XYZ2 then a_d_XYZ2
  else if addr =? GIFAddr.TEX0_1 then a_d_TEX0_1
  else if addr =? GIFAddr.TEX0_2 then a_d_TEX0_2
  else if addr =? GIFAddr.CLAMP_1 then a_d_CLAMP_1
  else if addr =? GIFAddr.CLAMP_2 then a_d_CLAMP_2
  else if addr =? GIFAddr.FOG then a_d_FOG
  else if addr =? GIFAddr.XYZF3 then a_d_XYZF3
  else if addr =? GIFAddr.XYZ3 then a_d_XYZ3
  else reglist_nop.

(** ** Packed handlers *)

Definition packed_a_d_forward (Handler : Z -> GSState -> GSState)
                              (words : QWord) (s : GSState) : GSState :=
  Handler (bits 0 64 (lo words)) s.

Definition packed_RGBAQ (words : QWord) (s : GSState) : GSState :=
  upd_registers
    (fun r => set_rgbaq
                (RGBAQBits.set_Q (internal_q r)
                  (RGBAQBits.set_A (PackedRGBAQBits.A words)
                    (RGBAQBits.set_B (PackedRGBAQBits.B words)
                      (RGBAQBits.set_G (PackedRGBAQBits.G words)
                        (RGBAQBits.set_R (PackedRGBAQBits.R words) (rgbaq r)))))) r) s.

Definition packed_ST (words : QWord) (s : GSState) : GSState :=
  upd_registers
    (fun r => set_internal_q (PackedSTBits.Q words)
                (set_st (STBits.set_T (PackedSTBits.T words)
                          (STBits.set_S (PackedSTBits.S words) (st r))) r)) s.

Definition packed_UV (words : QWord) (s : GSState) : GSState :=
  upd_registers
    (fun r => set_uv (UVBits.set_V (PackedUVBits.V words)
                       (UVBits.set_U (PackedUVBits.U words) (uv r))) r) s.

Definition packed_FOG (words : QWord) (s : GSState) : GSState :=
  upd_registers (fun r => set_fog (FOGBits.set_FOG (PackedFOGBits.F words) (fog r)) r) s.

Definition xyzf_of_packed (words : QWord) : Z :=
  XYZFBits.make (PackedXYZFBits.X words) (PackedXYZFBits.Y words)
                (PackedXYZFBits.Zdepth words) (PackedXYZFBits.F words).

Definition xyz_of_packed (words : QWord) : Z :=
  XYZBits.make (PackedXYZBits.X words) (PackedXYZBits.Y words) (PackedXYZBits.Zdepth words).

(** [packed_XYZF<ADC>] and [packed_XYZ<ADC>], the entries of the packed
    dispatch table. *)
Definition packed_XYZF (ADC : bool) (words : QWord) (s : GSState) : GSState :=
  let adc := ADC || nonzero (PackedXYZFBits.ADC words) in
  drawing_kick adc (vertex_kick_xyzf (xyzf_of_packed words) s).

Definition packed_XYZ (ADC : bool) (words : QWord) (s : GSState) : GSState :=
  let adc := ADC || nonzero (PackedXYZBits.ADC words) in
  drawing_kick adc (vertex_kick_xyz (xyz_of_packed words) s).

(** [packed_XYZ<ADC, FOG, PRIM>], used by the whole-loop handlers. *)
Definition packed_XYZ_for (ADC FOG : bool) (PRIM : Z) (words : QWord) (s : GSState)
  : GSState :=
  if FOG then
    drawing_kick_for PRIM (ADC || nonzero (PackedXYZFBits.ADC words))
      (vertex_kick_xyzf (xyzf_of_packed words) s)
  else
    drawing_kick_for PRIM (ADC || nonzero (PackedXYZBits.ADC words))
      (vertex_kick_xyz (xyz_of_packed words) s).

Definition packed_handlers (addr : Z) : QWord -> GSState -> GSState :=
  if addr =? GIFAddr.PRIM then packed_a_d_forward a_d_PRIM
  else if addr =? GIFAddr.RGBAQ then packed_RGBAQ
  else if addr =? GIFAddr.ST then packed_ST
  else if addr =? GIFAddr.UV then packed_UV
  else if addr =? GIFAddr.TEX0_1 then packed_a_d_forward a_d_TEX0_1
  else if addr =? GIFAddr.TEX0_2 then packed_a_d_forward a_d_TEX0_2
  else if addr =? GIFAddr.CLAMP_1 then packed_a_d_forward a_d_CLAMP_1
  else if addr =? GIFAddr.CLAMP_2 then packed_a_d_forward a_d_CLAMP_2
  else if addr =? GIFAddr.FOG then packed_FOG
  else if addr =? GIFAddr.XYZF2 then packed_XYZF false
  else if addr =? GIFAddr.XYZ2 then packed_XYZ false
  else if addr =? GIFAddr.XYZF3 then packed_XYZF true
  else if addr =? GIFAddr.XYZ3 then packed_XYZ true
  else packed_nop.

(** ** Whole-loop handlers

    A whole-loop handler walks the quad-words that follow its pointer
    argument.  [words] is what is left of the buffer given to
    [gif_transfer]; a handler that is asked for more than is left reads
    outside the buffer, which is [None]. *)

Fixpoint packed_STQRGBAXYZ (FOG : bool) (PRIM : Z) (num_vertices : nat) (words : list QWord)
                           (s : GSState) : option GSState :=
  match num_vertices with
  | O => Some s
  | S n =>
      match words with
      | w0 :: w1 :: w2 :: rest =>
          packed_STQRGBAXYZ FOG PRIM n rest
            (packed_XYZ_for false FOG PRIM w2 (packed_RGBAQ w1 (packed_ST w0 s)))
      | _ => None
      end
  end.

Fixpoint packed_UVRGBAXYZ (FOG : bool) (PRIM : Z) (num_vertices : nat) (words : list QWord)
                          (s : GSState) : option GSState :=
  match num_vertices with
  | O => Some s
  | S n =>
      match words with
      | w0 :: w1 :: w2 :: rest =>
          packed_UVRGBAXYZ FOG PRIM n rest
            (packed_XYZ_for false FOG PRIM w2 (packed_RGBAQ w1 (packed_UV w0 s)))
      | _ => None
      end
  end.

Fixpoint packed_STXYZSTRGBAXYZ_sprite (FOG : bool) (num_sprites : nat) (words : list QWord)
                                      (s : GSState) : option GSState :=
  match num_sprites with
  | O => Some s
  | S n =>
      match words with
      | w0 :: w1 :: w2 :: w3 :: w4 :: rest =>
          packed_STXYZSTRGBAXYZ_sprite FOG n rest
            (packed_XYZ_for false FOG PRIMType.Sprite w4
              (packed_RGBAQ w3
                (packed_ST w2
                  (packed_XYZ_for false FOG PRIMType.Sprite w1 (packed_ST w0 s)))))
      | _ => None
      end
  end.

(** [packed_ADONLY<count>]: [num_writes] is [num_loops * count]. *)
Fixpoint packed_ADONLY (num_writes : nat) (words : list QWord) (s : GSState)
  : option GSState :=
  match num_writes with
  | O => Some s
  | S n =>
      match words with
      | ad :: rest =>
          packed_ADONLY n rest (write_register (PackedADBits.ADDR ad) (PackedADBits.data ad) s)
      | [] => None
      end
  end.

Definition run_optimized_handler (h : OptimizedPacketHandler) (words : list QWord)
                                 (num_loops : Z) (s : GSState) : option GSState :=
  match h with
  | packed_STQRGBAXYZ_h FOG PRIM factor =>
      packed_STQRGBAXYZ FOG PRIM (Z.to_nat (u32 (num_loops * factor))) words s
  | packed_UVRGBAXYZ_h FOG PRIM factor =>
      packed_UVRGBAXYZ FOG PRIM (Z.to_nat (u32 (num_loops * factor))) words s
  | packed_STXYZSTRGBAXYZ_sprite_h FOG =>
      packed_STXYZSTRGBAXYZ_sprite FOG (Z.to_nat num_loops) words s
  | packed_ADONLY_h count =>
      packed_ADONLY (Z.to_nat (num_loops * count)) words s
  end.

(** ** GIF paths *)

Definition upd_gs (f : GSState -> GSState) (s : GSInterface) : GSInterface :=
  set_gs (f (gs s)) s.

Definition zero_qword : QWord := {| lo := 0; hi := 0 |}.
Definition zero_path : GIFPath := {| tag := zero_qword; loop := 0; reg := 0 |}.

Definition get_path (path_index : Z) (s : GSInterface) : GIFPath :=
  get_at zero_path path_index (paths s).
Definition upd_path (path_index : Z) (f : GIFPath -> GIFPath) (s : GSInterface) : GSInterface :=
  set_paths (set_at path_index (f (get_path path_index s)) (paths s)) s.
Definition get_optimized_handler (path_index : Z) (s : GSInterface) : option OptimizedPacketHandler :=
  get_at None path_index (optimized_draw_handler s).

Definition gif_addr_mask3 (a b c : Z) : Z := lor3 a (Z.shiftl b 4) (Z.shiftl c 8).

Definition STQRGBAXYZ2_Mask := gif_addr_mask3 GIFAddr.ST GIFAddr.RGBAQ GIFAddr.XYZ2.
Definition STQRGBAXYZF2_Mask := gif_addr_mask3 GIFAddr.ST GIFAddr.RGBAQ GIFAddr.XYZF2.
Definition UVRGBAXYZ2_Mask := gif_addr_mask3 GIFAddr.UV GIFAddr.RGBAQ GIFAddr.XYZ2.
Definition UVRGBAXYZF2_Mask := gif_addr_mask3 GIFAddr.UV GIFAddr.RGBAQ GIFAddr.XYZF2.
Definition STQRGBAXYZ2_TriList_Mask :=
  lor3 STQRGBAXYZ2_Mask (Z.shiftl STQRGBAXYZ2_Mask 12) (Z.shiftl STQRGBAXYZ2_Mask 24).
Definition STQRGBAXYZF2_TriList_Mask :=
  lor3 STQRGBAXYZF2_Mask (Z.shiftl STQRGBAXYZF2_Mask 12) (Z.shiftl STQRGBAXYZF2_Mask 24).
Definition STQRGBAXYZ2_LineList_Mask :=
  Z.lor STQRGBAXYZ2_Mask (Z.shiftl STQRGBAXYZ2_Mask 12).
Definition STQRGBAXYZF2_LineList_Mask :=
  Z.lor STQRGBAXYZF2_Mask (Z.shiftl STQRGBAXYZF2_Mask 12).
Definition STXYZFSTRGBAXYZF_Mask :=
  Z.lor (Z.lor (gif_addr_mask3 GIFAddr.ST GIFAddr.XYZF2 GIFAddr.ST)
               (Z.shiftl GIFAddr.RGBAQ 12)) (Z.shiftl GIFAddr.XYZF2 16).
Definition STXYZFSTRGBAXYZ_Mask :=
  Z.lor (Z.lor (gif_addr_mask3 GIFAddr.ST GIFAddr.XYZ2 GIFAddr.ST)
               (Z.shiftl GIFAddr.RGBAQ 12)) (Z.shiftl GIFAddr.XYZ2 16).
Definition ad_only_mask := u64 (GIFAddr.A_D * 1229782938247303441).

(** The handler [update_optimized_gif_handler] selects for a tag, given
    the primitive type in the PRIM register. *)
Definition select_optimized_handler (t : QWord) (primitive : Z) : option OptimizedPacketHandler :=
  if negb (GIFTagBits.FLG t =? GIFTagBits.PACKED) || (GIFTagBits.NLOOP t =? 0) then None
  else
    let nreg := GIFTagBits.NREG t in
    let regs := GIFTagBits.REGS t in
    if (nreg =? 3) && (Z.land regs 4095 =? STQRGBAXYZ2_Mask)
    then Some (packed_STQRGBAXYZ_h false primitive 1)
    else if (nreg =? 3) && (Z.land regs 4095 =? STQRGBAXYZF2_Mask)
    then Some (packed_STQRGBAXYZ_h true primitive 1)
    else if (nreg =? 3) && (Z.land regs 4095 =? UVRGBAXYZ2_Mask)
    then Some (packed_UVRGBAXYZ_h false primitive 1)
    else if (nreg =? 3) && (Z.land regs 4095 =? UVRGBAXYZF2_Mask)
    then Some (packed_UVRGBAXYZ_h true primitive 1)
    else if (nreg =? 5) && (Z.land regs 1048575 =? STXYZFSTRGBAXYZF_Mask) &&
            (primitive =? PRIMType.Sprite)
    then Some (packed_STXYZSTRGBAXYZ_sprite_h true)
    else if (nreg =? 5) && (Z.land regs 1048575 =? STXYZFSTRGBAXYZ_Mask) &&
            (primitive =? PRIMType.Sprite)
    then Some (packed_STXYZSTRGBAXYZ_sprite_h false)
    else if (nreg =? 6) && (Z.land regs 16777215 =? STQRGBAXYZ2_LineList_Mask) &&
            (primitive =? PRIMType.LineList)
    then Some (packed_STQRGBAXYZ_h false PRIMType.LineList 2)
    else if (nreg =? 6) && (Z.land regs 16777215 =? STQRGBAXYZF2_LineList_Mask) &&
            (primitive =? PRIMType.LineList)
    then Some (packed_STQRGBAXYZ_h true PRIMType.LineList 2)
    else if (nreg =? 9) && (Z.land regs 68719476735 =? STQRGBAXYZ2_TriList_Mask) &&
            (primitive =? PRIMType.TriangleList)
    then Some (packed_STQRGBAXYZ_h false PRIMType.TriangleList 3)
    else if (nreg =? 9) && (Z.land regs 68719476735 =? STQRGBAXYZF2_TriList_Mask) &&
            (primitive =? PRIMType.TriangleList)
    then Some (packed_STQRGBAXYZ_h true PRIMType.TriangleList 3)
    else
      let reg_mask := if nreg =? 0 then UINT64_MAX else Z.shiftl 1 (nreg * 4) - 1 in
      if Z.land regs reg_mask =? Z.land ad_only_mask reg_mask
      then Some (packed_ADONLY_h (if nreg =? 0 then 16 else nreg))
      else None.

Definition update_optimized_gif_handler (path_index : Z) (s : GSInterface) : GSInterface :=
  set_optimized_draw_handler
    (set_at path_index
       (select_optimized_handler (tag (get_path path_index s))
                                 (PRIMBits.PRIM (prim (registers (gs s)))))
       (optimized_draw_handler s)) s.

(** ** gif_transfer

    The transfer is a list of quad-words; [words] is the part of it from
    index [i] on and [size] its whole length in quad-words.  One
    iteration of the loop takes one of five branches. *)

Inductive GIFBranch :=
| BranchTag | BranchOptimized | BranchPacked | BranchReglist | BranchImage.

Record Iteration := {
  it_branch : GIFBranch;
  it_state : GSInterface;
  it_rest : list QWord;
  it_nreg : Z }.

Definition tag_nreg (t : QWord) : Z :=
  if GIFTagBits.NREG t =? 0 then 16 else GIFTagBits.NREG t.

Definition needs_gif_tag (path_index : Z) (s : GSInterface) : bool :=
  loop (get_path path_index s) =? GIFTagBits.NLOOP (tag (get_path path_index s)).

Definition gif_tag_branch (path_index : Z) (q : QWord) (rest : list QWord)
                          (s : GSInterface) : Iteration :=
  let s1 := upd_path path_index (set_tag q) s in
  let t := tag (get_path path_index s1) in
  let s2 := if (GIFTagBits.FLG t =? GIFTagBits.PACKED) && nonzero (GIFTagBits.PRE t)
            then upd_gs (a_d_PRIM (GIFTagBits.PRIM t)) s1 else s1 in
  let s3 := update_optimized_gif_handler path_index s2 in
  let s4 := upd_path path_index (fun p => set_reg 0 (set_loop 0 p)) s3 in
  {| it_branch := BranchTag; it_state := s4; it_rest := rest;
     it_nreg := tag_nreg (tag (get_path path_index s4)) |}.

Definition nloops_to_run (path_index : Z) (size nreg : Z) (s : GSInterface) : Z :=
  let p := get_path path_index s in
  Z.min (u32 (size / nreg)) (u32 (GIFTagBits.NLOOP (tag p) - loop p)).

Definition gif_optimized_branch (path_index : Z) (h : OptimizedPacketHandler)
                                (size : Z) (words : list QWord) (nreg : Z)
                                (s : GSInterface) : option Iteration :=
  let n := nloops_to_run path_index size nreg s in
  match run_optimized_handler h words n (gs s) with
  | None => None
  | Some g =>
      Some {| it_branch := BranchOptimized;
              it_state := upd_path path_index (fun p => set_loop (u32 (loop p + n)) p)
                            (set_gs g s);
              it_rest := skipn (Z.to_nat (u32 (n * nreg))) words;
              it_nreg := nreg |}
  end.

Definition next_gif_addr (path_index : Z) (s : GSInterface) : Z :=
  let p := get_path path_index s in
  Z.land (u32 (Z.shiftr (GIFTagBits.REGS (tag p)) (4 * reg p))) 15.

Definition advance_reg (path_index : Z) (s : GSInterface) : GSInterface :=
  upd_path path_index (fun p => set_reg (u32 (reg p + 1)) p) s.

Definition close_loop (path_index : Z) (nreg : Z) (s : GSInterface) : GSInterface :=
  if reg (get_path path_index s) =? nreg
  then upd_path path_index (fun p => set_reg 0 (set_loop (u32 (loop p + 1)) p)) s
  else s.

(** The register write of one PACKED quad-word. *)
Definition packed_dispatch (addr : Z) (q : QWord) (g : GSState) : GSState :=
  if addr =? GIFAddr.A_D
  then write_register (PackedADBits.ADDR q) (PackedADBits.data q) g
  else packed_handlers addr q g.

Definition gif_packed_branch (path_index : Z) (q : QWord) (rest : list QWord) (nreg : Z)
                             (s : GSInterface) : Iteration :=
  let addr := next_gif_addr path_index s in
  let s1 := advance_reg path_index s in
  let s2 := upd_gs (packed_dispatch addr q) s1 in
  {| it_branch := BranchPacked; it_state := close_loop path_index nreg s2;
     it_rest := rest; it_nreg := nreg |}.

(** One of the two register writes of a REGLIST quad-word; the first
    component tells whether the write closed a loop. *)
Definition reglist_write (path_index : Z) (word : Z) (nreg : Z) (s : GSInterface)
  : bool * GSInterface :=
  let addr := next_gif_addr path_index s in
  let s1 := upd_gs (reglist_handlers addr word) (advance_reg path_index s) in
  (reg (get_path path_index s1) =? nreg, close_loop path_index nreg s1).

Definition gif_reglist_branch (path_index : Z) (q : QWord) (rest : list QWord) (nreg : Z)
                              (s : GSInterface) : Iteration :=
  let '(end_of_loop, s1) := reglist_write path_index (bits 0 64 (lo q)) nreg s in
  let s2 := if end_of_loop && needs_gif_tag path_index s1
            then s1
            else snd (reglist_write path_index (bits 0 64 (hi q)) nreg s1) in
  {| it_branch := BranchReglist; it_state := s2; it_rest := rest; it_nreg := nreg |}.

Definition qwords_to_words (l : list QWord) : list Z :=
  flat_map (fun q => [bits 0 64 (lo q); bits 0 64 (hi q)]) l.

Definition image_loops (path_index : Z) (words : list QWord) (s : GSInterface) : Z :=
  let p := get_path path_index s in
  Z.min (Z.of_nat (length words)) (u32 (GIFTagBits.NLOOP (tag p) - loop p)).

Definition gif_image_branch (path_index : Z) (words : list QWord) (nreg : Z)
                            (s : GSInterface) : Iteration :=
  let num_loops := image_loops path_index words s in
  let s1 := upd_gs (a_d_HWREG_multi (qwords_to_words (firstn (Z.to_nat num_loops) words))) s in
  {| it_branch := BranchImage;
     it_state := upd_path path_index (fun p => set_loop (u32 (loop p + num_loops)) p) s1;
     it_rest := skipn (Z.to_nat num_loops) words;
     it_nreg := nreg |}.

(** The branches that dispatch one register at a time. *)
Definition gif_generic_branch (path_index : Z) (q : QWord) (rest : list QWord)
                              (nreg : Z) (s : GSInterface) : Iteration :=
  let p := get_path path_index s in
  if GIFTagBits.FLG (tag p) =? GIFTagBits.PACKED
  then gif_packed_branch path_index q rest nreg s
  else if GIFTagBits.FLG (tag p) =? GIFTagBits.REGLIST
  then gif_reglist_branch path_index q rest nreg s
  else gif_image_branch path_index (q :: rest) nreg s.

(** The body of the loop of [gif_transfer] at a quad-word [q] followed
    by [rest]. *)
Definition gif_iteration (path_index : Z) (size : Z) (q : QWord) (rest : list QWord)
                         (nreg : Z) (s : GSInterface) : option Iteration :=
  if needs_gif_tag path_index s then Some (gif_tag_branch path_index q rest s)
  else
    match get_optimized_handler path_index s with
    | Some h =>
        if reg (get_path path_index s) =? 0
        then gif_optimized_branch path_index h size (q :: rest) nreg s
        else Some (gif_generic_branch path_index q rest nreg s)
    | None => Some (gif_generic_branch path_index q rest nreg s)
    end.

(** What a call of [gif_transfer] comes to: it returns, or it reads
    outside the buffer it was given, or the loop is still running when
    the fuel is spent. *)
Inductive Outcome :=
| Returned (s : GSInterface)
| ReadsOutsideBuffer
| OutOfFuel.

Fixpoint gif_transfer_loop (fuel : nat) (path_index : Z) (size : Z) (words : list QWord)
                           (nreg : Z) (s : GSInterface) : Outcome :=
  match words with
  | [] => Returned s
  | q :: rest =>
      match fuel with
      | O => OutOfFuel
      | S fuel' =>
          match gif_iteration path_index size q rest nreg s with
          | None => ReadsOutsideBuffer
          | Some it =>
              gif_transfer_loop fuel' path_index size (it_rest it) (it_nreg it) (it_state it)
          end
      end
  end.

(** [gif_transfer(path_index, data, size)] with [size = 16 * length data]. *)
Definition gif_transfer (fuel : nat) (path_index : Z) (data : list QWord)
                        (s : GSInterface) : Outcome :=
  gif_transfer_loop fuel path_index (Z.of_nat (length data)) data
    (tag_nreg (tag (get_path path_index s))) s.

(** ** The rest of the public interface *)

(** [GSInterface::flush()], the explicit flush. *)
Definition flush_submission (g : GSState) : GSState :=
  let g1 := flush_pending_transfer true g in
  let timeline := tracker_submission_timeline (tracker g1) in
  log_renderer (R_flush_submit timeline) (call_tracker T_mark_submission_timeline g1).

Definition clobber_register_state (s : GSInterface) : GSInterface :=
  update_optimized_gif_handler 3
    (update_optimized_gif_handler 2
      (update_optimized_gif_handler 1
        (update_optimized_gif_handler 0
          (upd_gs (fun g => update_draw_handler
                              (upd_state_tracker (set_dirty_flags STATE_DIRTY_ALL_BITS) g)) s)))).

End Interface.

(** ** A configuration to run the model on

    Concrete values for the parameters, used where a statement is
    evaluated on an input: small limits, one bit per flag, linear page
    geometry, and a page tracker that never meets a hazard and raises a
    callback only for the two explicit flush requests. *)

Definition quiet_tracker (history : list TrackerCall) (c : TrackerCall) : list Callback :=
  match c with
  | T_flush_render_pass reason => [Cb_flush PAGE_TRACKER_FLUSH_FB_ALL reason]
  | T_mark_submission_timeline =>
      [Cb_flush (Z.lor PAGE_TRACKER_FLUSH_FB_ALL PAGE_TRACKER_FLUSH_WRITE_BACK_BIT)
                SubmissionFlush]
  | _ => []
  end.

Definition linear_page_rect (base_block x y w h stride psm : Z) : PageRect :=
  {| base_page := base_block / BLOCKS_PER_PAGE;
     page_width := (x + w - 1) / 64 - x / 64 + 1;
     page_height := (y + h - 1) / 32 - y / 32 + 1;
     page_stride := stride;
     block_mask := UINT32_MAX;
     write_mask := UINT32_MAX |}.

Definition count_palette_uploads (calls : list BackendCall) : Z :=
  Z.of_nat (length (filter (fun c => match c with R_update_palette_cache _ => true | _ => false end)
                           calls)).

Definition count_cached_textures (calls : list BackendCall) : Z :=
  Z.of_nat (length (filter (fun c => match c with R_create_cached_texture _ => true | _ => false end)
                           calls)).

Definition sample_externals : Externals :=
  {| MaxPrimitivesPerFlush := 3;
     MaxTextures := 4;
     MaxStateVectors := 4;
     CLUTInstances := 4;
     NumMemoizedPalettes := 8;
     BLEND_MODE_DTHE_BIT := 1;
     BLEND_MODE_ATE_BIT := 2;
     BLEND_MODE_ATE_MODE_OFFSET := 2;
     BLEND_MODE_AFAIL_MODE_OFFSET := 5;
     BLEND_MODE_DATE_BIT := 128;
     BLEND_MODE_DATM_BIT := 256;
     BLEND_MODE_A_MODE_OFFSET := 9;
     BLEND_MODE_B_MODE_OFFSET := 11;
     BLEND_MODE_C_MODE_OFFSET := 13;
     BLEND_MODE_D_MODE_OFFSET := 15;
     BLEND_MODE_ABE_BIT := 131072;
     BLEND_MODE_PABE_BIT := 262144;
     BLEND_MODE_COLCLAMP_BIT := 524288;
     BLEND_MODE_FB_ALPHA_BIT := 1048576;
     COMBINER_TME_BIT := 1;
     COMBINER_TCC_BIT := 2;
     COMBINER_MODE_OFFSET := 2;
     COMBINER_FOG_BIT := 16;
     TEX_TEXTURE_INDEX_OFFSET := 0;
     TEX_TEXTURE_INDEX_BITS := 16;
     TEX_SAMPLER_MAG_LINEAR_BIT := 65536;
     TEX_SAMPLER_MIN_LINEAR_BIT := 131072;
     TEX_SAMPLER_MIPMAP_LINEAR_BIT := 262144;
     TEX_SAMPLER_CLAMP_S_BIT := 524288;
     TEX_SAMPLER_CLAMP_T_BIT := 1048576;
     TEX_MAX_MIP_LEVEL_OFFSET := 21;
     TEX2_FIXED_LOD_OFFSET := 0;
     TEX2_L_OFFSET := 1;
     TEX2_K_OFFSET := 3;
     STATE_INDEX_BIT_OFFSET := 16;
     STATE_BIT_Z_TEST := 0;
     STATE_BIT_Z_TEST_GREATER := 1;
     STATE_BIT_Z_WRITE := 2;
     STATE_BIT_OPAQUE := 3;
     STATE_BIT_MULTISAMPLE := 4;
     STATE_BIT_SCANMSK_EVEN := 5;
     STATE_BIT_PERSPECTIVE := 7;
     STATE_BIT_IIP := 8;
     STATE_BIT_FIX := 9;
     STATE_BIT_PARALLELOGRAM := 10;
     STATE_BIT_SPRITE := 11;
     STATE_BIT_SNAP_RASTER := 12;
     STATE_BIT_LINE := 13;
     ALPHA_AFIX_OFFSET := 0;
     ALPHA_AREF_OFFSET := 8;
     compute_page_rect := linear_page_rect;
     get_data_structure := fun _ => {| page_width_log2 := 6; page_height_log2 := 5;
                                       block_width_log2 := 3; block_height_log2 := 3 |};
     psm_word_write_mask := fun _ => UINT32_MAX;
     swizzle_compat_key := fun psm => psm;
     is_palette_format := fun psm => (psm =? PSMT8) || (psm =? PSMT8H) || (psm =? 20) ||
                                     (psm =? 36) || (psm =? 44);
     get_bits_per_pixel := fun psm => if psm =? PSMCT32 then 32 else 16;
     compute_has_potential_feedback := fun _ _ _ _ => (false, false);
     compute_effective_texture_rect :=
       fun d => {| rect_x := 0; rect_y := 0;
                   rect_width := Z.shiftl 1 (TEX0Bits.TW (td_tex0 d));
                   rect_height := Z.shiftl 1 (TEX0Bits.TH (td_tex0 d));
                   rect_levels := 1 |};
     hasher_u32 := fun l => fold_left (fun h x => u64 (h * 1099511628211 + x)) l 14695981039346656037;
     hasher_u64 := fun l => fold_left (fun h x => u64 (h * 1099511628211 + x)) l 14695981039346656037;
     tex1_has_mipmap := fun t => (2 <=? TEX1Bits.MMIN t) && nonzero (TEX1Bits.MXL t);
     tex1_mmin_has_mipmap := fun t => 2 <=? TEX1Bits.MMIN t;
     clamp_has_horizontal_clamp := fun c => (CLAMPBits.WMS c =? 1) || (CLAMPBits.WMS c =? 2);
     clamp_has_vertical_clamp := fun c => (CLAMPBits.WMT c =? 1) || (CLAMPBits.WMT c =? 2);
     clamp_has_horizontal_repeat := fun c => (CLAMPBits.WMS c =? 0) || (CLAMPBits.WMS c =? 3);
     clamp_has_vertical_repeat := fun c => (CLAMPBits.WMT c =? 0) || (CLAMPBits.WMT c =? 3);
     clamp_has_horizontal_region := fun c => 2 <=? CLAMPBits.WMS c;
     clamp_has_vertical_region := fun c => 2 <=? CLAMPBits.WMT c;
     test_has_z_test := fun t => negb (TESTBits.ZTST t =? TESTBits.ZTST_ALWAYS);
     scanmsk_has_mask := fun m => 2 <=? SCANMSKBits.MSK m;
     float_of_uint := fun x => x;
     float_differ := fun a b => negb (a =? b);
     perspective_uv := fun _ _ a => (attr_u a, attr_v a);
     tracker_callbacks := quiet_tracker;
     tracker_invalidated := fun _ _ => false;
     tracker_find_cached_texture := fun _ _ => None;
     tracker_submission_timeline := fun history => Z.of_nat (length history);
     renderer_palette_instance := fun calls _ => count_palette_uploads calls;
     renderer_cached_texture := fun calls _ => count_cached_textures calls;
     image_view_width := fun _ => 0;
     image_view_height := fun _ => 0 |}.

(** ** The interface as constructed

    Modelled from the spec: the default member initialisers are in
    gs_interface.hpp, which is not among the sources.  The constructor
    sets PRMODECONT.AC and installs [drawing_kick_invalid]; the registers
    are zero, the queue, the paths and the transfer are idle, and the
    accumulator and the dirty flags are as [flush_render_pass] leaves
    them.  [init] sizes the page bitmaps for a 4 MiB VRAM. *)

Definition zero_context : ContextState :=
  {| tex0 := 0; tex1 := 0; clamp := 0; xyoffset := 0; miptbl_1_3 := 0; miptbl_4_6 := 0;
     scissor := 0; alpha := 0; test := 0; fba := 0; frame := 0; zbuf := 0 |}.

Definition zero_registers : RegisterState :=
  {| prim := 0; rgbaq := 0; st := 0; uv := 0; fog := 0; fogcol := 0; texclut := 0;
     scanmsk := 0; texa := 0; dimx := 0; dthe := 0; colclamp := 0; pabe := 0;
     prmodecont := PRMODECONTBits.AC_DEFAULT;
     bitbltbuf := 0; trxpos := 0; trxreg := 0; trxdir := 0;
     internal_q := 0; cached_cbp0 := 0; cached_cbp1 := 0;
     ctx0 := zero_context; ctx1 := zero_context |}.

Definition zero_state_vector : StateVector :=
  {| blend_mode := 0; combiner := 0; dimx_x := 0; dimx_y := 0 |}.

Definition zero_descriptor : TextureDescriptor :=
  {| td_tex0 := 0; td_tex1 := 0; td_clamp := 0; td_texa := 0; td_miptbp1_3 := 0;
     td_miptbp4_6 := 0; td_palette_bank := 0; td_latest_palette_bank := 0;
     td_rect := zero_rect; td_hash := 0 |}.

Definition empty_render_pass : RenderPassState :=
  {| positions := []; attributes := []; prims := []; primitive_count := 0;
     state_vectors := []; state_vector_map := [];
     tex_infos := []; texture_map := []; held_images := [];
     pass_frame := 0; pass_zbuf := 0;
     fb_page_width_log2 := 0; fb_page_height_log2 := 0;
     z_page_width_log2 := 0; z_page_height_log2 := 0;
     bb := empty_bb; color_write_mask := 0; z_sensitive := false; z_write := false;
     has_color_feedback := false; feedback_psm := 0; feedback_cpsm := 0;
     has_aa1 := false; has_scanmsk := false;
     is_color_feedback := false; is_potential_color_feedback := false;
     is_potential_depth_feedback := false;
     memoized_palettes := [];
     clut_instance := 0; latest_clut_instance := 0; pending_palette_updates := 0;
     label_key := 0 |}.

Definition constructed_state : GSState :=
  {| registers := zero_registers;
     state_tracker :=
       {| dirty_flags := STATE_DIRTY_ALL_BITS; degenerate_draw := false;
          last_state_vector := zero_state_vector; last_state_index := 0;
          last_texture_index := 0; last_texture_descriptor := zero_descriptor;
          prim_template := {| tmpl_tex := 0; tmpl_tex2 := 0; tmpl_state := 0 |};
          tex := {| tex_rect := zero_rect;
                    tex_levels := repeat zero_level 7;
                    tex_page_rects := repeat zero_page_rect 7 |} |};
     render_pass := empty_render_pass;
     vertex_queue := {| vq_pos := repeat zero_position 3;
                        vq_attr := repeat zero_attribute 3; vq_count := 0 |};
     draw_handler := drawing_kick_invalid_h;
     transfer_state :=
       {| host_to_local_active := false; host_to_local_payload := [];
          last_flushed_qwords := 0; required_qwords := 0;
          copy := {| copy_trxdir := 0; copy_trxreg := 0; copy_trxpos := 0; copy_bitbltbuf := 0;
                     host_data := []; host_data_size := 0; host_data_size_offset := 0;
                     host_data_size_required := 0 |} |};
     sync_host_vram_pages := repeat 0 16;
     sync_vram_host_pages := repeat 0 16;
     page_buffer := [];
     sampling_rate_x_log2 := 0; sampling_rate_y_log2 := 0;
     vram_size := 4194304;
     debug_mode := {| feedback_render_target := false; draw_mode := DrawDebugNone |};
     tracker := []; renderer := [] |}.

Definition constructed_interface : GSInterface :=
  {| gs := constructed_state;
     paths := repeat zero_path 4;
     optimized_draw_handler := repeat None 4 |}.

(** A sequence of [write_register] calls. *)
Definition write_registers {E : Externals} (writes : list (Z * Z)) (g : GSState) : GSState :=
  fold_left (fun acc w => write_register (fst w) (snd w) acc) writes g.

(** ** The phases of a flush, as the spec lists them *)

Definition has_flag (flags bit : Z) : bool := nonzero (Z.land flags bit).

(** The phase a renderer call belongs to: 1 host-to-VRAM sync, 2 copy
    flush or copy-overlap barrier, 3 texture-cache upload, 4 render pass,
    5 read-back; 0 for calls that no flush phase makes. *)
Definition flush_phase (c : BackendCall) : Z :=
  match c with
  | R_flush_host_vram_copy _ => 1
  | R_flush_transfer | R_transfer_overlap_barrier => 2
  | R_flush_cache_upload => 3
  | R_flush_rendering _ => 4
  | R_flush_readback _ => 5
  | _ => 0
  end.

Definition page_calls (call : list Z -> BackendCall) (words : list Z) : list BackendCall :=
  match collect_pages 0 words with
  | [] => []
  | pages => [call pages]
  end.

Definition copy_phase_call (flags : Z) : BackendCall :=
  if has_flag flags PAGE_TRACKER_FLUSH_CACHE_BIT ||
     has_flag flags PAGE_TRACKER_FLUSH_FB_BIT ||
     has_flag flags PAGE_TRACKER_FLUSH_WRITE_BACK_BIT
  then R_flush_transfer
  else R_transfer_overlap_barrier.

Definition render_pass_phase_calls {E : Externals} (reason : FlushReason) (g : GSState)
  : list BackendCall :=
  if nonzero (primitive_count (render_pass g))
  then [R_flush_rendering (build_render_pass reason g)] else [].

(** The renderer calls of a flush with mask [flags] in state [g], phase
    by phase. *)
Definition flush_calls {E : Externals} (flags : Z) (reason : FlushReason) (g : GSState)
  : list BackendCall :=
  (if has_flag flags PAGE_TRACKER_FLUSH_HOST_VRAM_SYNC_BIT
   then page_calls R_flush_host_vram_copy (sync_host_vram_pages g) else []) ++
  (if has_flag flags PAGE_TRACKER_FLUSH_COPY_BIT then [copy_phase_call flags] else []) ++
  (if has_flag flags PAGE_TRACKER_FLUSH_CACHE_BIT then [R_flush_cache_upload] else []) ++
  (if has_flag flags PAGE_TRACKER_FLUSH_FB_BIT then render_pass_phase_calls reason g else []) ++
  (if has_flag flags PAGE_TRACKER_FLUSH_WRITE_BACK_BIT
   then page_calls R_flush_readback (sync_vram_host_pages g) else []).

(** ** The tile-size rule, as the spec states it *)

(** Number of 8 by 8 tiles the bounding box spans, times the number of
    primitives. *)
Definition spec_tile_cost (box : ivec4) (num_primitives : Z) : Z :=
  ((bbz box - bbx box) / 8 + 1) * ((bbw box - bby box) / 8 + 1) * num_primitives.

Definition spec_coarse_tile_size_log2 (cost : Z) (vertical_super_sampling : bool) : Z :=
  let log2 :=
    if cost <? 10 ^ 4 then 3
    else if cost <? 10 ^ 7 then 4
    else if cost <? 10 ^ 8 then 5
    else 6 in
  if vertical_super_sampling && (3 <? log2) then log2 - 1 else log2.

(** ** Degenerate draws, as the spec states them

    The four conditions of the degenerate check on the registers of the
    current context. *)

Definition scissor_is_empty (c : ContextState) : Prop :=
  SCISSORBits.SCAX0 (scissor c) > SCISSORBits.SCAX1 (scissor c) \/
  SCISSORBits.SCAY0 (scissor c) > SCISSORBits.SCAY1 (scissor c).

Definition alpha_test_is_never_keep (c : ContextState) : Prop :=
  TESTBits.ATE (test c) = 1 /\ TESTBits.ATST (test c) = 0 /\ TESTBits.AFAIL (test c) = 0.

(** In the words of the spec: the depth test is NEVER and Z is not
    written either; the Z mask and the colour mask are both set. *)
Definition depth_test_is_never_as_stated (c : ContextState) : Prop :=
  TESTBits.ZTE (test c) = 1 /\ TESTBits.ZTST (test c) = 0 /\ ZBUFBits.ZMSK (zbuf c) = 1.

Definition z_and_color_writes_masked_as_stated (c : ContextState) : Prop :=
  ZBUFBits.ZMSK (zbuf c) = 1 /\ FRAMEBits.FBMSK (frame c) = 4294967295.

Definition spec_degenerate_as_stated (c : ContextState) : Prop :=
  scissor_is_empty c \/ depth_test_is_never_as_stated c \/ alpha_test_is_never_keep c \/
  z_and_color_writes_masked_as_stated c.

(** As amended: the depth test is enabled with ZTST = NEVER, whatever
    the Z mask; Z counts as not written when ZBUF masks it or when ZTE
    is 0. *)
Definition depth_test_is_never (c : ContextState) : Prop :=
  TESTBits.ZTE (test c) = 1 /\ TESTBits.ZTST (test c) = 0.

Definition z_and_color_writes_masked (c : ContextState) : Prop :=
  FRAMEBits.FBMSK (frame c) = 4294967295 /\
  (ZBUFBits.ZMSK (zbuf c) = 1 \/ TESTBits.ZTE (test c) = 0).

Definition spec_degenerate (c : ContextState) : Prop :=
  scissor_is_empty c \/ depth_test_is_never c \/ alpha_test_is_never_keep c \/
  z_and_color_writes_masked c.

(** The cached verdict agrees with the registers whenever the degenerate
    dirty flag is down. *)
Definition degenerate_cache_valid (g : GSState) : Prop :=
  Z.land (dirty_flags (state_tracker g)) STATE_DIRTY_DEGENERATE_BIT = 0 ->
  (degenerate_draw (state_tracker g) = true <-> spec_degenerate (current_ctx g)).

(** ** The palette upload a TEX0 write asks for *)

Definition upload_page {E : Externals} (ctx_index : Z) (g : GSState) : PageRectCLUT :=
  clut_page_rect g (tex0 (get_ctx ctx_index (registers g))).

Definition upload_descriptor (ctx_index : Z) (g : GSState) : PaletteUploadDescriptor :=
  let desc := tex0 (get_ctx ctx_index (registers g)) in
  palette_descriptor g desc ((TEX0Bits.PSM desc =? PSMT8) || (TEX0Bits.PSM desc =? PSMT8H)).

(** A callback that leaves the memoized palettes alone: any but a flush
    of the texture cache and the reset of the memoization. *)
Definition keeps_memoization (cb : Callback) : bool :=
  match cb with
  | Cb_flush flags _ => negb (nonzero (Z.land flags PAGE_TRACKER_FLUSH_CACHE_BIT))
  | Cb_forget_in_render_pass_memoization => false
  | _ => true
  end.

(** The calls into the page tracker that a CLUT-loading TEX0 write
    makes: the two of a transfer flush, the read of the palette and the
    clobber of the CLUT. *)
Definition palette_upload_call (c : TrackerCall) : bool :=
  match c with
  | T_mark_transfer_write _ | T_invalidate_texture_cache _
  | T_mark_texture_read _ | T_register_cached_clut_clobber _ => true
  | _ => false
  end.

(** No cache flush and no memoization reset comes in the way of a
    palette upload that starts in [g]: whatever was called since, the
    tracker answers a call of the upload with callbacks that leave the
    memoized palettes alone. *)
Definition no_memoization_reset {E : Externals} (g : GSState) : Prop :=
  forall calls c,
    palette_upload_call c = true ->
    forallb keeps_memoization (tracker_callbacks (tracker g ++ calls) c) = true.

(** Whether the ring holds an entry with the CSA mask and the normalized
    TEX0 and TEXCLUT bits of the upload. *)
Definition ring_holds_upload {E : Externals} (ctx_index : Z) (g : GSState) : bool :=
  existsb (fun m => palette_matches m (csa_mask (upload_page ctx_index g))
                                      (upload_descriptor ctx_index g))
          (memoized_palettes (render_pass g)).

(** ** The generic dispatcher

    [gif_transfer] with the whole-loop branch left out: after a tag every
    quad-word goes through the PACKED, REGLIST or IMAGE branch, one
    register (or one run of image data) at a time. *)

Definition gif_iteration_generic {E : Externals} (path_index : Z) (q : QWord)
    (rest : list QWord) (nreg : Z) (s : GSInterface) : Iteration :=
  if needs_gif_tag path_index s then gif_tag_branch path_index q rest s
  else gif_generic_branch path_index q rest nreg s.

Fixpoint gif_generic_loop {E : Externals} (fuel : nat) (path_index : Z) (words : list QWord)
                          (nreg : Z) (s : GSInterface) : Outcome :=
  match words with
  | [] => Returned s
  | q :: rest =>
      match fuel with
      | O => OutOfFuel
      | S fuel' =>
          let it := gif_iteration_generic path_index q rest nreg s in
          gif_generic_loop fuel' path_index (it_rest it) (it_nreg it) (it_state it)
      end
  end.

Definition gif_transfer_generic {E : Externals} (fuel : nat) (path_index : Z)
    (data : list QWord) (s : GSInterface) : Outcome :=
  gif_generic_loop fuel path_index data (tag_nreg (tag (get_path path_index s))) s.

(** A path index that names one of the paths of the interface. *)
Definition path_in_range (path_index : Z) (s : GSInterface) : Prop :=
  0 <= path_index < Z.of_nat (length (paths s)).

(** [s'] still has the path, under the tag it had in [s]. *)
Definition keeps_tag (path_index : Z) (s s' : GSInterface) : Prop :=
  path_in_range path_index s' /\
  tag (get_path path_index s') = tag (get_path path_index s).

(** The next iteration on the path delivers image data. *)
Definition image_turn (path_index : Z) (s : GSInterface) : bool :=
  negb (needs_gif_tag path_index s) &&
  negb (GIFTagBits.FLG (tag (get_path path_index s)) =? GIFTagBits.PACKED) &&
  negb (GIFTagBits.FLG (tag (get_path path_index s)) =? GIFTagBits.REGLIST).

(** Two calls in a row on the same path. *)
Definition gif_transfer_twice {E : Externals} (fuel : nat) (path_index : Z)
    (A B : list QWord) (s : GSInterface) : Outcome :=
  match gif_transfer fuel path_index A s with
  | Returned s1 => gif_transfer fuel path_index B s1
  | other => other
  end.

(** An IMAGE run that the active host-to-local transfer can take whole:
    no transfer is waiting for data, or the payload stays within what
    the transfer requires. *)
Definition image_within_required (path_index : Z) (words : list QWord) (s : GSInterface) : bool :=
  let ts := transfer_state (gs s) in
  negb (host_to_local_active ts) ||
  (payload_size (gs s) + 2 * image_loops path_index words s <=? required_qwords ts).

Definition whole_loop_handler_engaged (path_index : Z) (s : GSInterface) : bool :=
  match get_optimized_handler path_index s with
  | Some _ => reg (get_path path_index s) =? 0
  | None => false
  end.

(** An iteration that reads a tag, or dispatches one register at a time,
    or delivers image data within what is required. *)
Definition iteration_is_plain (path_index : Z) (words : list QWord) (s : GSInterface) : bool :=
  needs_gif_tag path_index s ||
  (negb (whole_loop_handler_engaged path_index s) &&
   ((GIFTagBits.FLG (tag (get_path path_index s)) =? GIFTagBits.PACKED) ||
    (GIFTagBits.FLG (tag (get_path path_index s)) =? GIFTagBits.REGLIST) ||
    image_within_required path_index words s)).

(** A transfer all of whose iterations are plain. *)
Fixpoint transfer_is_plain {E : Externals} (fuel : nat) (path_index : Z) (size : Z)
    (words : list QWord) (nreg : Z) (s : GSInterface) : bool :=
  match words with
  | [] => true
  | q :: rest =>
      match fuel with
      | O => false
      | S fuel' =>
          iteration_is_plain path_index words s &&
          match gif_iteration path_index size q rest nreg s with
          | None => false
          | Some it =>
              transfer_is_plain fuel' path_index size (it_rest it) (it_nreg it) (it_state it)
          end
      end
  end.

(** The sizes of the payloads handed to [copy_vram], in call order. *)
Definition copied_sizes (o : Outcome) : list Z :=
  match o with
  | Returned s =>
      flat_map (fun c => match c with R_copy_vram v => [host_data_size v] | _ => [] end)
               (renderer (gs s))
  | _ => []
  end.

(** ** Inputs for the GIF parser *)

(** A PACKED tag of two loops of one A+D register, and an A+D quad-word
    that writes TEXFLUSH. *)
Definition ad_tag_two_loops : QWord :=
  GIFTagBits.make 2 0 0 GIFTagBits.PACKED 1 GIFAddr.A_D.
Definition texflush_qword : QWord := PackedADBits.make RegisterAddr.TEXFLUSH 0.

(** An IMAGE tag of two quad-words, and a host-to-local transfer of a 2
    by 2 rectangle of 32-bit pixels (one quad-word) set up before it. *)
Definition image_tag_two_loops : QWord := GIFTagBits.make 2 0 0 GIFTagBits.IMAGE 0 0.
Definition image_qword (n : Z) : QWord := {| lo := n; hi := n + 1 |}.
Definition small_upload_setup : list (Z * Z) :=
  [(RegisterAddr.BITBLTBUF, Z.shiftl 1 48);
   (RegisterAddr.TRXPOS, 0);
   (RegisterAddr.TRXREG, Z.lor 2 (Z.shiftl 2 32));
   (RegisterAddr.TRXDIR, HOST_TO_LOCAL)].

(** The same transfer set up for a 4 by 2 rectangle (two quad-words). *)
Definition upload_setup_4x2 : list (Z * Z) :=
  [(RegisterAddr.BITBLTBUF, Z.shiftl 1 48);
   (RegisterAddr.TRXPOS, 0);
   (RegisterAddr.TRXREG, Z.lor 4 (Z.shiftl 2 32));
   (RegisterAddr.TRXDIR, HOST_TO_LOCAL)].

(** A PACKED tag of one loop of ST, RGBAQ, XYZ2. *)
Definition stq_tag_one_loop : QWord :=
  GIFTagBits.make 1 0 0 GIFTagBits.PACKED 3 STQRGBAXYZ2_Mask.

(** The interface after PRIM was written with the primitive type 7. *)
Definition invalid_prim_interface {E : Externals} : GSInterface :=
  upd_gs (write_registers [(RegisterAddr.PRIM, PRIMType.Invalid)]) constructed_interface.

(** The number of vertices left in the queue by a call that returned. *)
Definition queued_vertices (o : Outcome) : option Z :=
  match o with
  | Returned s => Some (vq_count (vertex_queue (gs s)))
  | _ => None
  end.

(** ** The trivial sprite of the spec

    FRAME with FBP 0, FBW 10 and PSMCT32, ZBUF masked, TEST zero and
    PRIM = Sprite, with further writes [extra] before PRIM; then the two
    vertices at (100,100) and (500,500) in sixteenths of a pixel. *)
Definition sprite_setup (extra : list (Z * Z)) : list (Z * Z) :=
  [(RegisterAddr.FRAME_1, Z.shiftl 10 16);
   (RegisterAddr.ZBUF_1, Z.shiftl 1 32);
   (RegisterAddr.TEST_1, 0)] ++ extra ++
  [(RegisterAddr.PRIM, PRIMType.Sprite)].

Definition sprite_corner_0 : Z := XYZBits.make 100 100 0.
Definition sprite_corner_1 : Z := XYZBits.make 500 500 0.

(** A scissor of 640 by 448 pixels. *)
Definition full_scissor : list (Z * Z) :=
  [(RegisterAddr.SCISSOR_1, Z.lor (Z.shiftl 639 16) (Z.shiftl 447 48))].

(** The full scissor with the depth test enabled and NEVER while ZBUF
    lets Z be written, and with ZTE 0 and every colour bit masked while
    ZBUF lets Z be written. *)
Definition depth_never_z_unmasked : list (Z * Z) :=
  full_scissor ++ [(RegisterAddr.TEST_1, Z.shiftl 1 16); (RegisterAddr.ZBUF_1, 0)].

Definition color_masked_z_unmasked : list (Z * Z) :=
  full_scissor ++
  [(RegisterAddr.FRAME_1, Z.lor (Z.shiftl 10 16) (Z.shiftl 4294967295 32));
   (RegisterAddr.ZBUF_1, 0)].

(** The state after the first vertex, at the draw kick of the second,
    and after the sprite. *)
Definition sprite_first_vertex {E : Externals} (extra : list (Z * Z)) : GSState :=
  write_registers (sprite_setup extra ++ [(RegisterAddr.XYZ2, sprite_corner_0)])
                  constructed_state.
Definition sprite_at_kick {E : Externals} (extra : list (Z * Z)) : GSState :=
  vertex_kick_xyz sprite_corner_1 (sprite_first_vertex extra).
Definition sprite_drawn {E : Externals} (extra : list (Z * Z)) : GSState :=
  write_register RegisterAddr.XYZ2 sprite_corner_1 (sprite_first_vertex extra).

(** The state at the draw kick of a second sprite, drawn right after
    the first. *)
Definition second_sprite_at_kick {E : Externals} (extra : list (Z * Z)) : GSState :=
  vertex_kick_xyz sprite_corner_1
    (write_register RegisterAddr.XYZ2 sprite_corner_0 (sprite_drawn extra)).

(** The render passes handed to the renderer, in call order. *)
Definition flushed_passes (calls : list BackendCall) : list RenderPass :=
  flat_map (fun c => match c with R_flush_rendering rp => [rp] | _ => [] end) calls.

(** ** Palette uploads

    Two CLUT-loading TEX0 values for a 4-bit texture with a 16-bit
    palette, one with CSA 0 and one with CSA 1, and the entry the first
    leaves in the ring. *)
Definition palette_tex0_a : Z := Z.lor (Z.lor (Z.shiftl 20 20) (Z.shiftl 2 51)) (Z.shiftl 1 61).
Definition palette_tex0_b : Z := Z.lor palette_tex0_a (Z.shiftl 1 56).

(** The palette of [palette_tex0_a] at another address, CBP 1. *)
Definition palette_tex0_c : Z := Z.lor palette_tex0_a (Z.shiftl 1 37).

Definition palette_entry_a : MemoizedPalette :=
  {| memo_upload := {| pal_texclut := 0; pal_tex0 := 4503599648342016 |};
     memo_csa_mask := 1;
     memo_clut_instance := 0 |}.

Definition palette_entry_c : MemoizedPalette :=
  {| memo_upload := {| pal_texclut := 0; pal_tex0 := 4503737087295488 |};
     memo_csa_mask := 1;
     memo_clut_instance := 1 |}.

(** The interface after the uploads [values], with TEX0 of context 0
    set to [next] as [a_d_TEX0] sets it before it handles the write. *)
Definition before_palette_upload {E : Externals} (values : list Z) (next : Z) : GSState :=
  upd_registers (upd_ctx 0 (set_tex0 next))
    (write_registers (map (fun v => (RegisterAddr.TEX0_1, v)) values) constructed_state).

(** ** Sprites in a row

    The registers after the set-up of the trivial sprite with the full
    scissor, and the state it leaves. *)
Definition sprite_context : ContextState :=
  {| tex0 := 0; tex1 := 0; clamp := 0; xyoffset := 0; miptbl_1_3 := 0; miptbl_4_6 := 0;
     scissor := Z.lor (Z.shiftl 639 16) (Z.shiftl 447 48);
     alpha := 0; test := 0; fba := 0;
     frame := Z.shiftl 10 16; zbuf := Z.shiftl 1 32 |}.

Definition sprite_registers : RegisterState :=
  set_internal_q float_one (set_ctx0 sprite_context (set_prim PRIMType.Sprite zero_registers)).

(** The interface after the set-up writes. *)
Definition sprite_start {E : Externals} : GSState :=
  write_registers (sprite_setup full_scissor) constructed_state.

(** The draw handler PRIM = Sprite selects, and the box of the sprite. *)
Definition sprite_handler : DrawHandler := drawing_kick_primitive_h true false true 2.

Definition sprite_box : ivec4 := {| bbx := 7; bby := 7; bbz := 31; bbw := 31 |}.

(** One sprite: the two XYZ2 writes.  [draw_sprites n] draws [n] of them. *)
Definition draw_sprite {E : Externals} (g : GSState) : GSState :=
  write_register RegisterAddr.XYZ2 sprite_corner_1
    (write_register RegisterAddr.XYZ2 sprite_corner_0 g).

(** What every state between two sprites has: the registers of the
    set-up, the sprite handler, an empty vertex queue, no transfer and
    no page waiting, and a pass without textures, palettes, feedback or
    depth. *)
Record sprite_ready (g : GSState) : Prop := {
  ready_registers : registers g = sprite_registers;
  ready_handler : draw_handler g = sprite_handler;
  ready_count : vq_count (vertex_queue g) = 0;
  ready_pos : length (vq_pos (vertex_queue g)) = 3%nat;
  ready_attr : length (vq_attr (vertex_queue g)) = 3%nat;
  ready_transfer : host_to_local_active (transfer_state g) = false;
  ready_rate : sampling_rate_y_log2 g = 0;
  ready_sync : collect_pages 0 (sync_host_vram_pages g) = [];
  ready_textures : tex_infos (render_pass g) = [];
  ready_palettes : pending_palette_updates (render_pass g) = 0;
  ready_feedback : is_color_feedback (render_pass g) = false;
  ready_depth : z_sensitive (render_pass g) = false }.

(** A pass that holds [k] sprites: the derived state is clean and the
    pass has the box, the write mask, the frame and the one state
    vector of the sprite. *)
Record sprite_warm (k : Z) (g : GSState) : Prop := {
  warm_ready : sprite_ready g;
  warm_dirty : dirty_flags (state_tracker g) = 0;
  warm_degenerate : degenerate_draw (state_tracker g) = false;
  warm_count : primitive_count (render_pass g) = k;
  warm_boxes : map prim_bb (prims (render_pass g)) = repeat sprite_box (Z.to_nat k);
  warm_states : length (state_vectors (render_pass g)) = 1%nat;
  warm_bb : bb (render_pass g) = sprite_box;
  warm_mask : color_write_mask (render_pass g) = UINT32_MAX;
  warm_frame : pass_frame (render_pass g) = frame sprite_context;
  warm_zbuf : pass_zbuf (render_pass g) = 0 }.


(** A pass that holds nothing, as the constructor and
    [flush_render_pass] leave it, with the derived state dirty. *)
Record sprite_cold (g : GSState) : Prop := {
  cold_ready : sprite_ready g;
  cold_dirty : dirty_flags (state_tracker g) = STATE_DIRTY_ALL_BITS \/
               dirty_flags (state_tracker g) = Z.ldiff STATE_DIRTY_ALL_BITS STATE_DIRTY_TEX_BIT;
  cold_count : primitive_count (render_pass g) = 0;
  cold_prims : prims (render_pass g) = [];
  cold_states : state_vectors (render_pass g) = [];
  cold_state_map : state_vector_map (render_pass g) = [];
  cold_bb : bb (render_pass g) = empty_bb;
  cold_mask : color_write_mask (render_pass g) = 0;
  cold_frame : pass_frame (render_pass g) = 0 \/ pass_frame (render_pass g) = frame sprite_context;
  cold_zbuf : pass_zbuf (render_pass g) = 0 }.

(** The assumptions on what is not in the sources: limits that one
    sprite does not reach, a primitive limit of at least two that fits
    32 bits, and a page tracker that reports no hazard for a write to the
    frame buffer, answers a request to flush the render pass by one
    flush callback with the FB_ALL mask, and an explicit flush by one
    with every bit set. *)
Record quiet_externals (E : Externals) : Prop := {
  quiet_clut : 0 < CLUTInstances;
  quiet_textures : 0 < MaxTextures;
  quiet_states : 1 < MaxStateVectors;
  quiet_prims : 1 < MaxPrimitivesPerFlush;
  quiet_prims32 : MaxPrimitivesPerFlush < 2 ^ 32;
  quiet_fb_write : forall history rect, tracker_callbacks history (T_mark_fb_write rect) = [];
  quiet_flush : forall history reason,
    tracker_callbacks history (T_flush_render_pass reason) =
    [Cb_flush PAGE_TRACKER_FLUSH_FB_ALL reason];
  quiet_submit : forall history,
    tracker_callbacks history T_mark_submission_timeline =
    [Cb_flush (Z.lor PAGE_TRACKER_FLUSH_FB_ALL PAGE_TRACKER_FLUSH_WRITE_BACK_BIT)
              SubmissionFlush] }.

Definition draw_sprites {E : Externals} (n : nat) (g : GSState) : GSState :=
  Nat.iter n draw_sprite g.


(** ** A pass whose cost does not fit 32 bits

    A render pass of 65536 primitives whose bounding box covers 2048 by
    2048 pixels: 256 by 256 tiles of 8 by 8. *)
Definition wide_pass : GSState :=
  upd_render_pass
    (fun rp => set_primitive_count 65536
                 (set_bb {| bbx := 0; bby := 0; bbz := 2047; bbw := 2047 |} rp))
    constructed_state.
(** ** Frames and invariants of the register handlers *)

Definition footprint (s : GSState) :=
  (registers s, vertex_queue s, draw_handler s, degenerate_draw (state_tracker s),
   (sampling_rate_x_log2 s, sampling_rate_y_log2 s, vram_size s, debug_mode s)).

Definition untouched (s0 s : GSState) : Prop := footprint s = footprint s0.

Definition degenerate_pending (s : GSState) : bool :=
  Z.testbit (dirty_flags (state_tracker s)) 5.

Definition steady (s0 s : GSState) : Prop :=
  untouched s0 s /\ (degenerate_pending s0 = true -> degenerate_pending s = true).

Definition verdict_inputs (r : RegisterState) :=
  ((scissor (ctx0 r), test (ctx0 r), frame (ctx0 r), zbuf (ctx0 r)),
   (scissor (ctx1 r), test (ctx1 r), frame (ctx1 r), zbuf (ctx1 r))).

Definition tame (s0 s : GSState) : Prop :=
  vertex_queue s = vertex_queue s0 /\
  draw_handler s = draw_handler s0 /\
  prim (registers s) = prim (registers s0) /\
  degenerate_draw (state_tracker s) = degenerate_draw (state_tracker s0) /\
  (degenerate_pending s0 = true -> degenerate_pending s = true) /\
  (degenerate_pending s = false ->
   verdict_inputs (registers s) = verdict_inputs (registers s0)).

Class OtherDirtyFlags (flags : Z) : Prop :=
  other_dirty_flags : Z.testbit flags 5 = false.

Class Keeps (I : GSState -> Prop) (f : GSState -> GSState) : Prop :=
  keeps : forall s, I s -> I (f s).
Class KeepsSnd {A} (I : GSState -> Prop) (f : GSState -> A * GSState) : Prop :=
  keeps_snd : forall s, I s -> I (snd (f s)).

Definition queue_in_range (s : GSState) : Prop :=
  0 <= vq_count (vertex_queue s) <= 3.

Definition cache_exact (s : GSState) : Prop :=
  degenerate_draw (state_tracker s) = true <-> spec_degenerate (current_ctx s).

Definition handler_matches_prim {E : Externals} (s : GSState) : Prop :=
  draw_handler (update_draw_handler s) = draw_handler s.

(** ** The calls into the page tracker

    Whether every [invalidate_texture_cache] among the calls comes right
    after a [mark_transfer_write], the pair [flush_pending_transfer]
    issues; [after_write] tells whether the call before the first one was
    a [mark_transfer_write]. *)
Fixpoint invalidations_follow_transfer_writes (after_write : bool)
                                              (calls : list TrackerCall) : bool :=
  match calls with
  | [] => true
  | T_invalidate_texture_cache _ :: rest =>
      after_write && invalidations_follow_transfer_writes false rest
  | T_mark_transfer_write _ :: rest => invalidations_follow_transfer_writes true rest
  | _ :: rest => invalidations_follow_transfer_writes false rest
  end.

(** From [s0] to [s] the tracker was called, and the textures it caches
    were invalidated only by transfer flushes. *)
Definition invalidated_by_transfer_flushes_only (s0 s : GSState) : Prop :=
  exists added,
    tracker s = tracker s0 ++ added /\
    invalidations_follow_transfer_writes false added = true.

Definition tracker_is (calls : list TrackerCall) (s : GSState) : Prop :=
  tracker s = calls.

(** From [s0] to [s] the memoized palettes and the registers stayed as
    they were, the renderer was not asked to upload a palette, and the
    tracker log grew. *)
Definition memoization_kept (s0 s : GSState) : Prop :=
  memoized_palettes (render_pass s) = memoized_palettes (render_pass s0) /\
  clut_instance (render_pass s) = clut_instance (render_pass s0) /\
  registers s = registers s0 /\
  (exists added, renderer s = renderer s0 ++ added /\ count_palette_uploads added = 0) /\
  (exists calls, tracker s = tracker s0 ++ calls).

Section InvariantDefinitions.
Context {E : Externals}.

(** The part of [drawing_kick_primitive] before the queue is maintained. *)
Definition kicked (l f q : bool) (n : Z) (adc : bool) (s : GSState) : GSState :=
  if adc then s
  else match draw_is_degenerate s with
       | (true, s1) => s1
       | (false, s1) => drawing_kick_append l f q n s1
       end.

(** What the three invariants need of a handler. *)
Record keeps_invariants (f : GSState -> GSState) : Prop := {
  keeps_queue : forall s, queue_in_range s -> queue_in_range (f s);
  keeps_cache : forall s, degenerate_cache_valid s -> degenerate_cache_valid (f s);
  keeps_handler : forall s, handler_matches_prim s -> handler_matches_prim (f s) }.

(** The states the interface passes through: the constructed state, and
    what a change of the sampling rate, a register write, a handler of
    the REGLIST or PACKED table, the vertex write of a whole-loop
    handler, a run of image data, a vertex kick, the explicit flush or
    [clobber_register_state] makes of such a state. *)
Inductive reachable : GSState -> Prop :=
| reach_constructed : reachable constructed_state
| reach_super_sampling (rate : SuperSampling) (g : GSState) :
    reachable g -> reachable (set_super_sampling_rate rate g)
| reach_write_register (addr payload : Z) (g : GSState) :
    reachable g -> reachable (write_register addr payload g)
| reach_reglist (addr word : Z) (g : GSState) :
    reachable g -> reachable (reglist_handlers addr word g)
| reach_packed (addr : Z) (q : QWord) (g : GSState) :
    reachable g -> reachable (packed_handlers addr q g)
| reach_whole_loop_vertex (ADC FOG : bool) (PRIM : Z) (q : QWord) (g : GSState) :
    reachable g -> reachable (packed_XYZ_for ADC FOG PRIM q g)
| reach_image (payload : list Z) (g : GSState) :
    reachable g -> reachable (a_d_HWREG_multi payload g)
| reach_vertex_kick_xyz (xyz : Z) (g : GSState) :
    reachable g -> reachable (vertex_kick_xyz xyz g)
| reach_vertex_kick_xyzf (xyzf : Z) (g : GSState) :
    reachable g -> reachable (vertex_kick_xyzf xyzf g)
| reach_flush (g : GSState) :
    reachable g -> reachable (flush_submission g)
| reach_clobber (g : GSState) :
    reachable g ->
    reachable (update_draw_handler
                 (upd_state_tracker (set_dirty_flags STATE_DIRTY_ALL_BITS) g)).

(** A property of the state that the steps of a GIF transfer keep: the
    register write of an A+D quad-word, the handlers of the REGLIST and
    PACKED tables, the vertex write of a whole-loop handler, and a run of
    image data. *)
Record kept_by_transfer_steps (P : GSState -> Prop) : Prop := {
  kept_by_write_register : forall addr payload g, P g -> P (write_register addr payload g);
  kept_by_reglist : forall addr word g, P g -> P (reglist_handlers addr word g);
  kept_by_packed : forall addr q g, P g -> P (packed_handlers addr q g);
  kept_by_whole_loop_vertex :
    forall ADC FOG PRIM q g, P g -> P (packed_XYZ_for ADC FOG PRIM q g);
  kept_by_image : forall payload g, P g -> P (a_d_HWREG_multi payload g) }.

End InvariantDefinitions.

(** * Properties *)

(** ** Bit-fields *)

Lemma testbit_bits (off w x n : Z) :
  0 <= off -> 0 <= w -> 0 <= n ->
  Z.testbit (bits off w x) n = Z.testbit x (n + off) && (n <? w).
Proof.
  intros Hoff Hw Hn. unfold bits.
  rewrite Z.land_spec, Z.shiftr_spec by assumption.
  rewrite Z.testbit_ones_nonneg by assumption. reflexivity.
Qed.

Lemma testbit_set_bits (off w v x n : Z) :
  0 <= off -> 0 <= w -> 0 <= n ->
  Z.testbit (set_bits off w v x) n =
  if (off <=? n) && (n <? off + w) then Z.testbit v (n - off) else Z.testbit x n.
Proof.
  intros Hoff Hw Hn. unfold set_bits.
  rewrite Z.lor_spec, Z.ldiff_spec, !Z.shiftl_spec by assumption.
  rewrite Z.land_spec.
  destruct (Z.leb_spec off n) as [Hle | Hlt]; cbn [andb].
  - rewrite !Z.testbit_ones_nonneg by lia.
    destruct (Z.ltb_spec (n - off) w) as [Hin | Hout];
      destruct (Z.ltb_spec n (off + w)); try lia; cbn [negb andb].
    + rewrite Bool.andb_false_r, Bool.andb_true_r. reflexivity.
    + rewrite Bool.andb_true_r, Bool.andb_false_r, Bool.orb_false_r. reflexivity.
  - rewrite (Z.testbit_neg_r (Z.ones w) (n - off)) by lia.
    rewrite (Z.testbit_neg_r v (n - off)) by lia.
    cbn [negb andb]. rewrite Bool.andb_true_r, Bool.orb_false_r. reflexivity.
Qed.

(** Reading back the field that was written gives the value, truncated. *)
Lemma bits_set_bits_same (off w v x : Z) :
  0 <= off -> 0 <= w -> bits off w (set_bits off w v x) = bits 0 w v.
Proof.
  intros Hoff Hw. apply Z.bits_inj'. intros n Hn.
  rewrite !testbit_bits, testbit_set_bits by lia.
  destruct (Z.ltb_spec n w) as [Hin | Hout].
  - replace ((off <=? n + off) && (n + off <? off + w)) with true.
    + replace (n + off - off) with n by lia. rewrite Z.add_0_r. reflexivity.
    + symmetry. apply andb_true_intro. split; [apply Z.leb_le | apply Z.ltb_lt]; lia.
  - rewrite !Bool.andb_false_r. reflexivity.
Qed.

(** A field that does not overlap the written one keeps its value. *)
Lemma bits_set_bits_other (off w off' w' v x : Z) :
  0 <= off -> 0 <= w -> 0 <= off' -> 0 <= w' ->
  off' + w' <= off \/ off + w <= off' ->
  bits off' w' (set_bits off w v x) = bits off' w' x.
Proof.
  intros Hoff Hw Hoff' Hw' Hdisjoint. apply Z.bits_inj'. intros n Hn.
  rewrite !testbit_bits, testbit_set_bits by lia.
  destruct (Z.ltb_spec n w') as [Hin | Hout].
  - replace ((off <=? n + off') && (n + off' <? off + w)) with false; [reflexivity |].
    symmetry. apply Bool.andb_false_iff.
    destruct Hdisjoint; [left; apply Z.leb_gt | right; apply Z.ltb_ge]; lia.
  - rewrite !Bool.andb_false_r. reflexivity.
Qed.

Lemma bits_bits_low (w x : Z) : 0 <= w -> bits 0 w (bits 0 w x) = bits 0 w x.
Proof.
  intros Hw. apply Z.bits_inj'. intros n Hn.
  rewrite !testbit_bits by lia. rewrite !Z.add_0_r.
  destruct (n <? w); rewrite ?Bool.andb_true_r, ?Bool.andb_false_r; reflexivity.
Qed.

Section InterfaceProperties.
Context {E : Externals}.

(** ** PRIM under PRMODECONT.AC = 0 *)

Lemma a_d_PRIM_registers_ac0 (payload : Z) (g : GSState) :
  PRMODECONTBits.AC (prmodecont (registers g)) = 0 ->
  prim (registers (a_d_PRIM payload g)) =
  PRIMBits.set_PRIM (PRIMBits.PRIM payload) (prim (registers g)).
Proof.
  intros Hac. unfold a_d_PRIM. rewrite Hac. cbn [nonzero Z.eqb negb].
  destruct (negb (PRIMBits.PRIM (prim (registers g)) =? PRIMBits.PRIM payload));
    reflexivity.
Qed.

(** C9: with PRMODECONT.AC = 0 a write of PRIM replaces the PRIM field of
    the internal PRIM register by the one of the payload and leaves CTXT,
    IIP, TME, FGE, ABE, AA1, FST and FIX as they were. *)
Theorem prim_write_gated_by_prmodecont (payload : Z) (g : GSState) :
  PRMODECONTBits.AC (prmodecont (registers g)) = 0 ->
  let before := prim (registers g) in
  let after := prim (registers (write_register RegisterAddr.PRIM payload g)) in
  PRIMBits.PRIM after = PRIMBits.PRIM payload /\
  PRIMBits.CTXT after = PRIMBits.CTXT before /\
  PRIMBits.IIP after = PRIMBits.IIP before /\
  PRIMBits.TME after = PRIMBits.TME before /\
  PRIMBits.FGE after = PRIMBits.FGE before /\
  PRIMBits.ABE after = PRIMBits.ABE before /\
  PRIMBits.AA1 after = PRIMBits.AA1 before /\
  PRIMBits.FST after = PRIMBits.FST before /\
  PRIMBits.FIX after = PRIMBits.FIX before.
Proof.
  intros Hac before after. subst before after.
  change (write_register RegisterAddr.PRIM payload g) with (a_d_PRIM payload g).
  rewrite a_d_PRIM_registers_ac0 by assumption.
  unfold PRIMBits.set_PRIM, PRIMBits.PRIM, PRIMBits.CTXT, PRIMBits.IIP, PRIMBits.TME,
    PRIMBits.FGE, PRIMBits.ABE, PRIMBits.AA1, PRIMBits.FST, PRIMBits.FIX.
  split; [rewrite bits_set_bits_same by lia; apply bits_bits_low; lia |].
  repeat split; apply bits_set_bits_other; lia.
Qed.

(** ** TEXFLUSH *)

Lemma gs_upd_path (path_index : Z) (f : GIFPath -> GIFPath) (s : GSInterface) :
  gs (upd_path path_index f s) = gs s.
Proof. reflexivity. Qed.

Lemma gs_close_loop (path_index nreg : Z) (s : GSInterface) :
  gs (close_loop path_index nreg s) = gs s.
Proof. unfold close_loop. destruct (reg (get_path path_index s) =? nreg); reflexivity. Qed.

Lemma gs_advance_reg (path_index : Z) (s : GSInterface) :
  gs (advance_reg path_index s) = gs s.
Proof. reflexivity. Qed.

Lemma packed_ADONLY_texflush (n : nat) (words : list QWord) (g : GSState) :
  (n <= length words)%nat ->
  Forall (fun q => PackedADBits.ADDR q = RegisterAddr.TEXFLUSH) words ->
  packed_ADONLY n words g = Some g.
Proof.
  revert words. induction n as [| n IH]; intros words Hlen Hall; [reflexivity |].
  destruct words as [| q rest]; [cbn in Hlen; lia |].
  inversion Hall as [| ? ? Hq Hrest]; subst.
  cbn [packed_ADONLY]. rewrite Hq.
  change (write_register RegisterAddr.TEXFLUSH (PackedADBits.data q) g) with g.
  apply IH; [cbn in Hlen; lia | assumption].
Qed.

(** A write of TEXFLUSH leaves the state as it is, whether it comes
    through [write_register], as an A+D quad-word of a PACKED packet
    (only the cursor of the path moves), or through the whole-loop A+D
    handler. *)
Lemma texflush_write_is_identity (payload : Z) (g : GSState)
    (path_index nreg : Z) (q : QWord) (rest : list QWord) (s : GSInterface)
    (n : nat) (words : list QWord) :
  PackedADBits.ADDR q = RegisterAddr.TEXFLUSH ->
  next_gif_addr path_index s = GIFAddr.A_D ->
  (n <= length words)%nat ->
  Forall (fun w => PackedADBits.ADDR w = RegisterAddr.TEXFLUSH) words ->
  write_register RegisterAddr.TEXFLUSH payload g = g /\
  a_d_TEXFLUSH payload g = g /\
  gs (it_state (gif_packed_branch path_index q rest nreg s)) = gs s /\
  packed_ADONLY n words g = Some g.
Proof.
  intros Haddr Hnext Hlen Hall.
  split; [reflexivity |]. split; [reflexivity |]. split.
  - unfold gif_packed_branch. cbn [it_state].
    rewrite gs_close_loop. unfold upd_gs. cbn [gs set_gs].
    unfold packed_dispatch. rewrite Hnext. cbn [Z.eqb GIFAddr.A_D Pos.eqb].
    rewrite Haddr. reflexivity.
  - apply packed_ADONLY_texflush; assumption.
Qed.

(** ** The flush callback *)

Lemma renderer_flush_host_vram_sync (g : GSState) :
  renderer (flush_host_vram_sync g) =
  renderer g ++ page_calls R_flush_host_vram_copy (sync_host_vram_pages g).
Proof.
  unfold flush_host_vram_sync, page_calls.
  destruct (collect_pages 0 (sync_host_vram_pages g)); cbn; [symmetry; apply app_nil_r | reflexivity].
Qed.

Lemma renderer_flush_write_back (g : GSState) :
  renderer (flush_write_back g) =
  renderer g ++ page_calls R_flush_readback (sync_vram_host_pages g).
Proof.
  unfold flush_write_back, page_calls.
  destruct (collect_pages 0 (sync_vram_host_pages g)); cbn; [symmetry; apply app_nil_r | reflexivity].
Qed.

Lemma renderer_flush_render_pass (reason : FlushReason) (g : GSState) :
  renderer (flush_render_pass reason g) = renderer g ++ render_pass_phase_calls reason g.
Proof.
  unfold flush_render_pass, render_pass_phase_calls.
  destruct (nonzero (primitive_count (render_pass g))); cbn; [reflexivity | symmetry; apply app_nil_r].
Qed.

(** What the later phases read is not touched by the earlier ones. *)
Lemma render_pass_calls_after_sync (reason : FlushReason) (g : GSState) :
  render_pass_phase_calls reason (flush_host_vram_sync g) = render_pass_phase_calls reason g.
Proof.
  unfold flush_host_vram_sync.
  destruct (collect_pages 0 (sync_host_vram_pages g)); reflexivity.
Qed.

Lemma render_pass_calls_after_copy (flags : Z) (reason : FlushReason) (g : GSState) :
  render_pass_phase_calls reason (flush_copy flags g) = render_pass_phase_calls reason g.
Proof. unfold flush_copy. destruct (nonzero _); reflexivity. Qed.

Lemma render_pass_calls_after_cache (reason : FlushReason) (g : GSState) :
  render_pass_phase_calls reason (flush_cache g) = render_pass_phase_calls reason g.
Proof. reflexivity. Qed.

Lemma readback_pages_after_sync (g : GSState) :
  sync_vram_host_pages (flush_host_vram_sync g) = sync_vram_host_pages g.
Proof.
  unfold flush_host_vram_sync.
  destruct (collect_pages 0 (sync_host_vram_pages g)); reflexivity.
Qed.

Lemma readback_pages_after_copy (flags : Z) (g : GSState) :
  sync_vram_host_pages (flush_copy flags g) = sync_vram_host_pages g.
Proof. unfold flush_copy. destruct (nonzero _); reflexivity. Qed.

Lemma readback_pages_after_render_pass (reason : FlushReason) (g : GSState) :
  sync_vram_host_pages (flush_render_pass reason g) = sync_vram_host_pages g.
Proof.
  unfold flush_render_pass. destruct (nonzero (primitive_count (render_pass g))); reflexivity.
Qed.

Lemma renderer_flush_copy (flags : Z) (g : GSState) :
  renderer (flush_copy flags g) = renderer g ++ [copy_phase_call flags].
Proof.
  unfold flush_copy, copy_phase_call, has_flag.
  rewrite !Z.land_lor_distr_r.
  assert (Hnz : forall a b, nonzero (Z.lor a b) = nonzero a || nonzero b).
  { intros a b. unfold nonzero.
    destruct (Z.eqb_spec (Z.lor a b) 0) as [H0 | Hn0].
    - apply Z.lor_eq_0_iff in H0. destruct H0 as [-> ->]. reflexivity.
    - destruct (Z.eqb_spec a 0) as [-> |]; [| reflexivity].
      destruct (Z.eqb_spec b 0) as [-> |]; [| reflexivity].
      exfalso. apply Hn0. reflexivity. }
  rewrite !Hnz.
  destruct (nonzero (Z.land flags PAGE_TRACKER_FLUSH_CACHE_BIT) ||
            nonzero (Z.land flags PAGE_TRACKER_FLUSH_FB_BIT) ||
            nonzero (Z.land flags PAGE_TRACKER_FLUSH_WRITE_BACK_BIT)); reflexivity.
Qed.

Lemma flush_calls_sorted (flags : Z) (reason : FlushReason) (g : GSState) :
  StronglySorted Z.lt (map flush_phase (flush_calls flags reason g)).
Proof.
  unfold flush_calls, page_calls, render_pass_phase_calls, copy_phase_call.
  destruct (has_flag flags PAGE_TRACKER_FLUSH_HOST_VRAM_SYNC_BIT),
           (has_flag flags PAGE_TRACKER_FLUSH_COPY_BIT),
           (has_flag flags PAGE_TRACKER_FLUSH_CACHE_BIT),
           (has_flag flags PAGE_TRACKER_FLUSH_FB_BIT),
           (has_flag flags PAGE_TRACKER_FLUSH_WRITE_BACK_BIT),
           (collect_pages 0 (sync_host_vram_pages g)),
           (collect_pages 0 (sync_vram_host_pages g)),
           (nonzero (primitive_count (render_pass g)));
    cbn; repeat (constructor; repeat (constructor; try lia)).
Qed.

(** C6: whatever the mask, a flush runs its phases in the order host to
    VRAM page sync, copy flush or copy-overlap barrier, texture-cache
    upload flush, render-pass flush, read-back flush, each one when its
    bit is set; and the copy phase is the overlap barrier exactly when
    none of the cache, render-pass and write-back bits is set. *)
Theorem flush_runs_phases_in_order (flags : Z) (reason : FlushReason) (g : GSState) :
  renderer (flush flags reason g) = renderer g ++ flush_calls flags reason g /\
  StronglySorted Z.lt (map flush_phase (flush_calls flags reason g)) /\
  (In R_transfer_overlap_barrier (flush_calls flags reason g) <->
   has_flag flags PAGE_TRACKER_FLUSH_COPY_BIT = true /\
   has_flag flags PAGE_TRACKER_FLUSH_CACHE_BIT = false /\
   has_flag flags PAGE_TRACKER_FLUSH_FB_BIT = false /\
   has_flag flags PAGE_TRACKER_FLUSH_WRITE_BACK_BIT = false).
Proof.
  split; [| split; [apply flush_calls_sorted |]].
  - unfold flush, flush_calls, when. fold (has_flag flags PAGE_TRACKER_FLUSH_HOST_VRAM_SYNC_BIT).
    fold (has_flag flags PAGE_TRACKER_FLUSH_COPY_BIT).
    fold (has_flag flags PAGE_TRACKER_FLUSH_CACHE_BIT).
    fold (has_flag flags PAGE_TRACKER_FLUSH_FB_BIT).
    fold (has_flag flags PAGE_TRACKER_FLUSH_WRITE_BACK_BIT).
    destruct (has_flag flags PAGE_TRACKER_FLUSH_HOST_VRAM_SYNC_BIT),
             (has_flag flags PAGE_TRACKER_FLUSH_COPY_BIT),
             (has_flag flags PAGE_TRACKER_FLUSH_CACHE_BIT),
             (has_flag flags PAGE_TRACKER_FLUSH_FB_BIT),
             (has_flag flags PAGE_TRACKER_FLUSH_WRITE_BACK_BIT);
      rewrite ?renderer_flush_write_back, ?readback_pages_after_render_pass,
              ?renderer_flush_render_pass, ?render_pass_calls_after_cache;
      change (renderer (flush_cache ?x)) with (renderer x ++ [R_flush_cache_upload]);
      change (sync_vram_host_pages (flush_cache ?x)) with (sync_vram_host_pages x);
      rewrite ?render_pass_calls_after_copy, ?readback_pages_after_copy, ?renderer_flush_copy,
              ?render_pass_calls_after_sync, ?readback_pages_after_sync,
              ?renderer_flush_host_vram_sync;
      rewrite <- ?app_assoc; cbn [app]; rewrite ?app_nil_r; reflexivity.
  - unfold flush_calls, page_calls, render_pass_phase_calls, copy_phase_call.
    destruct (has_flag flags PAGE_TRACKER_FLUSH_HOST_VRAM_SYNC_BIT),
             (has_flag flags PAGE_TRACKER_FLUSH_COPY_BIT),
             (has_flag flags PAGE_TRACKER_FLUSH_CACHE_BIT),
             (has_flag flags PAGE_TRACKER_FLUSH_FB_BIT),
             (has_flag flags PAGE_TRACKER_FLUSH_WRITE_BACK_BIT),
             (collect_pages 0 (sync_host_vram_pages g)),
             (collect_pages 0 (sync_vram_host_pages g)),
             (nonzero (primitive_count (render_pass g)));
      cbn; intuition (discriminate || auto).
Qed.

(** ** Coarse tile size *)

Lemma u32_small (x : Z) : 0 <= x < 2 ^ 32 -> u32 x = x.
Proof. intros H. unfold u32. apply Z.mod_small. assumption. Qed.

Lemma binning_cost_wraps (g : GSState) :
  binning_cost g =
  spec_tile_cost (bb (render_pass g)) (primitive_count (render_pass g)) mod 2 ^ 32.
Proof.
  unfold binning_cost, spec_tile_cost, u32, FB_SWIZZLE_WIDTH_LOG2, FB_SWIZZLE_HEIGHT_LOG2.
  rewrite !Z.shiftr_div_pow2 by lia. change (2 ^ 3) with 8.
  set (w := (bbz (bb (render_pass g)) - bbx (bb (render_pass g))) / 8 + 1).
  set (h := (bbw (bb (render_pass g)) - bby (bb (render_pass g))) / 8 + 1).
  set (n := primitive_count (render_pass g)).
  rewrite <- (Z.mul_mod_idemp_l (w mod 2 ^ 32 * (h mod 2 ^ 32)) n) by lia.
  rewrite <- (Z.mul_mod w h) by lia.
  rewrite Z.mul_mod_idemp_l by lia.
  reflexivity.
Qed.


(** ** Degenerate draws *)

Lemma bits_one_bit (off x : Z) : 0 <= off -> bits off 1 x = 0 \/ bits off 1 x = 1.
Proof.
  intros Hoff. unfold bits. change (Z.ones 1) with 1.
  rewrite Z.land_ones with (n := 1) by lia.
  change (2 ^ 1) with 2.
  pose proof (Z.mod_pos_bound (Z.shiftr x off) 2). lia.
Qed.

Lemma nonzero_one_bit (off x : Z) : 0 <= off -> nonzero (bits off 1 x) = true <-> bits off 1 x = 1.
Proof.
  intros Hoff. unfold nonzero.
  destruct (bits_one_bit off x Hoff) as [H | H]; rewrite H; cbn; intuition discriminate.
Qed.

Lemma degenerate_scissor_spec (c : ContextState) :
  degenerate_scissor c = true <-> scissor_is_empty c.
Proof.
  unfold degenerate_scissor, scissor_is_empty.
  rewrite Bool.orb_true_iff, !Z.ltb_lt. lia.
Qed.

Lemma depth_never_passes_spec (c : ContextState) :
  depth_never_passes c = true <-> depth_test_is_never c.
Proof.
  unfold depth_never_passes, depth_test_is_never, TESTBits.ZTE_ENABLED, TESTBits.ZTST_NEVER.
  rewrite Bool.andb_true_iff, !Z.eqb_eq. reflexivity.
Qed.

Lemma alpha_never_keep_spec (c : ContextState) :
  alpha_never_keep c = true <-> alpha_test_is_never_keep c.
Proof.
  unfold alpha_never_keep, alpha_test_is_never_keep, ATST_NEVER, AFAIL_KEEP, TESTBits.ATE.
  rewrite !Bool.andb_true_iff, !Z.eqb_eq, nonzero_one_bit by lia. tauto.
Qed.

Lemma writes_masked_spec (c : ContextState) :
  writes_masked c = true <-> z_and_color_writes_masked c.
Proof.
  unfold writes_masked, z_and_color_writes_masked, TESTBits.ZTE_UNDEFINED, ZBUFBits.ZMSK,
    UINT32_MAX.
  rewrite Bool.andb_true_iff, Bool.orb_true_iff, !Z.eqb_eq, nonzero_one_bit by lia.
  change (2 ^ 32 - 1) with 4294967295. tauto.
Qed.

(** The verdict of [draw_is_degenerate] is the spec's disjunction. *)
Lemma draw_is_degenerate_spec (g : GSState) :
  degenerate_cache_valid g ->
  (fst (draw_is_degenerate g) = true <-> spec_degenerate (current_ctx g)).
Proof.
  intros Hcache. unfold draw_is_degenerate, get_and_clear_dirty_flag.
  destruct (nonzero (Z.land (dirty_flags (state_tracker g)) STATE_DIRTY_DEGENERATE_BIT)) eqn:Hdirty;
    cbn [negb fst snd].
  - change (current_ctx (upd_state_tracker _ g)) with (current_ctx g).
    unfold spec_degenerate.
    rewrite <- degenerate_scissor_spec, <- depth_never_passes_spec,
            <- alpha_never_keep_spec, <- writes_masked_spec.
    destruct (degenerate_scissor (current_ctx g)); cbn [fst]; [tauto |].
    destruct (depth_never_passes (current_ctx g)); cbn [fst]; [tauto |].
    destruct (alpha_never_keep (current_ctx g)); cbn [fst]; [tauto |].
    intuition discriminate.
  - apply Hcache. unfold nonzero in Hdirty.
    destruct (Z.eqb_spec (Z.land (dirty_flags (state_tracker g)) STATE_DIRTY_DEGENERATE_BIT) 0);
      [assumption | discriminate].
Qed.

(** A degenerate verdict touches the state tracker only. *)
Lemma draw_is_degenerate_frame (g : GSState) :
  let g' := snd (draw_is_degenerate g) in
  render_pass g' = render_pass g /\ renderer g' = renderer g /\ tracker g' = tracker g /\
  registers g' = registers g /\ vertex_queue g' = vertex_queue g.
Proof.
  unfold draw_is_degenerate, get_and_clear_dirty_flag.
  destruct (nonzero (Z.land (dirty_flags (state_tracker g)) STATE_DIRTY_DEGENERATE_BIT));
    cbn [negb fst snd].
  - destruct (degenerate_scissor _); [repeat split |].
    destruct (depth_never_passes _); [repeat split |].
    destruct (alpha_never_keep _); repeat split.
  - repeat split.
Qed.

Lemma drawing_kick_maintain_queue_frame (l f q : bool) (n : Z) (g : GSState) :
  let g' := drawing_kick_maintain_queue l f q n g in
  render_pass g' = render_pass g /\ renderer g' = renderer g /\ tracker g' = tracker g.
Proof. unfold drawing_kick_maintain_queue. destruct f, l; repeat split. Qed.

(** Where the cached verdict is valid, the draw kick fails exactly on
    the four conditions, then appends nothing and calls neither
    collaborator, and otherwise goes through [drawing_kick_append]. *)
Lemma drawing_kick_primitive_by_verdict (list_primitive fan_primitive quad : bool)
    (num_vertices : Z) (g : GSState) :
  degenerate_cache_valid g ->
  num_vertices <= vq_count (vertex_queue g) ->
  let verdict := draw_is_degenerate g in
  let g' := drawing_kick_primitive list_primitive fan_primitive quad num_vertices false g in
  (fst verdict = true <-> spec_degenerate (current_ctx g)) /\
  (spec_degenerate (current_ctx g) ->
   g' = drawing_kick_maintain_queue list_primitive fan_primitive quad num_vertices (snd verdict) /\
   render_pass g' = render_pass g /\ renderer g' = renderer g /\ tracker g' = tracker g) /\
  (~ spec_degenerate (current_ctx g) ->
   g' = drawing_kick_maintain_queue list_primitive fan_primitive quad num_vertices
          (drawing_kick_append list_primitive fan_primitive quad num_vertices (snd verdict))).
Proof.
  intros Hcache Hcount verdict g'. subst verdict g'.
  pose proof (draw_is_degenerate_spec g Hcache) as Hspec.
  split; [exact Hspec |].
  unfold drawing_kick_primitive.
  replace (vq_count (vertex_queue g) <? num_vertices) with false
    by (symmetry; apply Z.ltb_ge; assumption).
  destruct (draw_is_degenerate g) as [degenerate g0] eqn:Hd. cbn [fst snd] in *.
  split.
  - intros Hdeg. apply Hspec in Hdeg. subst degenerate.
    split; [reflexivity |].
    pose proof (draw_is_degenerate_frame g) as Hframe. rewrite Hd in Hframe.
    cbn [snd] in Hframe. destruct Hframe as (Hrp & Hr & Ht & _).
    pose proof (drawing_kick_maintain_queue_frame list_primitive fan_primitive quad
                  num_vertices g0) as (Hrp' & Hr' & Ht').
    repeat split; congruence.
  - intros Hnot. destruct degenerate; [exfalso; apply Hnot, Hspec; reflexivity | reflexivity].
Qed.

(** ** Palette memoization *)

Lemma land_not32_self (x : Z) : Z.land x (not32 x) = 0.
Proof.
  apply Z.bits_inj'. intros n Hn. unfold not32, u32.
  rewrite Z.land_spec, Z.lxor_spec, Z.bits_0.
  destruct (Z.ltb_spec n 32) as [Hlow | Hhigh].
  - rewrite Z.mod_pow2_bits_low by lia.
    rewrite Z.testbit_ones_nonneg by lia.
    replace (n <? 32) with true by (symmetry; apply Z.ltb_lt; assumption).
    destruct (Z.testbit x n); reflexivity.
  - rewrite Z.mod_pow2_bits_high by lia.
    rewrite Z.testbit_ones_nonneg by lia.
    replace (n <? 32) with false by (symmetry; apply Z.ltb_ge; assumption).
    apply Bool.andb_false_r.
Qed.

Lemma palette_matches_csa (m : MemoizedPalette) (csa : Z) (d : PaletteUploadDescriptor) :
  palette_matches m csa d = true -> memo_csa_mask m = csa.
Proof.
  unfold palette_matches. rewrite !Bool.andb_true_iff, !Z.eqb_eq. tauto.
Qed.

(** The search finds a matching entry when every newer entry wrote only
    banks that the upload writes too. *)
Lemma find_memoized_hit (front back : list MemoizedPalette) (m : MemoizedPalette)
                        (csa : Z) (d : PaletteUploadDescriptor) :
  Forall (fun e => Z.land (memo_csa_mask e) (not32 csa) = 0) front ->
  palette_matches m csa d = true ->
  exists j e,
    find_memoized (front ++ m :: back) csa d = Some (j, e) /\
    palette_matches e csa d = true /\ In e (front ++ [m]).
Proof.
  intros Hfront Hm. induction Hfront as [| e front He Hfront IH].
  - assert (Hm0 : Z.land (memo_csa_mask m) (not32 csa) = 0).
    { rewrite (palette_matches_csa m csa d Hm). apply land_not32_self. }
    exists O, m. cbn [app find_memoized].
    rewrite Hm0. cbn [nonzero Z.eqb negb].
    destruct (palette_matches m csa d); [| discriminate].
    split; [reflexivity | split; [reflexivity | left; reflexivity]].
  - destruct IH as (j & hit & Hfind & Hhit & Hin).
    cbn [app find_memoized]. rewrite He. cbn [nonzero Z.eqb negb].
    destruct (palette_matches e csa d) eqn:Hematch.
    + exists O, e. split; [reflexivity | split; [assumption | left; reflexivity]].
    + rewrite Hfind. exists (S j), hit.
      split; [reflexivity | split; [assumption | right; assumption]].
Qed.

Lemma renderer_mark_texture_state_dirty (g : GSState) :
  renderer (mark_texture_state_dirty g) = renderer g.
Proof. reflexivity. Qed.

(** A hit in the ring makes no renderer call and selects the instance of
    the entry that was hit. *)
Lemma memoize_palette_hit (csa : Z) (d : PaletteUploadDescriptor) (g : GSState)
                          (j : nat) (hit : MemoizedPalette) :
  find_memoized (rev (memoized_palettes (render_pass g))) csa d = Some (j, hit) ->
  renderer (memoize_palette csa d g) = renderer g /\
  tracker (memoize_palette csa d g) = tracker g /\
  clut_instance (render_pass (memoize_palette csa d g)) = memo_clut_instance hit.
Proof.
  intros Hfind. unfold memoize_palette. rewrite Hfind. unfold when.
  destruct (negb (memo_clut_instance hit =? clut_instance (render_pass g))); destruct j;
    repeat split.
Qed.

Lemma call_tracker_quiet (c : TrackerCall) (g : GSState) :
  tracker_callbacks (tracker g) c = [] ->
  call_tracker c g = set_tracker (tracker g ++ [c]) g.
Proof. intros H. unfold call_tracker. rewrite H. reflexivity. Qed.

Lemma clut_load_decision_frame (ctx_index : Z) (g : GSState) :
  let g0 := snd (clut_load_decision ctx_index g) in
  render_pass g0 = render_pass g /\ tracker g0 = tracker g /\ renderer g0 = renderer g /\
  transfer_state g0 = transfer_state g /\
  ctx0 (registers g0) = ctx0 (registers g) /\ ctx1 (registers g0) = ctx1 (registers g) /\
  texclut (registers g0) = texclut (registers g).
Proof.
  unfold clut_load_decision, set_cached_cbp.
  repeat match goal with
         | |- context [if ?b then _ else _] => destruct b
         end; cbn; repeat split.
Qed.

Lemma clut_page_rect_ext (a b : GSState) (desc : Z) :
  texclut (registers a) = texclut (registers b) -> clut_page_rect a desc = clut_page_rect b desc.
Proof. intros H. unfold clut_page_rect. rewrite H. reflexivity. Qed.

Lemma palette_descriptor_ext (a b : GSState) (desc : Z) (is8 : bool) :
  texclut (registers a) = texclut (registers b) ->
  palette_descriptor a desc is8 = palette_descriptor b desc is8.
Proof. intros H. unfold palette_descriptor. rewrite H. reflexivity. Qed.

Lemma In_app_singleton_cons {A} (e m : A) (front : list A) :
  In e (front ++ [m]) -> In e (m :: front).
Proof. rewrite in_app_iff. cbn. tauto. Qed.

(** ** GIF paths: arrays and cursors *)

Lemma replace_nth_length {A} (n : nat) (x : A) (l : list A) :
  length (replace_nth n x l) = length l.
Proof.
  revert n. induction l as [| h t IH]; intros n; [destruct n; reflexivity |].
  destruct n; cbn; [reflexivity | rewrite IH; reflexivity].
Qed.

Lemma nth_replace_nth_same {A} (n : nat) (x d : A) (l : list A) :
  (n < length l)%nat -> nth n (replace_nth n x l) d = x.
Proof.
  revert n. induction l as [| h t IH]; intros n Hn; [cbn in Hn; lia |].
  destruct n; cbn; [reflexivity | apply IH; cbn in Hn; lia].
Qed.

Lemma replace_nth_twice {A} (n : nat) (x y : A) (l : list A) :
  replace_nth n y (replace_nth n x l) = replace_nth n y l.
Proof.
  revert n. induction l as [| h t IH]; intros n; [destruct n; reflexivity |].
  destruct n; cbn; [reflexivity | rewrite IH; reflexivity].
Qed.

Lemma set_at_length {A} (i : Z) (x : A) (l : list A) : length (set_at i x l) = length l.
Proof. unfold set_at. destruct (i <? 0); [reflexivity | apply replace_nth_length]. Qed.

Lemma get_at_set_at_same {A} (d : A) (i : Z) (x : A) (l : list A) :
  0 <= i < Z.of_nat (length l) -> get_at d i (set_at i x l) = x.
Proof.
  intros Hi. unfold get_at, set_at.
  replace (i <? 0) with false by (symmetry; apply Z.ltb_ge; lia).
  apply nth_replace_nth_same. lia.
Qed.

Lemma set_at_twice {A} (i : Z) (x y : A) (l : list A) :
  set_at i y (set_at i x l) = set_at i y l.
Proof. unfold set_at. destruct (i <? 0); [reflexivity | apply replace_nth_twice]. Qed.

Lemma get_path_upd_path (path_index : Z) (f : GIFPath -> GIFPath) (s : GSInterface) :
  path_in_range path_index s ->
  get_path path_index (upd_path path_index f s) = f (get_path path_index s).
Proof.
  intros Hr. unfold get_path, upd_path. cbn [paths set_paths].
  apply get_at_set_at_same. assumption.
Qed.

Lemma upd_path_twice (path_index : Z) (f1 f2 : GIFPath -> GIFPath) (s : GSInterface) :
  path_in_range path_index s ->
  upd_path path_index f2 (upd_path path_index f1 s) =
  upd_path path_index (fun p => f2 (f1 p)) s.
Proof.
  intros Hr. unfold upd_path at 1. rewrite get_path_upd_path by assumption.
  unfold upd_path. cbn [paths set_paths]. rewrite set_at_twice. reflexivity.
Qed.

Lemma path_in_range_upd_path (i j : Z) (f : GIFPath -> GIFPath) (s : GSInterface) :
  path_in_range i s -> path_in_range i (upd_path j f s).
Proof.
  unfold path_in_range, upd_path. cbn [paths set_paths]. rewrite set_at_length. tauto.
Qed.

Lemma path_in_range_upd_gs (i : Z) (f : GSState -> GSState) (s : GSInterface) :
  path_in_range i s -> path_in_range i (upd_gs f s).
Proof. tauto. Qed.

Lemma upd_path_upd_gs (i : Z) (f : GIFPath -> GIFPath) (h : GSState -> GSState)
                      (s : GSInterface) :
  upd_path i f (upd_gs h s) = upd_gs h (upd_path i f s).
Proof. reflexivity. Qed.

(** ** Image data delivered in two parts *)

Lemma u32_add_l (a b : Z) : u32 (u32 a + b) = u32 (a + b).
Proof. unfold u32. apply Zplus_mod_idemp_l. Qed.

Lemma u32_sub_r (a b : Z) : u32 (a - u32 b) = u32 (a - b).
Proof. unfold u32. apply Zminus_mod_idemp_r. Qed.

Lemma u32_range (a : Z) : 0 <= u32 a < 2 ^ 32.
Proof. unfold u32. apply Z.mod_pos_bound. lia. Qed.

Lemma qwords_to_words_app (xs ys : list QWord) :
  qwords_to_words (xs ++ ys) = qwords_to_words xs ++ qwords_to_words ys.
Proof. unfold qwords_to_words. apply flat_map_app. Qed.

Lemma qwords_to_words_length (xs : list QWord) :
  Z.of_nat (length (qwords_to_words xs)) = 2 * Z.of_nat (length xs).
Proof.
  induction xs as [| q t IH]; [reflexivity |].
  unfold qwords_to_words in *. cbn [flat_map app length].
  rewrite !Nat2Z.inj_succ. lia.
Qed.

(** Data that stays short of what the transfer requires is only
    appended to the payload. *)
Lemma a_d_HWREG_multi_short (xs : list Z) (g : GSState) :
  host_to_local_active (transfer_state g) = true ->
  payload_size g + Z.of_nat (length xs) < required_qwords (transfer_state g) ->
  a_d_HWREG_multi xs g =
  upd_transfer_state
    (fun ts => set_host_to_local_payload (host_to_local_payload ts ++ xs) ts) g.
Proof.
  intros Ha Hlt. unfold a_d_HWREG_multi. rewrite Ha.
  unfold check_pending_transfer, payload_size in *.
  cbn [upd_transfer_state transfer_state set_transfer_state set_host_to_local_payload
       host_to_local_active host_to_local_payload required_qwords].
  rewrite Ha, length_app, Nat2Z.inj_add.
  replace (required_qwords (transfer_state g) <=? _) with false
    by (symmetry; apply Z.leb_gt; lia).
  reflexivity.
Qed.

Lemma a_d_HWREG_multi_app (xs ys : list Z) (g : GSState) :
  host_to_local_active (transfer_state g) = false \/
  payload_size g + Z.of_nat (length xs) < required_qwords (transfer_state g) ->
  a_d_HWREG_multi (xs ++ ys) g = a_d_HWREG_multi ys (a_d_HWREG_multi xs g).
Proof.
  intros [Hidle | Hlt].
  - unfold a_d_HWREG_multi. rewrite !Hidle. reflexivity.
  - destruct (host_to_local_active (transfer_state g)) eqn:Ha.
    + rewrite (a_d_HWREG_multi_short xs g Ha Hlt).
      unfold a_d_HWREG_multi.
      cbn [upd_transfer_state transfer_state set_transfer_state set_host_to_local_payload
           host_to_local_active host_to_local_payload].
      rewrite Ha. f_equal. unfold upd_transfer_state.
      cbn [transfer_state set_transfer_state host_to_local_payload set_host_to_local_payload].
      rewrite app_assoc. reflexivity.
    + unfold a_d_HWREG_multi. rewrite !Ha. reflexivity.
Qed.

Lemma u32_remaining_loops (n l a : Z) :
  0 <= a < u32 (n - l) -> u32 (n - u32 (l + a)) = u32 (n - l) - a.
Proof.
  intros Ha. rewrite u32_sub_r.
  replace (n - (l + a)) with ((n - l) + (- a)) by lia.
  rewrite <- u32_add_l.
  pose proof (u32_range (n - l)) as Hr.
  unfold u32 at 1. apply Z.mod_small. lia.
Qed.

Lemma set_loop_twice (a b : Z) (p : GIFPath) : set_loop b (set_loop a p) = set_loop b p.
Proof. reflexivity. Qed.

Lemma get_path_upd_gs (i : Z) (h : GSState -> GSState) (s : GSInterface) :
  get_path i (upd_gs h s) = get_path i s.
Proof. reflexivity. Qed.

Lemma upd_path_ext (i : Z) (f1 f2 : GIFPath -> GIFPath) (s : GSInterface) :
  f1 (get_path i s) = f2 (get_path i s) -> upd_path i f1 s = upd_path i f2 s.
Proof. intros H. unfold upd_path. rewrite H. reflexivity. Qed.

(** An IMAGE run that the buffer cuts short is picked up by the next
    call where it stopped. *)
Lemma image_branch_in_two (path_index : Z) (A B : list QWord) (nreg : Z) (s : GSInterface) :
  path_in_range path_index s ->
  Z.of_nat (length A) <
    u32 (GIFTagBits.NLOOP (tag (get_path path_index s)) - loop (get_path path_index s)) ->
  host_to_local_active (transfer_state (gs s)) = false \/
  payload_size (gs s) + 2 * Z.of_nat (length A) < required_qwords (transfer_state (gs s)) ->
  let it1 := gif_image_branch path_index A nreg s in
  it_rest it1 = [] /\
  get_path path_index (it_state it1) =
    set_loop (u32 (loop (get_path path_index s) + Z.of_nat (length A)))
             (get_path path_index s) /\
  gif_image_branch path_index B nreg (it_state it1) =
  gif_image_branch path_index (A ++ B) nreg s.
Proof.
  intros Hr Hd Hw.
  set (p := get_path path_index s) in *.
  set (d := u32 (GIFTagBits.NLOOP (tag p) - loop p)) in *.
  assert (H1 : image_loops path_index A s = Z.of_nat (length A)).
  { unfold image_loops. fold p. fold d. lia. }
  assert (HJ : image_loops path_index (A ++ B) s =
               Z.of_nat (length A) + Z.min (Z.of_nat (length B)) (d - Z.of_nat (length A))).
  { unfold image_loops. fold p. fold d. rewrite length_app, Nat2Z.inj_add. lia. }
  set (s1 := upd_path path_index
               (fun p0 => set_loop (u32 (loop p0 + Z.of_nat (length A))) p0)
               (upd_gs (a_d_HWREG_multi (qwords_to_words A)) s)).
  assert (Hit1 : gif_image_branch path_index A nreg s =
                 {| it_branch := BranchImage; it_state := s1; it_rest := []; it_nreg := nreg |}).
  { unfold gif_image_branch. rewrite H1, Nat2Z.id, skipn_all, firstn_all. reflexivity. }
  assert (Hp1 : get_path path_index s1 = set_loop (u32 (loop p + Z.of_nat (length A))) p).
  { unfold s1. rewrite get_path_upd_path by (apply path_in_range_upd_gs; exact Hr).
    reflexivity. }
  cbv zeta. rewrite Hit1. cbn [it_rest it_state].
  split; [reflexivity |]. split; [exact Hp1 |].
  assert (H2 : image_loops path_index B s1 =
               Z.min (Z.of_nat (length B)) (d - Z.of_nat (length A))).
  { unfold image_loops. rewrite Hp1. cbn [tag loop set_loop].
    rewrite u32_remaining_loops by (fold d; lia). reflexivity. }
  unfold gif_image_branch. rewrite H2, HJ.
  set (n2 := Z.min (Z.of_nat (length B)) (d - Z.of_nat (length A))).
  assert (Hn2 : 0 <= n2) by (unfold n2; lia).
  replace (Z.to_nat (Z.of_nat (length A) + n2)) with (length A + Z.to_nat n2)%nat by lia.
  rewrite firstn_app_2, skipn_app.
  replace (length A + Z.to_nat n2 - length A)%nat with (Z.to_nat n2) by lia.
  rewrite (skipn_all2 (n := (length A + Z.to_nat n2)%nat) A) by lia.
  cbn [app]. f_equal.
  unfold s1. rewrite upd_path_upd_gs, upd_path_twice by exact Hr.
  rewrite qwords_to_words_app.
  unfold upd_gs at 1 2 3. cbn [gs set_gs].
  rewrite a_d_HWREG_multi_app
    by (rewrite qwords_to_words_length; exact Hw).
  rewrite (upd_path_ext path_index
             (fun p0 => set_loop (u32 (loop (set_loop (u32 (loop p0 + Z.of_nat (length A))) p0) + n2))
                          (set_loop (u32 (loop p0 + Z.of_nat (length A))) p0))
             (fun p0 => set_loop (u32 (loop p0 + (Z.of_nat (length A) + n2))) p0)).
  - reflexivity.
  - cbn [loop set_loop]. rewrite set_loop_twice, u32_add_l, Z.add_assoc. reflexivity.
Qed.

(** ** What one iteration does to the path *)

Lemma keeps_tag_refl (i : Z) (s : GSInterface) : path_in_range i s -> keeps_tag i s s.
Proof. intros H. split; [exact H | reflexivity]. Qed.

Lemma keeps_tag_trans (i : Z) (s1 s2 s3 : GSInterface) :
  keeps_tag i s1 s2 -> keeps_tag i s2 s3 -> keeps_tag i s1 s3.
Proof. intros [_ H12] [H3 H23]. split; [exact H3 | congruence]. Qed.

Lemma keeps_tag_upd_path (i : Z) (f : GIFPath -> GIFPath) (s : GSInterface) :
  path_in_range i s -> (forall p, tag (f p) = tag p) -> keeps_tag i s (upd_path i f s).
Proof.
  intros Hr Hf. split.
  - apply path_in_range_upd_path. exact Hr.
  - rewrite get_path_upd_path by exact Hr. apply Hf.
Qed.

Lemma keeps_tag_upd_gs (i : Z) (h : GSState -> GSState) (s : GSInterface) :
  path_in_range i s -> keeps_tag i s (upd_gs h s).
Proof. intros Hr. split; [exact Hr | reflexivity]. Qed.

Lemma keeps_tag_advance_reg (i : Z) (s : GSInterface) :
  path_in_range i s -> keeps_tag i s (advance_reg i s).
Proof. intros Hr. apply keeps_tag_upd_path; [exact Hr | reflexivity]. Qed.

Lemma keeps_tag_close_loop (i nreg : Z) (s : GSInterface) :
  path_in_range i s -> keeps_tag i s (close_loop i nreg s).
Proof.
  intros Hr. unfold close_loop. destruct (reg (get_path i s) =? nreg).
  - apply keeps_tag_upd_path; [exact Hr | reflexivity].
  - apply keeps_tag_refl. exact Hr.
Qed.

Lemma keeps_tag_packed (i : Z) (q : QWord) (rest : list QWord) (nreg : Z) (s : GSInterface) :
  path_in_range i s -> keeps_tag i s (it_state (gif_packed_branch i q rest nreg s)).
Proof.
  intros Hr. unfold gif_packed_branch. cbn [it_state].
  pose proof (keeps_tag_advance_reg i s Hr) as H1.
  eapply keeps_tag_trans; [exact H1 |].
  eapply keeps_tag_trans; [apply keeps_tag_upd_gs; apply H1 |].
  apply keeps_tag_close_loop. apply H1.
Qed.

Lemma keeps_tag_reglist_write (i word nreg : Z) (s : GSInterface) :
  path_in_range i s -> keeps_tag i s (snd (reglist_write i word nreg s)).
Proof.
  intros Hr. unfold reglist_write. cbn [snd].
  pose proof (keeps_tag_advance_reg i s Hr) as H1.
  eapply keeps_tag_trans; [exact H1 |].
  eapply keeps_tag_trans; [apply keeps_tag_upd_gs; apply H1 |].
  apply keeps_tag_close_loop. apply H1.
Qed.

Lemma keeps_tag_reglist (i : Z) (q : QWord) (rest : list QWord) (nreg : Z) (s : GSInterface) :
  path_in_range i s -> keeps_tag i s (it_state (gif_reglist_branch i q rest nreg s)).
Proof.
  intros Hr. unfold gif_reglist_branch.
  pose proof (keeps_tag_reglist_write i (bits 0 64 (lo q)) nreg s Hr) as H1.
  destruct (reglist_write i (bits 0 64 (lo q)) nreg s) as [e s1]. cbn [snd] in H1.
  cbn [it_state].
  destruct (e && needs_gif_tag i s1); [exact H1 |].
  eapply keeps_tag_trans; [exact H1 |].
  apply keeps_tag_reglist_write. apply H1.
Qed.

Lemma keeps_tag_image (i : Z) (words : list QWord) (nreg : Z) (s : GSInterface) :
  path_in_range i s -> keeps_tag i s (it_state (gif_image_branch i words nreg s)).
Proof.
  intros Hr. unfold gif_image_branch. cbn [it_state].
  eapply keeps_tag_trans; [apply keeps_tag_upd_gs; exact Hr |].
  apply keeps_tag_upd_path; [exact Hr | reflexivity].
Qed.

Lemma keeps_tag_generic_branch (i : Z) (q : QWord) (rest : list QWord) (nreg : Z)
                               (s : GSInterface) :
  path_in_range i s ->
  keeps_tag i s (it_state (gif_generic_branch i q rest nreg s)) /\
  it_nreg (gif_generic_branch i q rest nreg s) = nreg.
Proof.
  intros Hr. unfold gif_generic_branch.
  destruct (GIFTagBits.FLG (tag (get_path i s)) =? GIFTagBits.PACKED).
  - split; [apply keeps_tag_packed; exact Hr | reflexivity].
  - destruct (GIFTagBits.FLG (tag (get_path i s)) =? GIFTagBits.REGLIST).
    + split; [apply keeps_tag_reglist; exact Hr |].
      unfold gif_reglist_branch.
      destruct (reglist_write i (bits 0 64 (lo q)) nreg s). reflexivity.
    + split; [apply keeps_tag_image; exact Hr | reflexivity].
Qed.

Lemma path_in_range_tag_branch (i : Z) (q : QWord) (rest : list QWord) (s : GSInterface) :
  path_in_range i s -> path_in_range i (it_state (gif_tag_branch i q rest s)).
Proof.
  intros Hr. unfold gif_tag_branch. cbn [it_state].
  apply path_in_range_upd_path. unfold update_optimized_gif_handler, path_in_range.
  cbn [paths set_optimized_draw_handler].
  match goal with |- context [if ?c then _ else _] => destruct c end;
    apply path_in_range_upd_path; exact Hr.
Qed.

(** After an iteration of the generic dispatcher the register count in
    use is the one of the tag of the path. *)
Lemma generic_iteration_path (i : Z) (q : QWord) (rest : list QWord) (nreg : Z)
                             (s : GSInterface) :
  path_in_range i s ->
  nreg = tag_nreg (tag (get_path i s)) ->
  path_in_range i (it_state (gif_iteration_generic i q rest nreg s)) /\
  it_nreg (gif_iteration_generic i q rest nreg s) =
  tag_nreg (tag (get_path i (it_state (gif_iteration_generic i q rest nreg s)))).
Proof.
  intros Hr Hn. unfold gif_iteration_generic. destruct (needs_gif_tag i s).
  - split; [apply path_in_range_tag_branch; exact Hr | reflexivity].
  - destruct (keeps_tag_generic_branch i q rest nreg s Hr) as [[Hr' Ht] Hnr].
    split; [exact Hr' |]. rewrite Hnr, Ht. exact Hn.
Qed.

(** ** Plain transfers *)

Lemma gif_iteration_not_engaged (i size : Z) (q : QWord) (rest : list QWord) (nreg : Z)
                                (s : GSInterface) :
  needs_gif_tag i s || negb (whole_loop_handler_engaged i s) = true ->
  gif_iteration i size q rest nreg s = Some (gif_iteration_generic i q rest nreg s).
Proof.
  unfold gif_iteration, gif_iteration_generic, whole_loop_handler_engaged.
  destruct (needs_gif_tag i s); [reflexivity |].
  destruct (get_optimized_handler i s); [| reflexivity].
  destruct (reg (get_path i s) =? 0); [discriminate | reflexivity].
Qed.

Lemma iteration_is_plain_not_engaged (i : Z) (words : list QWord) (s : GSInterface) :
  iteration_is_plain i words s = true ->
  needs_gif_tag i s || negb (whole_loop_handler_engaged i s) = true.
Proof.
  unfold iteration_is_plain.
  destruct (needs_gif_tag i s); [reflexivity |].
  destruct (whole_loop_handler_engaged i s); [discriminate | reflexivity].
Qed.

Lemma gif_transfer_loop_nil (fuel : nat) (i size nreg : Z) (s : GSInterface) :
  gif_transfer_loop fuel i size [] nreg s = Returned s.
Proof. destruct fuel; reflexivity. Qed.

Lemma gif_transfer_loop_more_fuel (fuel : nat) (i size : Z) (words : list QWord) (nreg : Z)
                                  (s s' : GSInterface) :
  gif_transfer_loop fuel i size words nreg s = Returned s' ->
  gif_transfer_loop (S fuel) i size words nreg s = Returned s'.
Proof.
  revert words nreg s. induction fuel as [| f IH]; intros words nreg s H.
  - destruct words; [exact H | discriminate].
  - destruct words as [| q rest]; [exact H |].
    cbn [gif_transfer_loop] in H.
    change (gif_transfer_loop (S (S f)) i size (q :: rest) nreg s)
      with (match gif_iteration i size q rest nreg s with
            | None => ReadsOutsideBuffer
            | Some it => gif_transfer_loop (S f) i size (it_rest it) (it_nreg it) (it_state it)
            end).
    destruct (gif_iteration i size q rest nreg s) as [it |]; [| discriminate].
    apply IH. exact H.
Qed.

(** A plain transfer returns, and does not look at the size of the
    buffer beyond the quad-words it is given. *)
Lemma plain_transfer_returns (fuel : nat) (i size size' : Z) (words : list QWord) (nreg : Z)
                             (s : GSInterface) :
  transfer_is_plain fuel i size words nreg s = true ->
  exists s', gif_transfer_loop fuel i size words nreg s = Returned s' /\
             gif_transfer_loop fuel i size' words nreg s = Returned s'.
Proof.
  revert words nreg s. induction fuel as [| f IH]; intros words nreg s H.
  - destruct words; [| discriminate]. exists s. split; reflexivity.
  - destruct words as [| q rest]; [exists s; split; reflexivity |].
    cbn [transfer_is_plain] in H. apply andb_prop in H. destruct H as [Hit H].
    apply iteration_is_plain_not_engaged in Hit.
    cbn [gif_transfer_loop].
    rewrite (gif_iteration_not_engaged i size q rest nreg s Hit) in *.
    rewrite (gif_iteration_not_engaged i size' q rest nreg s Hit).
    apply IH. exact H.
Qed.

Lemma generic_iteration_rest (i : Z) (q : QWord) (rest : list QWord) (nreg : Z)
                             (s : GSInterface) :
  image_turn i s = false ->
  gif_iteration_generic i q rest nreg s =
  {| it_branch := it_branch (gif_iteration_generic i q [] nreg s);
     it_state := it_state (gif_iteration_generic i q [] nreg s);
     it_rest := rest;
     it_nreg := it_nreg (gif_iteration_generic i q [] nreg s) |}.
Proof.
  unfold image_turn, gif_iteration_generic, gif_generic_branch.
  destruct (needs_gif_tag i s); [reflexivity |].
  destruct (GIFTagBits.FLG (tag (get_path i s)) =? GIFTagBits.PACKED); [reflexivity |].
  destruct (GIFTagBits.FLG (tag (get_path i s)) =? GIFTagBits.REGLIST); [| discriminate].
  intros _. unfold gif_reglist_branch.
  destruct (reglist_write i (bits 0 64 (lo q)) nreg s). reflexivity.
Qed.

Lemma generic_iteration_image (i : Z) (q : QWord) (rest : list QWord) (nreg : Z)
                              (s : GSInterface) :
  image_turn i s = true ->
  gif_iteration_generic i q rest nreg s = gif_image_branch i (q :: rest) nreg s.
Proof.
  unfold image_turn, gif_iteration_generic, gif_generic_branch.
  destruct (needs_gif_tag i s); [discriminate |].
  destruct (GIFTagBits.FLG (tag (get_path i s)) =? GIFTagBits.PACKED); [discriminate |].
  destruct (GIFTagBits.FLG (tag (get_path i s)) =? GIFTagBits.REGLIST);
    [discriminate | reflexivity].
Qed.

(** An IMAGE run that ends within the first part of the data. *)
Lemma image_branch_within (i : Z) (A B : list QWord) (nreg : Z) (s : GSInterface) :
  u32 (GIFTagBits.NLOOP (tag (get_path i s)) - loop (get_path i s))
    <= Z.of_nat (length A) ->
  gif_image_branch i (A ++ B) nreg s =
  {| it_branch := BranchImage;
     it_state := it_state (gif_image_branch i A nreg s);
     it_rest := it_rest (gif_image_branch i A nreg s) ++ B;
     it_nreg := nreg |}.
Proof.
  intros Hd.
  pose proof (u32_range (GIFTagBits.NLOOP (tag (get_path i s)) - loop (get_path i s))) as Hr.
  set (d := u32 (GIFTagBits.NLOOP (tag (get_path i s)) - loop (get_path i s))) in *.
  assert (H1 : image_loops i A s = d) by (unfold image_loops; fold d; lia).
  assert (HJ : image_loops i (A ++ B) s = d).
  { unfold image_loops. fold d. rewrite length_app, Nat2Z.inj_add. lia. }
  unfold gif_image_branch. cbn [it_state it_rest]. rewrite H1, HJ.
  rewrite firstn_app, skipn_app.
  replace (Z.to_nat d - length A)%nat with 0%nat by lia.
  cbn [firstn skipn]. rewrite app_nil_r. reflexivity.
Qed.

Lemma plain_image_within (i : Z) (A B : list QWord) (s : GSInterface) :
  iteration_is_plain i (A ++ B) s = true ->
  image_turn i s = true ->
  B <> [] ->
  Z.of_nat (length A) <
    u32 (GIFTagBits.NLOOP (tag (get_path i s)) - loop (get_path i s)) ->
  host_to_local_active (transfer_state (gs s)) = false \/
  payload_size (gs s) + 2 * Z.of_nat (length A) < required_qwords (transfer_state (gs s)).
Proof.
  unfold iteration_is_plain, image_turn, image_within_required, image_loops.
  intros Hp Ht HB Hd.
  destruct (needs_gif_tag i s); [discriminate |].
  destruct (GIFTagBits.FLG (tag (get_path i s)) =? GIFTagBits.PACKED); [discriminate |].
  destruct (GIFTagBits.FLG (tag (get_path i s)) =? GIFTagBits.REGLIST); [discriminate |].
  destruct (whole_loop_handler_engaged i s); [discriminate |].
  cbn [negb orb andb] in Hp.
  destruct (host_to_local_active (transfer_state (gs s))); [right | left; reflexivity].
  cbn [negb orb] in Hp. apply Z.leb_le in Hp.
  rewrite length_app, Nat2Z.inj_add in Hp.
  assert (0 < Z.of_nat (length B)) by (destruct B; [congruence | cbn [length]; lia]).
  lia.
Qed.

(** The call that picks an IMAGE run up is again at an image turn, with
    no whole-loop handler engaged. *)
Lemma image_branch_in_two_turn (i : Z) (A : list QWord) (nreg : Z) (s : GSInterface) :
  path_in_range i s ->
  Z.of_nat (length A) <
    u32 (GIFTagBits.NLOOP (tag (get_path i s)) - loop (get_path i s)) ->
  host_to_local_active (transfer_state (gs s)) = false \/
  payload_size (gs s) + 2 * Z.of_nat (length A) < required_qwords (transfer_state (gs s)) ->
  image_turn i s = true ->
  whole_loop_handler_engaged i s = false ->
  image_turn i (it_state (gif_image_branch i A nreg s)) = true /\
  whole_loop_handler_engaged i (it_state (gif_image_branch i A nreg s)) = false.
Proof.
  intros Hr Hd Hw Ht He.
  destruct (image_branch_in_two i A [] nreg s Hr Hd Hw) as [_ [Hp1 _]].
  unfold image_turn, whole_loop_handler_engaged, needs_gif_tag in *.
  rewrite Hp1. cbn [tag loop reg set_loop].
  change (get_optimized_handler i (it_state (gif_image_branch i A nreg s)))
    with (get_optimized_handler i s).
  split; [| exact He].
  destruct (loop (get_path i s) =? GIFTagBits.NLOOP (tag (get_path i s))); [discriminate |].
  destruct (GIFTagBits.FLG (tag (get_path i s)) =? GIFTagBits.PACKED); [discriminate |].
  destruct (GIFTagBits.FLG (tag (get_path i s)) =? GIFTagBits.REGLIST); [discriminate |].
  pose proof (u32_remaining_loops (GIFTagBits.NLOOP (tag (get_path i s)))
                (loop (get_path i s)) (Z.of_nat (length A))) as Hrem.
  destruct (Z.eqb_spec (u32 (loop (get_path i s) + Z.of_nat (length A)))
                       (GIFTagBits.NLOOP (tag (get_path i s)))) as [Heq | Hne];
    [| reflexivity].
  exfalso. specialize (Hrem (conj (Nat2Z.is_nonneg _) Hd)).
  rewrite Heq, Z.sub_diag in Hrem. change (u32 0) with 0 in Hrem. lia.
Qed.

Lemma plain_engaged_at_image_turn (i : Z) (words : list QWord) (s : GSInterface) :
  iteration_is_plain i words s = true ->
  image_turn i s = true ->
  whole_loop_handler_engaged i s = false.
Proof.
  unfold iteration_is_plain, image_turn.
  destruct (needs_gif_tag i s); [discriminate |].
  destruct (whole_loop_handler_engaged i s); [discriminate | reflexivity].
Qed.

(** The loop of a plain transfer, run on the two parts of its data one
    after the other. *)
Lemma plain_loop_splits (i : Z) (fuel : nat) :
  forall (A B : list QWord) (nreg : Z) (s : GSInterface) (size sizeA sizeB : Z),
  path_in_range i s ->
  nreg = tag_nreg (tag (get_path i s)) ->
  transfer_is_plain fuel i size (A ++ B) nreg s = true ->
  exists s1 s',
    gif_transfer_loop fuel i sizeA A nreg s = Returned s1 /\
    gif_transfer_loop fuel i sizeB B (tag_nreg (tag (get_path i s1))) s1 = Returned s' /\
    gif_transfer_loop fuel i size (A ++ B) nreg s = Returned s'.
Proof.
  induction fuel as [| f IH]; intros A B nreg s size sizeA sizeB Hr Hn Hp.
  - destruct A; destruct B; try discriminate. exists s, s. repeat split.
  - destruct A as [| q A'].
    + cbn [app] in *.
      destruct (plain_transfer_returns _ _ size sizeB _ _ _ Hp) as [s' [H1 H2]].
      exists s, s'. rewrite <- Hn. repeat split; assumption.
    + cbn [app] in Hp |- *. pose proof Hp as Hall.
      cbn [transfer_is_plain] in Hp. apply andb_prop in Hp. destruct Hp as [Hit Hp].
      pose proof (iteration_is_plain_not_engaged _ _ _ Hit) as Hne.
      rewrite (gif_iteration_not_engaged i size q (A' ++ B) nreg s Hne) in Hp.
      cbn [gif_transfer_loop].
      rewrite (gif_iteration_not_engaged i size q (A' ++ B) nreg s Hne).
      rewrite (gif_iteration_not_engaged i sizeA q A' nreg s Hne).
      destruct (image_turn i s) eqn:Himg.
      * rewrite (generic_iteration_image i q (A' ++ B) nreg s Himg) in *.
        rewrite (generic_iteration_image i q A' nreg s Himg).
        change (q :: A' ++ B) with ((q :: A') ++ B) in *.
        set (A := q :: A') in *.
        destruct (Z_lt_le_dec (Z.of_nat (length A))
                    (u32 (GIFTagBits.NLOOP (tag (get_path i s)) - loop (get_path i s))))
          as [Hlt | Hle].
        -- destruct B as [| b B'].
           ++ rewrite app_nil_r in *.
              destruct (plain_transfer_returns _ _ size sizeA _ _ _ Hp) as [s' [H1 H2]].
              exists s', s'. split; [exact H2 |].
              split; [reflexivity | exact H1].
           ++ assert (Hw := plain_image_within i A (b :: B') s Hit Himg
                              ltac:(discriminate) Hlt).
              assert (He := plain_engaged_at_image_turn _ _ _ Hit Himg).
              destruct (image_branch_in_two i A (b :: B') nreg s Hr Hlt Hw)
                as [Hrest [Hp1 Heq]].
              destruct (image_branch_in_two_turn i A nreg s Hr Hlt Hw Himg He)
                as [Himg1 He1].
              destruct (plain_transfer_returns _ _ size sizeB _ _ _ Hp) as [s' [H1 H2]].
              exists (it_state (gif_image_branch i A nreg s)), s'.
              split; [rewrite Hrest; apply gif_transfer_loop_nil |].
              split; [| exact H1].
              cbn [gif_transfer_loop].
              rewrite gif_iteration_not_engaged by (rewrite He1; apply orb_true_r).
              rewrite (generic_iteration_image _ _ _ _ _ Himg1).
              replace (tag_nreg (tag (get_path i (it_state (gif_image_branch i A nreg s)))))
                with nreg by (rewrite Hp1; exact Hn).
              rewrite Heq. exact H2.
        -- rewrite (image_branch_within i A B nreg s Hle) in *.
           cbn [it_rest it_state it_nreg] in *.
           destruct (keeps_tag_image i A nreg s Hr) as [Hr1 Ht1].
           destruct (IH (it_rest (gif_image_branch i A nreg s)) B nreg
                        (it_state (gif_image_branch i A nreg s)) size sizeA sizeB
                        Hr1 ltac:(rewrite Ht1; exact Hn) Hp) as [s1 [s' [H1 [H2 H3]]]].
           exists s1, s'. split; [exact H1 |].
           split; [apply gif_transfer_loop_more_fuel; exact H2 | exact H3].
      * rewrite (generic_iteration_rest i q (A' ++ B) nreg s Himg) in *.
        rewrite (generic_iteration_rest i q A' nreg s Himg).
        cbn [it_rest it_state it_nreg] in *.
        destruct (generic_iteration_path i q [] nreg s Hr Hn) as [Hr1 Hn1].
        destruct (IH A' B _ _ size sizeA sizeB Hr1 Hn1 Hp) as [s1 [s' [H1 [H2 H3]]]].
        exists s1, s'. split; [exact H1 |].
        split; [apply gif_transfer_loop_more_fuel; exact H2 | exact H3].
Qed.


End InterfaceProperties.

(** * One sprite after another *)

(** Projections of updated records, in the goal and everywhere. *)
Ltac project :=
  cbn [fst snd negb andb orb is_empty map_find length app when
       upd_registers upd_state_tracker upd_render_pass upd_vertex_queue upd_transfer_state
       or_dirty log_renderer
       set_tex0 set_tex1 set_clamp set_xyoffset set_miptbl_1_3 set_miptbl_4_6 set_scissor
       set_alpha set_test set_fba set_frame set_zbuf set_prim set_rgbaq set_st set_uv set_fog
       set_fogcol set_texclut set_scanmsk set_texa set_dimx set_dthe set_colclamp set_pabe
       set_prmodecont set_bitbltbuf set_trxpos set_trxreg set_trxdir set_internal_q
       set_cached_cbp0 set_cached_cbp1 set_ctx0 set_ctx1 set_tex_rect set_tex_levels
       set_tex_page_rects set_dirty_flags set_degenerate_draw set_last_state_vector
       set_last_state_index set_last_texture_index set_last_texture_descriptor set_prim_template
       set_tex set_positions set_attributes set_prims set_primitive_count set_state_vectors
       set_state_vector_map set_tex_infos set_texture_map set_held_images set_pass_frame
       set_pass_zbuf set_fb_page_width_log2 set_fb_page_height_log2 set_z_page_width_log2
       set_z_page_height_log2 set_bb set_color_write_mask set_z_sensitive set_z_write
       set_has_color_feedback set_feedback_psm set_feedback_cpsm set_has_aa1 set_has_scanmsk
       set_is_color_feedback set_is_potential_color_feedback set_is_potential_depth_feedback
       set_memoized_palettes set_clut_instance set_latest_clut_instance
       set_pending_palette_updates set_label_key set_vq_pos set_vq_attr set_vq_count set_tag
       set_loop set_reg set_host_to_local_active set_host_to_local_payload
       set_last_flushed_qwords set_required_qwords set_copy set_registers set_state_tracker
       set_render_pass set_vertex_queue set_draw_handler set_transfer_state
       set_sync_host_vram_pages set_sync_vram_host_pages set_page_buffer
       set_sampling_rate_x_log2 set_sampling_rate_y_log2 set_vram_size set_debug_mode
       set_tracker set_renderer set_gs set_paths set_optimized_draw_handler set_cached_cbp
       set_at
       tex0 tex1 clamp xyoffset miptbl_1_3 miptbl_4_6 scissor alpha test fba frame zbuf prim
       rgbaq st uv fog fogcol texclut scanmsk texa dimx dthe colclamp pabe prmodecont bitbltbuf
       trxpos trxreg trxdir internal_q cached_cbp0 cached_cbp1 ctx0 ctx1 level_base level_stride
       tex_rect tex_levels tex_page_rects dirty_flags degenerate_draw last_state_vector
       last_state_index last_texture_index last_texture_descriptor prim_template tex positions
       attributes prims primitive_count state_vectors state_vector_map tex_infos texture_map
       held_images pass_frame pass_zbuf fb_page_width_log2 fb_page_height_log2 z_page_width_log2
       z_page_height_log2 bb color_write_mask z_sensitive z_write has_color_feedback
       feedback_psm feedback_cpsm has_aa1 has_scanmsk is_color_feedback
       is_potential_color_feedback is_potential_depth_feedback memoized_palettes clut_instance
       latest_clut_instance pending_palette_updates label_key vq_pos vq_attr vq_count tag loop
       reg host_to_local_active host_to_local_payload last_flushed_qwords required_qwords copy
       registers state_tracker render_pass vertex_queue draw_handler transfer_state
       sync_host_vram_pages sync_vram_host_pages page_buffer sampling_rate_x_log2
       sampling_rate_y_log2 vram_size debug_mode tracker renderer gs paths
       optimized_draw_handler].

Ltac project_all :=
  cbn [fst snd negb andb orb is_empty map_find length app when
       upd_registers upd_state_tracker upd_render_pass upd_vertex_queue upd_transfer_state
       or_dirty log_renderer
       set_tex0 set_tex1 set_clamp set_xyoffset set_miptbl_1_3 set_miptbl_4_6 set_scissor
       set_alpha set_test set_fba set_frame set_zbuf set_prim set_rgbaq set_st set_uv set_fog
       set_fogcol set_texclut set_scanmsk set_texa set_dimx set_dthe set_colclamp set_pabe
       set_prmodecont set_bitbltbuf set_trxpos set_trxreg set_trxdir set_internal_q
       set_cached_cbp0 set_cached_cbp1 set_ctx0 set_ctx1 set_tex_rect set_tex_levels
       set_tex_page_rects set_dirty_flags set_degenerate_draw set_last_state_vector
       set_last_state_index set_last_texture_index set_last_texture_descriptor set_prim_template
       set_tex set_positions set_attributes set_prims set_primitive_count set_state_vectors
       set_state_vector_map set_tex_infos set_texture_map set_held_images set_pass_frame
       set_pass_zbuf set_fb_page_width_log2 set_fb_page_height_log2 set_z_page_width_log2
       set_z_page_height_log2 set_bb set_color_write_mask set_z_sensitive set_z_write
       set_has_color_feedback set_feedback_psm set_feedback_cpsm set_has_aa1 set_has_scanmsk
       set_is_color_feedback set_is_potential_color_feedback set_is_potential_depth_feedback
       set_memoized_palettes set_clut_instance set_latest_clut_instance
       set_pending_palette_updates set_label_key set_vq_pos set_vq_attr set_vq_count set_tag
       set_loop set_reg set_host_to_local_active set_host_to_local_payload
       set_last_flushed_qwords set_required_qwords set_copy set_registers set_state_tracker
       set_render_pass set_vertex_queue set_draw_handler set_transfer_state
       set_sync_host_vram_pages set_sync_vram_host_pages set_page_buffer
       set_sampling_rate_x_log2 set_sampling_rate_y_log2 set_vram_size set_debug_mode
       set_tracker set_renderer set_gs set_paths set_optimized_draw_handler set_cached_cbp
       set_at
       tex0 tex1 clamp xyoffset miptbl_1_3 miptbl_4_6 scissor alpha test fba frame zbuf prim
       rgbaq st uv fog fogcol texclut scanmsk texa dimx dthe colclamp pabe prmodecont bitbltbuf
       trxpos trxreg trxdir internal_q cached_cbp0 cached_cbp1 ctx0 ctx1 level_base level_stride
       tex_rect tex_levels tex_page_rects dirty_flags degenerate_draw last_state_vector
       last_state_index last_texture_index last_texture_descriptor prim_template tex positions
       attributes prims primitive_count state_vectors state_vector_map tex_infos texture_map
       held_images pass_frame pass_zbuf fb_page_width_log2 fb_page_height_log2 z_page_width_log2
       z_page_height_log2 bb color_write_mask z_sensitive z_write has_color_feedback
       feedback_psm feedback_cpsm has_aa1 has_scanmsk is_color_feedback
       is_potential_color_feedback is_potential_depth_feedback memoized_palettes clut_instance
       latest_clut_instance pending_palette_updates label_key vq_pos vq_attr vq_count tag loop
       reg host_to_local_active host_to_local_payload last_flushed_qwords required_qwords copy
       registers state_tracker render_pass vertex_queue draw_handler transfer_state
       sync_host_vram_pages sync_vram_host_pages page_buffer sampling_rate_x_log2
       sampling_rate_y_log2 vram_size debug_mode tracker renderer gs paths
       optimized_draw_handler] in *.

(** A state written with setters, as a record. *)
Ltac unfold_records :=
  cbv beta iota delta [set_tex0 set_tex1 set_clamp set_xyoffset set_miptbl_1_3 set_miptbl_4_6
      set_scissor set_alpha set_test set_fba set_frame set_zbuf set_prim set_rgbaq set_st set_uv
      set_fog set_fogcol set_texclut set_scanmsk set_texa set_dimx set_dthe set_colclamp set_pabe
      set_prmodecont set_bitbltbuf set_trxpos set_trxreg set_trxdir set_internal_q set_cached_cbp0
      set_cached_cbp1 set_ctx0 set_ctx1 set_tex_rect set_tex_levels set_tex_page_rects
      set_dirty_flags set_degenerate_draw set_last_state_vector set_last_state_index
      set_last_texture_index set_last_texture_descriptor set_prim_template set_tex set_positions
      set_attributes set_prims set_primitive_count set_state_vectors set_state_vector_map
      set_tex_infos set_texture_map set_held_images set_pass_frame set_pass_zbuf
      set_fb_page_width_log2 set_fb_page_height_log2 set_z_page_width_log2 set_z_page_height_log2
      set_bb set_color_write_mask set_z_sensitive set_z_write set_has_color_feedback
      set_feedback_psm set_feedback_cpsm set_has_aa1 set_has_scanmsk set_is_color_feedback
      set_is_potential_color_feedback set_is_potential_depth_feedback set_memoized_palettes
      set_clut_instance set_latest_clut_instance set_pending_palette_updates set_label_key
      set_vq_pos set_vq_attr set_vq_count set_tag set_loop set_reg set_host_to_local_active
      set_host_to_local_payload set_last_flushed_qwords set_required_qwords set_copy set_registers
      set_state_tracker set_render_pass set_vertex_queue set_draw_handler set_transfer_state
      set_sync_host_vram_pages set_sync_vram_host_pages set_page_buffer set_sampling_rate_x_log2
      set_sampling_rate_y_log2 set_vram_size set_debug_mode set_tracker set_renderer set_gs
      set_paths set_optimized_draw_handler set_cached_cbp set_at tex0 tex1 clamp xyoffset miptbl_1_3
      miptbl_4_6 scissor alpha test fba frame zbuf prim rgbaq st uv fog fogcol texclut scanmsk texa
      dimx dthe colclamp pabe prmodecont bitbltbuf trxpos trxreg trxdir internal_q cached_cbp0
      cached_cbp1 ctx0 ctx1 level_base level_stride tex_rect tex_levels tex_page_rects dirty_flags
      degenerate_draw last_state_vector last_state_index last_texture_index last_texture_descriptor
      prim_template tex positions attributes prims primitive_count state_vectors state_vector_map
      tex_infos texture_map held_images pass_frame pass_zbuf fb_page_width_log2 fb_page_height_log2
      z_page_width_log2 z_page_height_log2 bb color_write_mask z_sensitive z_write
      has_color_feedback feedback_psm feedback_cpsm has_aa1 has_scanmsk is_color_feedback
      is_potential_color_feedback is_potential_depth_feedback memoized_palettes clut_instance
      latest_clut_instance pending_palette_updates label_key vq_pos vq_attr vq_count tag loop reg
      host_to_local_active host_to_local_payload last_flushed_qwords required_qwords copy registers
      state_tracker render_pass vertex_queue draw_handler transfer_state sync_host_vram_pages
      sync_vram_host_pages page_buffer sampling_rate_x_log2 sampling_rate_y_log2 vram_size
      debug_mode tracker renderer gs paths optimized_draw_handler
    upd_registers upd_state_tracker upd_render_pass upd_vertex_queue upd_transfer_state or_dirty log_renderer].

(** One stage of the pipeline run on a state given as a record. *)
Ltac evaluate :=
  repeat (progress (cbn; change (Pos.to_nat 1) with 1%nat; unfold_records)).

(** A state under the invariants of the sprites, as a record of its
    parts. *)
Ltac open_state g :=
  destruct g as [regs st rp vq dh ts shv svh pb srx sry vs dm tr rn];
  destruct vq as [pos attr count]; destruct st as [df dd lsv lsi lti ltd pt tx];
  destruct rp; destruct ts;
  project_all; subst;
  destruct pos as [| p0 [| p1 [| p2 [| ? ?]]]]; try discriminate;
  destruct attr as [| a0 [| a1 [| a2 [| ? ?]]]]; try discriminate.

Section SpritePipeline.
Context {E : Externals}.

Lemma post_draw_kick_quiet (s : GSState) :
  pending_palette_updates (render_pass s) < CLUTInstances ->
  primitive_count (render_pass s) < MaxPrimitivesPerFlush ->
  Z.of_nat (length (tex_infos (render_pass s))) < MaxTextures ->
  Z.of_nat (length (state_vectors (render_pass s))) < MaxStateVectors ->
  post_draw_kick_handler s = s.
Proof.
  intros H1 H2 H3 H4. unfold post_draw_kick_handler.
  replace (CLUTInstances <=? _) with false by (symmetry; apply Z.leb_gt; lia).
  replace (MaxPrimitivesPerFlush <=? _) with false by (symmetry; apply Z.leb_gt; lia).
  replace (MaxTextures <=? _) with false by (symmetry; apply Z.leb_gt; lia).
  replace (MaxStateVectors <=? _) with false by (symmetry; apply Z.leb_gt; lia).
  reflexivity.
Qed.

Lemma update_state_fresh (m : ColorFeedbackMode) (uv box : ivec4) (s : GSState) :
  nonzero (Z.land (dirty_flags (state_tracker s)) STATE_DIRTY_PRIM_TEMPLATE_BIT) = true ->
  nonzero (Z.land (Z.ldiff (dirty_flags (state_tracker s)) STATE_DIRTY_PRIM_TEMPLATE_BIT)
                  STATE_DIRTY_STATE_BIT) = true ->
  nonzero (PRIMBits.TME (prim (registers s))) = false ->
  nonzero (PRIMBits.AA1 (prim (registers s))) = false ->
  state_vectors (render_pass s) = [] ->
  state_vector_map (render_pass s) = [] ->
  exists (b : bool) (sv : StateVector) (h : Z) (tmpl : PrimitiveTemplate),
    drawing_kick_update_state m uv box s =
    upd_state_tracker
      (fun t => set_prim_template tmpl (set_last_state_index 0 (set_last_state_vector sv
                  (set_dirty_flags (Z.ldiff (Z.ldiff (dirty_flags t) STATE_DIRTY_PRIM_TEMPLATE_BIT)
                                            STATE_DIRTY_STATE_BIT) t))))
      (upd_render_pass
         (fun rp => set_has_scanmsk b (set_state_vector_map [(h, 0)] (set_state_vectors [sv] rp)))
         s).
Proof.
  intros Hpt Hst Htme Haa1 Hsv Hsm.
  destruct s as [regs st rp vq dh ts shv svh pb srx sry vs dm tr rn].
  destruct st as [df dd lsv lsi lti ltd pt tx]. destruct rp.
  project_all. subst.
  unfold drawing_kick_update_state, get_and_clear_dirty_flag. project.
  rewrite Hpt. project. rewrite Htme.
  unfold drawing_kick_update_state_vector, get_and_clear_dirty_flag. project.
  rewrite Hst. project.
  unfold find_or_place_unique_state_vector. project.
  rewrite Haa1.
  destruct (scanmsk_has_mask (scanmsk regs)); do 4 eexists; reflexivity.
Qed.


Lemma vertex_kick_xyz_push (xyz : Z) (g : GSState) :
  vq_count (vertex_queue g) = 0 ->
  vertex_kick_xyz xyz g =
  push_vertex {| pos_x := XYZBits.X xyz; pos_y := XYZBits.Y xyz;
                 pos_z := float_of_uint (XYZBits.Zdepth xyz) |}
              (latched_attribute (FOGBits.FOG (fog (registers g))) g) g.
Proof.
  intros Hc. unfold vertex_kick_xyz, shift_vertex_queue. rewrite Hc. reflexivity.
Qed.

Lemma first_vertex_kick (g : GSState) :
  quiet_externals E -> sprite_ready g ->
  primitive_count (render_pass g) < MaxPrimitivesPerFlush ->
  Z.of_nat (length (state_vectors (render_pass g))) < MaxStateVectors ->
  a_d_XYZ2 sprite_corner_0 g = vertex_kick_xyz sprite_corner_0 g.
Proof.
  intros [Hclut Htex Hsv Hn Hn32 Hw Hf Hsub] [Hreg Hh Hc Hp Ha Ht Hr Hs Htx Hpal Hfb Hz] Hk Hst.
  unfold a_d_XYZ2, drawing_kick. rewrite (vertex_kick_xyz_push _ g Hc).
  transitivity (post_draw_kick_handler
                  (push_vertex {| pos_x := XYZBits.X sprite_corner_0;
                                  pos_y := XYZBits.Y sprite_corner_0;
                                  pos_z := float_of_uint (XYZBits.Zdepth sprite_corner_0) |}
                     (latched_attribute (FOGBits.FOG (fog (registers g))) g) g)).
  - f_equal. unfold run_draw_handler, push_vertex. project. rewrite Hh. unfold sprite_handler, drawing_kick_primitive. project. rewrite Hc. reflexivity.
  - apply post_draw_kick_quiet; unfold push_vertex; project; rewrite ?Htx, ?Hpal; cbn [length]; lia.
Qed.

Lemma damage_pages_quiet (s : GSState) :
  (forall history rect, tracker_callbacks history (T_mark_fb_write rect) = []) ->
  z_sensitive (render_pass s) = false ->
  exists rect, damage_pages s = set_tracker (tracker s ++ [T_mark_fb_write rect]) s.
Proof.
  intros Hw Hz. unfold damage_pages, call_tracker. rewrite Hw.
  cbn [run_callbacks fold_left]. project. rewrite Hz. eexists. reflexivity.
Qed.

Lemma second_vertex_cold (g : GSState) :
  quiet_externals E -> sprite_cold g ->
  let g2 := vertex_kick_xyz sprite_corner_1 (vertex_kick_xyz sprite_corner_0 g) in
  sprite_warm 1 (run_draw_handler (draw_handler g2) false g2) /\
  renderer (run_draw_handler (draw_handler g2) false g2) = renderer g.
Proof.
  intros [Hclut Htex Hsv Hn Hn32 Hw Hf Hsub]
         [[Hreg Hh Hc Hp Ha Ht Hr Hs Htx Hpal Hfb Hz] Hd Hk Hpr Hst Hsm Hbb Hm Hpf Hpz].
  destruct Hd as [Hd | Hd]; destruct Hpf as [Hpf | Hpf]; open_state g.
  all: eassert (Hg2 : vertex_kick_xyz sprite_corner_1 (vertex_kick_xyz sprite_corner_0 _) = _);
    [| rewrite Hg2; clear Hg2];
    [unfold vertex_kick_xyz, shift_vertex_queue, push_vertex, latched_attribute;
     evaluate; reflexivity |].
  all: unfold run_draw_handler; project; unfold sprite_handler, drawing_kick_primitive; project.
  all: change (2 <? 2) with false; project.
  all: eassert (Hdeg : draw_is_degenerate _ = _); [| rewrite Hdeg; clear Hdeg];
    [unfold draw_is_degenerate, get_and_clear_dirty_flag; evaluate; reflexivity |].
  all: project.
  all: unfold drawing_kick_append.
  all: eassert (Hv : primitive_vertices _ _ = _); [| rewrite Hv; clear Hv];
    [unfold primitive_vertices, queue_pos, queue_attr, offset_position, current_ctx, get_ctx;
     evaluate; reflexivity |].
  all: eassert (Hbox : primitive_bb _ _ _ _ = _); [| rewrite Hbox; clear Hbox];
    [lazy; reflexivity |].
  all: change (bb_is_degenerate _) with false; project.
  all: eassert (Hfbk : update_color_feedback_state _ = _); [| rewrite Hfbk; clear Hfbk];
    [unfold update_color_feedback_state, get_and_clear_dirty_flag; evaluate; reflexivity |].
  all: project.
  all: change (nonzero (PRIMBits.TME (prim sprite_registers))) with false; project.
  all: eassert (Hfb : check_frame_buffer_state _ = _); [| rewrite Hfb; clear Hfb];
    [unfold check_frame_buffer_state, get_and_clear_dirty_flag; evaluate; reflexivity |].
  all: project.
  all: match goal with |- context [drawing_kick_update_state ?m ?uv ?box ?s] =>
         destruct (update_state_fresh m uv box s) as [b [sv [h [tmpl Hs5]]]];
           [reflexivity .. | rewrite Hs5; clear Hs5]
       end.
  all: unfold_records.
  all: eassert (Hex : expand_render_pass _ _ = _); [| rewrite Hex; clear Hex];
    [unfold expand_render_pass, state_is_z_sensitive, current_ctx, get_ctx; evaluate; reflexivity |].
  all: project.
  all: match goal with |- context [damage_pages ?s] =>
         destruct (damage_pages_quiet s Hw) as [rect Hdmg];
           [reflexivity | rewrite Hdmg; clear Hdmg]
       end.
  all: unfold emit_primitive, drawing_kick_maintain_queue; unfold_records.
  all: split; [| reflexivity].
  all: constructor; [constructor |..]; try reflexivity; try assumption.
Qed.

Lemma second_vertex_warm (k : Z) (g : GSState) :
  sprite_warm k g -> 0 <= k < 2 ^ 32 - 1 ->
  let g2 := vertex_kick_xyz sprite_corner_1 (vertex_kick_xyz sprite_corner_0 g) in
  sprite_warm (k + 1) (run_draw_handler (draw_handler g2) false g2) /\
  renderer (run_draw_handler (draw_handler g2) false g2) = renderer g.
Proof.
  intros [[Hreg Hh Hc Hp Ha Ht Hr Hs Htx Hpal Hfb Hz] Hd Hdeg Hk Hb Hst Hbb Hm Hpf Hpz] Hk0.
  open_state g.
  match goal with |- context [run_draw_handler ?h false ?x] => set (g2 := x) end.
  assert (H2 : run_draw_handler (draw_handler g2) false g2 =
               upd_vertex_queue (set_vq_count 0)
                 (emit_primitive (primitive_attribute true 2 sprite_box g2)
                                 (primitive_vertices 2 g2) g2)) by reflexivity.
  rewrite H2. clear H2.
  split; [| reflexivity].
  constructor; [constructor |..]; try reflexivity; try assumption.
  - cbn. unfold u32. rewrite Z.mod_small; lia.
  - cbn. rewrite map_app, Hb. cbn.
    match goal with |- context [Z.to_nat (?x + 1)] =>
      replace (Z.to_nat (x + 1)) with (Z.to_nat x + 1)%nat by lia end.
    rewrite repeat_app. reflexivity.
Qed.

Lemma flush_host_vram_sync_clean (s : GSState) :
  collect_pages 0 (sync_host_vram_pages s) = [] ->
  flush_host_vram_sync s =
  set_sync_host_vram_pages (map (fun _ => 0) (sync_host_vram_pages s)) (set_page_buffer [] s).
Proof. intros H. unfold flush_host_vram_sync. rewrite H. reflexivity. Qed.

Lemma collect_pages_zero (n : nat) (i : Z) : collect_pages i (repeat 0 n) = [].
Proof. revert i. induction n as [| n IH]; intros i; [reflexivity |]. cbn [repeat collect_pages]. rewrite IH. reflexivity. Qed.

Lemma map_zero_repeat (l : list Z) : map (fun _ => 0) l = repeat 0 (length l).
Proof. induction l as [| x l IH]; [reflexivity |]. cbn. rewrite IH. reflexivity. Qed.

Lemma post_draw_kick_overflow (s : GSState) :
  quiet_externals E -> sprite_warm MaxPrimitivesPerFlush s ->
  sprite_cold (post_draw_kick_handler s) /\
  exists rp,
    renderer (post_draw_kick_handler s) =
    renderer s ++ [R_flush_transfer; R_flush_cache_upload; R_flush_rendering rp] /\
    rp_num_primitives rp = MaxPrimitivesPerFlush /\
    rp_flush_reason rp = Overflow.
Proof.
  intros [Hclut Htex Hsv Hn Hn32 Hw Hf Hsub]
         [[Hreg Hh Hc Hp Ha Ht Hr Hs Htx Hpal Hfb Hz] Hd Hdeg Hk Hb Hst Hbb Hm Hpf Hpz].
  open_state s.
  unfold post_draw_kick_handler. project.
  rewrite Z.leb_refl, orb_true_r. cbn [orb].
  unfold flush_pending_transfer, transfer_has_unflushed. project.
  unfold call_tracker. rewrite Hf. cbn [run_callbacks fold_left run_callback].
  unfold flush.
  change (nonzero (Z.land PAGE_TRACKER_FLUSH_FB_ALL PAGE_TRACKER_FLUSH_HOST_VRAM_SYNC_BIT)) with true.
  change (nonzero (Z.land PAGE_TRACKER_FLUSH_FB_ALL PAGE_TRACKER_FLUSH_COPY_BIT)) with true.
  change (nonzero (Z.land PAGE_TRACKER_FLUSH_FB_ALL PAGE_TRACKER_FLUSH_CACHE_BIT)) with true.
  change (nonzero (Z.land PAGE_TRACKER_FLUSH_FB_ALL PAGE_TRACKER_FLUSH_FB_BIT)) with true.
  change (nonzero (Z.land PAGE_TRACKER_FLUSH_FB_ALL PAGE_TRACKER_FLUSH_WRITE_BACK_BIT)) with false.
  project. rewrite flush_host_vram_sync_clean by exact Hs. project.
  unfold flush_copy.
  change (nonzero (Z.land PAGE_TRACKER_FLUSH_FB_ALL _)) with true. project.
  unfold flush_cache, flush_render_pass. project.
  replace (nonzero MaxPrimitivesPerFlush) with true
    by (symmetry; unfold nonzero; apply negb_true_iff, Z.eqb_neq; lia).
  unfold_records.
  split.
  - constructor; [constructor |..]; try reflexivity; try assumption.
    + cbn. rewrite map_zero_repeat. apply collect_pages_zero.
    + left. reflexivity.
    + right. reflexivity.
  - eexists. split; [rewrite <- !app_assoc; reflexivity | split; reflexivity].
Qed.

Lemma draw_sprite_kicks (g : GSState) :
  quiet_externals E -> sprite_ready g ->
  primitive_count (render_pass g) < MaxPrimitivesPerFlush ->
  Z.of_nat (length (state_vectors (render_pass g))) < MaxStateVectors ->
  draw_sprite g =
  post_draw_kick_handler
    (run_draw_handler
       (draw_handler (vertex_kick_xyz sprite_corner_1 (vertex_kick_xyz sprite_corner_0 g)))
       false (vertex_kick_xyz sprite_corner_1 (vertex_kick_xyz sprite_corner_0 g))).
Proof.
  intros HE Hr Hk Hs. unfold draw_sprite.
  change (write_register RegisterAddr.XYZ2) with a_d_XYZ2.
  rewrite (first_vertex_kick g HE Hr Hk Hs). reflexivity.
Qed.

Lemma sprite_step_warm (k : Z) (g : GSState) :
  quiet_externals E -> sprite_warm k g -> 0 <= k -> k + 1 < MaxPrimitivesPerFlush ->
  sprite_warm (k + 1) (draw_sprite g) /\ renderer (draw_sprite g) = renderer g.
Proof.
  intros HE Hwarm Hk0 HkN.
  pose proof HE as [Hclut Htex Hsv Hn Hn32 Hw Hf Hsub].
  rewrite draw_sprite_kicks; try assumption.
  - destruct (second_vertex_warm k g Hwarm ltac:(lia)) as [Hwarm' Hrn].
    rewrite post_draw_kick_quiet; [split; assumption |..].
    + rewrite (ready_palettes _ (warm_ready _ _ Hwarm')). lia.
    + rewrite (warm_count _ _ Hwarm'). lia.
    + rewrite (ready_textures _ (warm_ready _ _ Hwarm')). cbn. lia.
    + rewrite (warm_states _ _ Hwarm'). lia.
  - apply Hwarm.
  - rewrite (warm_count _ _ Hwarm). lia.
  - rewrite (warm_states _ _ Hwarm). lia.
Qed.

Lemma sprite_step_overflow (g : GSState) :
  quiet_externals E -> sprite_warm (MaxPrimitivesPerFlush - 1) g ->
  sprite_cold (draw_sprite g) /\
  exists rp,
    renderer (draw_sprite g) =
    renderer g ++ [R_flush_transfer; R_flush_cache_upload; R_flush_rendering rp] /\
    rp_num_primitives rp = MaxPrimitivesPerFlush /\
    rp_flush_reason rp = Overflow.
Proof.
  intros HE Hwarm.
  pose proof HE as [Hclut Htex Hsv Hn Hn32 Hw Hf Hsub].
  rewrite draw_sprite_kicks; try assumption.
  - destruct (second_vertex_warm _ g Hwarm ltac:(lia)) as [Hwarm' Hrn].
    replace (MaxPrimitivesPerFlush - 1 + 1) with MaxPrimitivesPerFlush in Hwarm' by lia.
    destruct (post_draw_kick_overflow _ HE Hwarm') as [Hcold [rp [H1 [H2 H3]]]].
    split; [exact Hcold |]. exists rp. rewrite H1, Hrn. repeat split; assumption.
  - apply Hwarm.
  - rewrite (warm_count _ _ Hwarm). lia.
  - rewrite (warm_states _ _ Hwarm). lia.
Qed.

Lemma sprite_step_cold (g : GSState) :
  quiet_externals E -> sprite_cold g ->
  sprite_warm 1 (draw_sprite g) /\ renderer (draw_sprite g) = renderer g.
Proof.
  intros HE Hcold.
  pose proof HE as [Hclut Htex Hsv Hn Hn32 Hw Hf Hsub].
  rewrite draw_sprite_kicks; try assumption.
  - destruct (second_vertex_cold g HE Hcold) as [Hwarm' Hrn].
    rewrite post_draw_kick_quiet; [split; assumption |..].
    + rewrite (ready_palettes _ (warm_ready _ _ Hwarm')). lia.
    + rewrite (warm_count _ _ Hwarm'). lia.
    + rewrite (ready_textures _ (warm_ready _ _ Hwarm')). cbn. lia.
    + rewrite (warm_states _ _ Hwarm'). lia.
  - apply Hcold.
  - rewrite (cold_count _ Hcold). lia.
  - rewrite (cold_states _ Hcold). cbn. lia.
Qed.

Lemma sprite_start_cold : sprite_cold sprite_start.
Proof.
  constructor; [constructor |..]; try reflexivity.
  - right. reflexivity.
  - left. reflexivity.
Qed.

Lemma draw_sprites_S (n : nat) (g : GSState) :
  draw_sprites (S n) g = draw_sprite (draw_sprites n g).
Proof. reflexivity. Qed.

Lemma warm_run (n : nat) (k : Z) (g : GSState) :
  quiet_externals E -> sprite_warm k g -> 0 <= k ->
  k + Z.of_nat n < MaxPrimitivesPerFlush ->
  sprite_warm (k + Z.of_nat n) (draw_sprites n g) /\
  renderer (draw_sprites n g) = renderer g.
Proof.
  intros HE Hwarm Hk0. induction n as [| n IH]; intros Hlt.
  - rewrite Z.add_0_r. split; [exact Hwarm | reflexivity].
  - rewrite draw_sprites_S. destruct IH as [IHw IHr]; [lia |].
    destruct (sprite_step_warm _ _ HE IHw ltac:(lia) ltac:(lia)) as [Hw' Hr'].
    split; [| congruence].
    replace (k + Z.of_nat (S n)) with (k + Z.of_nat n + 1) by lia. exact Hw'.
Qed.

Lemma cold_run (n : nat) (g : GSState) :
  quiet_externals E -> sprite_cold g ->
  Z.of_nat (S n) < MaxPrimitivesPerFlush ->
  sprite_warm (Z.of_nat (S n)) (draw_sprites (S n) g) /\
  renderer (draw_sprites (S n) g) = renderer g.
Proof.
  intros HE Hcold Hlt.
  assert (Hsplit : draw_sprites (S n) g = draw_sprites n (draw_sprite g)).
  { unfold draw_sprites. rewrite Nat.iter_succ_r. reflexivity. }
  rewrite Hsplit.
  destruct (sprite_step_cold g HE Hcold) as [Hw1 Hr1].
  destruct (warm_run n 1 _ HE Hw1 ltac:(lia) ltac:(lia)) as [Hw Hr].
  split; [| congruence].
  replace (Z.of_nat (S n)) with (1 + Z.of_nat n) by lia. exact Hw.
Qed.


Lemma flushed_passes_app (a b : list BackendCall) :
  flushed_passes (a ++ b) = flushed_passes a ++ flushed_passes b.
Proof. unfold flushed_passes. apply flat_map_app. Qed.

Lemma count_palette_uploads_app (a b : list BackendCall) :
  count_palette_uploads (a ++ b) = count_palette_uploads a + count_palette_uploads b.
Proof.
  unfold count_palette_uploads. rewrite filter_app, length_app. lia.
Qed.

Lemma flush_submission_warm (k : Z) (s : GSState) :
  quiet_externals E -> sprite_warm k s -> 0 < k ->
  exists rp,
    flushed_passes (renderer (flush_submission s)) = flushed_passes (renderer s) ++ [rp] /\
    count_palette_uploads (renderer (flush_submission s)) = count_palette_uploads (renderer s) /\
    rp_num_primitives rp = k /\
    map prim_bb (rp_prims rp) = repeat sprite_box (Z.to_nat k) /\
    rp_num_states rp = 1 /\
    rp_num_textures rp = 0 /\
    rp_flush_reason rp = SubmissionFlush.
Proof.
  intros [Hclut Htex Hsv Hn Hn32 Hw Hf Hsub]
         [[Hreg Hh Hc Hp Ha Ht Hr Hs Htx Hpal Hfb Hz] Hd Hdeg Hk Hb Hst Hbb Hm Hpf Hpz] Hk0.
  open_state s.
  unfold flush_submission, flush_pending_transfer, transfer_has_unflushed. project.
  unfold call_tracker. rewrite Hsub. cbn [run_callbacks fold_left run_callback].
  unfold flush.
  repeat match goal with
  | |- context [nonzero (Z.land (Z.lor PAGE_TRACKER_FLUSH_FB_ALL PAGE_TRACKER_FLUSH_WRITE_BACK_BIT) ?b)] =>
      change (nonzero (Z.land (Z.lor PAGE_TRACKER_FLUSH_FB_ALL PAGE_TRACKER_FLUSH_WRITE_BACK_BIT) b))
        with true
  end.
  project. rewrite flush_host_vram_sync_clean by exact Hs. project.
  unfold flush_copy.
  match goal with
  | |- context [nonzero (Z.land ?a ?b)] => change (nonzero (Z.land a b)) with true
  end.
  project. unfold flush_cache, flush_render_pass. project.
  match goal with
  | |- context [nonzero ?x] =>
      replace (nonzero x) with true
        by (symmetry; unfold nonzero; apply negb_true_iff, Z.eqb_neq; lia)
  end.
  unfold flush_write_back. project.
  eexists.
  split; [| split].
  - destruct (collect_pages 0 svh); project;
      rewrite ?flushed_passes_app; cbn [flushed_passes flat_map app];
      rewrite ?app_nil_r; reflexivity.
  - destruct (collect_pages 0 svh); project;
      rewrite ?count_palette_uploads_app; cbn; lia.
  - repeat split; try reflexivity.
    + exact Hb.
    + cbn. rewrite Hst. reflexivity.
Qed.


End SpritePipeline.

(** ** Frames and invariants of the register handlers *)

Ltac keep_atomic := fail.

Ltac keep :=
  lazymatch goal with
  | H : ?I ?s |- ?I ?s => exact H
  | |- ?I (snd _) => keep_snd
  | |- ?I (let x := ?X in @?body x) =>
      tryif (let T := type of X in constr_eq T GSState)
      then (let H := fresh "K" in
            assert (H : I X);
            [ keep
            | change (I (body X)); revert H; generalize X; intros ? H; cbv beta; keep ])
      else (change (I (body X)); cbv beta; keep)
  | |- ?I (if ?c then _ else _) => destruct c; keep
  | |- ?I (when ?b ?f ?s) => unfold when; keep
  | |- ?I (match ?X with pair a b => @?body a b end) =>
      tryif (let T := type of X in lazymatch T with (_ * GSState)%type => idtac end)
      then (let H := fresh "K" in
            assert (H : I (snd X));
            [ keep
            | rewrite (surjective_pairing X); cbv iota; revert H;
              generalize (snd X); generalize (fst X); intros ? ? H; cbv beta; keep ])
      else (destruct X; keep)
  | |- ?I (match ?X with _ => _ end) => destruct X; keep
  | |- ?I (?g ?s) =>
      first [ keep_atomic
            | apply (@keeps I g _ s); keep
            | fail 1 "no rule for" g ]
  end
with keep_snd :=
  lazymatch goal with
  | |- ?I (snd (pair _ ?s)) => change (I s); keep
  | |- ?I (snd (let x := ?X in @?body x)) =>
      tryif (let T := type of X in constr_eq T GSState)
      then (let H := fresh "K" in
            assert (H : I X);
            [ keep
            | change (I (snd (body X))); revert H; generalize X; intros ? H; cbv beta;
              keep_snd ])
      else (change (I (snd (body X))); cbv beta; keep_snd)
  | |- ?I (snd (if ?c then _ else _)) => destruct c; keep_snd
  | |- ?I (snd (match ?X with pair a b => @?body a b end)) =>
      tryif (let T := type of X in lazymatch T with (_ * GSState)%type => idtac end)
      then (let H := fresh "K" in
            assert (H : I (snd X));
            [ keep
            | rewrite (surjective_pairing X); cbv iota; revert H;
              generalize (snd X); generalize (fst X); intros ? ? H; cbv beta; keep_snd ])
      else (destruct X; keep_snd)
  | |- ?I (snd (match ?X with _ => _ end)) => destruct X; keep_snd
  | |- ?I (snd (?g ?s)) =>
      first [ apply (@keeps_snd _ I g _ s); keep
            | fail 1 "no pair rule for" g ]
  end.




#[global] Typeclasses Opaque a_d_ALPHA a_d_ALPHA_1 a_d_ALPHA_2 a_d_BITBLTBUF a_d_CLAMP
  a_d_CLAMP_1 a_d_CLAMP_2 a_d_COLCLAMP a_d_DIMX a_d_DTHE a_d_FBA a_d_FBA_1 a_d_FBA_2
  a_d_FINISH a_d_FOG a_d_FOGCOL a_d_FRAME a_d_FRAME_1 a_d_FRAME_2 a_d_HWREG
  a_d_HWREG_multi a_d_LABEL a_d_MIPTBP1 a_d_MIPTBP1_1 a_d_MIPTBP1_2 a_d_MIPTBP2
  a_d_MIPTBP2_1 a_d_MIPTBP2_2 a_d_PABE a_d_PRIM a_d_PRMODE a_d_PRMODECONT a_d_RGBAQ
  a_d_RGBAQUndocumented a_d_SCANMSK a_d_SCISSOR a_d_SCISSOR_1 a_d_SCISSOR_2 a_d_SIGNAL
  a_d_ST a_d_TEST a_d_TEST_1 a_d_TEST_2 a_d_TEX0 a_d_TEX0_1 a_d_TEX0_2 a_d_TEX1
  a_d_TEX1_1 a_d_TEX1_2 a_d_TEX2 a_d_TEX2_1 a_d_TEX2_2 a_d_TEXA a_d_TEXCLUT a_d_TEXFLUSH
  a_d_TRXDIR a_d_TRXPOS a_d_TRXREG a_d_UV a_d_XYOFFSET a_d_XYOFFSET_1 a_d_XYOFFSET_2
  a_d_XYZ2 a_d_XYZ3 a_d_XYZF2 a_d_XYZF3 a_d_ZBUF a_d_ZBUF_1 a_d_ZBUF_2
  acquire_texture_image ad_handlers call_tracker check_frame_buffer_state
  check_pending_transfer clut_load_decision damage_pages draw_is_degenerate drawing_kick
  drawing_kick_append drawing_kick_for drawing_kick_invalid drawing_kick_maintain_queue
  drawing_kick_primitive drawing_kick_update_state drawing_kick_update_state_vector
  drawing_kick_update_texture emit_primitive expand_render_pass
  find_or_place_unique_state_vector flush flush_cache flush_copy flush_host_vram_sync
  flush_pending_transfer flush_render_pass flush_write_back for_levels
  forget_in_render_pass_memoization get_and_clear_dirty_flag handle_clut_upload
  handle_miptbl_gen handle_tex0_write init_transfer invalidate_texture_hash log_renderer
  mark_render_pass_has_texture_feedback mark_texture_state_dirty memoize_palette or_dirty
  packed_FOG packed_RGBAQ packed_ST packed_UV packed_XYZ packed_XYZF packed_XYZ_for
  packed_a_d_forward packed_dispatch packed_handlers packed_nop post_draw_kick_handler
  push_vertex read_texture_level reglist_handlers reglist_nop reset_vertex_queue
  run_callback run_callbacks run_draw_handler set_draw_handler set_page_buffer
  set_registers set_render_pass set_renderer set_state_tracker set_sync_host_vram_pages
  set_sync_vram_host_pages set_tracker set_transfer_state set_vertex_queue
  shift_vertex_queue sync_host_vram_page sync_vram_host_page texture_page_rects_read
  upd_registers upd_render_pass upd_state_tracker upd_transfer_state upd_vertex_queue
  update_color_feedback_state update_draw_handler update_texture_level
  update_texture_page_rects_and_read vertex_kick_xyz vertex_kick_xyzf when
  write_prim_mode write_register.

#[export] Instance other_fb : OtherDirtyFlags STATE_DIRTY_FB_BIT.
Proof. reflexivity. Qed.
#[export] Instance other_tex : OtherDirtyFlags STATE_DIRTY_TEX_BIT.
Proof. reflexivity. Qed.
#[export] Instance other_state : OtherDirtyFlags STATE_DIRTY_STATE_BIT.
Proof. reflexivity. Qed.
#[export] Instance other_prim_template : OtherDirtyFlags STATE_DIRTY_PRIM_TEMPLATE_BIT.
Proof. reflexivity. Qed.
#[export] Instance other_feedback : OtherDirtyFlags STATE_DIRTY_FEEDBACK_BIT.
Proof. reflexivity. Qed.

Lemma steady_refl (s : GSState) : steady s s.
Proof. split; [reflexivity | trivial]. Qed.

Lemma steady_untouched (s0 s : GSState) : steady s0 s -> untouched s0 s.
Proof. intros [H _]. exact H. Qed.

Section Frame.
Context {E : Externals}.
Variable s0 : GSState.

#[local] Ltac atomic := intros s H; exact H.

#[export] Instance steady_set_render_pass v : Keeps (steady s0) (set_render_pass v).
Proof. atomic. Qed.
#[export] Instance steady_upd_render_pass f : Keeps (steady s0) (upd_render_pass f).
Proof. atomic. Qed.
#[export] Instance steady_log_renderer c : Keeps (steady s0) (log_renderer c).
Proof. atomic. Qed.
#[export] Instance steady_set_tracker v : Keeps (steady s0) (set_tracker v).
Proof. atomic. Qed.
#[export] Instance steady_set_renderer v : Keeps (steady s0) (set_renderer v).
Proof. atomic. Qed.
#[export] Instance steady_set_page_buffer v : Keeps (steady s0) (set_page_buffer v).
Proof. atomic. Qed.
#[export] Instance steady_set_sync_host v : Keeps (steady s0) (set_sync_host_vram_pages v).
Proof. atomic. Qed.
#[export] Instance steady_set_sync_vram v : Keeps (steady s0) (set_sync_vram_host_pages v).
Proof. atomic. Qed.
#[export] Instance steady_upd_transfer_state f : Keeps (steady s0) (upd_transfer_state f).
Proof. atomic. Qed.

Lemma steady_upd_state_tracker f s :
  (forall t, degenerate_draw (f t) = degenerate_draw t) ->
  (forall t, Z.testbit (dirty_flags t) 5 = true -> Z.testbit (dirty_flags (f t)) 5 = true) ->
  steady s0 s -> steady s0 (upd_state_tracker f s).
Proof.
  intros Hf Hd [H Hp]. split.
  - unfold untouched, footprint in *. cbn. rewrite Hf. exact H.
  - intros H0. apply Hd. apply Hp. exact H0.
Qed.

Ltac keeps_pending :=
  let t := fresh "t" in
  let Ht := fresh "Ht" in
  intros t Ht; cbv beta; cbn -[Z.testbit Z.lor Z.ldiff];
  first [ exact Ht
        | reflexivity
        | rewrite Z.lor_spec, Ht; reflexivity
        | rewrite Z.ldiff_spec, Ht;
          first [ reflexivity
                | rewrite other_dirty_flags; reflexivity ] ].

Ltac keep_atomic ::=
  lazymatch goal with
  | |- steady _ (upd_state_tracker ?f ?s) =>
      apply steady_upd_state_tracker; [intros; reflexivity | keeps_pending | keep]
  end.

#[export] Instance steady_or_dirty d : Keeps (steady s0) (or_dirty d).
Proof. intros s H. unfold or_dirty. keep. Qed.
#[export] Instance steady_flush_render_pass r : Keeps (steady s0) (flush_render_pass r).
Proof. intros s H. unfold flush_render_pass. keep. Qed.
#[export] Instance steady_flush_host_vram_sync : Keeps (steady s0) flush_host_vram_sync.
Proof. intros s H. unfold flush_host_vram_sync. keep. Qed.
#[export] Instance steady_flush_copy f : Keeps (steady s0) (flush_copy f).
Proof. intros s H. unfold flush_copy. keep. Qed.
#[export] Instance steady_flush_cache : Keeps (steady s0) flush_cache.
Proof. intros s H. unfold flush_cache. keep. Qed.
#[export] Instance steady_flush_write_back : Keeps (steady s0) flush_write_back.
Proof. intros s H. unfold flush_write_back. keep. Qed.
#[export] Instance steady_flush f r : Keeps (steady s0) (flush f r).
Proof. intros s H. unfold flush. keep. Qed.
#[export] Instance steady_sync_host_vram_page p : Keeps (steady s0) (sync_host_vram_page p).
Proof. intros s H. unfold sync_host_vram_page. keep. Qed.
#[export] Instance steady_sync_vram_host_page p : Keeps (steady s0) (sync_vram_host_page p).
Proof. intros s H. unfold sync_vram_host_page. keep. Qed.
#[export] Instance steady_mark_texture_state_dirty : Keeps (steady s0) mark_texture_state_dirty.
Proof. intros s H. unfold mark_texture_state_dirty. keep. Qed.
#[export] Instance steady_invalidate_texture_hash h c : Keeps (steady s0) (invalidate_texture_hash h c).
Proof. intros s H. unfold invalidate_texture_hash. keep. Qed.
#[export] Instance steady_forget : Keeps (steady s0) forget_in_render_pass_memoization.
Proof. intros s H. unfold forget_in_render_pass_memoization. keep. Qed.
#[export] Instance steady_run_callback cb : Keeps (steady s0) (run_callback cb).
Proof. intros s H. unfold run_callback. keep. Qed.
#[export] Instance steady_run_callbacks cbs : Keeps (steady s0) (run_callbacks cbs).
Proof.
  unfold run_callbacks. induction cbs as [| cb cbs IH]; intros s H; [exact H |].
  cbn [fold_left]. apply IH. keep.
Qed.
#[export] Instance steady_call_tracker c : Keeps (steady s0) (call_tracker c).
Proof. intros s H. unfold call_tracker. keep. Qed.
#[export] Instance steady_flush_pending_transfer k : Keeps (steady s0) (flush_pending_transfer k).
Proof. intros s H. unfold flush_pending_transfer. keep. Qed.
#[export] Instance steady_check_pending_transfer : Keeps (steady s0) check_pending_transfer.
Proof. intros s H. unfold check_pending_transfer. keep. Qed.
#[export] Instance steady_init_transfer : Keeps (steady s0) init_transfer.
Proof. intros s H. unfold init_transfer. keep. Qed.
#[export] Instance steady_memoize_palette c d : Keeps (steady s0) (memoize_palette c d).
Proof. intros s H. unfold memoize_palette. keep. Qed.
#[export] Instance steady_get_and_clear_dirty_flag f :
  OtherDirtyFlags f -> KeepsSnd (steady s0) (get_and_clear_dirty_flag f).
Proof. intros Hf s H. unfold get_and_clear_dirty_flag. keep. Qed.
#[export] Instance steady_find_or_place st : KeepsSnd (steady s0) (find_or_place_unique_state_vector st).
Proof. intros s H. unfold find_or_place_unique_state_vector. keep. Qed.
#[export] Instance steady_update_state_vector : KeepsSnd (steady s0) drawing_kick_update_state_vector.
Proof. intros s H. unfold drawing_kick_update_state_vector. keep. Qed.
#[export] Instance steady_mark_feedback t : Keeps (steady s0) (mark_render_pass_has_texture_feedback t).
Proof. intros s H. unfold mark_render_pass_has_texture_feedback. keep. Qed.
#[export] Instance steady_update_texture_level l : Keeps (steady s0) (update_texture_level l).
Proof. intros s H. unfold update_texture_level. keep. Qed.
#[export] Instance steady_read_texture_level l : Keeps (steady s0) (read_texture_level l).
Proof. intros s H. unfold read_texture_level. keep. Qed.
#[export] Instance steady_for_levels n l body :
  (forall k, Keeps (steady s0) (body k)) -> Keeps (steady s0) (for_levels n l body).
Proof.
  intros Hbody. revert l. induction n as [| n IH]; intros l s H; cbn [for_levels]; [exact H |].
  destruct (_ <? _); [| exact H]. apply IH. apply Hbody. exact H.
Qed.
#[export] Instance steady_update_rects : Keeps (steady s0) update_texture_page_rects_and_read.
Proof. intros s H. unfold update_texture_page_rects_and_read. keep. Qed.
#[export] Instance steady_rects_read : Keeps (steady s0) texture_page_rects_read.
Proof. intros s H. unfold texture_page_rects_read. keep. Qed.
#[export] Instance steady_acquire d c b : KeepsSnd (steady s0) (acquire_texture_image d c b).
Proof. intros s H. unfold acquire_texture_image. keep. Qed.
#[export] Instance steady_update_texture m u b : KeepsSnd (steady s0) (drawing_kick_update_texture m u b).
Proof. intros s H. unfold drawing_kick_update_texture. keep. Qed.
#[export] Instance steady_update_state m u b : Keeps (steady s0) (drawing_kick_update_state m u b).
Proof. intros s H. unfold drawing_kick_update_state. keep. Qed.
#[export] Instance steady_update_color_feedback_state : Keeps (steady s0) update_color_feedback_state.
Proof. intros s H. unfold update_color_feedback_state. keep. Qed.
#[export] Instance steady_check_frame_buffer_state : Keeps (steady s0) check_frame_buffer_state.
Proof. intros s H. unfold check_frame_buffer_state. keep. Qed.
#[export] Instance steady_expand_render_pass b : KeepsSnd (steady s0) (expand_render_pass b).
Proof. intros s H. unfold expand_render_pass. keep. Qed.
#[export] Instance steady_damage_pages : Keeps (steady s0) damage_pages.
Proof. intros s H. unfold damage_pages. keep. Qed.
#[export] Instance steady_post_draw_kick_handler : Keeps (steady s0) post_draw_kick_handler.
Proof. intros s H. unfold post_draw_kick_handler. keep. Qed.

End Frame.

(** ** What a drawing kick leaves alone *)

Section Untouched.
Context {E : Externals}.
Variable s0 : GSState.

#[export] Instance untouched_of_steady f :
  (forall s1, Keeps (steady s1) f) -> Keeps (untouched s0) f | 100.
Proof.
  intros Hf s H. destruct (Hf s s (steady_refl s)) as [Hu _].
  unfold untouched in *. congruence.
Qed.

#[export] Instance untouched_snd_of_steady {A} (f : GSState -> A * GSState) :
  (forall s1, KeepsSnd (steady s1) f) -> KeepsSnd (untouched s0) f | 100.
Proof.
  intros Hf s H. destruct (Hf s s (steady_refl s)) as [Hu _].
  unfold untouched in *. congruence.
Qed.

Lemma untouched_upd_state_tracker f s :
  (forall t, degenerate_draw (f t) = degenerate_draw t) ->
  untouched s0 s -> untouched s0 (upd_state_tracker f s).
Proof.
  intros Hf H. unfold untouched, footprint in *. cbn. rewrite Hf. exact H.
Qed.

Ltac keep_atomic ::=
  lazymatch goal with
  | |- untouched _ (upd_state_tracker ?f ?s) =>
      apply untouched_upd_state_tracker; [intros; reflexivity | keep]
  end.

#[export] Instance untouched_emit_primitive a v : Keeps (untouched s0) (emit_primitive a v).
Proof. intros s H. unfold emit_primitive. keep. Qed.
#[export] Instance untouched_drawing_kick_append l f q n :
  Keeps (untouched s0) (drawing_kick_append l f q n).
Proof. intros s H. unfold drawing_kick_append. keep. Qed.

End Untouched.

(** ** Register writes that leave the vertex queue and PRIM alone *)

Lemma tame_refl (s : GSState) : tame s s.
Proof. repeat split; trivial. Qed.

Section Tame.
Context {E : Externals}.
Variable s0 : GSState.

#[export] Instance tame_of_steady f :
  (forall s1, Keeps (steady s1) f) -> Keeps (tame s0) f | 100.
Proof.
  intros Hf s (Hq & Hh & Hp & Hc & Hm & Hi).
  destruct (Hf s s (steady_refl s)) as [Hu Hm'].
  unfold untouched, footprint in Hu.
  injection Hu as Hr Hq' Hh' Hc' _ _ _ _.
  repeat split; try congruence.
  - intros H0. apply Hm', Hm, H0.
  - intros Hn. rewrite Hr. apply Hi.
    destruct (degenerate_pending s) eqn:Hs; [| reflexivity].
    rewrite (Hm' eq_refl) in Hn. discriminate.
Qed.

#[export] Instance tame_snd_of_steady {A} (f : GSState -> A * GSState) :
  (forall s1, KeepsSnd (steady s1) f) -> KeepsSnd (tame s0) f | 100.
Proof.
  intros Hf s (Hq & Hh & Hp & Hc & Hm & Hi).
  destruct (Hf s s (steady_refl s)) as [Hu Hm'].
  unfold untouched, footprint in Hu.
  injection Hu as Hr Hq' Hh' Hc' _ _ _ _.
  repeat split; try congruence.
  - intros H0. apply Hm', Hm, H0.
  - intros Hn. rewrite Hr. apply Hi.
    destruct (degenerate_pending s) eqn:Hs; [| reflexivity].
    rewrite (Hm' eq_refl) in Hn. discriminate.
Qed.

Lemma tame_upd_registers f s :
  (forall r, prim (f r) = prim r) ->
  (forall r, verdict_inputs (f r) = verdict_inputs r) ->
  tame s0 s -> tame s0 (upd_registers f s).
Proof.
  intros Hp Hv (Hq & Hh & Hp' & Hc & Hm & Hi).
  repeat split; try assumption.
  - cbn. rewrite Hp. exact Hp'.
  - intros Hn. cbn. rewrite Hv. apply Hi. exact Hn.
Qed.

Lemma tame_dirty_upd_registers flags f s :
  Z.testbit flags 5 = true ->
  (forall r, prim (f r) = prim r) ->
  tame s0 s -> tame s0 (or_dirty flags (upd_registers f s)).
Proof.
  intros Hflags Hp (Hq & Hh & Hp' & Hc & Hm & Hi).
  assert (Hpending : degenerate_pending (or_dirty flags (upd_registers f s)) = true).
  { unfold degenerate_pending. cbn -[Z.testbit Z.lor].
    rewrite Z.lor_spec, Hflags. apply Bool.orb_true_r. }
  repeat split; try assumption.
  - cbn. rewrite Hp. exact Hp'.
  - intros _. exact Hpending.
  - rewrite Hpending. discriminate.
Qed.

Ltac keeps_field :=
  intros; cbv beta; unfold upd_ctx, set_cached_cbp;
  try match goal with |- context [if ?c then _ else _] => destruct c end;
  reflexivity.

Ltac keep_atomic ::=
  lazymatch goal with
  | |- tame _ (or_dirty ?flags (upd_registers ?f ?s)) =>
      apply tame_dirty_upd_registers; [reflexivity | keeps_field | keep]
  | |- tame _ (upd_registers ?f ?s) =>
      apply tame_upd_registers; [keeps_field | keeps_field | keep]
  end.

#[export] Instance tame_RGBAQ p : Keeps (tame s0) (a_d_RGBAQ p).
Proof. intros s H. unfold a_d_RGBAQ. keep. Qed.
#[export] Instance tame_ST p : Keeps (tame s0) (a_d_ST p).
Proof. intros s H. unfold a_d_ST. keep. Qed.
#[export] Instance tame_UV p : Keeps (tame s0) (a_d_UV p).
Proof. intros s H. unfold a_d_UV. keep. Qed.
#[export] Instance tame_FOG p : Keeps (tame s0) (a_d_FOG p).
Proof. intros s H. unfold a_d_FOG. keep. Qed.
#[export] Instance tame_FOGCOL p : Keeps (tame s0) (a_d_FOGCOL p).
Proof. intros s H. unfold a_d_FOGCOL. keep. Qed.
#[export] Instance tame_TEXCLUT p : Keeps (tame s0) (a_d_TEXCLUT p).
Proof. intros s H. unfold a_d_TEXCLUT. keep. Qed.
#[export] Instance tame_PRMODECONT p : Keeps (tame s0) (a_d_PRMODECONT p).
Proof. intros s H. unfold a_d_PRMODECONT. keep. Qed.
#[export] Instance tame_BITBLTBUF p : Keeps (tame s0) (a_d_BITBLTBUF p).
Proof. intros s H. unfold a_d_BITBLTBUF. keep. Qed.
#[export] Instance tame_TRXPOS p : Keeps (tame s0) (a_d_TRXPOS p).
Proof. intros s H. unfold a_d_TRXPOS. keep. Qed.
#[export] Instance tame_TRXREG p : Keeps (tame s0) (a_d_TRXREG p).
Proof. intros s H. unfold a_d_TRXREG. keep. Qed.
#[export] Instance tame_RGBAQUndocumented p : Keeps (tame s0) (a_d_RGBAQUndocumented p).
Proof. intros s H. unfold a_d_RGBAQUndocumented, a_d_RGBAQ. keep. Qed.
#[export] Instance tame_XYOFFSET i p : Keeps (tame s0) (a_d_XYOFFSET i p).
Proof. intros s H. unfold a_d_XYOFFSET. keep. Qed.
#[export] Instance tame_SCANMSK p : Keeps (tame s0) (a_d_SCANMSK p).
Proof. intros s H. unfold a_d_SCANMSK, update_global. keep. Qed.
#[export] Instance tame_TEXA p : Keeps (tame s0) (a_d_TEXA p).
Proof. intros s H. unfold a_d_TEXA, update_global. keep. Qed.
#[export] Instance tame_DIMX p : Keeps (tame s0) (a_d_DIMX p).
Proof. intros s H. unfold a_d_DIMX, update_global. keep. Qed.
#[export] Instance tame_DTHE p : Keeps (tame s0) (a_d_DTHE p).
Proof. intros s H. unfold a_d_DTHE, update_global. keep. Qed.
#[export] Instance tame_COLCLAMP p : Keeps (tame s0) (a_d_COLCLAMP p).
Proof. intros s H. unfold a_d_COLCLAMP, update_global. keep. Qed.
#[export] Instance tame_PABE p : Keeps (tame s0) (a_d_PABE p).
Proof. intros s H. unfold a_d_PABE, update_global. keep. Qed.
#[export] Instance tame_CLAMP i p : Keeps (tame s0) (a_d_CLAMP i p).
Proof. intros s H. unfold a_d_CLAMP, update_context. keep. Qed.
#[export] Instance tame_TEX1 i p : Keeps (tame s0) (a_d_TEX1 i p).
Proof. intros s H. unfold a_d_TEX1, update_context. keep. Qed.
#[export] Instance tame_MIPTBP1 i p : Keeps (tame s0) (a_d_MIPTBP1 i p).
Proof. intros s H. unfold a_d_MIPTBP1, update_context. keep. Qed.
#[export] Instance tame_MIPTBP2 i p : Keeps (tame s0) (a_d_MIPTBP2 i p).
Proof. intros s H. unfold a_d_MIPTBP2, update_context. keep. Qed.
#[export] Instance tame_SCISSOR i p : Keeps (tame s0) (a_d_SCISSOR i p).
Proof. intros s H. unfold a_d_SCISSOR, update_context. keep. Qed.
#[export] Instance tame_ALPHA i p : Keeps (tame s0) (a_d_ALPHA i p).
Proof. intros s H. unfold a_d_ALPHA, update_context. keep. Qed.
#[export] Instance tame_TEST i p : Keeps (tame s0) (a_d_TEST i p).
Proof. intros s H. unfold a_d_TEST, update_context. keep. Qed.
#[export] Instance tame_FBA i p : Keeps (tame s0) (a_d_FBA i p).
Proof. intros s H. unfold a_d_FBA, update_context. keep. Qed.
#[export] Instance tame_FRAME i p : Keeps (tame s0) (a_d_FRAME i p).
Proof. intros s H. unfold a_d_FRAME, update_context. keep. Qed.
#[export] Instance tame_ZBUF i p : Keeps (tame s0) (a_d_ZBUF i p).
Proof. intros s H. unfold a_d_ZBUF, update_context. keep. Qed.
#[export] Instance tame_TEXFLUSH p : Keeps (tame s0) (a_d_TEXFLUSH p).
Proof. intros s H. unfold a_d_TEXFLUSH. keep. Qed.
#[export] Instance tame_SIGNAL p : Keeps (tame s0) (a_d_SIGNAL p).
Proof. intros s H. unfold a_d_SIGNAL. keep. Qed.
#[export] Instance tame_FINISH p : Keeps (tame s0) (a_d_FINISH p).
Proof. intros s H. unfold a_d_FINISH. keep. Qed.
#[export] Instance tame_LABEL p : Keeps (tame s0) (a_d_LABEL p).
Proof. intros s H. unfold a_d_LABEL. keep. Qed.
#[export] Instance tame_reglist_nop p : Keeps (tame s0) (reglist_nop p).
Proof. intros s H. unfold reglist_nop. keep. Qed.
#[export] Instance tame_clut_load_decision i : KeepsSnd (tame s0) (clut_load_decision i).
Proof. intros s H. unfold clut_load_decision. keep. Qed.
#[export] Instance tame_handle_clut_upload i : Keeps (tame s0) (handle_clut_upload i).
Proof. intros s H. unfold handle_clut_upload. keep. Qed.
#[export] Instance tame_handle_tex0_write i : Keeps (tame s0) (handle_tex0_write i).
Proof. intros s H. unfold handle_tex0_write. keep. Qed.
#[export] Instance tame_handle_miptbl_gen i : Keeps (tame s0) (handle_miptbl_gen i).
Proof. intros s H. unfold handle_miptbl_gen. keep. Qed.
#[export] Instance tame_TEX0 i p : Keeps (tame s0) (a_d_TEX0 i p).
Proof. intros s H. unfold a_d_TEX0, update_context. keep. Qed.
#[export] Instance tame_TEX2 i p : Keeps (tame s0) (a_d_TEX2 i p).
Proof. intros s H. unfold a_d_TEX2. keep. Qed.
#[export] Instance tame_TRXDIR p : Keeps (tame s0) (a_d_TRXDIR p).
Proof. intros s H. unfold a_d_TRXDIR. keep. Qed.
#[export] Instance tame_HWREG_multi p : Keeps (tame s0) (a_d_HWREG_multi p).
Proof. intros s H. unfold a_d_HWREG_multi. keep. Qed.
#[export] Instance tame_HWREG p : Keeps (tame s0) (a_d_HWREG p).
Proof. intros s H. unfold a_d_HWREG. keep. Qed.
#[export] Instance tame_packed_RGBAQ w : Keeps (tame s0) (packed_RGBAQ w).
Proof. intros s H. unfold packed_RGBAQ. keep. Qed.
#[export] Instance tame_packed_ST w : Keeps (tame s0) (packed_ST w).
Proof. intros s H. unfold packed_ST. keep. Qed.
#[export] Instance tame_packed_UV w : Keeps (tame s0) (packed_UV w).
Proof. intros s H. unfold packed_UV. keep. Qed.
#[export] Instance tame_packed_FOG w : Keeps (tame s0) (packed_FOG w).
Proof. intros s H. unfold packed_FOG. keep. Qed.
#[export] Instance tame_packed_nop w : Keeps (tame s0) (packed_nop w).
Proof. intros s H. unfold packed_nop. keep. Qed.

End Tame.

(** ** Invariants of the register writes *)

Lemma degenerate_pending_land (d : Z) :
  Z.land d STATE_DIRTY_DEGENERATE_BIT = 0 <-> Z.testbit d 5 = false.
Proof.
  change STATE_DIRTY_DEGENERATE_BIT with (2 ^ 5). split.
  - intros H. apply (f_equal (fun x => Z.testbit x 5)) in H.
    rewrite Z.land_spec, Z.pow2_bits_true, Bool.andb_true_r in H by lia. exact H.
  - intros H. apply Z.bits_inj'. intros n Hn.
    rewrite Z.land_spec, Z.pow2_bits_eqb, Z.bits_0 by lia.
    destruct (Z.eqb_spec 5 n) as [<- | _]; [rewrite H; reflexivity | apply Bool.andb_false_r].
Qed.

Lemma spec_degenerate_inputs (r r' : RegisterState) :
  prim r' = prim r -> verdict_inputs r' = verdict_inputs r ->
  (spec_degenerate (get_ctx (PRIMBits.CTXT (prim r')) r') <->
   spec_degenerate (get_ctx (PRIMBits.CTXT (prim r)) r)).
Proof.
  intros Hp Hv. rewrite Hp. unfold verdict_inputs in Hv.
  injection Hv as Hs0 Ht0 Hf0 Hz0 Hs1 Ht1 Hf1 Hz1.
  unfold get_ctx, spec_degenerate, scissor_is_empty, depth_test_is_never,
    alpha_test_is_never_keep, z_and_color_writes_masked.
  destruct (_ =? 0).
  - rewrite Hs0, Ht0, Hf0, Hz0. reflexivity.
  - rewrite Hs1, Ht1, Hf1, Hz1. reflexivity.
Qed.

Lemma cache_exact_valid (s : GSState) : cache_exact s -> degenerate_cache_valid s.
Proof. intros H _. exact H. Qed.

Section Invariants.
Context {E : Externals}.

Lemma tame_queue_in_range (s0 s : GSState) :
  tame s0 s -> queue_in_range s0 -> queue_in_range s.
Proof. intros (Hq & _) H. unfold queue_in_range. rewrite Hq. exact H. Qed.

Lemma tame_handler_matches_prim (s0 s : GSState) :
  tame s0 s -> handler_matches_prim s0 -> handler_matches_prim s.
Proof.
  intros (_ & Hh & Hp & _) H. unfold handler_matches_prim, update_draw_handler in *.
  cbn [draw_handler set_draw_handler] in *. rewrite Hh, Hp. exact H.
Qed.

Lemma tame_cache_valid (s0 s : GSState) :
  tame s0 s -> degenerate_cache_valid s0 -> degenerate_cache_valid s.
Proof.
  intros (_ & _ & Hp & Hc & Hm & Hi) H Hclean.
  apply degenerate_pending_land in Hclean.
  assert (Hclean0 : degenerate_pending s0 = false).
  { destruct (degenerate_pending s0) eqn:H0; [| reflexivity].
    specialize (Hm eq_refl). unfold degenerate_pending in Hm. congruence. }
  specialize (Hi Hclean).
  rewrite Hc. unfold current_ctx. rewrite (spec_degenerate_inputs _ _ Hp Hi).
  apply H. apply degenerate_pending_land. exact Hclean0.
Qed.

Lemma untouched_cache_exact (s0 s : GSState) :
  untouched s0 s -> cache_exact s0 -> cache_exact s.
Proof.
  unfold untouched, footprint, cache_exact, current_ctx.
  intros Hu H. injection Hu as Hr _ _ Hc _ _ _ _. rewrite Hr, Hc. exact H.
Qed.

(** *** The vertex kick *)

Lemma vertex_kick_xyz_frame (xyz : Z) (s : GSState) :
  registers (vertex_kick_xyz xyz s) = registers s /\
  state_tracker (vertex_kick_xyz xyz s) = state_tracker s /\
  draw_handler (vertex_kick_xyz xyz s) = draw_handler s.
Proof.
  unfold vertex_kick_xyz, push_vertex, shift_vertex_queue.
  destruct (_ =? 3); repeat split.
Qed.

Lemma vertex_kick_xyzf_frame (xyzf : Z) (s : GSState) :
  registers (vertex_kick_xyzf xyzf s) = registers s /\
  state_tracker (vertex_kick_xyzf xyzf s) = state_tracker s /\
  draw_handler (vertex_kick_xyzf xyzf s) = draw_handler s.
Proof.
  unfold vertex_kick_xyzf, push_vertex, shift_vertex_queue.
  destruct (_ =? 3); repeat split.
Qed.

Lemma vertex_kick_xyz_count (xyz : Z) (s : GSState) :
  queue_in_range s ->
  vq_count (vertex_queue (vertex_kick_xyz xyz s)) =
  Z.min (vq_count (vertex_queue s)) 2 + 1.
Proof.
  unfold queue_in_range, vertex_kick_xyz, push_vertex, shift_vertex_queue. intros H.
  destruct (Z.eqb_spec (vq_count (vertex_queue s)) 3) as [H3 | H3];
    cbn [vertex_queue upd_vertex_queue set_vertex_queue vq_count set_vq_count set_vq_attr set_vq_pos].
  - rewrite H3. reflexivity.
  - unfold u32. rewrite Z.mod_small by lia. lia.
Qed.

Lemma vertex_kick_xyzf_count (xyzf : Z) (s : GSState) :
  queue_in_range s ->
  vq_count (vertex_queue (vertex_kick_xyzf xyzf s)) =
  Z.min (vq_count (vertex_queue s)) 2 + 1.
Proof.
  unfold queue_in_range, vertex_kick_xyzf, push_vertex, shift_vertex_queue. intros H.
  destruct (Z.eqb_spec (vq_count (vertex_queue s)) 3) as [H3 | H3];
    cbn [vertex_queue upd_vertex_queue set_vertex_queue vq_count set_vq_count set_vq_attr set_vq_pos].
  - rewrite H3. reflexivity.
  - unfold u32. rewrite Z.mod_small by lia. lia.
Qed.


(** *** The drawing kick *)

Lemma draw_is_degenerate_keeps (s : GSState) :
  registers (snd (draw_is_degenerate s)) = registers s /\
  vertex_queue (snd (draw_is_degenerate s)) = vertex_queue s /\
  draw_handler (snd (draw_is_degenerate s)) = draw_handler s.
Proof.
  unfold draw_is_degenerate, get_and_clear_dirty_flag.
  destruct (nonzero _); cbn [negb fst snd]; [| repeat split].
  destruct (degenerate_scissor _); [repeat split |].
  destruct (depth_never_passes _); [repeat split |].
  destruct (alpha_never_keep _); repeat split.
Qed.

Lemma draw_is_degenerate_exact (s : GSState) :
  degenerate_cache_valid s -> cache_exact (snd (draw_is_degenerate s)).
Proof.
  intros Hvalid. unfold cache_exact.
  pose proof (draw_is_degenerate_spec s Hvalid) as Hspec.
  destruct (draw_is_degenerate_keeps s) as (Hr & _ & _).
  unfold current_ctx. rewrite Hr. fold (current_ctx s). rewrite <- Hspec.
  unfold draw_is_degenerate, get_and_clear_dirty_flag.
  destruct (nonzero _); cbn [negb fst snd]; [| reflexivity].
  change (current_ctx (upd_state_tracker _ s)) with (current_ctx s).
  destruct (degenerate_scissor _); [reflexivity |].
  destruct (depth_never_passes _); [reflexivity |].
  destruct (alpha_never_keep _); reflexivity.
Qed.

Lemma drawing_kick_primitive_kicked (l f q : bool) (n : Z) (adc : bool) (s : GSState) :
  drawing_kick_primitive l f q n adc s =
  if vq_count (vertex_queue s) <? n then s
  else drawing_kick_maintain_queue l f q n (kicked l f q n adc s).
Proof. reflexivity. Qed.

Lemma kicked_keeps (l f q : bool) (n : Z) (adc : bool) (s : GSState) :
  registers (kicked l f q n adc s) = registers s /\
  vertex_queue (kicked l f q n adc s) = vertex_queue s /\
  draw_handler (kicked l f q n adc s) = draw_handler s.
Proof.
  unfold kicked. destruct adc; [repeat split |].
  destruct (draw_is_degenerate_keeps s) as (Hr & Hq & Hh).
  destruct (draw_is_degenerate s) as [[|] s1]; cbn [snd] in *; [repeat split; assumption |].
  pose proof (untouched_drawing_kick_append s1 l f q n s1 eq_refl) as Hu.
  unfold untouched, footprint in Hu. injection Hu as Hr' Hq' Hh' _ _ _ _ _.
  repeat split; congruence.
Qed.

Lemma kicked_cache_valid (l f q : bool) (n : Z) (adc : bool) (s : GSState) :
  degenerate_cache_valid s -> degenerate_cache_valid (kicked l f q n adc s).
Proof.
  intros Hvalid. unfold kicked. destruct adc; [exact Hvalid |].
  pose proof (draw_is_degenerate_exact s Hvalid) as Hexact.
  destruct (draw_is_degenerate s) as [[|] s1]; cbn [snd] in *;
    apply cache_exact_valid; [exact Hexact |].
  apply (untouched_cache_exact s1); [| exact Hexact].
  apply untouched_drawing_kick_append. reflexivity.
Qed.

Lemma maintain_queue_keeps (l f q : bool) (n : Z) (s : GSState) :
  registers (drawing_kick_maintain_queue l f q n s) = registers s /\
  state_tracker (drawing_kick_maintain_queue l f q n s) = state_tracker s /\
  draw_handler (drawing_kick_maintain_queue l f q n s) = draw_handler s.
Proof. unfold drawing_kick_maintain_queue. destruct f, l; repeat split. Qed.

Lemma maintain_queue_count (l f q : bool) (n : Z) (s : GSState) :
  vq_count (vertex_queue (drawing_kick_maintain_queue l f q n s)) =
  if f then 2 else if l then 0 else vq_count (vertex_queue s).
Proof. unfold drawing_kick_maintain_queue. destruct f, l; reflexivity. Qed.

Lemma same_tracker_cache_valid (s s' : GSState) :
  registers s' = registers s -> state_tracker s' = state_tracker s ->
  degenerate_cache_valid s -> degenerate_cache_valid s'.
Proof.
  intros Hr Ht H. unfold degenerate_cache_valid, current_ctx in *.
  rewrite Hr, Ht. exact H.
Qed.

Lemma same_prim_handler_matches (s s' : GSState) :
  registers s' = registers s -> draw_handler s' = draw_handler s ->
  handler_matches_prim s -> handler_matches_prim s'.
Proof.
  intros Hr Hh H. unfold handler_matches_prim, update_draw_handler in *.
  cbn [draw_handler set_draw_handler] in *. rewrite Hr, Hh. exact H.
Qed.

Lemma drawing_kick_primitive_queue (l f q : bool) (n : Z) (adc : bool) (s : GSState) :
  queue_in_range s -> queue_in_range (drawing_kick_primitive l f q n adc s).
Proof.
  intros H. rewrite drawing_kick_primitive_kicked.
  destruct (_ <? n); [exact H |].
  unfold queue_in_range. rewrite maintain_queue_count.
  destruct (kicked_keeps l f q n adc s) as (_ & Hq & _). rewrite Hq.
  destruct f; [lia |]. destruct l; [lia | exact H].
Qed.

Lemma drawing_kick_primitive_cache_valid (l f q : bool) (n : Z) (adc : bool) (s : GSState) :
  degenerate_cache_valid s -> degenerate_cache_valid (drawing_kick_primitive l f q n adc s).
Proof.
  intros H. rewrite drawing_kick_primitive_kicked.
  destruct (_ <? n); [exact H |].
  destruct (maintain_queue_keeps l f q n (kicked l f q n adc s)) as (Hr & Ht & _).
  apply (same_tracker_cache_valid _ _ Hr Ht). apply kicked_cache_valid, H.
Qed.

Lemma drawing_kick_primitive_handler (l f q : bool) (n : Z) (adc : bool) (s : GSState) :
  handler_matches_prim s -> handler_matches_prim (drawing_kick_primitive l f q n adc s).
Proof.
  intros H. rewrite drawing_kick_primitive_kicked.
  destruct (_ <? n); [exact H |].
  destruct (maintain_queue_keeps l f q n (kicked l f q n adc s)) as (Hr & _ & Hh).
  destruct (kicked_keeps l f q n adc s) as (Hr' & _ & Hh').
  apply (same_prim_handler_matches s); [congruence | congruence | exact H].
Qed.

Lemma post_draw_kick_tame (s : GSState) : tame s (post_draw_kick_handler s).
Proof. apply tame_of_steady; [typeclasses eauto | apply tame_refl]. Qed.

Lemma run_draw_handler_queue (h : DrawHandler) (adc : bool) (s : GSState) :
  queue_in_range s -> queue_in_range (run_draw_handler h adc s).
Proof.
  intros H. destruct h; cbn [run_draw_handler].
  - apply drawing_kick_primitive_queue, H.
  - unfold queue_in_range. cbn. lia.
Qed.

Lemma run_draw_handler_cache_valid (h : DrawHandler) (adc : bool) (s : GSState) :
  degenerate_cache_valid s -> degenerate_cache_valid (run_draw_handler h adc s).
Proof.
  intros H. destruct h; cbn [run_draw_handler].
  - apply drawing_kick_primitive_cache_valid, H.
  - exact H.
Qed.

Lemma run_draw_handler_handler (h : DrawHandler) (adc : bool) (s : GSState) :
  handler_matches_prim s -> handler_matches_prim (run_draw_handler h adc s).
Proof.
  intros H. destruct h; cbn [run_draw_handler].
  - apply drawing_kick_primitive_handler, H.
  - exact H.
Qed.


Lemma drawing_kick_queue (adc : bool) (s : GSState) :
  queue_in_range s -> queue_in_range (drawing_kick adc s).
Proof.
  intros H. unfold drawing_kick.
  apply (tame_queue_in_range _ _ (post_draw_kick_tame _)), run_draw_handler_queue, H.
Qed.

Lemma drawing_kick_cache_valid (adc : bool) (s : GSState) :
  degenerate_cache_valid s -> degenerate_cache_valid (drawing_kick adc s).
Proof.
  intros H. unfold drawing_kick.
  apply (tame_cache_valid _ _ (post_draw_kick_tame _)), run_draw_handler_cache_valid, H.
Qed.

Lemma drawing_kick_handler (adc : bool) (s : GSState) :
  handler_matches_prim s -> handler_matches_prim (drawing_kick adc s).
Proof.
  intros H. unfold drawing_kick.
  apply (tame_handler_matches_prim _ _ (post_draw_kick_tame _)), run_draw_handler_handler, H.
Qed.

Ltac by_primitive :=
  repeat match goal with |- context [if ?c then _ else _] => destruct c end.

Lemma drawing_kick_for_queue (PRIM : Z) (adc : bool) (s : GSState) :
  queue_in_range s -> queue_in_range (drawing_kick_for PRIM adc s).
Proof.
  intros H. unfold drawing_kick_for.
  apply (tame_queue_in_range _ _ (post_draw_kick_tame _)).
  by_primitive; try apply drawing_kick_primitive_queue; exact H.
Qed.

Lemma drawing_kick_for_cache_valid (PRIM : Z) (adc : bool) (s : GSState) :
  degenerate_cache_valid s -> degenerate_cache_valid (drawing_kick_for PRIM adc s).
Proof.
  intros H. unfold drawing_kick_for.
  apply (tame_cache_valid _ _ (post_draw_kick_tame _)).
  by_primitive; try apply drawing_kick_primitive_cache_valid; exact H.
Qed.

Lemma drawing_kick_for_handler (PRIM : Z) (adc : bool) (s : GSState) :
  handler_matches_prim s -> handler_matches_prim (drawing_kick_for PRIM adc s).
Proof.
  intros H. unfold drawing_kick_for.
  apply (tame_handler_matches_prim _ _ (post_draw_kick_tame _)).
  by_primitive; try apply drawing_kick_primitive_handler; exact H.
Qed.

(** *** PRIM and PRMODE *)

Lemma prim_of_set_PRIM (v x : Z) :
  PRIMBits.PRIM (PRIMBits.set_PRIM (PRIMBits.PRIM v) x) = PRIMBits.PRIM v.
Proof.
  unfold PRIMBits.PRIM, PRIMBits.set_PRIM.
  rewrite bits_set_bits_same by lia. apply bits_bits_low. lia.
Qed.

Lemma ctxt_of_set_PRIM (v x : Z) :
  PRIMBits.CTXT (PRIMBits.set_PRIM v x) = PRIMBits.CTXT x.
Proof.
  unfold PRIMBits.CTXT, PRIMBits.set_PRIM. apply bits_set_bits_other; lia.
Qed.

Lemma write_prim_mode_keeps (value : Z) (s : GSState) :
  prim (registers (write_prim_mode value s)) = value /\
  vertex_queue (write_prim_mode value s) = vertex_queue s /\
  draw_handler (write_prim_mode value s) = draw_handler s.
Proof.
  unfold write_prim_mode.
  destruct (PRIMBits.CTXT _ =? _); destruct (Z.eqb_spec (prim (registers s)) value) as [Heq | Hne];
    cbn [registers or_dirty upd_state_tracker set_state_tracker upd_registers set_registers
         prim set_prim];
    destruct (nonzero _); repeat split; cbn; assumption.
Qed.


Lemma get_ctx_same (i : Z) (r r' : RegisterState) :
  ctx0 r' = ctx0 r -> ctx1 r' = ctx1 r -> get_ctx i r' = get_ctx i r.
Proof. intros H0 H1. unfold get_ctx. destruct (i =? 0); assumption. Qed.

(** A step that keeps both contexts and the cached verdict, and that
    raises the degenerate flag whenever it switches the context. *)
Lemma cache_valid_step (s s' : GSState) :
  degenerate_draw (state_tracker s') = degenerate_draw (state_tracker s) ->
  ctx0 (registers s') = ctx0 (registers s) ->
  ctx1 (registers s') = ctx1 (registers s) ->
  (degenerate_pending s' = false ->
   degenerate_pending s = false /\
   PRIMBits.CTXT (prim (registers s')) = PRIMBits.CTXT (prim (registers s))) ->
  degenerate_cache_valid s -> degenerate_cache_valid s'.
Proof.
  intros Hd H0 H1 Hp Hvalid Hclean.
  apply degenerate_pending_land in Hclean. destruct (Hp Hclean) as [Hclean0 Hctxt].
  rewrite Hd. unfold current_ctx. rewrite Hctxt, (get_ctx_same _ _ _ H0 H1).
  apply Hvalid, degenerate_pending_land, Hclean0.
Qed.

Lemma write_prim_mode_step (value : Z) (s : GSState) :
  let s' := write_prim_mode value s in
  degenerate_draw (state_tracker s') = degenerate_draw (state_tracker s) /\
  ctx0 (registers s') = ctx0 (registers s) /\
  ctx1 (registers s') = ctx1 (registers s) /\
  (degenerate_pending s' = false ->
   degenerate_pending s = false /\
   PRIMBits.CTXT (prim (registers s')) = PRIMBits.CTXT (prim (registers s))).
Proof.
  cbv zeta. destruct (write_prim_mode_keeps value s) as (Hprim & _ & _). rewrite Hprim.
  unfold write_prim_mode, degenerate_pending.
  destruct (Z.eqb_spec (PRIMBits.CTXT (prim (registers s))) (PRIMBits.CTXT value)) as [Hc | Hc];
    destruct (prim (registers s) =? value);
    cbn [registers or_dirty upd_state_tracker set_state_tracker upd_registers set_registers
         prim set_prim state_tracker dirty_flags set_dirty_flags degenerate_draw ctx0 ctx1];
    destruct (nonzero _);
    cbn [registers or_dirty upd_state_tracker set_state_tracker upd_registers set_registers
         prim set_prim state_tracker dirty_flags set_dirty_flags degenerate_draw ctx0 ctx1];
    (split; [reflexivity |]); (split; [reflexivity |]); (split; [reflexivity |]);
    rewrite ?Z.ldiff_spec, ?Z.lor_spec;
    generalize (Z.testbit (dirty_flags (state_tracker s)) 5); intros b;
    destruct b; cbn; intros Hb; try discriminate Hb; split; congruence.
Qed.

Lemma write_prim_mode_cache_valid (value : Z) (s : GSState) :
  degenerate_cache_valid s -> degenerate_cache_valid (write_prim_mode value s).
Proof.
  destruct (write_prim_mode_step value s) as (Hd & H0 & H1 & Hp).
  apply cache_valid_step; assumption.
Qed.

(** *** The three invariants under PRIM and PRMODE *)

Lemma a_d_PRMODE_queue (payload : Z) (s : GSState) :
  queue_in_range s -> queue_in_range (a_d_PRMODE payload s).
Proof.
  intros H. unfold a_d_PRMODE. destruct (nonzero _); [exact H |].
  destruct (write_prim_mode_keeps
              (PRIMBits.set_PRIM (PRIMBits.PRIM (prim (registers s))) payload) s)
    as (_ & Hq & _).
  unfold queue_in_range. rewrite Hq. exact H.
Qed.

Lemma a_d_PRMODE_cache_valid (payload : Z) (s : GSState) :
  degenerate_cache_valid s -> degenerate_cache_valid (a_d_PRMODE payload s).
Proof.
  intros H. unfold a_d_PRMODE. destruct (nonzero _); [exact H |].
  apply write_prim_mode_cache_valid, H.
Qed.

Lemma handler_matches_by_field (s s' : GSState) :
  PRIMBits.PRIM (prim (registers s')) = PRIMBits.PRIM (prim (registers s)) ->
  draw_handler s' = draw_handler s ->
  handler_matches_prim s -> handler_matches_prim s'.
Proof.
  intros Hp Hh H. unfold handler_matches_prim, update_draw_handler in *.
  cbn [draw_handler set_draw_handler] in *. rewrite Hp, Hh. exact H.
Qed.

Lemma a_d_PRMODE_handler (payload : Z) (s : GSState) :
  handler_matches_prim s -> handler_matches_prim (a_d_PRMODE payload s).
Proof.
  intros H. unfold a_d_PRMODE. destruct (nonzero _); [exact H |].
  destruct (write_prim_mode_keeps
              (PRIMBits.set_PRIM (PRIMBits.PRIM (prim (registers s))) payload) s)
    as (Hp & _ & Hh).
  apply (handler_matches_by_field s); [| exact Hh | exact H].
  rewrite Hp. apply prim_of_set_PRIM.
Qed.

Lemma a_d_PRIM_queue (payload : Z) (s : GSState) :
  queue_in_range (a_d_PRIM payload s).
Proof. unfold queue_in_range. cbn. lia. Qed.

Lemma a_d_PRIM_field (payload : Z) (s : GSState) :
  PRIMBits.PRIM (prim (registers (a_d_PRIM payload s))) = PRIMBits.PRIM payload.
Proof.
  unfold a_d_PRIM.
  destruct (nonzero (PRMODECONTBits.AC _)).
  - destruct (write_prim_mode_keeps payload s) as (Hp & _ & _).
    destruct (negb _); cbn; rewrite Hp; reflexivity.
  - destruct (negb _); cbn; apply prim_of_set_PRIM.
Qed.


Lemma cache_valid_same_context (s s' : GSState) :
  state_tracker s' = state_tracker s ->
  prim (registers s') = prim (registers s) ->
  ctx0 (registers s') = ctx0 (registers s) ->
  ctx1 (registers s') = ctx1 (registers s) ->
  degenerate_cache_valid s -> degenerate_cache_valid s'.
Proof.
  intros Ht Hp H0 H1. apply cache_valid_step; try assumption.
  - rewrite Ht. reflexivity.
  - unfold degenerate_pending. rewrite Ht, Hp. intros H. split; [exact H | reflexivity].
Qed.

Lemma a_d_PRIM_cache_valid (payload : Z) (s : GSState) :
  degenerate_cache_valid s -> degenerate_cache_valid (a_d_PRIM payload s).
Proof.
  intros H. unfold a_d_PRIM.
  set (s1 := if nonzero _ then _ else _).
  assert (H1 : degenerate_cache_valid s1).
  { subst s1. destruct (nonzero _); [apply write_prim_mode_cache_valid, H |].
    apply (cache_valid_step s); try reflexivity; [| exact H].
    intros Hp. split; [exact Hp |]. cbn. apply ctxt_of_set_PRIM. }
  clearbody s1.
  apply (cache_valid_same_context s1); [| | | | exact H1];
    destruct (negb _); reflexivity.
Qed.

Lemma a_d_PRIM_handler (payload : Z) (s : GSState) :
  handler_matches_prim s -> handler_matches_prim (a_d_PRIM payload s).
Proof.
  intros H. unfold handler_matches_prim, update_draw_handler.
  cbn [draw_handler set_draw_handler]. rewrite a_d_PRIM_field.
  unfold a_d_PRIM.
  destruct (Z.eqb_spec (PRIMBits.PRIM (prim (registers s))) (PRIMBits.PRIM payload))
    as [Hsame | Hdelta]; cbn [negb].
  - cbn [draw_handler upd_registers set_registers reset_vertex_queue upd_vertex_queue
         set_vertex_queue].
    assert (Hh : draw_handler
                   (if nonzero (PRMODECONTBits.AC (prmodecont (registers s)))
                    then write_prim_mode payload s
                    else upd_registers
                           (fun r => set_prim (PRIMBits.set_PRIM (PRIMBits.PRIM payload)
                                                 (prim r)) r) s) = draw_handler s).
    { destruct (nonzero _); [apply write_prim_mode_keeps | reflexivity]. }
    rewrite Hh, <- Hsame. exact H.
  - cbn [draw_handler upd_registers set_registers reset_vertex_queue upd_vertex_queue
         set_vertex_queue update_draw_handler set_draw_handler].
    destruct (nonzero _).
    + destruct (write_prim_mode_keeps payload s) as (Hp & _ & _). rewrite Hp. reflexivity.
    + cbn. rewrite prim_of_set_PRIM. reflexivity.
Qed.

(** *** The three invariants under the vertex writes *)

Lemma vertex_kick_xyz_queue (xyz : Z) (s : GSState) :
  queue_in_range s -> queue_in_range (vertex_kick_xyz xyz s).
Proof.
  intros H. unfold queue_in_range. rewrite vertex_kick_xyz_count by exact H.
  unfold queue_in_range in H. lia.
Qed.

Lemma vertex_kick_xyzf_queue (xyzf : Z) (s : GSState) :
  queue_in_range s -> queue_in_range (vertex_kick_xyzf xyzf s).
Proof.
  intros H. unfold queue_in_range. rewrite vertex_kick_xyzf_count by exact H.
  unfold queue_in_range in H. lia.
Qed.

Lemma vertex_kick_xyz_cache_valid (xyz : Z) (s : GSState) :
  degenerate_cache_valid s -> degenerate_cache_valid (vertex_kick_xyz xyz s).
Proof.
  destruct (vertex_kick_xyz_frame xyz s) as (Hr & Ht & _).
  apply same_tracker_cache_valid; assumption.
Qed.

Lemma vertex_kick_xyzf_cache_valid (xyzf : Z) (s : GSState) :
  degenerate_cache_valid s -> degenerate_cache_valid (vertex_kick_xyzf xyzf s).
Proof.
  destruct (vertex_kick_xyzf_frame xyzf s) as (Hr & Ht & _).
  apply same_tracker_cache_valid; assumption.
Qed.

Lemma vertex_kick_xyz_handler (xyz : Z) (s : GSState) :
  handler_matches_prim s -> handler_matches_prim (vertex_kick_xyz xyz s).
Proof.
  destruct (vertex_kick_xyz_frame xyz s) as (Hr & _ & Hh).
  apply same_prim_handler_matches; assumption.
Qed.

Lemma vertex_kick_xyzf_handler (xyzf : Z) (s : GSState) :
  handler_matches_prim s -> handler_matches_prim (vertex_kick_xyzf xyzf s).
Proof.
  destruct (vertex_kick_xyzf_frame xyzf s) as (Hr & _ & Hh).
  apply same_prim_handler_matches; assumption.
Qed.

(** *** Every register write *)

Lemma tame_keeps_invariants (f : GSState -> GSState) :
  (forall s0, Keeps (tame s0) f) -> keeps_invariants f.
Proof.
  intros Hf. split; intros s H.
  - apply (tame_queue_in_range s); [apply Hf, tame_refl | exact H].
  - apply (tame_cache_valid s); [apply Hf, tame_refl | exact H].
  - apply (tame_handler_matches_prim s); [apply Hf, tame_refl | exact H].
Qed.


Ltac unfold_context_handlers :=
  cbv delta [a_d_TEX0_1 a_d_TEX0_2 a_d_CLAMP_1 a_d_CLAMP_2 a_d_TEX1_1 a_d_TEX1_2
             a_d_TEX2_1 a_d_TEX2_2 a_d_XYOFFSET_1 a_d_XYOFFSET_2 a_d_MIPTBP1_1
             a_d_MIPTBP1_2 a_d_MIPTBP2_1 a_d_MIPTBP2_2 a_d_SCISSOR_1 a_d_SCISSOR_2
             a_d_ALPHA_1 a_d_ALPHA_2 a_d_TEST_1 a_d_TEST_2 a_d_FBA_1 a_d_FBA_2
             a_d_FRAME_1 a_d_FRAME_2 a_d_ZBUF_1 a_d_ZBUF_2].

Lemma a_d_PRIM_keeps_invariants (payload : Z) : keeps_invariants (a_d_PRIM payload).
Proof.
  split; intros s H;
    [apply a_d_PRIM_queue | apply a_d_PRIM_cache_valid, H | apply a_d_PRIM_handler, H].
Qed.

Lemma a_d_PRMODE_keeps_invariants (payload : Z) : keeps_invariants (a_d_PRMODE payload).
Proof.
  split; intros s H;
    [apply a_d_PRMODE_queue, H | apply a_d_PRMODE_cache_valid, H | apply a_d_PRMODE_handler, H].
Qed.

Lemma vertex_kick_xyz_keeps_invariants (xyz : Z) : keeps_invariants (vertex_kick_xyz xyz).
Proof.
  split; intros s H;
    [ apply vertex_kick_xyz_queue, H
    | apply vertex_kick_xyz_cache_valid, H
    | apply vertex_kick_xyz_handler, H ].
Qed.

Lemma vertex_kick_xyzf_keeps_invariants (xyzf : Z) : keeps_invariants (vertex_kick_xyzf xyzf).
Proof.
  split; intros s H;
    [ apply vertex_kick_xyzf_queue, H
    | apply vertex_kick_xyzf_cache_valid, H
    | apply vertex_kick_xyzf_handler, H ].
Qed.

Lemma drawing_kick_keeps_invariants (adc : bool) : keeps_invariants (drawing_kick adc).
Proof.
  split; intros s H;
    [ apply drawing_kick_queue, H
    | apply drawing_kick_cache_valid, H
    | apply drawing_kick_handler, H ].
Qed.

Lemma drawing_kick_for_keeps_invariants (PRIM : Z) (adc : bool) :
  keeps_invariants (drawing_kick_for PRIM adc).
Proof.
  split; intros s H;
    [ apply drawing_kick_for_queue, H
    | apply drawing_kick_for_cache_valid, H
    | apply drawing_kick_for_handler, H ].
Qed.

Lemma keeps_invariants_compose (f g : GSState -> GSState) :
  keeps_invariants f -> keeps_invariants g -> keeps_invariants (fun s => g (f s)).
Proof.
  intros [Fq Fc Fh] [Gq Gc Gh]. split; intros s H; [apply Gq, Fq | apply Gc, Fc | apply Gh, Fh];
    exact H.
Qed.

Ltac tame_handler :=
  unfold_context_handlers; apply tame_keeps_invariants; intros ?; typeclasses eauto.

Lemma ad_handlers_keep_invariants (addr payload : Z) :
  keeps_invariants (ad_handlers addr payload).
Proof.
  unfold ad_handlers.
  repeat match goal with |- context [if ?c then _ else _] => destruct c end;
  lazymatch goal with
  | |- keeps_invariants (a_d_PRIM _) => apply a_d_PRIM_keeps_invariants
  | |- keeps_invariants (a_d_PRMODE _) => apply a_d_PRMODE_keeps_invariants
  | |- keeps_invariants (a_d_XYZF2 ?p) =>
      apply (keeps_invariants_compose (vertex_kick_xyzf p) (drawing_kick false));
        [apply vertex_kick_xyzf_keeps_invariants | apply drawing_kick_keeps_invariants]
  | |- keeps_invariants (a_d_XYZ2 ?p) =>
      apply (keeps_invariants_compose (vertex_kick_xyz p) (drawing_kick false));
        [apply vertex_kick_xyz_keeps_invariants | apply drawing_kick_keeps_invariants]
  | |- keeps_invariants (a_d_XYZF3 _) => apply vertex_kick_xyzf_keeps_invariants
  | |- keeps_invariants (a_d_XYZ3 _) => apply vertex_kick_xyz_keeps_invariants
  | |- _ => tame_handler
  end.
Qed.

(** *** Every state the interface passes through *)

Lemma a_d_XYZ2_keeps_invariants (payload : Z) : keeps_invariants (a_d_XYZ2 payload).
Proof.
  apply (keeps_invariants_compose (vertex_kick_xyz payload) (drawing_kick false));
    [apply vertex_kick_xyz_keeps_invariants | apply drawing_kick_keeps_invariants].
Qed.

Lemma a_d_XYZF2_keeps_invariants (payload : Z) : keeps_invariants (a_d_XYZF2 payload).
Proof.
  apply (keeps_invariants_compose (vertex_kick_xyzf payload) (drawing_kick false));
    [apply vertex_kick_xyzf_keeps_invariants | apply drawing_kick_keeps_invariants].
Qed.

Lemma reglist_handlers_keep_invariants (addr word : Z) :
  keeps_invariants (reglist_handlers addr word).
Proof.
  unfold reglist_handlers.
  repeat match goal with |- context [if ?c then _ else _] => destruct c end;
  lazymatch goal with
  | |- keeps_invariants (a_d_PRIM _) => apply a_d_PRIM_keeps_invariants
  | |- keeps_invariants (a_d_XYZF2 _) => apply a_d_XYZF2_keeps_invariants
  | |- keeps_invariants (a_d_XYZ2 _) => apply a_d_XYZ2_keeps_invariants
  | |- keeps_invariants (a_d_XYZF3 _) => apply vertex_kick_xyzf_keeps_invariants
  | |- keeps_invariants (a_d_XYZ3 _) => apply vertex_kick_xyz_keeps_invariants
  | |- _ => tame_handler
  end.
Qed.

Lemma packed_XYZ_keeps_invariants (ADC : bool) (q : QWord) :
  keeps_invariants (packed_XYZ ADC q).
Proof.
  apply (keeps_invariants_compose (vertex_kick_xyz (xyz_of_packed q))
           (drawing_kick (ADC || nonzero (PackedXYZBits.ADC q))));
    [apply vertex_kick_xyz_keeps_invariants | apply drawing_kick_keeps_invariants].
Qed.

Lemma packed_XYZF_keeps_invariants (ADC : bool) (q : QWord) :
  keeps_invariants (packed_XYZF ADC q).
Proof.
  apply (keeps_invariants_compose (vertex_kick_xyzf (xyzf_of_packed q))
           (drawing_kick (ADC || nonzero (PackedXYZFBits.ADC q))));
    [apply vertex_kick_xyzf_keeps_invariants | apply drawing_kick_keeps_invariants].
Qed.

Lemma packed_XYZ_for_keeps_invariants (ADC FOG : bool) (PRIM : Z) (q : QWord) :
  keeps_invariants (packed_XYZ_for ADC FOG PRIM q).
Proof.
  destruct FOG.
  - apply (keeps_invariants_compose (vertex_kick_xyzf (xyzf_of_packed q))
             (drawing_kick_for PRIM (ADC || nonzero (PackedXYZFBits.ADC q))));
      [apply vertex_kick_xyzf_keeps_invariants | apply drawing_kick_for_keeps_invariants].
  - apply (keeps_invariants_compose (vertex_kick_xyz (xyz_of_packed q))
             (drawing_kick_for PRIM (ADC || nonzero (PackedXYZBits.ADC q))));
      [apply vertex_kick_xyz_keeps_invariants | apply drawing_kick_for_keeps_invariants].
Qed.

Lemma packed_handlers_keep_invariants (addr : Z) (q : QWord) :
  keeps_invariants (packed_handlers addr q).
Proof.
  unfold packed_handlers.
  repeat match goal with |- context [if ?c then _ else _] => destruct c end;
  lazymatch goal with
  | |- keeps_invariants (packed_a_d_forward a_d_PRIM _) => apply a_d_PRIM_keeps_invariants
  | |- keeps_invariants (packed_XYZF _ _) => apply packed_XYZF_keeps_invariants
  | |- keeps_invariants (packed_XYZ _ _) => apply packed_XYZ_keeps_invariants
  | |- keeps_invariants (packed_a_d_forward ?h ?q) =>
      change (keeps_invariants (h (bits 0 64 (lo q)))); tame_handler
  | |- _ => tame_handler
  end.
Qed.


Lemma a_d_HWREG_multi_keeps_invariants (payload : list Z) :
  keeps_invariants (a_d_HWREG_multi payload).
Proof. tame_handler. Qed.

#[global] Instance tame_flush_submission s0 : Keeps (tame s0) flush_submission.
Proof. intros s H. unfold flush_submission. keep. Qed.

Lemma flush_submission_keeps_invariants : keeps_invariants flush_submission.
Proof. tame_handler. Qed.

#[global] Instance tame_set_super_sampling_rate s0 rate :
  Keeps (tame s0) (set_super_sampling_rate rate).
Proof. intros s H. destruct rate; exact H. Qed.

Lemma set_super_sampling_rate_keeps_invariants (rate : SuperSampling) :
  keeps_invariants (set_super_sampling_rate rate).
Proof. tame_handler. Qed.

Lemma update_draw_handler_twice (s : GSState) :
  draw_handler (update_draw_handler (update_draw_handler s)) =
  draw_handler (update_draw_handler s).
Proof. reflexivity. Qed.

Lemma clobber_keeps_invariants :
  keeps_invariants
    (fun g => update_draw_handler (upd_state_tracker (set_dirty_flags STATE_DIRTY_ALL_BITS) g)).
Proof.
  split; intros s H.
  - exact H.
  - intros Hclean. exfalso. revert Hclean. cbn. discriminate.
  - reflexivity.
Qed.

Lemma constructed_state_invariants :
  queue_in_range constructed_state /\ degenerate_cache_valid constructed_state.
Proof.
  split.
  - unfold queue_in_range. cbn. lia.
  - intros Hclean. exfalso. revert Hclean. cbn. discriminate.
Qed.

(** The vertex queue holds at most three vertices, and the cached
    verdict of the degenerate check is that of the registers whenever its
    dirty bit is down, in every state the interface passes through. *)
Lemma reachable_invariants (g : GSState) :
  reachable g -> queue_in_range g /\ degenerate_cache_valid g.
Proof.
  assert (Hstep : forall f s, keeps_invariants f ->
            queue_in_range s /\ degenerate_cache_valid s ->
            queue_in_range (f s) /\ degenerate_cache_valid (f s)).
  { intros f s [Hq Hc Hh] (H1 & H2). split; auto. }
  induction 1 as [| rate g _ IH | addr payload g _ IH | addr word g _ IH | addr q g _ IH
                  | ADC FOG PRIM q g _ IH | payload g _ IH | xyz g _ IH | xyzf g _ IH
                  | g _ IH | g _ IH].
  - exact constructed_state_invariants.
  - exact (Hstep _ g (set_super_sampling_rate_keeps_invariants rate) IH).
  - exact (Hstep _ g (ad_handlers_keep_invariants addr payload) IH).
  - exact (Hstep _ g (reglist_handlers_keep_invariants addr word) IH).
  - exact (Hstep _ g (packed_handlers_keep_invariants addr q) IH).
  - exact (Hstep _ g (packed_XYZ_for_keeps_invariants ADC FOG PRIM q) IH).
  - exact (Hstep _ g (a_d_HWREG_multi_keeps_invariants payload) IH).
  - exact (Hstep _ g (vertex_kick_xyz_keeps_invariants xyz) IH).
  - exact (Hstep _ g (vertex_kick_xyzf_keeps_invariants xyzf) IH).
  - exact (Hstep _ g flush_submission_keeps_invariants IH).
  - exact (Hstep _ g clobber_keeps_invariants IH).
Qed.

(** *** A call of gif_transfer *)

Section TransferSteps.
Variable P : GSState -> Prop.
Hypothesis HP : kept_by_transfer_steps P.

Lemma packed_STQRGBAXYZ_kept (FOG : bool) (PRIM : Z) (n : nat) :
  forall (words : list QWord) (g g' : GSState),
    P g -> packed_STQRGBAXYZ FOG PRIM n words g = Some g' -> P g'.
Proof.
  induction n as [| n IH]; intros words g g' Hg Hrun; cbn [packed_STQRGBAXYZ] in Hrun.
  - injection Hrun as <-. exact Hg.
  - destruct words as [| w0 [| w1 [| w2 rest]]]; try discriminate.
    apply (IH _ _ _ (kept_by_whole_loop_vertex P HP false FOG PRIM w2 _
                       (kept_by_packed P HP GIFAddr.RGBAQ w1 _
                          (kept_by_packed P HP GIFAddr.ST w0 _ Hg))) Hrun).
Qed.

Lemma packed_UVRGBAXYZ_kept (FOG : bool) (PRIM : Z) (n : nat) :
  forall (words : list QWord) (g g' : GSState),
    P g -> packed_UVRGBAXYZ FOG PRIM n words g = Some g' -> P g'.
Proof.
  induction n as [| n IH]; intros words g g' Hg Hrun; cbn [packed_UVRGBAXYZ] in Hrun.
  - injection Hrun as <-. exact Hg.
  - destruct words as [| w0 [| w1 [| w2 rest]]]; try discriminate.
    apply (IH _ _ _ (kept_by_whole_loop_vertex P HP false FOG PRIM w2 _
                       (kept_by_packed P HP GIFAddr.RGBAQ w1 _
                          (kept_by_packed P HP GIFAddr.UV w0 _ Hg))) Hrun).
Qed.

Lemma packed_STXYZSTRGBAXYZ_sprite_kept (FOG : bool) (n : nat) :
  forall (words : list QWord) (g g' : GSState),
    P g -> packed_STXYZSTRGBAXYZ_sprite FOG n words g = Some g' -> P g'.
Proof.
  induction n as [| n IH]; intros words g g' Hg Hrun;
    cbn [packed_STXYZSTRGBAXYZ_sprite] in Hrun.
  - injection Hrun as <-. exact Hg.
  - destruct words as [| w0 [| w1 [| w2 [| w3 [| w4 rest]]]]]; try discriminate.
    apply (IH _ _ _
             (kept_by_whole_loop_vertex P HP false FOG PRIMType.Sprite w4 _
                (kept_by_packed P HP GIFAddr.RGBAQ w3 _
                   (kept_by_packed P HP GIFAddr.ST w2 _
                      (kept_by_whole_loop_vertex P HP false FOG PRIMType.Sprite w1 _
                         (kept_by_packed P HP GIFAddr.ST w0 _ Hg))))) Hrun).
Qed.

Lemma packed_ADONLY_kept (n : nat) :
  forall (words : list QWord) (g g' : GSState),
    P g -> packed_ADONLY n words g = Some g' -> P g'.
Proof.
  induction n as [| n IH]; intros words g g' Hg Hrun; cbn [packed_ADONLY] in Hrun.
  - injection Hrun as <-. exact Hg.
  - destruct words as [| ad rest]; try discriminate.
    apply (IH _ _ _ (kept_by_write_register P HP _ _ _ Hg) Hrun).
Qed.

Lemma run_optimized_handler_kept (h : OptimizedPacketHandler) (words : list QWord)
    (n : Z) (g g' : GSState) :
  P g -> run_optimized_handler h words n g = Some g' -> P g'.
Proof.
  intros Hg. destruct h; cbn [run_optimized_handler].
  - apply packed_STQRGBAXYZ_kept, Hg.
  - apply packed_UVRGBAXYZ_kept, Hg.
  - apply packed_STXYZSTRGBAXYZ_sprite_kept, Hg.
  - apply packed_ADONLY_kept, Hg.
Qed.

Lemma gif_tag_branch_kept (p : Z) (q : QWord) (rest : list QWord) (s : GSInterface) :
  P (gs s) -> P (gs (it_state (gif_tag_branch p q rest s))).
Proof.
  intros Hg. unfold gif_tag_branch. cbn [it_state].
  rewrite gs_upd_path. unfold update_optimized_gif_handler. cbn [gs set_optimized_draw_handler].
  destruct (_ && _); [| exact Hg].
  unfold upd_gs. cbn [gs set_gs]. rewrite gs_upd_path.
  apply (kept_by_write_register P HP RegisterAddr.PRIM), Hg.
Qed.

Lemma gif_packed_branch_kept (p : Z) (q : QWord) (rest : list QWord) (nreg : Z)
    (s : GSInterface) :
  P (gs s) -> P (gs (it_state (gif_packed_branch p q rest nreg s))).
Proof.
  intros Hg. unfold gif_packed_branch. cbn [it_state].
  rewrite gs_close_loop. unfold upd_gs. cbn [gs set_gs]. rewrite gs_advance_reg.
  unfold packed_dispatch. destruct (_ =? _).
  - apply (kept_by_write_register P HP), Hg.
  - apply (kept_by_packed P HP), Hg.
Qed.

Lemma reglist_write_kept (p word nreg : Z) (s : GSInterface) :
  P (gs s) -> P (gs (snd (reglist_write p word nreg s))).
Proof.
  intros Hg. unfold reglist_write. cbn [snd].
  rewrite gs_close_loop. unfold upd_gs. cbn [gs set_gs]. rewrite gs_advance_reg.
  apply (kept_by_reglist P HP), Hg.
Qed.

Lemma gif_reglist_branch_kept (p : Z) (q : QWord) (rest : list QWord) (nreg : Z)
    (s : GSInterface) :
  P (gs s) -> P (gs (it_state (gif_reglist_branch p q rest nreg s))).
Proof.
  intros Hg. unfold gif_reglist_branch.
  pose proof (reglist_write_kept p (bits 0 64 (lo q)) nreg s Hg) as H1.
  destruct (reglist_write p (bits 0 64 (lo q)) nreg s) as [end_of_loop s1].
  cbn [snd] in H1. cbn [it_state].
  destruct (_ && _); [exact H1 |].
  apply reglist_write_kept, H1.
Qed.

Lemma gif_image_branch_kept (p : Z) (words : list QWord) (nreg : Z) (s : GSInterface) :
  P (gs s) -> P (gs (it_state (gif_image_branch p words nreg s))).
Proof.
  intros Hg. unfold gif_image_branch. cbn [it_state].
  rewrite gs_upd_path. unfold upd_gs. cbn [gs set_gs].
  apply (kept_by_image P HP), Hg.
Qed.

Lemma gif_generic_branch_kept (p : Z) (q : QWord) (rest : list QWord) (nreg : Z)
    (s : GSInterface) :
  P (gs s) -> P (gs (it_state (gif_generic_branch p q rest nreg s))).
Proof.
  intros Hg. unfold gif_generic_branch.
  destruct (_ =? _); [apply gif_packed_branch_kept, Hg |].
  destruct (_ =? _); [apply gif_reglist_branch_kept, Hg | apply gif_image_branch_kept, Hg].
Qed.

Lemma gif_iteration_kept (p size : Z) (q : QWord) (rest : list QWord) (nreg : Z)
    (s : GSInterface) (it : Iteration) :
  P (gs s) -> gif_iteration p size q rest nreg s = Some it -> P (gs (it_state it)).
Proof.
  intros Hg. unfold gif_iteration.
  destruct (needs_gif_tag p s).
  { intros [= <-]. apply gif_tag_branch_kept, Hg. }
  destruct (get_optimized_handler p s) as [h |].
  2: { intros [= <-]. apply gif_generic_branch_kept, Hg. }
  destruct (_ =? _).
  2: { intros [= <-]. apply gif_generic_branch_kept, Hg. }
  unfold gif_optimized_branch.
  destruct (run_optimized_handler h (q :: rest) _ (gs s)) as [g' |] eqn:Hrun; [| discriminate].
  intros [= <-]. cbn [it_state]. rewrite gs_upd_path. cbn [gs set_gs].
  apply (run_optimized_handler_kept _ _ _ _ _ Hg Hrun).
Qed.

Lemma gif_transfer_loop_kept (fuel : nat) (p size : Z) :
  forall (words : list QWord) (nreg : Z) (s s' : GSInterface),
    P (gs s) -> gif_transfer_loop fuel p size words nreg s = Returned s' -> P (gs s').
Proof.
  induction fuel as [| fuel IH]; intros words nreg s s' Hg Hrun;
    destruct words as [| q rest]; cbn [gif_transfer_loop] in Hrun;
    try (injection Hrun as <-; exact Hg); try discriminate.
  destruct (gif_iteration p size q rest nreg s) as [it |] eqn:Hit; [| discriminate].
  apply (IH _ _ _ _ (gif_iteration_kept _ _ _ _ _ _ _ Hg Hit) Hrun).
Qed.

Lemma gif_transfer_kept (fuel : nat) (p : Z) (data : list QWord) (s s' : GSInterface) :
  P (gs s) -> gif_transfer fuel p data s = Returned s' -> P (gs s').
Proof. apply gif_transfer_loop_kept. Qed.

End TransferSteps.

Lemma write_registers_reachable (writes : list (Z * Z)) (g : GSState) :
  reachable g -> reachable (write_registers writes g).
Proof.
  revert g. induction writes as [| w writes IH]; intros g Hg; [exact Hg |].
  apply IH, reach_write_register, Hg.
Qed.

Lemma reachable_kept_by_transfer_steps : kept_by_transfer_steps reachable.
Proof.
  split; intros.
  - apply reach_write_register; assumption.
  - apply reach_reglist; assumption.
  - apply reach_packed; assumption.
  - apply reach_whole_loop_vertex; assumption.
  - apply reach_image; assumption.
Qed.

(** What a call of [gif_transfer] makes of a state the interface passes
    through is such a state again. *)
Lemma gif_transfer_reachable (fuel : nat) (p : Z) (data : list QWord)
    (s s' : GSInterface) :
  reachable (gs s) -> gif_transfer fuel p data s = Returned s' -> reachable (gs s').
Proof. apply gif_transfer_kept, reachable_kept_by_transfer_steps. Qed.

End Invariants.

(** ** Properties that every function of the interface keeps

    A property of the state that the updates of its parts keep, that the
    calls into the page tracker keep, and that [flush_pending_transfer]
    keeps, is kept by every handler. *)

Ltac keep_atomic ::= fail.

Section KeptEverywhere.
Context {E : Externals}.
Variable I : GSState -> Prop.
Context {I_registers : forall f, Keeps I (upd_registers f)}
        {I_state_tracker : forall f, Keeps I (upd_state_tracker f)}
        {I_render_pass : forall f, Keeps I (upd_render_pass f)}
        {I_set_render_pass : forall v, Keeps I (set_render_pass v)}
        {I_vertex_queue : forall f, Keeps I (upd_vertex_queue f)}
        {I_transfer_state : forall f, Keeps I (upd_transfer_state f)}
        {I_draw_handler : forall v, Keeps I (set_draw_handler v)}
        {I_log_renderer : forall c, Keeps I (log_renderer c)}
        {I_page_buffer : forall v, Keeps I (set_page_buffer v)}
        {I_sync_host_vram_pages : forall v, Keeps I (set_sync_host_vram_pages v)}
        {I_sync_vram_host_pages : forall v, Keeps I (set_sync_vram_host_pages v)}
        {I_sampling_rate_x : forall v, Keeps I (set_sampling_rate_x_log2 v)}
        {I_sampling_rate_y : forall v, Keeps I (set_sampling_rate_y_log2 v)}
        {I_mark_fb_write : forall r, Keeps I (call_tracker (T_mark_fb_write r))}
        {I_mark_fb_read : forall r, Keeps I (call_tracker (T_mark_fb_read r))}
        {I_mark_transfer_copy : forall d r, Keeps I (call_tracker (T_mark_transfer_copy d r))}
        {I_mark_texture_read : forall r, Keeps I (call_tracker (T_mark_texture_read r))}
        {I_clut_clobber : forall r, Keeps I (call_tracker (T_register_cached_clut_clobber r))}
        {I_register_texture : forall l n c i h m,
            Keeps I (call_tracker (T_register_cached_texture l n c i h m))}
        {I_flush_request : forall r, Keeps I (call_tracker (T_flush_render_pass r))}
        {I_mark_submission : Keeps I (call_tracker T_mark_submission_timeline)}
        {I_flush_pending_transfer : forall k, Keeps I (flush_pending_transfer k)}.

#[export] Instance kept_or_dirty d : Keeps I (or_dirty d).
Proof. intros s H. unfold or_dirty. keep. Qed.
#[export] Instance kept_flush_render_pass r : Keeps I (flush_render_pass r).
Proof. intros s H. unfold flush_render_pass. keep. Qed.
#[export] Instance kept_flush_host_vram_sync : Keeps I flush_host_vram_sync.
Proof. intros s H. unfold flush_host_vram_sync. keep. Qed.
#[export] Instance kept_flush_copy f : Keeps I (flush_copy f).
Proof. intros s H. unfold flush_copy. keep. Qed.
#[export] Instance kept_flush_cache : Keeps I flush_cache.
Proof. intros s H. unfold flush_cache. keep. Qed.
#[export] Instance kept_flush_write_back : Keeps I flush_write_back.
Proof. intros s H. unfold flush_write_back. keep. Qed.
#[export] Instance kept_flush f r : Keeps I (flush f r).
Proof. intros s H. unfold flush. keep. Qed.
#[export] Instance kept_sync_host_vram_page p : Keeps I (sync_host_vram_page p).
Proof. intros s H. unfold sync_host_vram_page. keep. Qed.
#[export] Instance kept_sync_vram_host_page p : Keeps I (sync_vram_host_page p).
Proof. intros s H. unfold sync_vram_host_page. keep. Qed.
#[export] Instance kept_mark_texture_state_dirty : Keeps I mark_texture_state_dirty.
Proof. intros s H. unfold mark_texture_state_dirty. keep. Qed.
#[export] Instance kept_invalidate_texture_hash h c : Keeps I (invalidate_texture_hash h c).
Proof. intros s H. unfold invalidate_texture_hash. keep. Qed.
#[export] Instance kept_forget : Keeps I forget_in_render_pass_memoization.
Proof. intros s H. unfold forget_in_render_pass_memoization. keep. Qed.
#[export] Instance kept_run_callback cb : Keeps I (run_callback cb).
Proof. intros s H. unfold run_callback. keep. Qed.
#[export] Instance kept_run_callbacks cbs : Keeps I (run_callbacks cbs).
Proof. unfold run_callbacks. induction cbs as [| cb cbs IH]; intros s H; [exact H |].
  cbn [fold_left]. apply IH. keep. Qed.
#[export] Instance kept_check_pending_transfer : Keeps I check_pending_transfer.
Proof. intros s H. unfold check_pending_transfer. keep. Qed.
#[export] Instance kept_init_transfer : Keeps I init_transfer.
Proof. intros s H. unfold init_transfer. keep. Qed.
#[export] Instance kept_memoize_palette c d : Keeps I (memoize_palette c d).
Proof. intros s H. unfold memoize_palette. keep. Qed.
#[export] Instance kept_get_and_clear_dirty_flag f : KeepsSnd I (get_and_clear_dirty_flag f).
Proof. intros s H. unfold get_and_clear_dirty_flag. keep. Qed.
#[export] Instance kept_find_or_place st : KeepsSnd I (find_or_place_unique_state_vector st).
Proof. intros s H. unfold find_or_place_unique_state_vector. keep. Qed.
#[export] Instance kept_update_state_vector : KeepsSnd I drawing_kick_update_state_vector.
Proof. intros s H. unfold drawing_kick_update_state_vector. keep. Qed.
#[export] Instance kept_mark_feedback t : Keeps I (mark_render_pass_has_texture_feedback t).
Proof. intros s H. unfold mark_render_pass_has_texture_feedback. keep. Qed.
#[export] Instance kept_update_texture_level l : Keeps I (update_texture_level l).
Proof. intros s H. unfold update_texture_level. keep. Qed.
#[export] Instance kept_read_texture_level l : Keeps I (read_texture_level l).
Proof. intros s H. unfold read_texture_level. keep. Qed.
#[export] Instance kept_for_levels n l body : (forall k, Keeps I (body k)) -> Keeps I (for_levels n l body).
Proof. intros Hbody. revert l. induction n as [| n IH]; intros l s H; cbn [for_levels]; [exact H |].
  destruct (_ <? _); [| exact H]. apply IH. apply Hbody. exact H. Qed.
#[export] Instance kept_update_rects : Keeps I update_texture_page_rects_and_read.
Proof. intros s H. unfold update_texture_page_rects_and_read. keep. Qed.
#[export] Instance kept_rects_read : Keeps I texture_page_rects_read.
Proof. intros s H. unfold texture_page_rects_read. keep. Qed.
#[export] Instance kept_acquire d c b : KeepsSnd I (acquire_texture_image d c b).
Proof. intros s H. unfold acquire_texture_image. keep. Qed.
#[export] Instance kept_update_texture m u b : KeepsSnd I (drawing_kick_update_texture m u b).
Proof. intros s H. unfold drawing_kick_update_texture. keep. Qed.
#[export] Instance kept_update_state m u b : Keeps I (drawing_kick_update_state m u b).
Proof. intros s H. unfold drawing_kick_update_state. keep. Qed.
#[export] Instance kept_update_color_feedback_state : Keeps I update_color_feedback_state.
Proof. intros s H. unfold update_color_feedback_state. keep. Qed.
#[export] Instance kept_check_frame_buffer_state : Keeps I check_frame_buffer_state.
Proof. intros s H. unfold check_frame_buffer_state. keep. Qed.
#[export] Instance kept_expand_render_pass b : KeepsSnd I (expand_render_pass b).
Proof. intros s H. unfold expand_render_pass. keep. Qed.
#[export] Instance kept_damage_pages : Keeps I damage_pages.
Proof. intros s H. unfold damage_pages. keep. Qed.
#[export] Instance kept_post_draw_kick_handler : Keeps I post_draw_kick_handler.
Proof. intros s H. unfold post_draw_kick_handler. keep. Qed.
#[export] Instance kept_RGBAQ p : Keeps I (a_d_RGBAQ p).
Proof. intros s H. unfold a_d_RGBAQ. keep. Qed.
#[export] Instance kept_ST p : Keeps I (a_d_ST p).
Proof. intros s H. unfold a_d_ST. keep. Qed.
#[export] Instance kept_UV p : Keeps I (a_d_UV p).
Proof. intros s H. unfold a_d_UV. keep. Qed.
#[export] Instance kept_FOG p : Keeps I (a_d_FOG p).
Proof. intros s H. unfold a_d_FOG. keep. Qed.
#[export] Instance kept_FOGCOL p : Keeps I (a_d_FOGCOL p).
Proof. intros s H. unfold a_d_FOGCOL. keep. Qed.
#[export] Instance kept_TEXCLUT p : Keeps I (a_d_TEXCLUT p).
Proof. intros s H. unfold a_d_TEXCLUT. keep. Qed.
#[export] Instance kept_PRMODECONT p : Keeps I (a_d_PRMODECONT p).
Proof. intros s H. unfold a_d_PRMODECONT. keep. Qed.
#[export] Instance kept_BITBLTBUF p : Keeps I (a_d_BITBLTBUF p).
Proof. intros s H. unfold a_d_BITBLTBUF. keep. Qed.
#[export] Instance kept_TRXPOS p : Keeps I (a_d_TRXPOS p).
Proof. intros s H. unfold a_d_TRXPOS. keep. Qed.
#[export] Instance kept_TRXREG p : Keeps I (a_d_TRXREG p).
Proof. intros s H. unfold a_d_TRXREG. keep. Qed.
#[export] Instance kept_RGBAQUndocumented p : Keeps I (a_d_RGBAQUndocumented p).
Proof. intros s H. unfold a_d_RGBAQUndocumented, a_d_RGBAQ. keep. Qed.
#[export] Instance kept_XYOFFSET i p : Keeps I (a_d_XYOFFSET i p).
Proof. intros s H. unfold a_d_XYOFFSET. keep. Qed.
#[export] Instance kept_SCANMSK p : Keeps I (a_d_SCANMSK p).
Proof. intros s H. unfold a_d_SCANMSK, update_global. keep. Qed.
#[export] Instance kept_TEXA p : Keeps I (a_d_TEXA p).
Proof. intros s H. unfold a_d_TEXA, update_global. keep. Qed.
#[export] Instance kept_DIMX p : Keeps I (a_d_DIMX p).
Proof. intros s H. unfold a_d_DIMX, update_global. keep. Qed.
#[export] Instance kept_DTHE p : Keeps I (a_d_DTHE p).
Proof. intros s H. unfold a_d_DTHE, update_global. keep. Qed.
#[export] Instance kept_COLCLAMP p : Keeps I (a_d_COLCLAMP p).
Proof. intros s H. unfold a_d_COLCLAMP, update_global. keep. Qed.
#[export] Instance kept_PABE p : Keeps I (a_d_PABE p).
Proof. intros s H. unfold a_d_PABE, update_global. keep. Qed.
#[export] Instance kept_CLAMP i p : Keeps I (a_d_CLAMP i p).
Proof. intros s H. unfold a_d_CLAMP, update_context. keep. Qed.
#[export] Instance kept_TEX1 i p : Keeps I (a_d_TEX1 i p).
Proof. intros s H. unfold a_d_TEX1, update_context. keep. Qed.
#[export] Instance kept_MIPTBP1 i p : Keeps I (a_d_MIPTBP1 i p).
Proof. intros s H. unfold a_d_MIPTBP1, update_context. keep. Qed.
#[export] Instance kept_MIPTBP2 i p : Keeps I (a_d_MIPTBP2 i p).
Proof. intros s H. unfold a_d_MIPTBP2, update_context. keep. Qed.
#[export] Instance kept_SCISSOR i p : Keeps I (a_d_SCISSOR i p).
Proof. intros s H. unfold a_d_SCISSOR, update_context. keep. Qed.
#[export] Instance kept_ALPHA i p : Keeps I (a_d_ALPHA i p).
Proof. intros s H. unfold a_d_ALPHA, update_context. keep. Qed.
#[export] Instance kept_TEST i p : Keeps I (a_d_TEST i p).
Proof. intros s H. unfold a_d_TEST, update_context. keep. Qed.
#[export] Instance kept_FBA i p : Keeps I (a_d_FBA i p).
Proof. intros s H. unfold a_d_FBA, update_context. keep. Qed.
#[export] Instance kept_FRAME i p : Keeps I (a_d_FRAME i p).
Proof. intros s H. unfold a_d_FRAME, update_context. keep. Qed.
#[export] Instance kept_ZBUF i p : Keeps I (a_d_ZBUF i p).
Proof. intros s H. unfold a_d_ZBUF, update_context. keep. Qed.
#[export] Instance kept_TEXFLUSH p : Keeps I (a_d_TEXFLUSH p).
Proof. intros s H. unfold a_d_TEXFLUSH. keep. Qed.
#[export] Instance kept_SIGNAL p : Keeps I (a_d_SIGNAL p).
Proof. intros s H. unfold a_d_SIGNAL. keep. Qed.
#[export] Instance kept_FINISH p : Keeps I (a_d_FINISH p).
Proof. intros s H. unfold a_d_FINISH. keep. Qed.
#[export] Instance kept_LABEL p : Keeps I (a_d_LABEL p).
Proof. intros s H. unfold a_d_LABEL. keep. Qed.
#[export] Instance kept_reglist_nop p : Keeps I (reglist_nop p).
Proof. intros s H. unfold reglist_nop. keep. Qed.
#[export] Instance kept_clut_load_decision i : KeepsSnd I (clut_load_decision i).
Proof. intros s H. unfold clut_load_decision. keep. Qed.
#[export] Instance kept_handle_clut_upload i : Keeps I (handle_clut_upload i).
Proof. intros s H. unfold handle_clut_upload. keep. Qed.
#[export] Instance kept_handle_tex0_write i : Keeps I (handle_tex0_write i).
Proof. intros s H. unfold handle_tex0_write. keep. Qed.
#[export] Instance kept_handle_miptbl_gen i : Keeps I (handle_miptbl_gen i).
Proof. intros s H. unfold handle_miptbl_gen. keep. Qed.
#[export] Instance kept_TEX0 i p : Keeps I (a_d_TEX0 i p).
Proof. intros s H. unfold a_d_TEX0, update_context. keep. Qed.
#[export] Instance kept_TEX2 i p : Keeps I (a_d_TEX2 i p).
Proof. intros s H. unfold a_d_TEX2. keep. Qed.
#[export] Instance kept_TRXDIR p : Keeps I (a_d_TRXDIR p).
Proof. intros s H. unfold a_d_TRXDIR. keep. Qed.
#[export] Instance kept_HWREG_multi p : Keeps I (a_d_HWREG_multi p).
Proof. intros s H. unfold a_d_HWREG_multi. keep. Qed.
#[export] Instance kept_HWREG p : Keeps I (a_d_HWREG p).
Proof. intros s H. unfold a_d_HWREG. keep. Qed.
#[export] Instance kept_packed_RGBAQ w : Keeps I (packed_RGBAQ w).
Proof. intros s H. unfold packed_RGBAQ. keep. Qed.
#[export] Instance kept_packed_ST w : Keeps I (packed_ST w).
Proof. intros s H. unfold packed_ST. keep. Qed.
#[export] Instance kept_packed_UV w : Keeps I (packed_UV w).
Proof. intros s H. unfold packed_UV. keep. Qed.
#[export] Instance kept_packed_FOG w : Keeps I (packed_FOG w).
Proof. intros s H. unfold packed_FOG. keep. Qed.
#[export] Instance kept_packed_nop w : Keeps I (packed_nop w).
Proof. intros s H. unfold packed_nop. keep. Qed.

#[export] Instance kept_emit_primitive a v : Keeps I (emit_primitive a v).
Proof. intros s H. unfold emit_primitive. keep. Qed.
#[export] Instance kept_drawing_kick_append l f q n : Keeps I (drawing_kick_append l f q n).
Proof. intros s H. unfold drawing_kick_append. keep. Qed.
#[export] Instance kept_draw_is_degenerate : KeepsSnd I draw_is_degenerate.
Proof. intros s H. unfold draw_is_degenerate. keep. Qed.
#[export] Instance kept_maintain_queue l f q n : Keeps I (drawing_kick_maintain_queue l f q n).
Proof. intros s H. unfold drawing_kick_maintain_queue. keep. Qed.
#[export] Instance kept_drawing_kick_primitive l f q n adc :
  Keeps I (drawing_kick_primitive l f q n adc).
Proof. intros s H. unfold drawing_kick_primitive. keep. Qed.
#[export] Instance kept_drawing_kick_invalid adc : Keeps I (drawing_kick_invalid adc).
Proof. intros s H. unfold drawing_kick_invalid. keep. Qed.
#[export] Instance kept_run_draw_handler h adc : Keeps I (run_draw_handler h adc).
Proof. intros s H. unfold run_draw_handler. keep. Qed.
#[export] Instance kept_drawing_kick adc : Keeps I (drawing_kick adc).
Proof. intros s H. unfold drawing_kick. keep. Qed.
#[export] Instance kept_drawing_kick_for PRIM adc : Keeps I (drawing_kick_for PRIM adc).
Proof. intros s H. unfold drawing_kick_for. keep. Qed.
#[export] Instance kept_reset_vertex_queue : Keeps I reset_vertex_queue.
Proof. intros s H. unfold reset_vertex_queue. keep. Qed.
#[export] Instance kept_update_draw_handler : Keeps I update_draw_handler.
Proof. intros s H. unfold update_draw_handler. keep. Qed.
#[export] Instance kept_write_prim_mode v : Keeps I (write_prim_mode v).
Proof. intros s H. unfold write_prim_mode. keep. Qed.
#[export] Instance kept_PRIM p : Keeps I (a_d_PRIM p).
Proof. intros s H. unfold a_d_PRIM. keep. Qed.
#[export] Instance kept_PRMODE p : Keeps I (a_d_PRMODE p).
Proof. intros s H. unfold a_d_PRMODE. keep. Qed.
#[export] Instance kept_shift_vertex_queue : Keeps I shift_vertex_queue.
Proof. intros s H. unfold shift_vertex_queue. keep. Qed.
#[export] Instance kept_push_vertex p a : Keeps I (push_vertex p a).
Proof. intros s H. unfold push_vertex. keep. Qed.
#[export] Instance kept_vertex_kick_xyz p : Keeps I (vertex_kick_xyz p).
Proof. intros s H. unfold vertex_kick_xyz. keep. Qed.
#[export] Instance kept_vertex_kick_xyzf p : Keeps I (vertex_kick_xyzf p).
Proof. intros s H. unfold vertex_kick_xyzf. keep. Qed.
#[export] Instance kept_XYZ2 p : Keeps I (a_d_XYZ2 p).
Proof. intros s H. unfold a_d_XYZ2. keep. Qed.
#[export] Instance kept_XYZF2 p : Keeps I (a_d_XYZF2 p).
Proof. intros s H. unfold a_d_XYZF2. keep. Qed.
#[export] Instance kept_XYZ3 p : Keeps I (a_d_XYZ3 p).
Proof. intros s H. unfold a_d_XYZ3. keep. Qed.
#[export] Instance kept_XYZF3 p : Keeps I (a_d_XYZF3 p).
Proof. intros s H. unfold a_d_XYZF3. keep. Qed.
#[export] Instance kept_packed_XYZ adc w : Keeps I (packed_XYZ adc w).
Proof. intros s H. unfold packed_XYZ. keep. Qed.
#[export] Instance kept_packed_XYZF adc w : Keeps I (packed_XYZF adc w).
Proof. intros s H. unfold packed_XYZF. keep. Qed.
#[export] Instance kept_packed_XYZ_for adc fog PRIM w : Keeps I (packed_XYZ_for adc fog PRIM w).
Proof. intros s H. unfold packed_XYZ_for. keep. Qed.
#[export] Instance kept_flush_submission : Keeps I flush_submission.
Proof. intros s H. unfold flush_submission. keep. Qed.
#[export] Instance kept_set_super_sampling_rate r : Keeps I (set_super_sampling_rate r).
Proof. intros s H. unfold set_super_sampling_rate. destruct r; keep. Qed.

Ltac by_table :=
  repeat match goal with |- context [if ?c then _ else _] => destruct c end;
  cbv beta delta [a_d_TEX0_1 a_d_TEX0_2 a_d_CLAMP_1 a_d_CLAMP_2 a_d_TEX1_1 a_d_TEX1_2
             a_d_TEX2_1 a_d_TEX2_2 a_d_XYOFFSET_1 a_d_XYOFFSET_2 a_d_MIPTBP1_1
             a_d_MIPTBP1_2 a_d_MIPTBP2_1 a_d_MIPTBP2_2 a_d_SCISSOR_1 a_d_SCISSOR_2
             a_d_ALPHA_1 a_d_ALPHA_2 a_d_TEST_1 a_d_TEST_2 a_d_FBA_1 a_d_FBA_2
             a_d_FRAME_1 a_d_FRAME_2 a_d_ZBUF_1 a_d_ZBUF_2 packed_a_d_forward];
  keep.

#[export] Instance kept_ad_handlers addr payload : Keeps I (ad_handlers addr payload).
Proof. intros s H. unfold ad_handlers. by_table. Qed.
#[export] Instance kept_write_register addr payload : Keeps I (write_register addr payload).
Proof. intros s H. unfold write_register. keep. Qed.
#[export] Instance kept_reglist_handlers addr word : Keeps I (reglist_handlers addr word).
Proof. intros s H. unfold reglist_handlers. by_table. Qed.
#[export] Instance kept_packed_handlers addr q : Keeps I (packed_handlers addr q).
Proof. intros s H. unfold packed_handlers. by_table. Qed.

Lemma kept_everywhere : kept_by_transfer_steps I.
Proof. split; intros; apply keeps; assumption. Qed.

End KeptEverywhere.

(** ** The calls into the page tracker *)

Lemma invalidations_follow_weaken (calls : list TrackerCall) :
  invalidations_follow_transfer_writes false calls = true ->
  invalidations_follow_transfer_writes true calls = true.
Proof. destruct calls as [| [] rest]; cbn; trivial. discriminate. Qed.

Lemma invalidations_follow_app (after_write : bool) (a b : list TrackerCall) :
  invalidations_follow_transfer_writes after_write a = true ->
  invalidations_follow_transfer_writes false b = true ->
  invalidations_follow_transfer_writes after_write (a ++ b) = true.
Proof.
  revert after_write. induction a as [| c a IH]; intros after_write Ha Hb.
  - cbn. destruct after_write; [apply invalidations_follow_weaken |]; exact Hb.
  - destruct c; cbn in *; try (apply IH; assumption).
    apply andb_true_iff in Ha as [-> Ha]. cbn. apply IH; assumption.
Qed.

Lemma invalidated_by_transfer_flushes_only_refl (s : GSState) :
  invalidated_by_transfer_flushes_only s s.
Proof. exists []. split; [symmetry; apply app_nil_r | reflexivity]. Qed.

Section TrackerCalls.
Context {E : Externals}.

Section Callbacks.
Variable calls : list TrackerCall.

#[local] Ltac atomic := intros s H; exact H.

#[export] Instance tracker_is_upd_registers f : Keeps (tracker_is calls) (upd_registers f).
Proof. atomic. Qed.
#[export] Instance tracker_is_upd_state_tracker f :
  Keeps (tracker_is calls) (upd_state_tracker f).
Proof. atomic. Qed.
#[export] Instance tracker_is_upd_render_pass f : Keeps (tracker_is calls) (upd_render_pass f).
Proof. atomic. Qed.
#[export] Instance tracker_is_set_render_pass v : Keeps (tracker_is calls) (set_render_pass v).
Proof. atomic. Qed.
#[export] Instance tracker_is_upd_vertex_queue f : Keeps (tracker_is calls) (upd_vertex_queue f).
Proof. atomic. Qed.
#[export] Instance tracker_is_upd_transfer_state f :
  Keeps (tracker_is calls) (upd_transfer_state f).
Proof. atomic. Qed.
#[export] Instance tracker_is_set_draw_handler v : Keeps (tracker_is calls) (set_draw_handler v).
Proof. atomic. Qed.
#[export] Instance tracker_is_log_renderer c : Keeps (tracker_is calls) (log_renderer c).
Proof. atomic. Qed.
#[export] Instance tracker_is_set_page_buffer v : Keeps (tracker_is calls) (set_page_buffer v).
Proof. atomic. Qed.
#[export] Instance tracker_is_set_sync_host v :
  Keeps (tracker_is calls) (set_sync_host_vram_pages v).
Proof. atomic. Qed.
#[export] Instance tracker_is_set_sync_vram v :
  Keeps (tracker_is calls) (set_sync_vram_host_pages v).
Proof. atomic. Qed.

End Callbacks.

(** The callbacks of the tracker make no call into the tracker. *)
Lemma tracker_run_callbacks (cbs : list Callback) (s : GSState) :
  tracker (run_callbacks cbs s) = tracker s.
Proof. apply (keeps (I := tracker_is (tracker s)) (f := run_callbacks cbs) s). reflexivity. Qed.

Lemma tracker_call_tracker (c : TrackerCall) (s : GSState) :
  tracker (call_tracker c s) = tracker s ++ [c].
Proof. unfold call_tracker. rewrite tracker_run_callbacks. reflexivity. Qed.

Lemma tracker_mark_texture_state_dirty (s : GSState) :
  tracker (mark_texture_state_dirty s) = tracker s.
Proof.
  apply (keeps (I := tracker_is (tracker s)) (f := mark_texture_state_dirty) s). reflexivity.
Qed.

(** The two calls of [flush_pending_transfer]. *)
Lemma tracker_flush_pending_transfer (keep_alive : bool) (s : GSState) :
  exists instance,
    tracker (flush_pending_transfer keep_alive s) =
    tracker s ++
    (if transfer_has_unflushed s
     then [T_mark_transfer_write (transfer_dst_rect (copy (transfer_state s)));
           T_invalidate_texture_cache instance]
     else []).
Proof.
  unfold flush_pending_transfer.
  destruct (transfer_has_unflushed s).
  - eexists.
    assert (Hlog : forall s', tracker (if keep_alive then s'
                   else upd_transfer_state
                          (fun ts => set_host_to_local_active false
                             (set_last_flushed_qwords 0 (set_host_to_local_payload [] ts))) s') =
                   tracker s') by (intros; destruct keep_alive; reflexivity).
    rewrite Hlog. cbv zeta.
    change (tracker (upd_transfer_state ?f ?x)) with (tracker x).
    change (tracker (log_renderer ?c ?x)) with (tracker x).
    change (tracker (upd_transfer_state ?f ?x)) with (tracker x).
    unfold when. destruct (tracker_invalidated _ _);
      rewrite ?tracker_mark_texture_state_dirty, !tracker_call_tracker, <- app_assoc;
      reflexivity.
  - exists 0. destruct keep_alive; cbn; rewrite app_nil_r; reflexivity.
Qed.

Section Log.
Variable s0 : GSState.

#[local] Ltac atomic := intros s H; exact H.

#[export] Instance log_upd_registers f :
  Keeps (invalidated_by_transfer_flushes_only s0) (upd_registers f).
Proof. atomic. Qed.
#[export] Instance log_upd_state_tracker f :
  Keeps (invalidated_by_transfer_flushes_only s0) (upd_state_tracker f).
Proof. atomic. Qed.
#[export] Instance log_upd_render_pass f :
  Keeps (invalidated_by_transfer_flushes_only s0) (upd_render_pass f).
Proof. atomic. Qed.
#[export] Instance log_set_render_pass v :
  Keeps (invalidated_by_transfer_flushes_only s0) (set_render_pass v).
Proof. atomic. Qed.
#[export] Instance log_upd_vertex_queue f :
  Keeps (invalidated_by_transfer_flushes_only s0) (upd_vertex_queue f).
Proof. atomic. Qed.
#[export] Instance log_upd_transfer_state f :
  Keeps (invalidated_by_transfer_flushes_only s0) (upd_transfer_state f).
Proof. atomic. Qed.
#[export] Instance log_set_draw_handler v :
  Keeps (invalidated_by_transfer_flushes_only s0) (set_draw_handler v).
Proof. atomic. Qed.
#[export] Instance log_log_renderer c :
  Keeps (invalidated_by_transfer_flushes_only s0) (log_renderer c).
Proof. atomic. Qed.
#[export] Instance log_set_sampling_rate_x v :
  Keeps (invalidated_by_transfer_flushes_only s0) (set_sampling_rate_x_log2 v).
Proof. atomic. Qed.
#[export] Instance log_set_sampling_rate_y v :
  Keeps (invalidated_by_transfer_flushes_only s0) (set_sampling_rate_y_log2 v).
Proof. atomic. Qed.

Lemma log_grows (s : GSState) (calls : list TrackerCall) (s' : GSState) :
  tracker s' = tracker s ++ calls ->
  invalidations_follow_transfer_writes false calls = true ->
  invalidated_by_transfer_flushes_only s0 s ->
  invalidated_by_transfer_flushes_only s0 s'.
Proof.
  intros Hlog Hcalls [added [Hadded Hok]].
  exists (added ++ calls). split.
  - rewrite Hlog, Hadded, app_assoc. reflexivity.
  - apply invalidations_follow_app; assumption.
Qed.

#[local] Ltac one_call := intros s H; apply (log_grows s _ _ (tracker_call_tracker _ s)); trivial.

#[export] Instance log_mark_fb_write r :
  Keeps (invalidated_by_transfer_flushes_only s0) (call_tracker (T_mark_fb_write r)).
Proof. one_call. Qed.
#[export] Instance log_mark_fb_read r :
  Keeps (invalidated_by_transfer_flushes_only s0) (call_tracker (T_mark_fb_read r)).
Proof. one_call. Qed.
#[export] Instance log_mark_transfer_copy d r :
  Keeps (invalidated_by_transfer_flushes_only s0) (call_tracker (T_mark_transfer_copy d r)).
Proof. one_call. Qed.
#[export] Instance log_mark_texture_read r :
  Keeps (invalidated_by_transfer_flushes_only s0) (call_tracker (T_mark_texture_read r)).
Proof. one_call. Qed.
#[export] Instance log_clut_clobber r :
  Keeps (invalidated_by_transfer_flushes_only s0)
        (call_tracker (T_register_cached_clut_clobber r)).
Proof. one_call. Qed.
#[export] Instance log_register_texture l n c i h m :
  Keeps (invalidated_by_transfer_flushes_only s0)
        (call_tracker (T_register_cached_texture l n c i h m)).
Proof. one_call. Qed.
#[export] Instance log_flush_request r :
  Keeps (invalidated_by_transfer_flushes_only s0) (call_tracker (T_flush_render_pass r)).
Proof. one_call. Qed.
#[export] Instance log_mark_submission :
  Keeps (invalidated_by_transfer_flushes_only s0) (call_tracker T_mark_submission_timeline).
Proof. one_call. Qed.
#[export] Instance log_flush_pending_transfer k :
  Keeps (invalidated_by_transfer_flushes_only s0) (flush_pending_transfer k).
Proof.
  intros s H. destruct (tracker_flush_pending_transfer k s) as [instance Hlog].
  apply (log_grows s _ _ Hlog); [| exact H].
  destruct (transfer_has_unflushed s); reflexivity.
Qed.

End Log.

(** Whatever is written to whatever register, and whatever a GIF
    transfer or the explicit flush does, the tracker is asked to
    invalidate cached textures only in the course of a transfer flush. *)
Lemma write_register_invalidations (addr payload : Z) (g : GSState) :
  invalidated_by_transfer_flushes_only g (write_register addr payload g).
Proof. apply keeps, invalidated_by_transfer_flushes_only_refl. Qed.

Lemma flush_submission_invalidations (g : GSState) :
  invalidated_by_transfer_flushes_only g (flush_submission g).
Proof. apply keeps, invalidated_by_transfer_flushes_only_refl. Qed.

Lemma gif_transfer_invalidations (fuel : nat) (p : Z) (data : list QWord)
    (s s' : GSInterface) :
  gif_transfer fuel p data s = Returned s' ->
  invalidated_by_transfer_flushes_only (gs s) (gs s').
Proof.
  apply (gif_transfer_kept (invalidated_by_transfer_flushes_only (gs s))).
  - apply kept_everywhere; typeclasses eauto.
  - apply invalidated_by_transfer_flushes_only_refl.
Qed.

End TrackerCalls.

(** ** Palette memoization across the callbacks of the tracker *)

Lemma memoization_kept_refl (s : GSState) : memoization_kept s s.
Proof.
  repeat split; try (exists []; rewrite app_nil_r; repeat split).
Qed.

Section Memoization.
Context {E : Externals}.
Variable s0 : GSState.

#[local] Ltac atomic := intros s H; exact H.

#[export] Instance memo_upd_state_tracker f : Keeps (memoization_kept s0) (upd_state_tracker f).
Proof. atomic. Qed.
#[export] Instance memo_upd_transfer_state f : Keeps (memoization_kept s0) (upd_transfer_state f).
Proof. atomic. Qed.
#[export] Instance memo_set_page_buffer v : Keeps (memoization_kept s0) (set_page_buffer v).
Proof. atomic. Qed.
#[export] Instance memo_set_sync_host v : Keeps (memoization_kept s0) (set_sync_host_vram_pages v).
Proof. atomic. Qed.
#[export] Instance memo_set_sync_vram v : Keeps (memoization_kept s0) (set_sync_vram_host_pages v).
Proof. atomic. Qed.

Lemma memo_upd_render_pass f s :
  (forall rp, memoized_palettes (f rp) = memoized_palettes rp) ->
  (forall rp, clut_instance (f rp) = clut_instance rp) ->
  memoization_kept s0 s -> memoization_kept s0 (upd_render_pass f s).
Proof.
  intros Hf Hc (Hring & Hinst & Hrest). split; [| split; [| exact Hrest]].
  - cbn. rewrite Hf. exact Hring.
  - cbn. rewrite Hc. exact Hinst.
Qed.

Lemma memo_log_renderer c s :
  count_palette_uploads [c] = 0 ->
  memoization_kept s0 s -> memoization_kept s0 (log_renderer c s).
Proof.
  intros Hc (Hring & Hinst & Hregs & (added & Hadded & Hcount) & Hcalls).
  split; [exact Hring | split; [exact Hinst | split; [exact Hregs | split; [| exact Hcalls]]]].
  exists (added ++ [c]). split.
  - cbn. rewrite Hadded, app_assoc. reflexivity.
  - rewrite count_palette_uploads_app. lia.
Qed.

Ltac keep_atomic ::=
  lazymatch goal with
  | |- memoization_kept _ (upd_render_pass ?f ?s) =>
      apply memo_upd_render_pass; [intros; reflexivity | intros; reflexivity | keep]
  | |- memoization_kept _ (log_renderer ?c ?s) =>
      apply memo_log_renderer; [reflexivity | keep]
  end.

#[export] Instance memo_or_dirty d : Keeps (memoization_kept s0) (or_dirty d).
Proof. intros s H. unfold or_dirty. keep. Qed.
#[export] Instance memo_flush_render_pass r : Keeps (memoization_kept s0) (flush_render_pass r).
Proof. intros s H. unfold flush_render_pass. keep. Qed.
#[export] Instance memo_flush_host_vram_sync : Keeps (memoization_kept s0) flush_host_vram_sync.
Proof. intros s H. unfold flush_host_vram_sync. keep. Qed.
#[export] Instance memo_flush_copy f : Keeps (memoization_kept s0) (flush_copy f).
Proof. intros s H. unfold flush_copy. keep. Qed.
#[export] Instance memo_flush_write_back : Keeps (memoization_kept s0) flush_write_back.
Proof. intros s H. unfold flush_write_back. keep. Qed.
#[export] Instance memo_sync_host_vram_page p : Keeps (memoization_kept s0) (sync_host_vram_page p).
Proof. intros s H. unfold sync_host_vram_page. keep. Qed.
#[export] Instance memo_sync_vram_host_page p : Keeps (memoization_kept s0) (sync_vram_host_page p).
Proof. intros s H. unfold sync_vram_host_page. keep. Qed.
#[export] Instance memo_mark_texture_state_dirty :
  Keeps (memoization_kept s0) mark_texture_state_dirty.
Proof. intros s H. unfold mark_texture_state_dirty. keep. Qed.
#[export] Instance memo_invalidate_texture_hash h c :
  Keeps (memoization_kept s0) (invalidate_texture_hash h c).
Proof. intros s H. unfold invalidate_texture_hash. keep. Qed.

(** A flush that leaves out the texture cache, and every callback but
    the reset of the memoization, keeps the memoized palettes. *)
Lemma memo_flush (flags : Z) (reason : FlushReason) (s : GSState) :
  nonzero (Z.land flags PAGE_TRACKER_FLUSH_CACHE_BIT) = false ->
  memoization_kept s0 s -> memoization_kept s0 (flush flags reason s).
Proof. intros Hflags H. unfold flush. rewrite Hflags. keep. Qed.

Lemma memo_run_callback (cb : Callback) (s : GSState) :
  keeps_memoization cb = true ->
  memoization_kept s0 s -> memoization_kept s0 (run_callback cb s).
Proof.
  intros Hcb H. destruct cb; cbn [run_callback keeps_memoization] in *; try discriminate.
  - apply memo_flush; [| exact H]. apply negb_true_iff. exact Hcb.
  - keep.
  - keep.
  - keep.
Qed.

Lemma memo_run_callbacks (cbs : list Callback) (s : GSState) :
  forallb keeps_memoization cbs = true ->
  memoization_kept s0 s -> memoization_kept s0 (run_callbacks cbs s).
Proof.
  unfold run_callbacks. revert s. induction cbs as [| cb cbs IH]; intros s Hcbs H; [exact H |].
  cbn [forallb] in Hcbs. apply andb_true_iff in Hcbs as [Hcb Hcbs].
  cbn [fold_left]. apply IH; [exact Hcbs |]. apply memo_run_callback; assumption.
Qed.

Hypothesis Hquiet : no_memoization_reset s0.

Lemma memo_call_tracker (c : TrackerCall) (s : GSState) :
  palette_upload_call c = true ->
  memoization_kept s0 s -> memoization_kept s0 (call_tracker c s).
Proof.
  intros Hc H. unfold call_tracker.
  pose proof H as (_ & _ & _ & _ & (calls & Hcalls)).
  apply memo_run_callbacks.
  - rewrite Hcalls. apply Hquiet, Hc.
  - destruct H as (Hring & Hinst & Hregs & Hadded & _).
    repeat split; try assumption.
    exists (calls ++ [c]). cbn. rewrite Hcalls, app_assoc. reflexivity.
Qed.

Lemma memo_flush_pending_transfer (keep_alive : bool) (s : GSState) :
  memoization_kept s0 s -> memoization_kept s0 (flush_pending_transfer keep_alive s).
Proof.
  intros H. unfold flush_pending_transfer.
  assert (Hcalls : forall c s', palette_upload_call c = true ->
                     memoization_kept s0 s' -> memoization_kept s0 (call_tracker c s'))
    by exact memo_call_tracker.
  destruct (transfer_has_unflushed s).
  - cbv zeta.
    match goal with
    | |- memoization_kept _ (if _ then ?a else upd_transfer_state ?f ?a) =>
        assert (Ha : memoization_kept s0 a); [| destruct keep_alive; exact Ha]
    end.
    change (memoization_kept s0 (upd_transfer_state ?f ?x)) with (memoization_kept s0 x).
    apply memo_log_renderer; [reflexivity |].
    change (memoization_kept s0 (upd_transfer_state ?f ?x)) with (memoization_kept s0 x).
    unfold when. destruct (tracker_invalidated _ _).
    + apply memo_mark_texture_state_dirty.
      apply Hcalls; [reflexivity |]. apply Hcalls; [reflexivity | exact H].
    + apply Hcalls; [reflexivity |]. apply Hcalls; [reflexivity | exact H].
  - destruct keep_alive; exact H.
Qed.

End Memoization.

(** ** Claims on the states the interface passes through *)

Section ReachableStates.
Context {E : Externals}.

(** C7, as amended: in every state the interface passes through, a draw
    kick (a vertex kick that closes a primitive, ADC clear) fails as
    degenerate exactly when the scissor is empty, or the depth test is
    enabled with ZTST = NEVER, or the alpha test is enabled with ATST =
    NEVER and fail mode KEEP, or every colour bit is masked while Z is
    masked or ZTE is 0.  It then appends no primitive and calls neither
    collaborator; in every other case the primitive goes through
    [drawing_kick_append]. *)
Theorem degenerate_draw_fails_exactly (list_primitive fan_primitive quad : bool)
    (num_vertices : Z) (g : GSState) :
  reachable g ->
  num_vertices <= vq_count (vertex_queue g) ->
  let verdict := draw_is_degenerate g in
  let g' := drawing_kick_primitive list_primitive fan_primitive quad num_vertices false g in
  (fst verdict = true <-> spec_degenerate (current_ctx g)) /\
  (spec_degenerate (current_ctx g) ->
   g' = drawing_kick_maintain_queue list_primitive fan_primitive quad num_vertices (snd verdict) /\
   render_pass g' = render_pass g /\ renderer g' = renderer g /\ tracker g' = tracker g) /\
  (~ spec_degenerate (current_ctx g) ->
   g' = drawing_kick_maintain_queue list_primitive fan_primitive quad num_vertices
          (drawing_kick_append list_primitive fan_primitive quad num_vertices (snd verdict))).
Proof.
  intros Hreach Hcount.
  apply drawing_kick_primitive_by_verdict; [| exact Hcount].
  apply reachable_invariants, Hreach.
Qed.

(** C10: a write of TEXFLUSH leaves the interface as it is, whether it
    comes through [write_register], as an A+D quad-word of a PACKED
    packet (only the cursor of the path moves), or through the whole-loop
    A+D handler: no register, no render-pass or tracker state changes,
    and neither the page tracker nor the renderer is called.  The
    tracker is asked to invalidate cached textures by
    [flush_pending_transfer] alone: a transfer flush with data not yet
    flushed calls [mark_transfer_write] and then
    [invalidate_texture_cache], and nothing else of it calls the tracker;
    and in the calls that any register write, any GIF transfer that
    returns, or the explicit flush makes into the tracker, every
    [invalidate_texture_cache] comes right after such a
    [mark_transfer_write]. *)
Theorem texflush_changes_nothing (payload : Z) (g : GSState)
    (path_index nreg : Z) (q : QWord) (rest : list QWord) (s : GSInterface)
    (n : nat) (words : list QWord) :
  PackedADBits.ADDR q = RegisterAddr.TEXFLUSH ->
  next_gif_addr path_index s = GIFAddr.A_D ->
  (n <= length words)%nat ->
  Forall (fun w => PackedADBits.ADDR w = RegisterAddr.TEXFLUSH) words ->
  (write_register RegisterAddr.TEXFLUSH payload g = g /\
   a_d_TEXFLUSH payload g = g /\
   gs (it_state (gif_packed_branch path_index q rest nreg s)) = gs s /\
   packed_ADONLY n words g = Some g) /\
  (forall keep_alive g0,
     exists instance,
       tracker (flush_pending_transfer keep_alive g0) =
       tracker g0 ++
       (if transfer_has_unflushed g0
        then [T_mark_transfer_write (transfer_dst_rect (copy (transfer_state g0)));
              T_invalidate_texture_cache instance]
        else [])) /\
  (forall addr value g0,
     invalidated_by_transfer_flushes_only g0 (write_register addr value g0)) /\
  (forall fuel path data s0 s1,
     gif_transfer fuel path data s0 = Returned s1 ->
     invalidated_by_transfer_flushes_only (gs s0) (gs s1)) /\
  (forall g0, invalidated_by_transfer_flushes_only g0 (flush_submission g0)).
Proof.
  intros Haddr Hnext Hlen Hall.
  split; [apply texflush_write_is_identity; assumption |].
  split; [intros; apply tracker_flush_pending_transfer |].
  split; [intros; apply write_register_invalidations |].
  split; [intros *; apply gif_transfer_invalidations |].
  intros; apply flush_submission_invalidations.
Qed.


End ReachableStates.

(** * The claims at concrete inputs *)

(** C1: the whole-loop handler of a recognised PACKED tag does not
    always do what the generic dispatcher does.  On a tag of two loops
    of one A+D register followed by a single quad-word the handler is run
    for two loops and reads a quad-word outside the buffer, while the
    generic dispatcher returns with the path one loop in and the state
    untouched; on a ST-RGBAQ-XYZ2 tag followed by one quad-word the loop
    of [gif_transfer] never ends, while the generic dispatcher returns;
    and with the primitive type 7 the handler leaves the kicked vertex
    in the queue that the generic dispatcher empties. *)
Theorem whole_loop_handler_departs_from_generic (E : Externals) :
  (forall fuel,
     gif_transfer (S (S fuel)) 0 [ad_tag_two_loops; texflush_qword] constructed_interface
     = ReadsOutsideBuffer) /\
  (forall fuel, exists s',
     gif_transfer_generic (S (S fuel)) 0 [ad_tag_two_loops; texflush_qword]
       constructed_interface = Returned s' /\
     loop (get_path 0 s') = 1 /\ gs s' = gs constructed_interface) /\
  (forall fuel,
     gif_transfer fuel 0 [stq_tag_one_loop; zero_qword] constructed_interface = OutOfFuel) /\
  (exists s',
     gif_transfer_generic 2 0 [stq_tag_one_loop; zero_qword] constructed_interface
     = Returned s') /\
  queued_vertices
    (gif_transfer (E := sample_externals) 4 0
       [stq_tag_one_loop; zero_qword; zero_qword; zero_qword]
       (invalid_prim_interface (E := sample_externals)))
  = Some 1 /\
  queued_vertices
    (gif_transfer_generic (E := sample_externals) 4 0
       [stq_tag_one_loop; zero_qword; zero_qword; zero_qword]
       (invalid_prim_interface (E := sample_externals)))
  = Some 0.
Proof.
  split; [intros fuel; reflexivity |].
  split.
  { intros fuel.
    exists (it_state (gif_iteration_generic 0 texflush_qword [] 1
              (it_state (gif_iteration_generic 0 ad_tag_two_loops [texflush_qword] 1
                           constructed_interface)))).
    split; [destruct fuel; reflexivity |]. split; reflexivity. }
  split.
  { intros fuel. destruct fuel as [| fuel]; [reflexivity |].
    change (gif_transfer (S fuel) 0 [stq_tag_one_loop; zero_qword] constructed_interface)
      with (gif_transfer_loop fuel 0 2 [zero_qword] 3
              (it_state (gif_tag_branch 0 stq_tag_one_loop [zero_qword]
                           constructed_interface))).
    induction fuel as [| fuel IH]; [reflexivity |]. exact IH. }
  split; [eexists; reflexivity |].
  split; vm_compute; reflexivity.
Qed.

#[local] Existing Instance sample_externals.





(** C7, as stated, fails in three ways.  With the scissor at its reset
    value, one pixel wide, none of the four conditions holds and the
    draw passes the degenerate check, yet the sprite is clipped away and
    no primitive is appended.  With the depth test enabled and NEVER the
    draw fails although ZBUF lets Z be written; and with every colour
    bit masked and ZTE 0 it fails although ZBUF lets Z be written: in
    both none of the four conditions holds as the spec words them. *)
Lemma degenerate_check_departs_from_spec :
  (~ spec_degenerate (current_ctx (sprite_at_kick [])) /\
   ~ spec_degenerate_as_stated (current_ctx (sprite_at_kick [])) /\
   fst (draw_is_degenerate (sprite_at_kick [])) = false /\
   vq_count (vertex_queue (sprite_at_kick [])) = 2 /\
   prims (render_pass (drawing_kick_primitive true false true 2 false (sprite_at_kick []))) = [] /\
   primitive_count
     (render_pass (drawing_kick_primitive true false true 2 false (sprite_at_kick []))) = 0) /\
  (~ spec_degenerate_as_stated (current_ctx (sprite_at_kick depth_never_z_unmasked)) /\
   ZBUFBits.ZMSK (zbuf (current_ctx (sprite_at_kick depth_never_z_unmasked))) = 0 /\
   fst (draw_is_degenerate (sprite_at_kick depth_never_z_unmasked)) = true /\
   primitive_count (render_pass (sprite_drawn depth_never_z_unmasked)) = 0) /\
  (~ spec_degenerate_as_stated (current_ctx (sprite_at_kick color_masked_z_unmasked)) /\
   ZBUFBits.ZMSK (zbuf (current_ctx (sprite_at_kick color_masked_z_unmasked))) = 0 /\
   fst (draw_is_degenerate (sprite_at_kick color_masked_z_unmasked)) = true /\
   primitive_count (render_pass (sprite_drawn color_masked_z_unmasked)) = 0).
Proof.
  assert (Hneq : forall a b : Z, (a =? b) = false -> a = b -> False).
  { intros a b Hab Heq. apply Z.eqb_neq in Hab. contradiction. }
  split; [| split].
  - split; [| split].
    + intros [H | [H | [H | H]]].
      * destruct H as [H | H]; vm_compute in H; discriminate.
      * destruct H as [H _]. vm_compute in H. discriminate.
      * destruct H as [H _]. vm_compute in H. discriminate.
      * destruct H as [H _]. vm_compute in H. discriminate.
    + intros [H | [H | [H | H]]].
      * destruct H as [H | H]; vm_compute in H; discriminate.
      * destruct H as [H _]. vm_compute in H. discriminate.
      * destruct H as [H _]. vm_compute in H. discriminate.
      * destruct H as [_ H]. vm_compute in H. discriminate.
    + repeat split; vm_compute; reflexivity.
  - split.
    + intros [H | [H | [H | H]]].
      * destruct H as [H | H]; vm_compute in H; discriminate.
      * destruct H as (_ & _ & H). vm_compute in H. discriminate.
      * destruct H as [H _]. vm_compute in H. discriminate.
      * destruct H as [H _]. vm_compute in H. discriminate.
    + repeat split; vm_compute; reflexivity.
  - split.
    + intros [H | [H | [H | H]]].
      * destruct H as [H | H]; vm_compute in H; discriminate.
      * destruct H as [H _]. vm_compute in H. discriminate.
      * destruct H as [H _]. vm_compute in H. discriminate.
      * destruct H as [H _]. vm_compute in H. discriminate.
    + repeat split; vm_compute; reflexivity.
Qed.

Lemma degenerate_draw_fails_exactly_witness :
  Z.land (dirty_flags (state_tracker (second_sprite_at_kick full_scissor)))
         STATE_DIRTY_DEGENERATE_BIT = 0 /\
  (fst (draw_is_degenerate (second_sprite_at_kick full_scissor)) = true <->
   spec_degenerate (current_ctx (second_sprite_at_kick full_scissor))) /\
  (spec_degenerate (current_ctx (second_sprite_at_kick full_scissor)) ->
   drawing_kick_primitive true false true 2 false (second_sprite_at_kick full_scissor) =
   drawing_kick_maintain_queue true false true 2
     (snd (draw_is_degenerate (second_sprite_at_kick full_scissor))) /\
   render_pass (drawing_kick_primitive true false true 2 false
                  (second_sprite_at_kick full_scissor)) =
   render_pass (second_sprite_at_kick full_scissor) /\
   renderer (drawing_kick_primitive true false true 2 false
               (second_sprite_at_kick full_scissor)) =
   renderer (second_sprite_at_kick full_scissor) /\
   tracker (drawing_kick_primitive true false true 2 false
              (second_sprite_at_kick full_scissor)) =
   tracker (second_sprite_at_kick full_scissor)) /\
  (~ spec_degenerate (current_ctx (second_sprite_at_kick full_scissor)) ->
   drawing_kick_primitive true false true 2 false (second_sprite_at_kick full_scissor) =
   drawing_kick_maintain_queue true false true 2
     (drawing_kick_append true false true 2
        (snd (draw_is_degenerate (second_sprite_at_kick full_scissor))))).
Proof.
  split; [vm_compute; reflexivity |].
  apply (degenerate_draw_fails_exactly (E := sample_externals) true false true 2
           (second_sprite_at_kick full_scissor)).
  - apply reach_vertex_kick_xyz, reach_write_register, reach_write_register,
      write_registers_reachable, reach_constructed.
  - vm_compute. discriminate.
Defined.



Lemma prim_write_gated_by_prmodecont_witness :
  PRMODECONTBits.AC
    (prmodecont (registers (write_register RegisterAddr.PRMODECONT 0 constructed_state))) = 0 /\
  PRIMBits.PRIM
    (prim (registers (write_register RegisterAddr.PRIM 531
                        (write_register RegisterAddr.PRMODECONT 0 constructed_state)))) = 3 /\
  PRIMBits.CTXT
    (prim (registers (write_register RegisterAddr.PRIM 531
                        (write_register RegisterAddr.PRMODECONT 0 constructed_state)))) = 0.
Proof.
  assert (Hac : PRMODECONTBits.AC
    (prmodecont (registers (write_register RegisterAddr.PRMODECONT 0 constructed_state))) = 0)
    by (vm_compute; reflexivity).
  split; [exact Hac |].
  destruct (prim_write_gated_by_prmodecont (E := sample_externals) 531
              (write_register RegisterAddr.PRMODECONT 0 constructed_state) Hac)
    as [Hprim [Hctxt _]].
  split; [exact Hprim | exact Hctxt].
Defined.

Lemma texflush_changes_nothing_witness :
  (write_register RegisterAddr.TEXFLUSH 0 constructed_state = constructed_state /\
   a_d_TEXFLUSH 0 constructed_state = constructed_state /\
   gs (it_state (gif_packed_branch 0 texflush_qword [] 1
                   (it_state (gif_tag_branch 0 ad_tag_two_loops [] constructed_interface)))) =
   gs (it_state (gif_tag_branch 0 ad_tag_two_loops [] constructed_interface)) /\
   packed_ADONLY 1 [texflush_qword] constructed_state = Some constructed_state) /\
  (forall keep_alive g0,
     exists instance,
       tracker (flush_pending_transfer keep_alive g0) =
       tracker g0 ++
       (if transfer_has_unflushed g0
        then [T_mark_transfer_write (transfer_dst_rect (copy (transfer_state g0)));
              T_invalidate_texture_cache instance]
        else [])) /\
  (forall addr value g0,
     invalidated_by_transfer_flushes_only g0 (write_register addr value g0)) /\
  (forall fuel path data s0 s1,
     gif_transfer fuel path data s0 = Returned s1 ->
     invalidated_by_transfer_flushes_only (gs s0) (gs s1)) /\
  (forall g0, invalidated_by_transfer_flushes_only g0 (flush_submission g0)).
Proof.
  apply (texflush_changes_nothing (E := sample_externals) 0 constructed_state 0 1
           texflush_qword []
           (it_state (gif_tag_branch 0 ad_tag_two_loops [] constructed_interface))
           1 [texflush_qword]).
  - vm_compute. reflexivity.
  - vm_compute. reflexivity.
  - simpl. lia.
  - constructor; [vm_compute; reflexivity | constructor].
Defined.



